(* ===== verification/_CoqProject ===== *)
-Q . S2P
Prelude.v
ErrorCodes.v
ErrorText.v
Codec.v
Replies.v
Protocol.v
SerialPosix.v
Averager.v
Measure.v
Spectrum.v
Matrix.v
MatrixSolve.v
Calibration.v
FlickerStream.v
FFTRangeCal.v
Session.v
CalFiles.v
CalFileList.v
BlackCal.v
SessionApi.v
SessionProps.v
OneShot.v
FlickerCapture.v
