(* ===== verification/Prelude.v ===== *)
(** * A verification development for KClmtr, the host driver of the Klein K-10/K-8/K-1 colorimeters

    The program (src/) is a C++ library that talks to a colorimeter over a
    serial line.  It sends two-letter ASCII commands, waits for fixed-length
    binary replies, decodes the device's number formats, averages colour
    samples, and, in flicker mode, keeps a sliding window of luminance
    samples on which it runs an FFT.  One background worker thread at a
    time ([threadStuff]) polls the device in one of three modes (colour,
    counts, flicker) and publishes each result with a fresh flag.  The
    public API ([startMeasuring], [startFlicker], [getMeasurement], ...)
    runs on the controller's thread and hands the worker its work through
    two shared flags.

    ** How the parts interact

    The session ([Session], [SessionApi]) is the top: the worker issues a
    command through the protocol engine ([Protocol]), which writes to and
    polls the serial port; the reply is decoded by the codec ([Codec],
    [Replies]) and, per mode, by [Measure] (colour: decoding, box-car
    averaging of [Averager], noise check, calibration-file correction), by
    [FlickerStream] (flicker frames, ripple buffer, then the [Flicker]
    constructor of [Spectrum]) or by the [Counts] decoder of [Replies].
    [startFlicker] first loads the flicker range calibration
    ([FFTRangeCal], whose polynomial fits use [Matrix]).  [Calibration]
    is the user-calibration solver; [CalFiles] stores its matrices on the
    device, lists and loads the stored files and decodes the selected
    file into the matrix [Measure] applies to every colour reading.

    ** Files, in dependency order (see _CoqProject)

    - [Prelude]      this file: byte strings as the code indexes them
                     ([std::string] read through [unsigned char]), C++
                     [substr], truncating [(int)] casts on doubles, 32-bit
                     unsigned masks, the class [Libm] of [<cmath>]
                     functions, the hint database [kclmtr], tactics and
                     shared lemmas on lists, integers and rationals.
    - [ErrorCodes]   Module [KleinsErrorCodes]: the error bits of
                     src/Enums.h, [ingoreWarningList], [shouldStopMeasuring]
                     and [getErrorCodeFromKlein] (src/Enum.cpp).
    - [ErrorText]    [intToString] and the text rendering
                     [errorCodesToString] (src/Enum.cpp), with a decimal
                     reader the printer is proved against.
    - [Codec]        [parsingRange] (Enum.cpp), the K-float decoders
                     [parseK_float] and [unpackK_float] and the encoder
                     [convertNumberToBinaryStr] (KClmtr.cpp).
    - [Replies]      the [Counts] (src/Counts.cpp) and [BlackMatrix]
                     (src/BlackMatrix.h) replies, their constructors and
                     [fromMatrix]/[toMatrix].
    - [Protocol]     [sendMessageToSerialPort] and [readFromSerialPort]
                     (KClmtr.cpp) over a scripted POSIX [SerialPort]
                     ([readExisting], [writePort], the [sleep(50)] polls).
    - [SerialPosix]  the POSIX branches of [SerialPort::openPort],
                     [closePort], [lockFile], [unLockFile] and
                     [setSetting] (src/SerialPort.cpp): the UUCP lock
                     files over a file system of lock directories, and
                     the [termios] fields with Linux bit values.
    - [Averager]     [boxCarAvg] with its ring buffer and [++m_AvgLast].
    - [Measure]      [parseAndPrintXYZ] with its helpers: command choice,
                     noise check, calibration-file correction.
    - [Spectrum]     [FlickerSetting], [getCorrection], [four1] and the
                     whole [Flicker] constructor (src/Flicker.cpp).
    - [Matrix]       [Matrix<T>] (src/Matrix.cpp) and [polyFit], with
                     [operator==], [operator=] and the copy constructor;
                     the equivalence [mat_equiv] that [operator==]
                     decides, and [operator*] as a morphism of it.
    - [MatrixSolve]  finite sums, the fixed points of the forward and
                     backward substitutions of [LUSolve], and the
                     theorem that it solves triangular systems.
    - [Calibration]  [distruibuteWhiteToRGB], [makeCorrectedXYZ],
                     [getCoefficientTestMatrix].
    - [FlickerStream] [verify_FFTString], [parseSignal_from_FFT_str],
                     [parseN5Command], [parseAndPrintFFT], the
                     resynchronisation of [threadStuff], and the frame
                     scan and realignment of [getNextFlicker]
                     ([scan_frames], [align_frames]).
    - [FFTRangeCal]  [printStartupString], [loadFFTRangeCal],
                     [checkThreeFFT_Validity], [caluclateCoef], [checkCoef].
    - [Session]      the state [KState] (the members of [KClmtr] the
                     session touches, plus the worker's program point),
                     the constructor [KClmtr_init],
                     [stopThread2] and every function that can call it,
                     defined once over the wait loop ([Section Thread]),
                     and the worker: [threadStuff] as [worker_step].
    - [CalFiles]     the calibration files: [setCalFileList], [trim],
                     [loadedCalFile], [unpackCalMan_float], [setCalFileID],
                     [packUserMatrix], [storeMatrices], [deleteCalFile],
                     over a state-and-exception monad for the
                     [std::out_of_range] the code can throw.
    - [CalFileList]  the rendering [getCalFileList] and a reader of its
                     entries.
    - [BlackCal]     the black calibration: [checkTH1andTH2],
                     [getNextMeasureCount], [captureBlackLevel],
                     [getFlashMatrix], [getRAMMatrix],
                     [getCoefficientMatrix], in the same monad.
    - [SessionApi]   the controller: [startThread2], the start, stop and
                     get functions of the three modes, the one-shot
                     [getNextMeasurement] and [getNextFlicker],
                     [isPortOpen], [setRange],
                     [setAimingLights] and the configuration setters,
                     [connect] with [getModelSN] and
                     [setSerialNumberValues], [testConnection], and the
                     transition system [step] that interleaves API calls
                     (the calibration-file and black-calibration calls and
                     [connect] included)
                     with worker steps.
    - [SessionProps] the invariant of the session and the properties of
                     the handshake and of the modes.
    - [OneShot]      the one-shot colour measurement [getNextMeasurement]
                     (defined in [SessionApi]): its loop bound, its error
                     path and its effect on a running colour worker.
    - [FlickerCapture] the one-shot flicker capture [getNextFlicker]
                     (defined in [SessionApi]): the bounds of its
                     indexing, its parsing path and its error paths.

    ** What the theorems show

    - Session: every reachable state satisfies the invariant [Inv]
      (rule induction on the reflexive-transitive closure of [step]); the
      controller's [stopThread2] ends the worker within two worker steps;
      starting colour or counts turns the other modes off; starting
      flicker while colour runs does not, and the flicker worker then
      stops itself (a divergence from the spec's mode exclusivity); a
      counts error is published under the wrong fresh flag; a broken
      flicker frame is dropped by resynchronisation alone.
    - Calibration files: a matrix stored by [packUserMatrix] and loaded
      by [loadedCalFile] comes back within the K-float quantisation;
      [setCalFileList] parses the 96 names; a blank name makes
      [storeMatrices] report a failure after a successful store; file 96
      cannot be selected; the CalMAN decoder is IEEE-754 on the bytes it
      reads.
    - One-shot measurement: [getNextMeasurement]'s loop ends within the
      window; a failed reading leaves the window changed; the call frees
      the averaging arrays of a colour worker that keeps running.
    - One-shot flicker: a successful read holds every byte the backward
      scan and the copy loop index; the realigned string carries the
      markers and fields of the last frame found in every frame; the
      parsing path stops the stream with two or three [DUMMY] commands,
      while a failed read returns with the stream still running.
    - Types: every [Counts] decoded from a reply holds values of its C++
      field types.
    - Black calibration: the coefficient matrix is sign-magnitude except
      for [0x8000], which reads as [+8]; a refused store makes
      [captureBlackLevel] return a zero matrix without any error.
    - Error text: [intToString] prints every non-negative [int] as a
      canonical numeral that reads back as the value; a mask with bit 31
      is printed without its number; the [NOT_OPEN] message lacks its
      newline.
    - Matrices: [LUSolve] returns the solution of [(L * U) x = b] for
      triangular [L] and [U] with non-zero diagonals; [operator=] and the
      copy constructor reproduce a well-formed matrix exactly and
      [operator==] accepts the copy of any matrix; [Unity] is neutral
      for [operator*] on both sides.
    - Serial port: [openPort] locks the port in the first lock
      directory that can take a new lock file, whatever another process
      holds elsewhere, and on failure unlinks [/tmp/LCK..port] even when
      another process created it; [setSetting] sets each [termios] field
      it names (bit by bit, through a rewrite database of mask lemmas)
      and stores [VTIME] modulo 256.
    - Listing: every entry of [getCalFileList] reads back as its id and
      its stored name.
    - Connecting: [getModelSN]'s K-10 clearing branch is dead code; a
      blank model field makes [connect] fail with the port left open.
    - Protocol: the reply, time-out, unplug and not-open paths of
      [sendMessageToSerialPort] as exact results over the scripted port,
      the spurious NUL byte of [readExisting] after an unplug, and the
      bound on the polls a command consumes.
    - Decoding: range and K-float decoders (round trips with the
      encoder, the equivalence of the two decoders up to a factor 2),
      the [Counts] and [BlackMatrix] constructors field by field and
      [toMatrix] as the inverse of [fromMatrix], the
      colour reply through [parseAndPrintXYZ], the flicker frame through
      [parseSignal_from_FFT_str], the range calibration tables against a
      declarative specification.
    - Numerics: [boxCarAvg]'s sample counts and divergence stop, the peak
      tables, the bit reversal of [four1], the flicker index in [0, 1],
      the interpolation offset of [getCorrection], and the two Cramer's
      rule solvers of [Calibration] (several of these are lemmas of
      their files rather than listed properties).

    ** Modelling choices, bounds and fuel

    - A reply is a [list Z] of byte values.  [s[i]] past the end reads 0
      (what [std::string::operator[]] returns at [size()]; reading further
      is undefined behaviour in C++ and never happens on a well-formed
      reply); [substr] past the end returns the empty string where C++
      would throw [out_of_range].
    - A C++ [double] is modelled by an exact rational ([Q]).  The decoders
      compute with small integers, divisions by powers of two and
      [pow(2, e)] for [|e| <= 128], which doubles represent exactly.
      [(int)d] is [Qtrunc] (truncation toward zero).  [cos], [sin],
      [sqrt] and [log10] are the fields of the class [Libm]; witnesses use
      the instance [stub_libm].
    - [unsigned int] masks are [Z] values kept in [0, 2^32); [~m] is
      [lnot32].
    - The [termios] flags of [SerialPosix] are [Z] values with the bit
      values of Linux's [asm-generic/termbits.h]; [x &= ~m] is
      [Z.land x (Z.lnot m)], and the theorems read each field through
      [Z.land] with its mask.  [c_cc[VTIME]] is a [cc_t], so an [int]
      stored there is reduced modulo 256.  The lock directories are
      those [open(O_CREAT | O_EXCL)] can write; [lock_loop] runs over the
      five of [lock_dir_list], the bound of the C++ loop.
    - Every [for] loop is a [Fixpoint] on a [nat] counter started at the
      loop's own bound, so the fuel is the iteration count of the source
      and never cuts a run short.  [while] loops get the bound that the
      code guarantees: [br_while] halves [m] at each turn and runs at most
      [n] times; [read_loop] is the [30 * timeout] polls of
      [readFromSerialPort]; [parseAndPrintFFT] recurses [m_fft_numPass]
      times, which in [getNextFlicker] is the number of frames read;
      [scan_frames] counts [x] down from [length - 96], the C++ loop's
      own bound; [intToString]'s digit loop gets 10 turns, the digits of the
      largest [int]; the do-while of [getNextMeasurement] gets one turn
      more than the window, which [getNextMeasurement_terminates] shows
      it never needs.
    - [new double[n]] is a list of [n] zeros and [NULL] the empty list:
      [startMeasuring] and [getNextMeasurement] allocate the averaging
      arrays, [stopMeasuring] and [getNextMeasurement] free them.
    - The wait loop of [stopThread2] on the controller runs the worker for
      at most two steps ([wait_worker]): after a stop request the worker
      either is at its prologue (one step to the loop) or at the loop
      test, which exits through [endThread]; [stopThread2_joins] proves
      that two steps always reach [NOT_RUNNING].  The worker's three
      positions ([WorkerPc]) make the interleaving explicit: the
      controller and the worker alternate at the grain of one loop
      iteration.

    ** Not modelled

    - The serial transport's data path: [Protocol] replaces [readPort]
      and the device by a script of arrivals and unplugs.  The Win32
      branches of [SerialPort], [isOpen] ([tcgetattr]) and
      [setDataTerminalReady] are operating-system calls; [SerialPosix]
      takes the outcomes of [open], [close] and [tcsetattr] on the
      device as parameters, and has no file descriptors, so the second
      [close(fd)] of [unLockFile] has no counterpart.
    - [Measurement::fromXYZ] and the colour-space conversions (outside
      src/, only declared); [Measure] keeps their arguments.
    - [setPort] and [setGamutSpec] ([GamutSpec] is outside src/).  The
      session model takes opening the port as the choice [opened] of
      whether [SerialPort::openPort] succeeds, which [SerialPosix]
      models on its own; the two are not composed.
    - The sleeps and baud-rate changes (including the doubled rate of
      the fast flicker stream), and a failing thread creation.
    - The plain getters, which only read members, the destructors and
      [deleteV], which only free memory, and the C++/CLI, Qt and Cocoa
      variants of [errorCodesToString], which differ from the modelled
      [std::string] one only in the string type.
*)

From Stdlib Require Import String Ascii ZArith QArith Qround Qpower Lqa Lia List Bool Morphisms.
Import ListNotations.

Declare Scope kclmtr_scope.
Delimit Scope kclmtr_scope with kc.
Open Scope Z_scope.

Create HintDb kclmtr.
Create Rewrite HintDb kclmtr_rw.

(** ** Byte strings *)

(** [s[i]] on a [std::string] read through [const unsigned char *]. *)
Definition byte_at (s : list Z) (i : nat) : Z := nth i s 0.

Notation "s .[ i ]" := (byte_at s i) (at level 1, left associativity,
  format "s .[ i ]") : kclmtr_scope.
Open Scope kclmtr_scope.

(** [s.substr(pos, len)]. *)
Definition substr (s : list Z) (pos len : nat) : list Z :=
  firstn len (skipn pos s).

(** The byte-string comparison [==]. *)
Definition bytes_eqb (a b : list Z) : bool :=
  if list_eq_dec Z.eq_dec a b then true else false.

Definition is_byte (z : Z) : Prop := 0 <= z < 256.

Definition bytes_ok (s : list Z) : Prop := Forall is_byte s.

(** The bytes of an ASCII literal of the source, such as ["<0>"]. *)
Fixpoint bytes_of_string (s : string) : list Z :=
  match s with
  | EmptyString => []
  | String c r => Z.of_nat (nat_of_ascii c) :: bytes_of_string r
  end.

(** A one-character string literal, such as ["L"]. *)
Definition chr (c : ascii) : Z := Z.of_nat (nat_of_ascii c).

(** A [std::string] built from the bytes of a buffer. *)
Fixpoint string_of_bytes (l : list Z) : string :=
  match l with
  | [] => EmptyString
  | b :: r => String (ascii_of_nat (Z.to_nat b)) (string_of_bytes r)
  end.

(** [a[i] = x] on a C array: the element at [i] is replaced; the code
    never writes out of bounds, where the model leaves the list as is. *)
Fixpoint list_set {A : Type} (l : list A) (i : nat) (x : A) : list A :=
  match l, i with
  | [], _ => []
  | _ :: r, O => x :: r
  | y :: r, S j => y :: list_set r j x
  end.

(** ** Unsigned 32-bit masks *)

Definition u32 (z : Z) : Z := z mod 2 ^ 32.

(** [~m] on an [unsigned int]. *)
Definition lnot32 (m : Z) : Z := Z.lxor (u32 m) (2 ^ 32 - 1).

(** [(m & f) != 0]. *)
Definition has_flag (m f : Z) : bool := negb (Z.land m f =? 0).

(** ** Comparisons of doubles *)

(** [a < b] on doubles. *)
Definition Qltb (a b : Q) : bool := negb (Qle_bool b a).

(** [num / den > c] on doubles with [num >= 0] and [c >= 0]: a zero
    denominator gives [+inf] (true) for a positive numerator and [NaN]
    (false) for a zero one; otherwise the exact quotient is compared. *)
Definition div_gt (num den c : Q) : bool :=
  if Qeq_bool den 0 then Qltb 0 num else Qltb c (num / den).

(** ** Truncating casts *)

(** [(int)q] for a double [q]: truncation toward zero. *)
Definition Qtrunc (q : Q) : Z :=
  if Qle_bool 0 q then Qfloor q else - Qfloor (- q).

(** [pow(2.0, e)], and [exp(e * log(2.0))] taken as exact. *)
Definition pow2 (e : Z) : Q := Qpower 2 e.

(** The functions of [<cmath>] the driver calls on doubles.  They are not
    rational functions; the components that call them take an instance of
    this class, so their arithmetic is modelled exactly around the library
    values. *)
Class Libm := {
  cos : Q -> Q;
  sin : Q -> Q;
  sqrt : Q -> Q;
  log10 : Q -> Q
}.

(** The one law of [<cmath>] the proofs use: [sqrt] of a positive double
    is positive. *)
Class LibmLaws `{Libm} := {
  sqrt_pos : forall q, (0 < q)%Q -> (0 < sqrt q)%Q
}.

(** Rational stand-ins for [<cmath>] ([sqrt] is the identity), under which
    the models evaluate on concrete inputs. *)
Definition stub_libm : Libm :=
  {| cos := fun _ => 0%Q; sin := fun _ => 0%Q; sqrt := fun x => x; log10 := fun x => x |}.

Lemma stub_libm_laws : @LibmLaws stub_libm.
Proof. constructor. intros q Hq. exact Hq. Qed.

(** [#define PI 3.141592653589793238] (src/Flicker.cpp). *)
Definition PI : Q := 3.141592653589793238%Q.

(** ** Shared lemmas *)

Lemma byte_at_app_l (s t : list Z) (i : nat) :
  (i < length s)%nat -> (s ++ t).[i] = s.[i].
Proof. intros H. unfold byte_at. now rewrite app_nth1. Qed.

Lemma byte_at_app_r (s t : list Z) (i : nat) :
  (length s <= i)%nat -> (s ++ t).[i] = t.[i - length s].
Proof. intros H. unfold byte_at. now rewrite app_nth2. Qed.

Lemma byte_at_substr (s : list Z) (pos len i : nat) :
  (i < len)%nat -> (substr s pos len).[i] = s.[pos + i].
Proof.
  intros H. unfold byte_at, substr.
  rewrite nth_firstn, nth_skipn. now apply Nat.ltb_lt in H as ->.
Qed.

Lemma length_substr (s : list Z) (pos len : nat) :
  length (substr s pos len) = Nat.min len (length s - pos).
Proof. unfold substr. now rewrite length_firstn, length_skipn. Qed.

Lemma bytes_of_string_of_bytes (l : list Z) :
  bytes_ok l -> bytes_of_string (string_of_bytes l) = l.
Proof.
  induction 1 as [|b r Hb _ IH]; [reflexivity|]. unfold is_byte in Hb. cbn.
  rewrite IH, nat_ascii_embedding by (apply Nat2Z.inj_lt; rewrite Z2Nat.id; lia).
  f_equal. apply Z2Nat.id. lia.
Qed.

Lemma byte_at_ok (s : list Z) (i : nat) : bytes_ok s -> is_byte s.[i].
Proof.
  intros H. unfold byte_at. destruct (Nat.lt_ge_cases i (length s)) as [Hl|Hl].
  - unfold bytes_ok in H. rewrite Forall_forall in H. apply H, nth_In, Hl.
  - rewrite nth_overflow by exact Hl. unfold is_byte. lia.
Qed.

Lemma mod3_range (z : Z) : 0 <= z mod 3 < 3.
Proof. apply Z.mod_pos_bound. lia. Qed.

Lemma land_31_range (z : Z) : 0 <= Z.land z 31 < 32.
Proof.
  change 31 with (Z.ones 5). rewrite Z.land_ones by lia.
  apply Z.mod_pos_bound. lia.
Qed.

Lemma b2z_range (b : bool) : 0 <= Z.b2z b <= 1.
Proof. destruct b; simpl; lia. Qed.

Lemma Qtrunc_nonneg (q : Q) : (0 <= q)%Q -> Qtrunc q = Qfloor q.
Proof.
  intros H. unfold Qtrunc. apply Qle_bool_iff in H. now rewrite H.
Qed.

Lemma pow2_pos (e : Z) : (0 < pow2 e)%Q.
Proof. unfold pow2. apply Qpower_0_lt. lra. Qed.

Lemma pow2_succ (e : Z) : (pow2 (e + 1) == 2 * pow2 e)%Q.
Proof.
  unfold pow2. rewrite Qpower_plus by discriminate. rewrite Qpower_1_r. ring.
Qed.

Lemma pow2_opp (e : Z) : (pow2 (- e) == / pow2 e)%Q.
Proof. unfold pow2. apply Qpower_opp. Qed.

Lemma pow2_of_Z (e : Z) : 0 <= e -> (pow2 e == inject_Z (2 ^ e))%Q.
Proof. intros H. unfold pow2. now rewrite Zpower_Qpower. Qed.

Lemma pow2_le_mono (e f : Z) : e <= f -> (pow2 e <= pow2 f)%Q.
Proof. intros H. apply Qpower_le_compat_l; [exact H | lra]. Qed.

Lemma pow2_lt_inv (e f : Z) : (pow2 e < pow2 f)%Q -> e < f.
Proof. intros H. eapply Qpower_lt_compat_l_inv; [exact H | lra]. Qed.

Lemma pow2_le_inv (e f : Z) : (pow2 e <= pow2 f)%Q -> e <= f.
Proof. intros H. eapply Qpower_le_compat_l_inv; [exact H | lra]. Qed.

#[export] Hint Resolve byte_at_ok mod3_range land_31_range b2z_range pow2_pos : kclmtr.
#[export] Hint Rewrite byte_at_substr length_substr : kclmtr_rw.

Lemma Qtrunc_Z (n : Z) : Qtrunc (inject_Z n) = n.
Proof.
  unfold Qtrunc. destruct (Qle_bool 0 (inject_Z n)); [apply Qfloor_Z|].
  change (- inject_Z n)%Q with (inject_Z (- n)). rewrite Qfloor_Z. lia.
Qed.

Lemma Qtrunc_div_pos (n : Z) (d : positive) :
  0 <= n -> Qtrunc (inject_Z n / (Z.pos d # 1)) = n / Z.pos d.
Proof.
  intros Hn. rewrite Qtrunc_nonneg.
  - unfold Qfloor, Qdiv, Qmult, Qinv, inject_Z. simpl. now rewrite Z.mul_1_r.
  - apply Qle_shift_div_l; [reflexivity|]. rewrite Qmult_0_l.
    change 0%Q with (inject_Z 0). now rewrite <- Zle_Qle.
Qed.

Lemma length_list_set {A : Type} (l : list A) (i : nat) (x : A) :
  length (list_set l i x) = length l.
Proof. revert i. induction l as [|y r IH]; intros [|j]; simpl; auto. Qed.

Lemma map_list_set {A B : Type} (g : A -> B) (l : list A) (i : nat) (x : A) :
  map g (list_set l i x) = list_set (map g l) i (g x).
Proof. revert i. induction l as [|y r IH]; intros [|i]; simpl; f_equal; auto. Qed.

(** A list is the image of its indices. *)
Lemma map_nth_seq {A : Type} (l : list A) (d : A) :
  l = map (fun k => nth k l d) (seq 0 (length l)).
Proof.
  induction l as [|y r IH]; [reflexivity|]. simpl. f_equal.
  rewrite <- seq_shift, map_map. exact IH.
Qed.

Lemma nth_list_set {A : Type} (l : list A) (i k : nat) (x d : A) :
  (k < length l)%nat -> nth i (list_set l k x) d = if Nat.eqb i k then x else nth i l d.
Proof.
  revert i k. induction l as [|y r IH]; intros i k Hk; simpl in Hk; [lia|].
  destruct k as [|k], i as [|i]; simpl; auto.
  apply IH. lia.
Qed.

Lemma div_gt_zero (num den c : Q) :
  (num == 0)%Q -> (0 <= c)%Q -> div_gt num den c = false.
Proof.
  intros Hn Hc. unfold div_gt, Qltb.
  destruct (Qeq_bool den 0); apply negb_false_iff, Qle_bool_iff.
  - rewrite Hn. apply Qle_refl.
  - rewrite Hn. unfold Qdiv. rewrite Qmult_0_l. exact Hc.
Qed.

Lemma Qltb_lt (a b : Q) : Qltb a b = true <-> (a < b)%Q.
Proof.
  unfold Qltb. rewrite negb_true_iff. split; intros H.
  - apply Qnot_le_lt. intros H'. apply Qle_bool_iff in H'. congruence.
  - destruct (Qle_bool b a) eqn:E; [|reflexivity]. apply Qle_bool_iff in E.
    exfalso. apply (Qlt_not_le a b); assumption.
Qed.

Lemma Qltb_ge (a b : Q) : Qltb a b = false <-> (b <= a)%Q.
Proof.
  unfold Qltb. rewrite negb_false_iff. apply Qle_bool_iff.
Qed.

#[export] Instance Qltb_Proper : Proper (Qeq ==> Qeq ==> eq) Qltb.
Proof.
  intros a a' Ha b b' Hb. unfold Qltb. f_equal.
  destruct (Qle_bool b a) eqn:E1, (Qle_bool b' a') eqn:E2; auto;
    apply Qle_bool_iff in E1 || apply Qle_bool_iff in E2;
    first [ rewrite Ha, Hb in E1; apply Qle_bool_iff in E1; congruence
          | rewrite <- Ha, <- Hb in E2; apply Qle_bool_iff in E2; congruence ].
Qed.

#[export] Instance div_gt_Proper : Proper (Qeq ==> Qeq ==> Qeq ==> eq) div_gt.
Proof.
  intros n n' Hn d d' Hd c c' Hc. unfold div_gt, Qltb.
  assert (E : Qeq_bool d 0 = Qeq_bool d' 0).
  { destruct (Qeq_bool d 0) eqn:E1, (Qeq_bool d' 0) eqn:E2; auto.
    - apply Qeq_bool_iff in E1. rewrite Hd in E1. apply Qeq_bool_iff in E1. congruence.
    - apply Qeq_bool_iff in E2. rewrite <- Hd in E2. apply Qeq_bool_iff in E2. congruence. }
  rewrite E. f_equal.
  destruct (Qeq_bool d' 0);
    [ destruct (Qle_bool n 0) eqn:E1, (Qle_bool n' 0) eqn:E2; auto
    | destruct (Qle_bool (n / d) c) eqn:E1, (Qle_bool (n' / d') c') eqn:E2; auto ];
    apply Qle_bool_iff in E1 || apply Qle_bool_iff in E2;
    first [ rewrite ?Hn, ?Hd, ?Hc in E1; apply Qle_bool_iff in E1; congruence
          | rewrite <- ?Hn, <- ?Hd, <- ?Hc in E2; apply Qle_bool_iff in E2; congruence ].
Qed.

(** Two consecutive integers never share a residue modulo [m >= 2]. *)
Lemma mod_pred_neq (l m : Z) : 2 <= m -> (l - 1) mod m <> l mod m.
Proof.
  intros Hm E. pose proof (Z.div_mod l m ltac:(lia)) as H1.
  pose proof (Z.div_mod (l - 1) m ltac:(lia)) as H2.
  rewrite E in H2. assert (m * (l / m - (l - 1) / m) = 1) as H by lia.
  destruct (Z.le_gt_cases (l / m - (l - 1) / m) 0) as [Hk|Hk]; nia.
Qed.

Lemma lor_eqb_0 (x y : Z) : (Z.lor x y =? 0) = (x =? 0) && (y =? 0).
Proof.
  destruct (Z.eqb_spec (Z.lor x y) 0) as [H|H].
  - apply Z.lor_eq_0_iff in H as [-> ->]. reflexivity.
  - destruct (Z.eqb_spec x 0), (Z.eqb_spec y 0); subst; auto.
Qed.

Lemma has_flag_lor (a b f : Z) : has_flag (Z.lor a b) f = has_flag a f || has_flag b f.
Proof. unfold has_flag. now rewrite Z.land_lor_distr_l, lor_eqb_0, negb_andb. Qed.

#[export] Hint Rewrite @length_list_set has_flag_lor : kclmtr_rw.

Lemma inject_Z_minus (a b : Z) : (inject_Z (a - b) == inject_Z a - inject_Z b)%Q.
Proof. unfold Z.sub. rewrite inject_Z_plus, inject_Z_opp. ring. Qed.

Lemma Qle_bool_Z (a b : Z) : Qle_bool (inject_Z a) (inject_Z b) = (a <=? b).
Proof.
  destruct (Qle_bool (inject_Z a) (inject_Z b)) eqn:E; symmetry.
  - apply Qle_bool_iff in E. rewrite <- Zle_Qle in E. now apply Z.leb_le.
  - apply Z.leb_gt. destruct (Z.le_gt_cases a b) as [H|H]; [|exact H].
    rewrite Zle_Qle in H. apply Qle_bool_iff in H. congruence.
Qed.

Lemma forallb_seq (f : nat -> bool) (a n : nat) :
  forallb f (seq a n) = true -> forall i, (a <= i < a + n)%nat -> f i = true.
Proof.
  intros H i Hi. rewrite forallb_forall in H. apply H, in_seq. lia.
Qed.

Lemma forallb_rev {A : Type} (f : A -> bool) (l : list A) : forallb f (rev l) = forallb f l.
Proof.
  induction l as [|x r IH]; cbn; auto.
  rewrite forallb_app, IH. cbn. now rewrite andb_true_r, andb_comm.
Qed.

(** The first [k + 1] elements are the first [k] and the [k]-th. *)
Lemma firstn_S_nth {A : Type} (l : list A) (k : nat) (d : A) :
  (k < length l)%nat -> firstn (S k) l = firstn k l ++ [nth k l d].
Proof.
  revert k. induction l as [|x r IH]; intros k Hk; cbn in Hk; [lia|].
  destruct k as [|k]; [reflexivity|].
  change (x :: firstn (S k) r = (x :: firstn k r) ++ [nth k r d]). now rewrite (IH k) by lia.
Qed.

(** The head of a reversed list is its last element. *)
Lemma nth_0_rev {A : Type} (l : list A) (d : A) : nth 0 (rev l) d = last l d.
Proof.
  destruct (rev l) as [|x r] eqn:E.
  - apply (f_equal (@rev A)) in E. rewrite rev_involutive in E. now subst.
  - apply (f_equal (@rev A)) in E. rewrite rev_involutive in E. subst l. cbn.
    now rewrite last_last.
Qed.

Lemma Qtrunc_comp (x y : Q) : (x == y)%Q -> Qtrunc x = Qtrunc y.
Proof.
  intros H. unfold Qtrunc.
  destruct (Qle_bool 0 x) eqn:Ex, (Qle_bool 0 y) eqn:Ey.
  - now apply Qfloor_comp.
  - apply Qle_bool_iff in Ex. rewrite H in Ex. apply Qle_bool_iff in Ex. congruence.
  - apply Qle_bool_iff in Ey. rewrite <- H in Ey. apply Qle_bool_iff in Ey. congruence.
  - f_equal. apply Qfloor_comp. now rewrite H.
Qed.

#[export] Instance Qtrunc_Proper : Proper (Qeq ==> eq) Qtrunc.
Proof. intros x y H. now apply Qtrunc_comp. Qed.

(** Decide the boolean integer comparisons of the goal that [lia] can
    settle from the context. *)
Ltac zbool :=
  repeat match goal with
  | |- context [?a <? ?b] =>
      first [ rewrite (proj2 (Z.ltb_lt a b)) by lia
            | rewrite (proj2 (Z.ltb_ge a b)) by lia ]
  | |- context [?a <=? ?b] =>
      first [ rewrite (proj2 (Z.leb_le a b)) by lia
            | rewrite (proj2 (Z.leb_gt a b)) by lia ]
  | |- context [?a =? ?b] =>
      first [ rewrite (proj2 (Z.eqb_eq a b)) by lia
            | rewrite (proj2 (Z.eqb_neq a b)) by lia ]
  | |- context [Nat.eqb ?a ?b] =>
      first [ rewrite (proj2 (Nat.eqb_eq a b)) by lia
            | rewrite (proj2 (Nat.eqb_neq a b)) by lia ]
  end.

(** Close a goal about a closed reply by evaluation. *)
Ltac eval_reply := vm_compute; reflexivity.

(** Turn [inject_Z] of closed powers of two and of small constants into
    rational literals, which [field] and [ring] read as constants. *)
Ltac pow_consts :=
  repeat match goal with
  | |- context [inject_Z (2 ^ ?n)] =>
      let v := eval vm_compute in (2 ^ n) in change (inject_Z (2 ^ n)) with (Qmake v 1)
  | |- context [inject_Z (-1)] => change (inject_Z (-1)) with (Qmake (-1) 1)
  | |- context [inject_Z 1] => change (inject_Z 1) with (Qmake 1 1)
  | |- context [inject_Z 0] => change (inject_Z 0) with (Qmake 0 1)
  end.

(** Case split on every boolean test left in the goal. *)
Ltac destruct_ifs :=
  repeat match goal with |- context [if ?b then _ else _] => destruct b end.
