(* ===== verification/ErrorCodes.v ===== *)
(** * The error bitmask: [KleinsErrorCodes] (src/Enums.h, src/Enum.cpp)

    Every failure of the driver is reported as a bit of an [unsigned int].
    This file holds the bit constants, the informational mask
    [ingoreWarningList], the decision [shouldStopMeasuring] and the mapping
    [getErrorCodeFromKlein] from the device's one-character error token to
    a bit, with the facts the rest of the development relies on: the bits
    never overlap, a token maps to at most one bit, and the stop decision
    distributes over the union of masks. *)

From Stdlib Require Import String Ascii ZArith List Lia Bool.
From S2P Require Import Prelude.
Import ListNotations.
Open Scope Z_scope.

Module KleinsErrorCodes.

Definition NONE := 0.
Definition NOT_OPEN := 1.
Definition TIMED_OUT := 2.
Definition LOST_CONNECTION := 4.
Definition BAD_VALUES := 8.
Definition CONVERTED_NM := 16.
Definition KELVINS := 32.
Definition AIMING_LIGHTS := 64.
Definition AVERAGING_LOW_LIGHT := 128.
Definition BOTTOM_UNDER_RANGE := 256.
Definition TOP_OVER_RANGE := 512.
Definition OVER_HIGH_RANGE := 1024.
Definition BLACK_ZERO := 2048.
Definition BLACK_OVERDRIVE := 4096.
Definition BLACK_EXCESSIVE := 8192.
Definition BLACK_PARSING_ROM := 16384.
Definition BLACK_STORING_ROM := 32768.
Definition CAL_WHITE_RGB := 65536.
Definition CAL_STORING := 131072.
Definition CAL_CONVERT_BINARY := 262144.
Definition FFT_BAD_STRING := 524288.
Definition FFT_RANGE_CAL := 1048576.
Definition FFT_NO_XYZ := 2097152.
Definition FFT_NO_RANGE := 4194304.
Definition FFT_INSUFFICIENT_DATA := 8388608.
Definition FFT_PREVIOUS_RANGE := 16777216.
Definition FFT_NOT_SUPPORTED := 33554432.
Definition FFT_BAD_SAMPLES := 67108864.
Definition FFT_OVER_SATURATED := 134217728.
Definition FIRMWARE := 268435456.
Definition NEGATIVE_VALUES := 536870912.

(** The non-zero constants, in declaration order. *)
Definition all_error_codes : list Z :=
  [NOT_OPEN; TIMED_OUT; LOST_CONNECTION; BAD_VALUES; CONVERTED_NM; KELVINS;
   AIMING_LIGHTS; AVERAGING_LOW_LIGHT; BOTTOM_UNDER_RANGE; TOP_OVER_RANGE;
   OVER_HIGH_RANGE; BLACK_ZERO; BLACK_OVERDRIVE; BLACK_EXCESSIVE;
   BLACK_PARSING_ROM; BLACK_STORING_ROM; CAL_WHITE_RGB; CAL_STORING;
   CAL_CONVERT_BINARY; FFT_BAD_STRING; FFT_RANGE_CAL; FFT_NO_XYZ;
   FFT_NO_RANGE; FFT_INSUFFICIENT_DATA; FFT_PREVIOUS_RANGE;
   FFT_NOT_SUPPORTED; FFT_BAD_SAMPLES; FFT_OVER_SATURATED; FIRMWARE;
   NEGATIVE_VALUES].

Definition ingoreWarningList : Z :=
  Z.lor BOTTOM_UNDER_RANGE (Z.lor TOP_OVER_RANGE (Z.lor OVER_HIGH_RANGE
  (Z.lor FFT_PREVIOUS_RANGE (Z.lor FFT_INSUFFICIENT_DATA
  (Z.lor FFT_OVER_SATURATED (Z.lor CONVERTED_NM (Z.lor KELVINS
  (Z.lor AVERAGING_LOW_LIGHT NEGATIVE_VALUES)))))))).

(** [(errorcode & ~ingoreErrorcode) > 0] on unsigned ints. *)
Definition shouldStopMeasuring (errorcode ingoreErrorcode : Z) : bool :=
  0 <? Z.land errorcode (lnot32 ingoreErrorcode).

(** The exact-match chain on the one-character token. *)
Definition getErrorCodeFromKlein (MyError : list Z) : Z :=
  if list_eq_dec Z.eq_dec MyError [chr "L"] then AIMING_LIGHTS
  else if list_eq_dec Z.eq_dec MyError [chr "u"] then BOTTOM_UNDER_RANGE
  else if list_eq_dec Z.eq_dec MyError [chr "v"] then TOP_OVER_RANGE
  else if list_eq_dec Z.eq_dec MyError [chr "w"] then OVER_HIGH_RANGE
  else if list_eq_dec Z.eq_dec MyError [chr "t"] then BLACK_ZERO
  else if list_eq_dec Z.eq_dec MyError [chr "s"] then BLACK_OVERDRIVE
  else if list_eq_dec Z.eq_dec MyError [chr "b"] then BLACK_EXCESSIVE
  else if list_eq_dec Z.eq_dec MyError [chr "X"] then FIRMWARE
  else if list_eq_dec Z.eq_dec MyError [chr "B"] then FIRMWARE
  else NONE.

(** The tokens the chain recognises. *)
Definition klein_tokens : list (list Z) :=
  map (fun c => [chr c]) ["L"; "u"; "v"; "w"; "t"; "s"; "b"; "X"; "B"]%char.

(** The mask the flicker worker tolerates without stopping
    (threadStuff, KClmtr.cpp line 437). *)
Definition flickerTolerated : Z :=
  Z.lor FFT_PREVIOUS_RANGE (Z.lor FFT_INSUFFICIENT_DATA FFT_OVER_SATURATED).

(** ** Lemmas *)

(** Boolean check that a list of masks are single bits, pairwise disjoint. *)
Definition single_bit (c : Z) : bool := (0 <? c) && (c =? 2 ^ Z.log2 c).

Fixpoint disjoint_bits (l : list Z) : bool :=
  match l with
  | [] => true
  | c :: r => single_bit c && forallb (fun d => Z.land c d =? 0) r
              && disjoint_bits r
  end.

Lemma disjoint_bits_spec (l : list Z) :
  disjoint_bits l = true ->
  NoDup l /\ Forall (fun c => 0 < c /\ c = 2 ^ Z.log2 c) l /\
  ForallOrdPairs (fun a b => Z.land a b = 0) l.
Proof.
  induction l as [|c r IH]; simpl; intros H.
  - repeat constructor.
  - apply andb_prop in H as [H Hr]. apply andb_prop in H as [Hc Hd].
    unfold single_bit in Hc. apply andb_prop in Hc as [Hp He].
    apply Z.ltb_lt in Hp. apply Z.eqb_eq in He.
    rewrite forallb_forall in Hd.
    destruct (IH Hr) as (Hn & Hf & Ho). repeat split.
    + constructor; [|exact Hn]. intros Hin. specialize (Hd c Hin).
      apply Z.eqb_eq in Hd. rewrite Z.land_diag in Hd. lia.
    + constructor; [split; assumption | exact Hf].
    + constructor; [|exact Ho]. apply Forall_forall. intros d Hin.
      apply Z.eqb_eq, Hd, Hin.
Qed.

Lemma lnot32_nonneg (m : Z) : 0 <= lnot32 m.
Proof.
  unfold lnot32, u32. apply Z.lxor_nonneg.
  pose proof (Z.mod_pos_bound m (2 ^ 32)). lia.
Qed.

Lemma land_lnot32_nonneg (e m : Z) : 0 <= Z.land e (lnot32 m).
Proof. apply Z.land_nonneg. right. apply lnot32_nonneg. Qed.

#[export] Hint Resolve lnot32_nonneg land_lnot32_nonneg : kclmtr.

(** ** Properties *)

(** The error constants are distinct single bits and no two of them
    share a bit, so any union of them can be decoded bit by bit. *)
Theorem error_codes_disjoint_bits :
  NoDup all_error_codes /\
  Forall (fun c => 0 < c /\ c = 2 ^ Z.log2 c) all_error_codes /\
  ForallOrdPairs (fun a b => Z.land a b = 0) all_error_codes.
Proof. apply disjoint_bits_spec. reflexivity. Qed.

(** The device's error token maps to no error when it is not one of the
    nine recognised characters, and otherwise to exactly one bit among the
    error constants. *)
Theorem getErrorCodeFromKlein_single_bit (s : list Z) :
  (~ In s klein_tokens -> getErrorCodeFromKlein s = NONE) /\
  (In s klein_tokens -> In (getErrorCodeFromKlein s) all_error_codes).
Proof.
  unfold getErrorCodeFromKlein, klein_tokens; simpl.
  split; intros H;
    repeat (destruct (list_eq_dec Z.eq_dec _ _) as [E|]; [subst; simpl in *|]);
    intuition (try discriminate; try congruence; simpl; tauto).
Qed.

(** The stop decision of a union of masks is the disjunction of the
    decisions of the parts: an ignorable bit never adds a reason to stop,
    and a reason to stop is never hidden by another bit. *)
Theorem shouldStopMeasuring_lor (e1 e2 ign : Z) :
  shouldStopMeasuring (Z.lor e1 e2) ign =
  shouldStopMeasuring e1 ign || shouldStopMeasuring e2 ign.
Proof.
  unfold shouldStopMeasuring. rewrite Z.land_lor_distr_l.
  pose proof (land_lnot32_nonneg e1 ign) as H1.
  pose proof (land_lnot32_nonneg e2 ign) as H2.
  set (a := Z.land e1 (lnot32 ign)) in *. set (b := Z.land e2 (lnot32 ign)) in *.
  destruct (Z.ltb_spec 0 a), (Z.ltb_spec 0 b); simpl;
    apply Z.ltb_lt || apply Z.ltb_ge.
  - pose proof (Z.lor_nonneg a b). pose proof (proj1 (Z.lor_eq_0_iff a b)). lia.
  - pose proof (Z.lor_nonneg a b). pose proof (proj1 (Z.lor_eq_0_iff a b)). lia.
  - pose proof (Z.lor_nonneg a b). pose proof (proj1 (Z.lor_eq_0_iff a b)). lia.
  - replace a with 0 by lia. replace b with 0 by lia. reflexivity.
Qed.

End KleinsErrorCodes.
