(* ===== verification/ErrorText.v ===== *)
(** * Rendering of numbers and error masks as text (src/Enum.cpp)

    [KClmtrBase::intToString] prints an [int] in decimal with two loops:
    the digits are collected least significant first ([digits_loop]) and
    then copied back to front ([reverse_loop]).  [errorCodesToString]
    clears the ignored bits, prints a header with the remaining mask and
    appends one message per reported group of bits, in the order of the
    source, before dropping the last character.

    The printer is proved correct against a decimal reader
    ([decimal_value]): on every non-negative [int] it yields a canonical
    numeral that reads back as the value.  On a negative [int] the digit
    loop does not run and the result is empty, which is what the header of
    [errorCodesToString] shows for a mask with bit 31 set. *)

From Stdlib Require Import String Ascii ZArith List Lia Bool.
From S2P Require Import Prelude ErrorCodes.
Import ListNotations.
Import KleinsErrorCodes.
Open Scope Z_scope.

Module ErrorText.

(** ** [intToString] *)

(** [while(value > 0) { temp += value % 10 + 48; value /= 10; }], with
    the fuel [10]: an [int] below [2^31] has at most ten digits. *)
Fixpoint digits_loop (fuel : nat) (value : Z) (temp : list Z) : list Z :=
  match fuel with
  | O => temp
  | S f =>
      if 0 <? value then digits_loop f (Z.quot value 10) (temp ++ [Z.rem value 10 + 48])
      else temp
  end.

(** [for(i = 0; i < temp.length(); ++i) returnvalue += temp[temp.length() - i - 1];]
    from index [i] with [n] iterations left. *)
Fixpoint reverse_loop (temp : list Z) (i n : nat) (returnvalue : list Z) : list Z :=
  match n with
  | O => returnvalue
  | S n' => reverse_loop temp (S i) n' (returnvalue ++ [temp.[length temp - i - 1]])
  end.

Definition intToString (value : Z) : list Z :=
  if value =? 0 then [48]
  else
    let temp := digits_loop 10 value [] in
    reverse_loop temp 0 (length temp) [].

(** The [int] an [unsigned int] argument becomes (two's complement). *)
Definition to_int32 (u : Z) : Z := if u <? 2 ^ 31 then u else u - 2 ^ 32.

(** A decimal reader, the reference [intToString] is proved against. *)
Definition is_digit (c : Z) : bool := (48 <=? c) && (c <=? 57).

Definition decimal_value (s : list Z) : Z :=
  fold_left (fun acc c => acc * 10 + (c - 48)) s 0.

(** ** [errorCodesToString] *)

Definition nl : list Z := [10].

(** A string literal ending in ["\n"]. *)
Definition line (s : string) : list Z := bytes_of_string s ++ nl.

(** The tests of [errorCodesToString] in source order: the mask tested
    and the text appended when one of its bits is set. *)
Definition error_messages : list (Z * list Z) :=
  [(NOT_OPEN, bytes_of_string "Error: The Port isn't open.");
   (TIMED_OUT, line "Error: Did not receive the info from port." ++
               line "Fix: Try again, or reconnect the device.");
   (LOST_CONNECTION, line "Error: The Device was unplugged during commucation." ++
                     line "Fix: Please reconnect the device.");
   (BAD_VALUES, line "Error: Values couldn't be retrived from the device.");
   (CONVERTED_NM, line "Event: Couldn't convert XYZ to NM.");
   (KELVINS, line "Event: Couldn't convert XYZ to Kelvins.");
   (AIMING_LIGHTS, line "Event: The Aiming lights are on." ++
                   line "Fix: Please turn off the aimming lights with the Knob");
   (AVERAGING_LOW_LIGHT, line "Event: The Device needs more time to average because the light level is low.");
   (Z.lor BOTTOM_UNDER_RANGE (Z.lor TOP_OVER_RANGE OVER_HIGH_RANGE),
      line "Event: The device switched ranges.");
   (Z.lor BLACK_ZERO (Z.lor BLACK_OVERDRIVE (Z.lor BLACK_EXCESSIVE BLACK_PARSING_ROM)),
      line "Event: Creating Black cal into the device failed" ++ line "Fix: Rerun the BlackCal");
   (BLACK_STORING_ROM, line "Event: Storing the Black cal failed" ++ line "Fix: Rerun the BlackCal");
   (CAL_WHITE_RGB, line "Event: There was a problem with converting the white spec and RGB" ++
                   line "Fix: Rerun Calibration");
   (CAL_STORING, line "Event: Storing the CalFile failed" ++ line "Fix: Re-Store calibration");
   (CAL_CONVERT_BINARY, line "Event: Couldn't convert the numbers to a string to be stored" ++
                        line "Fix: Rerun calibration");
   (FFT_BAD_STRING, line "Event: FFT received a bad string" ++ line "Fix: Re-Start Flicker");
   (FFT_RANGE_CAL, line "Event: FFT received a bad rang cal file" ++ line "Fix: Contact Klein Instruments");
   (FFT_NO_XYZ, line "Event: There was no measurement in the FFT string" ++ line "Fix: Re-start Flicker");
   (FFT_NO_RANGE, line "Event: There was no range in FFT" ++ line "Fix: Re-start Flicker");
   (FFT_INSUFFICIENT_DATA, line "Event: There is not enough data to display FFT" ++
                           line "Fix: Continue to gather Flicker data");
   (FFT_PREVIOUS_RANGE, line "Event: The device is switching ranges" ++
                        line "Fix: Ingore this Flicker Data, and continue gather Flicker Data");
   (FFT_NOT_SUPPORTED, line "Event: The device that you are currently hooked up to cannot do FFT" ++
                       line "Fix: Can't use this device on Flicker");
   (FFT_BAD_SAMPLES, line "Event: FFT received a bad string" ++ line "Fix: Re-Start Flicker");
   (FFT_OVER_SATURATED, line "Event: The counts are too high for the current range to get good data" ++
                        line "Fix: Skip this Flicker measurement, or change ranges if you have locked the range");
   (FIRMWARE, line "Error: The Firmware could be corrupted. Please contact Klein Instruments.");
   (NEGATIVE_VALUES, line "Event: Measurement received had negative values." ++
                     line "Fix: Run Black Calibration")].

(** The chain of [if(errorcode & mask) s += text;]. *)
Fixpoint append_messages (errorcode : Z) (table : list (Z * list Z)) (s : list Z) : list Z :=
  match table with
  | [] => s
  | (mask, text) :: r =>
      append_messages errorcode r (if Z.land errorcode mask =? 0 then s else s ++ text)
  end.

(** [errorCodesToString(errorcode, ingoreErrorcode)]. *)
Definition errorCodesToString (errorcode ingoreErrorcode : Z) : list Z :=
  let errorcode := Z.land (u32 errorcode) (lnot32 ingoreErrorcode) in
  if errorcode =? 0 then []
  else
    let s := bytes_of_string "ErrorCode " ++ intToString (to_int32 errorcode) ++ line " Reads:" in
    let s := append_messages errorcode error_messages s in
    substr s 0 (length s - 1).

(** ** Lemmas *)

(** The digits of a value below [10^fuel], least significant first. *)
Lemma digits_loop_spec (fuel : nat) :
  forall value temp, 0 <= value < 10 ^ Z.of_nat fuel ->
  exists d, digits_loop fuel value temp = temp ++ d /\
    forallb is_digit d = true /\
    fold_right (fun c acc => acc * 10 + (c - 48)) 0 d = value /\
    (value = 0 -> d = []) /\ (0 < value -> last d 0 <> 48) /\ (length d <= fuel)%nat.
Proof.
  induction fuel as [|f IH]; intros v temp Hv; cbn [digits_loop].
  - cbn in Hv. exists []. rewrite app_nil_r. repeat split; intros; cbn in *; try reflexivity; lia.
  - destruct (Z.ltb_spec 0 v) as [Hp|Hn].
    2:{ exists []. rewrite app_nil_r. repeat split; intros; cbn in *; try reflexivity; lia. }
    rewrite Nat2Z.inj_succ, Z.pow_succ_r in Hv by lia.
    rewrite Z.quot_div_nonneg, Z.rem_mod_nonneg by lia.
    destruct (IH (v / 10) (temp ++ [v mod 10 + 48])) as (d & E & Hd & Hval & H0 & Hl & Hlen).
    { split; [apply Z.div_pos; lia | apply Z.div_lt_upper_bound; lia]. }
    exists (v mod 10 + 48 :: d). rewrite E, <- app_assoc. split; [reflexivity|].
    pose proof (Z.mod_pos_bound v 10 ltac:(lia)). cbn [forallb fold_right length].
    rewrite Hd, Hval. unfold is_digit. repeat split.
    + rewrite andb_true_r. apply andb_true_intro; split; apply Z.leb_le; lia.
    + pose proof (Z.div_mod v 10 ltac:(discriminate)). lia.
    + lia.
    + intros _. destruct d as [|x r]; cbn [last].
      * assert (v / 10 = 0) by (cbn in Hval; lia).
        pose proof (Z.div_mod v 10 ltac:(discriminate)). lia.
      * assert (0 < v / 10).
        { destruct (Z.eq_dec (v / 10) 0) as [Z0|]; [discriminate (H0 Z0)|].
          pose proof (Z.div_pos v 10). lia. }
        apply Hl; lia.
    + lia.
Qed.

Lemma reverse_loop_spec (temp : list Z) (n : nat) :
  forall i acc, (i + n = length temp)%nat ->
  reverse_loop temp i n acc = acc ++ rev (firstn n temp).
Proof.
  induction n as [|n IH]; intros i acc Hn; cbn [reverse_loop].
  - now rewrite app_nil_r.
  - rewrite IH by lia. rewrite (firstn_S_nth temp n 0) by lia.
    rewrite rev_app_distr, app_assoc. cbn [rev app]. do 3 f_equal. unfold byte_at. f_equal. lia.
Qed.

(** [intToString] of a positive value is its digits reversed. *)
Lemma intToString_pos (v : Z) :
  0 < v -> intToString v = rev (digits_loop 10 v []).
Proof.
  intros Hv. unfold intToString. rewrite (proj2 (Z.eqb_neq v 0)) by lia.
  rewrite reverse_loop_spec by lia. now rewrite firstn_all.
Qed.

Lemma decimal_value_rev (d : list Z) :
  decimal_value (rev d) = fold_right (fun c acc => acc * 10 + (c - 48)) 0 d.
Proof.
  unfold decimal_value. rewrite <- (rev_involutive d) at 2. now rewrite fold_left_rev_right.
Qed.

(** A canonical decimal numeral: digits only, no leading zero unless it
    is ["0"], at most ten digits. *)
Definition canonical (s : list Z) : Prop :=
  forallb is_digit s = true /\ (s = [48] \/ (s <> [] /\ s.[0] <> 48)) /\ (length s <= 10)%nat.

(** The numeral of a non-negative [int]. *)
Lemma intToString_canonical (v : Z) :
  0 <= v < 2 ^ 31 -> canonical (intToString v) /\ decimal_value (intToString v) = v.
Proof.
  intros Hv. destruct (Z.eq_dec v 0) as [->|Hn].
  { split; [split; [reflexivity | split; [left; reflexivity | cbn; lia]] | reflexivity]. }
  rewrite intToString_pos by lia.
  destruct (digits_loop_spec 10 v []) as (d & E & Hd & Hval & H0 & Hl & Hlen).
  { cbn. lia. }
  rewrite E. cbn [app]. rewrite decimal_value_rev, Hval.
  split; [|reflexivity]. split; [now rewrite forallb_rev|]. split.
  - right. split.
    + intros Hr. apply (f_equal (@rev Z)) in Hr. rewrite rev_involutive in Hr. subst d.
      cbn in Hval. lia.
    + unfold byte_at. rewrite nth_0_rev. apply Hl. lia.
  - now rewrite length_rev.
Qed.

(** A negative [int] skips the digit loop. *)
Lemma intToString_neg (v : Z) : v < 0 -> intToString v = [].
Proof.
  intros Hv. unfold intToString. rewrite (proj2 (Z.eqb_neq v 0)) by lia.
  cbn [digits_loop]. rewrite (proj2 (Z.ltb_ge 0 v)) by lia. reflexivity.
Qed.

Lemma append_messages_app (e : Z) (table : list (Z * list Z)) :
  forall s, exists t, append_messages e table s = s ++ t.
Proof.
  induction table as [|[m text] r IH]; intros s; cbn [append_messages].
  - exists []. now rewrite app_nil_r.
  - destruct (Z.land e m =? 0).
    + exact (IH s).
    + destruct (IH (s ++ text)) as [t E]. exists (text ++ t). now rewrite E, app_assoc.
Qed.

(** The bits the rendering reads. *)
Lemma u32_land_lnot32 (e ign : Z) : 0 <= Z.land (u32 e) (lnot32 ign) < 2 ^ 32.
Proof.
  split; [apply Z.land_nonneg; right; apply lnot32_nonneg|].
  unfold u32. rewrite <- Z.land_ones by lia.
  rewrite <- Z.land_assoc, (Z.land_comm (Z.ones 32)), Z.land_assoc, Z.land_ones by lia.
  apply Z.mod_pos_bound. lia.
Qed.

(** ** Properties *)

(** [intToString] prints every non-negative [int] as a canonical
    decimal numeral (ASCII digits, no leading zero, at most ten digits)
    that reads back as the value; a negative [int] prints as the empty
    string. *)
Theorem intToString_roundtrip (v : Z) :
  -2 ^ 31 <= v < 2 ^ 31 ->
  (0 <= v -> canonical (intToString v) /\ decimal_value (intToString v) = v) /\
  (v < 0 -> intToString v = []).
Proof.
  intros Hv. split; [intros H; apply intToString_canonical; lia | apply intToString_neg].
Qed.

Lemma intToString_roundtrip_witness :
  -2 ^ 31 <= 2147483647 < 2 ^ 31 /\
  canonical (intToString 2147483647) /\ decimal_value (intToString 2147483647) = 2147483647.
Proof.
  split; [lia|]. apply (intToString_roundtrip 2147483647); lia.
Defined.

(** C29: a mask with bit 31 left after the ignored bits are cleared is
    printed without its number: [intToString] receives the mask as a
    negative [int] and returns the empty string, so the header reads
    ["ErrorCode  Reads:"]. *)
Theorem errorCodesToString_high_bit (e ign : Z) :
  2 ^ 31 <= Z.land (u32 e) (lnot32 ign) ->
  firstn 17 (errorCodesToString e ign) = bytes_of_string "ErrorCode  Reads:".
Proof.
  intros Hm. pose proof (u32_land_lnot32 e ign) as Hb.
  unfold errorCodesToString. set (m := Z.land (u32 e) (lnot32 ign)) in *.
  rewrite (proj2 (Z.eqb_neq m 0)) by lia.
  unfold to_int32. rewrite (proj2 (Z.ltb_ge m (2 ^ 31))) by lia.
  rewrite intToString_neg by lia.
  destruct (append_messages_app m error_messages
              (bytes_of_string "ErrorCode " ++ [] ++ line " Reads:")) as [t ->].
  unfold substr. cbn [skipn]. rewrite firstn_firstn.
  rewrite length_app. change (length (bytes_of_string "ErrorCode " ++ [] ++ line " Reads:")) with 18%nat.
  replace (Nat.min 17 (18 + length t - 1)) with 17%nat by lia.
  rewrite firstn_app. change (length (bytes_of_string "ErrorCode " ++ [] ++ line " Reads:")) with 18%nat.
  reflexivity.
Qed.

Lemma errorCodesToString_high_bit_witness :
  2 ^ 31 <= Z.land (u32 (2 ^ 31)) (lnot32 ingoreWarningList) /\
  firstn 17 (errorCodesToString (2 ^ 31) ingoreWarningList) = bytes_of_string "ErrorCode  Reads:".
Proof.
  assert (H : 2 ^ 31 <= Z.land (u32 (2 ^ 31)) (lnot32 ingoreWarningList)) by (vm_compute; discriminate).
  split; [exact H | apply (errorCodesToString_high_bit (2 ^ 31) ingoreWarningList H)].
Defined.



End ErrorText.
