(* ===== verification/Codec.v ===== *)
(** * The binary codec of the device replies

    - [parsingRange] (src/Enum.cpp): the range byte of a colour or counts
      reply, three over-range flags and three base-3 digits;
    - [parseK_float] and [unpackK_float] (src/KClmtr.cpp): the two decoders
      of the 3-byte K-float (sign bit, 15-bit fraction, two's-complement
      exponent byte), one for live measurements (fraction over 2^16) and
      one for calibration matrices (fraction over 2^15);
    - [convertNumberToBinaryStr] (src/KClmtr.cpp): the K-float encoder used
      to store calibration files.

    The fixed-layout replies built on these decoders are in [Replies].

    Doubles are rationals (see the header of [Prelude]). *)

From Stdlib Require Import String Ascii ZArith QArith Qround Qpower Qabs Lqa Lia List Bool Morphisms.
From S2P Require Import Prelude ErrorCodes.
Import ListNotations.
Import KleinsErrorCodes.
Open Scope Z_scope.

Module Codec.

(** ** Range byte *)

(** [parsingRange(range, out)]: [out[i]] is first the flag bit [7 - i], then
    the loop from [i = 2] down to [0] adds twice the next base-3 digit of
    [range & 0x1f], and finally every entry is incremented. *)
Definition parsingRange (range : Z) : Z * Z * Z :=
  let flag i := if Z.land (Z.shiftl 1 (7 - i)) range =? 0 then 0 else 1 in
  let r := Z.land range 31 in
  let out2 := flag 2 + 2 * (r mod 3) in
  let r := r / 3 in
  let out1 := flag 1 + 2 * (r mod 3) in
  let r := r / 3 in
  let out0 := flag 0 + 2 * (r mod 3) in
  (out0 + 1, out1 + 1, out2 + 1).

(** ** K-float decoders *)

(** [parseK_float(MyString)]: the decoder of live XYZ values. *)
Definition parseK_float (MyString : list Z) : Q :=
  let MyInt1 := MyString.[0] in
  let MyInt2 := MyString.[1] in
  let MyInt3 := MyString.[2] in
  let '(MyInt1, NegFlag) :=
    if 127 <? MyInt1 then (MyInt1 - 128, -1) else (MyInt1, 1) in
  let MyFraction := inject_Z (MyInt1 * 256 + MyInt2) in
  let MyFraction := (inject_Z NegFlag * MyFraction / 256)%Q in
  let MyFraction := (MyFraction / 256)%Q in
  let MyInt3 := if 128 <? MyInt3 then MyInt3 - 256 else MyInt3 in
  (MyFraction * pow2 MyInt3)%Q.

(** [unpackK_float(PartString)]: the decoder of calibration matrices. *)
Definition unpackK_float (PartString : list Z) : Q :=
  let chr1 := PartString.[0] in
  let chr2 := PartString.[1] in
  let chr3 := PartString.[2] in
  let '(chr1, NegBit) := if 128 <=? chr1 then (chr1 - 128, -1) else (chr1, 1) in
  let chr3 := if 128 <? chr3 then chr3 - 256 else chr3 in
  let K_float := inject_Z (chr1 * 256) in
  let K_float := (K_float + inject_Z chr2)%Q in
  let K_float := (inject_Z NegBit * K_float)%Q in
  let K_float := (K_float / 32768)%Q in
  (K_float * pow2 chr3)%Q.

(** ** K-float encoder *)

(** [(int)(log(v) / log(2.0))] for [v > 0], with the exact logarithm: the
    floor of [log2 v] when [v >= 1], its ceiling below 1 (the cast
    truncates toward zero). *)
Definition trunc_log2 (v : Q) : Z :=
  if Qle_bool 1 v then Z.log2 (Qfloor v) else - Z.log2 (Qfloor (/ v)).

(** Lines 1619-1628 of [convertNumberToBinaryStr], for [v > 0]: the
    exponent, the rounded 15-bit fraction and its renormalisation. *)
Definition kfloat_fraction (v : Q) : Q * Z :=
  let expReal := trunc_log2 v + 1 in
  let fractionReal := (v / pow2 expReal)%Q in
  let fractionReal := inject_Z (Qtrunc (fractionReal * 128 * 256 + (1 # 2))) in
  if Qle_bool (128 * 256) fractionReal
  then ((fractionReal / 2)%Q, expReal + 1) else (fractionReal, expReal).

(** Lines 1630-1651: the three bytes (stored through [unsigned char], hence
    modulo 256) and the range check that sets [CAL_CONVERT_BINARY]. *)
Definition kfloat_bytes (NegBit : Z) (fractionReal : Q) (expReal error : Z)
    : list Z * Z :=
  let chr1 := Qtrunc (fractionReal / 256) in
  let chr2 := Qtrunc fractionReal - 256 * chr1 in
  let chr3 := expReal in
  let chr1 := if NegBit <? 0 then chr1 + 128 else chr1 in
  let chr3 := if chr3 <? 0 then chr3 + 256 else chr3 in
  let error :=
    if (256 <? chr1) || (chr1 <? 0) || (256 <? chr2) || (chr2 <? 0)
       || (256 <? chr3) || (chr3 <? 0)
    then Z.lor error CAL_CONVERT_BINARY else error in
  ([chr1 mod 256; chr2 mod 256; chr3 mod 256], error).

(** [convertNumberToBinaryStr(v, error)]: the encoded bytes and the
    updated error mask. *)
Definition convertNumberToBinaryStr (v : Q) (error : Z) : list Z * Z :=
  if Qeq_bool v 0 then ([0; 0; 0], error) else
  let '(NegBit, v) := if Qle_bool 0 v then (1, v) else (-1, (- v)%Q) in
  let '(fractionReal, expReal) := kfloat_fraction v in
  kfloat_bytes NegBit fractionReal expReal error.

(** The range byte the device sends for ranges [r0 r1 r2] in [1..6]: range
    [r] is flag [(r - 1) mod 2] plus digit [(r - 1) / 2]. *)
Definition encode_range (r0 r1 r2 : Z) : Z :=
  Z.lor (Z.shiftl ((r0 - 1) mod 2) 7) (Z.lor (Z.shiftl ((r1 - 1) mod 2) 6)
  (Z.lor (Z.shiftl ((r2 - 1) mod 2) 5)
         (9 * ((r0 - 1) / 2) + 3 * ((r1 - 1) / 2) + (r2 - 1) / 2))).


(** Every combination of three ranges in [1..6]. *)
Definition all_ranges : list (Z * Z * Z) :=
  let rs := [1; 2; 3; 4; 5; 6] in
  flat_map (fun a => flat_map (fun b => map (fun c => (a, b, c)) rs) rs) rs.

Definition triple_eqb (x y : Z * Z * Z) : bool :=
  let '(a, b, c) := x in let '(a', b', c') := y in (a =? a') && (b =? b') && (c =? c').

(** The magnitude field of a K-float: the low 7 bits of the first byte and
    the second byte. *)
Definition kfloat_mantissa (s : list Z) : Z :=
  (if 127 <? s.[0] then s.[0] - 128 else s.[0]) * 256 + s.[1].


(** ** Lemmas *)

Lemma Qfloor_log2_bounds (x : Q) :
  (1 <= x)%Q ->
  (pow2 (Z.log2 (Qfloor x)) <= x < pow2 (Z.log2 (Qfloor x) + 1))%Q.
Proof.
  intros Hx. set (n := Qfloor x).
  assert (Hn : 1 <= n) by (change 1 with (Qfloor 1); now apply Qfloor_resp_le).
  destruct (Z.log2_spec n) as [Hlo Hhi]; [lia|].
  pose proof (Z.log2_nonneg n).
  rewrite !pow2_of_Z by lia. split.
  - apply Qle_trans with (inject_Z n); [now rewrite <- Zle_Qle | apply Qfloor_le].
  - apply Qlt_le_trans with (inject_Z (n + 1)); [apply Qlt_floor|].
    rewrite <- Zle_Qle. rewrite Z.add_1_r. lia.
Qed.

(** The exponent [trunc_log2 v + 1] brackets [v] within a factor of 4. *)
Lemma trunc_log2_bounds (a : Q) :
  (0 < a)%Q -> (pow2 (trunc_log2 a - 1) <= a < pow2 (trunc_log2 a + 1))%Q.
Proof.
  intros Ha. unfold trunc_log2. destruct (Qle_bool 1 a) eqn:E.
  - apply Qle_bool_iff in E. destruct (Qfloor_log2_bounds a E) as [H1 H2].
    split; [|exact H2]. eapply Qle_trans; [|exact H1].
    apply pow2_le_mono. lia.
  - assert (Ha1 : (a < 1)%Q).
    { apply Qnot_le_lt. intros H. apply Qle_bool_iff in H. congruence. }
    assert (Hb : (1 <= / a)%Q).
    { apply Qlt_le_weak. change (/ 1 < / a)%Q.
      apply (Qinv_lt_contravar a 1); [exact Ha | lra | exact Ha1]. }
    destruct (Qfloor_log2_bounds (/ a) Hb) as [H1 H2].
    set (m := Z.log2 (Qfloor (/ a))) in *.
    pose proof (pow2_pos m) as Hp.
    rewrite pow2_succ in H2.
    replace (- m - 1) with (- (m + 1)) by lia.
    replace (- m + 1) with (- (m - 1)) by lia.
    rewrite !pow2_opp. rewrite <- (Qinv_involutive a).
    assert (Hia : (0 < / a)%Q) by (apply Qinv_lt_0_compat; exact Ha).
    split.
    + rewrite pow2_succ. apply Qlt_le_weak.
      apply (proj1 (Qinv_lt_contravar (/ a) (2 * pow2 m) Hia ltac:(lra))), H2.
    + pose proof (pow2_pos (m - 1)) as Hq.
      apply (proj1 (Qinv_lt_contravar (pow2 (m - 1)) (/ a) Hq Hia)).
      apply Qlt_le_trans with (pow2 m); [|exact H1].
      replace m with (m - 1 + 1) at 2 by lia. rewrite pow2_succ. lra.
Qed.



Lemma if_01_range (b : bool) : 0 <= (if b then 0 else 1) <= 1.
Proof. destruct b; lia. Qed.

#[export] Hint Resolve if_01_range : kclmtr.

Lemma in_all_ranges (a b c : Z) :
  1 <= a <= 6 -> 1 <= b <= 6 -> 1 <= c <= 6 -> In (a, b, c) all_ranges.
Proof.
  intros Ha Hb Hc. unfold all_ranges. apply in_flat_map.
  exists a. split; [simpl; lia|]. apply in_flat_map.
  exists b. split; [simpl; lia|]. apply in_map_iff.
  exists c. split; [reflexivity | simpl; lia].
Qed.

Lemma triple_eqb_eq (x y : Z * Z * Z) : triple_eqb x y = true -> x = y.
Proof.
  destruct x as [[a b] c], y as [[a' b'] c']. simpl.
  intros H. apply andb_prop in H as [H H3]. apply andb_prop in H as [H1 H2].
  apply Z.eqb_eq in H1, H2, H3. now subst.
Qed.

(** Rounding of the 15-bit fraction: [(int)(f * 128 * 256 + 0.5)] is within
    one half of [f * 2^15]. *)
Lemma kfloat_round (f : Q) :
  (1 # 4 <= f < 1)%Q ->
  let F := Qtrunc (f * 128 * 256 + (1 # 2)) in
  8192 <= F <= 32768 /\ (Qabs (inject_Z F - f * 32768) <= 1 # 2)%Q.
Proof.
  intros Hf F. unfold F. rewrite Qtrunc_nonneg by lra.
  set (x := (f * 128 * 256 + (1 # 2))%Q).
  pose proof (Qfloor_le x) as Hle. pose proof (Qlt_floor x) as Hlt.
  set (n := Qfloor x) in *. clearbody n. rewrite inject_Z_plus in Hlt.
  change (inject_Z 1) with 1%Q in Hlt.
  unfold x in Hle, Hlt. split; [split|].
  - assert (H : (8191 < inject_Z n)%Q) by lra.
    change 8191%Q with (inject_Z 8191) in H. rewrite <- Zlt_Qlt in H. lia.
  - assert (H : (inject_Z n < 32769)%Q) by lra.
    change 32769%Q with (inject_Z 32769) in H. rewrite <- Zlt_Qlt in H. lia.
  - apply Qabs_Qle_condition. split; lra.
Qed.

Lemma kfloat_err_bound (F : Z) (f P a : Q) :
  (0 < P)%Q -> (a == f * P)%Q ->
  (Qabs (inject_Z F - f * 32768) <= 1 # 2)%Q -> (P <= 4 * a)%Q ->
  (Qabs (inject_Z F * P / 32768 - a) <= a / 16384)%Q.
Proof.
  intros HP Ha Herr H4.
  assert (Hx : (inject_Z F * P / 32768 - a ==
                (inject_Z F - f * 32768) * (P / 32768))%Q) by (rewrite Ha; field).
  rewrite Hx, Qabs_Qmult, (Qabs_pos (P / 32768)).
  2: { apply Qle_shift_div_l; lra. }
  apply Qle_trans with ((1 # 2) * (P / 32768))%Q.
  - apply Qmult_le_compat_r; [exact Herr|]. apply Qle_shift_div_l; lra.
  - setoid_replace ((1 # 2) * (P / 32768))%Q with (P * (1 # 65536))%Q by field.
    setoid_replace (a / 16384)%Q with (a * (1 # 16384))%Q by field. lra.
Qed.

(** The normalised fraction and exponent of a positive value. *)
Lemma kfloat_fraction_spec (a : Q) :
  (0 < a)%Q ->
  let '(fr, e) := kfloat_fraction a in
  exists n : Z, (fr == inject_Z n)%Q /\ 8192 <= n <= 32767 /\
    (pow2 (e - 3) <= a < pow2 e)%Q /\
    (Qabs (inject_Z n * pow2 e / 32768 - a) <= a / 16384)%Q.
Proof.
  intros Ha. unfold kfloat_fraction.
  destruct (trunc_log2_bounds a Ha) as [Hlo Hhi].
  set (e := trunc_log2 a + 1) in *.
  replace (trunc_log2 a - 1) with (e - 2) in Hlo by (unfold e; lia).
  assert (HP : (pow2 e == 4 * pow2 (e - 2))%Q).
  { replace e with (e - 2 + 1 + 1) at 1 by lia. rewrite !pow2_succ. ring. }
  assert (HP3 : (pow2 (e - 2) == 2 * pow2 (e - 3))%Q).
  { replace (e - 2) with (e - 3 + 1) by lia. apply pow2_succ. }
  pose proof (pow2_pos (e - 3)) as Hp3.
  set (P := pow2 e) in *. set (f := (a / P)%Q).
  assert (HaP : (a == f * P)%Q) by (unfold f; field; lra).
  assert (Hf : (1 # 4 <= f < 1)%Q).
  { unfold f. split.
    - apply Qle_shift_div_l; lra.
    - apply Qlt_shift_div_r; lra. }
  destruct (kfloat_round f Hf) as [HF Herr].
  set (F := Qtrunc (f * 128 * 256 + (1 # 2))) in *.
  destruct (Qle_bool (128 * 256) (inject_Z F)) eqn:E; cbn beta iota.
  - apply Qle_bool_iff in E. assert (HF' : F = 32768).
    { assert (inject_Z 32768 <= inject_Z F)%Q by exact E. rewrite <- Zle_Qle in H. lia. }
    exists 16384. split; [rewrite HF'; reflexivity|]. split; [lia|]. split; [split|].
    + replace (e + 1 - 3) with (e - 2) by lia. lra.
    + rewrite pow2_succ. fold P. lra.
    + rewrite pow2_succ. fold P.
      setoid_replace (inject_Z 16384 * (2 * P) / 32768)%Q
        with (inject_Z F * P / 32768)%Q by (rewrite HF'; simpl; field).
      apply (kfloat_err_bound F f P a); lra.
  - assert (HF' : F < 32768).
    { destruct (Z.ltb_spec F 32768) as [|Hge]; [assumption|].
      rewrite Zle_Qle in Hge. change (inject_Z 32768) with (128 * 256)%Q in Hge.
      apply Qle_bool_iff in Hge. congruence. }
    exists F. split; [reflexivity|]. split; [lia|]. split; [split|].
    + eapply Qle_trans; [apply pow2_le_mono with (f := e - 2); lia | lra].
    + exact Hhi.
    + apply (kfloat_err_bound F f P a); lra.
Qed.


(** Packing a 15-bit magnitude, a sign and an exponent in [-127, 128]:
    no error is flagged and the calibration decoder reads the value back. *)
Lemma kfloat_bytes_spec (g n e error : Z) :
  (g = 1 \/ g = -1) -> 0 <= n <= 32767 -> -127 <= e <= 128 ->
  let '(bytes, error') := kfloat_bytes g (inject_Z n) e error in
  error' = error /\ bytes_ok bytes /\
  (unpackK_float bytes == inject_Z g * (inject_Z n * pow2 e / 32768))%Q.
Proof.
  intros Hg Hn He. unfold kfloat_bytes.
  rewrite (Qtrunc_div_pos n 256) by lia. rewrite Qtrunc_Z.
  assert (Hq : 0 <= n / 256 < 128) by (split; [apply Z.div_pos | apply Z.div_lt_upper_bound]; lia).
  pose proof (Z.mod_pos_bound n 256) as Hr. rewrite Z.mod_eq in Hr by lia.
  set (q := n / 256) in *. set (r := n - 256 * q) in *.
  assert (Hnqr : n = q * 256 + r) by (unfold r; lia).
  clearbody q r.
  destruct Hg as [-> | ->]; destruct (Z.ltb_spec e 0); zbool;
    cbv beta iota zeta;
    (split; [reflexivity|]; split;
     [repeat constructor; unfold is_byte;
      match goal with |- context [?x mod 256] => pose proof (Z.mod_pos_bound x 256) end; lia|]);
    unfold unpackK_float, byte_at; simpl nth;
    rewrite ?(Z.mod_small (q + 128) 256), ?(Z.mod_small q 256), ?(Z.mod_small r 256),
      ?(Z.mod_small (e + 256) 256), ?(Z.mod_small e 256) by lia;
    zbool; subst n; rewrite ?inject_Z_plus, ?inject_Z_mult;
    replace (e + 256 - 256) with e by lia; rewrite ?Z.add_simpl_r; try field.
Qed.


#[export] Instance kfloat_bytes_Proper :
  Proper (eq ==> Qeq ==> eq ==> eq ==> eq) kfloat_bytes.
Proof.
  intros g g' <- x y Hxy e e' <- er er' <-. unfold kfloat_bytes.
  rewrite (Qtrunc_comp (x / 256) (y / 256)) by (now rewrite Hxy).
  now rewrite (Qtrunc_comp x y Hxy).
Qed.

(** ** Properties *)

(** For every byte the device may send, the three decoded ranges lie
    in 1..6. *)
Theorem parsingRange_bounds (range : Z) :
  let '(r0, r1, r2) := parsingRange range in
  1 <= r0 <= 6 /\ 1 <= r1 <= 6 /\ 1 <= r2 <= 6.
Proof.
  unfold parsingRange.
  pose proof (land_31_range range).
  set (r := Z.land range 31).
  pose proof (mod3_range r). pose proof (mod3_range (r / 3)).
  pose proof (mod3_range (r / 3 / 3)).
  repeat match goal with |- context [if ?b then 0 else 1] =>
    pose proof (if_01_range b); destruct b end; lia.
Qed.

Lemma parsingRange_encode (r0 r1 r2 : Z) :
  1 <= r0 <= 6 -> 1 <= r1 <= 6 -> 1 <= r2 <= 6 ->
  parsingRange (encode_range r0 r1 r2) = (r0, r1, r2).
Proof.
  intros H0 H1 H2. apply triple_eqb_eq.
  assert (Hall : forallb (fun t => let '(a, b, c) := t in
                   triple_eqb (parsingRange (encode_range a b c)) (a, b, c))
                 all_ranges = true) by (vm_compute; reflexivity).
  rewrite forallb_forall in Hall.
  exact (Hall _ (in_all_ranges r0 r1 r2 H0 H1 H2)).
Qed.

(** Decoding is the inverse of the device's encoding of three ranges:
    every triple of ranges in 1..6 survives the round trip. *)
Theorem parsingRange_encode_range (r0 r1 r2 : Z) :
  1 <= r0 <= 6 -> 1 <= r1 <= 6 -> 1 <= r2 <= 6 ->
  parsingRange (encode_range r0 r1 r2) = (r0, r1, r2).
Proof. exact (parsingRange_encode r0 r1 r2). Qed.

Lemma parsingRange_encode_range_witness :
  parsingRange (encode_range 6 3 2) = (6, 3, 2).
Proof. apply parsingRange_encode_range; lia. Defined.

(** C34: the live-measurement decoder always yields exactly half of the
    calibration-matrix decoder on the same three bytes (the fraction is
    divided by 2^16 instead of 2^15). *)
Theorem parseK_float_half_unpackK_float (s : list Z) :
  (parseK_float s == unpackK_float s / 2)%Q.
Proof.
  unfold parseK_float, unpackK_float.
  destruct (127 <? s.[0]) eqn:E1, (128 <=? s.[0]) eqn:E2;
    [| apply Z.ltb_lt in E1; apply Z.leb_gt in E2; lia
     | apply Z.ltb_ge in E1; apply Z.leb_le in E2; lia |];
    rewrite ?inject_Z_plus, ?inject_Z_mult; field.
Qed.

(** A live K-float decodes to zero exactly when its 15 magnitude bits
    are zero, whatever its sign and exponent. *)
Theorem parseK_float_zero_iff (s : list Z) :
  (parseK_float s == 0)%Q <-> kfloat_mantissa s = 0.
Proof.
  assert (Hm : (parseK_float s == inject_Z (if 127 <? s.[0] then -1 else 1)
                  * inject_Z (kfloat_mantissa s) / 65536
                  * pow2 (if 128 <? s.[2] then s.[2] - 256 else s.[2]))%Q).
  { unfold parseK_float, kfloat_mantissa.
    destruct (127 <? s.[0]); rewrite ?inject_Z_plus, ?inject_Z_mult; field. }
  rewrite Hm. set (e := if 128 <? s.[2] then _ else _).
  set (g := if 127 <? s.[0] then -1 else 1).
  assert (Hg : ~ inject_Z g == 0) by (unfold g; destruct (127 <? s.[0]); discriminate).
  pose proof (pow2_pos e) as Hp.
  split; intros H.
  - apply inject_Z_injective.
    assert (Hx : inject_Z (kfloat_mantissa s) ==
                 inject_Z g * inject_Z (kfloat_mantissa s) / 65536 * pow2 e
                 * (65536 / (inject_Z g * pow2 e))) by (field; split; [lra | exact Hg]).
    rewrite Hx, H. reflexivity.
  - rewrite H. simpl. field.
Qed.

(** The encoder on a non-zero magnitude in [[2^-120, 2^120]]: the
    decoded bytes are within 2^-14 of the value, relative to its
    magnitude, and the error mask is unchanged. *)
Lemma convertNumberToBinaryStr_close (v : Q) (error : Z) :
  (pow2 (-120) <= Qabs v <= pow2 120)%Q ->
  let '(bytes, error') := convertNumberToBinaryStr v error in
  error' = error /\ bytes_ok bytes /\
  (Qabs (unpackK_float bytes - v) <= Qabs v / 16384)%Q.
Proof.
  intros [Hlo Hhi]. pose proof (pow2_pos (-120)) as Hp.
  unfold convertNumberToBinaryStr.
  destruct (Qeq_bool v 0) eqn:E0.
  { apply Qeq_bool_iff in E0. rewrite E0 in Hlo. change (Qabs 0) with 0%Q in Hlo. lra. }
  assert (Hsgn : exists g a, (g = 1 \/ g = -1) /\ (0 < a)%Q /\ (v == inject_Z g * a)%Q /\
             (Qabs v == a)%Q /\
             (if Qle_bool 0 v then (1, v) else (-1, (- v)%Q)) = (g, a)).
  { destruct (Qle_bool 0 v) eqn:Es.
    - apply Qle_bool_iff in Es. exists 1, v. rewrite Qabs_pos in Hlo |- * by exact Es.
      split; [now left|]. split; [lra|]. split; [simpl; ring|]. now split.
    - assert (Hn : (v <= 0)%Q).
      { apply Qlt_le_weak, Qnot_le_lt. intros H. apply Qle_bool_iff in H. congruence. }
      exists (-1), (- v)%Q. rewrite Qabs_neg in Hlo |- * by exact Hn.
      split; [now right|]. split; [lra|]. split; [simpl; ring|]. now split. }
  destruct Hsgn as (g & a & Hg & Ha & Hva & Habs & ->).
  pose proof (kfloat_fraction_spec a Ha) as Hf.
  destruct (kfloat_fraction a) as [fr e].
  destruct Hf as (n & Hfr & Hn & [He1 He2] & Herr).
  rewrite Habs in Hlo, Hhi.
  assert (Hemax : e - 3 <= 120) by (apply pow2_le_inv; lra).
  assert (Hemin : -120 < e) by (apply pow2_lt_inv; lra).
  rewrite (kfloat_bytes_Proper g g eq_refl fr (inject_Z n) Hfr e e eq_refl error error eq_refl).
  pose proof (kfloat_bytes_spec g n e error Hg ltac:(lia) ltac:(lia)) as Hb.
  destruct (kfloat_bytes g (inject_Z n) e error) as [bytes error'].
  destruct Hb as (-> & Hok & Hval). split; [reflexivity|]. split; [exact Hok|].
  rewrite Habs, Hval, Hva.
  setoid_replace (inject_Z g * (inject_Z n * pow2 e / 32768) - inject_Z g * a)%Q
    with (inject_Z g * (inject_Z n * pow2 e / 32768 - a))%Q by ring.
  rewrite Qabs_Qmult.
  assert (Hg1 : (Qabs (inject_Z g) == 1)%Q) by (destruct Hg as [-> | ->]; reflexivity).
  rewrite Hg1, Qmult_1_l. exact Herr.
Qed.

(** C33: encoding a calibration coefficient and decoding it with the
    calibration decoder gives back the value within its quantisation (a
    relative error of at most 2^-14) without flagging a conversion error,
    for zero and for every magnitude between 2^-120 and 2^120; zero is
    encoded as three zero bytes, which decode to 0. *)
Theorem convertNumberToBinaryStr_roundtrip (v : Q) (error : Z) :
  (v == 0 \/ pow2 (-120) <= Qabs v <= pow2 120)%Q ->
  snd (convertNumberToBinaryStr v error) = error /\
  bytes_ok (fst (convertNumberToBinaryStr v error)) /\
  (Qabs (unpackK_float (fst (convertNumberToBinaryStr v error)) - v) <= Qabs v / 16384)%Q.
Proof.
  intros [H0|Hr].
  - unfold convertNumberToBinaryStr. replace (Qeq_bool v 0) with true by (symmetry; now apply Qeq_bool_iff).
    cbn [fst snd]. split; [reflexivity|]. split; [repeat constructor; unfold is_byte; lia|].
    rewrite H0. vm_compute. discriminate.
  - pose proof (convertNumberToBinaryStr_close v error Hr) as H.
    destruct (convertNumberToBinaryStr v error) as [bytes error']. exact H.
Qed.

Lemma convertNumberToBinaryStr_roundtrip_witness :
  (95043 # 1000 == 0 \/ pow2 (-120) <= Qabs (95043 # 1000) <= pow2 120)%Q /\
  snd (convertNumberToBinaryStr (95043 # 1000) NONE) = NONE /\
  bytes_ok (fst (convertNumberToBinaryStr (95043 # 1000) NONE)) /\
  (Qabs (unpackK_float (fst (convertNumberToBinaryStr (95043 # 1000) NONE)) - (95043 # 1000)) <=
   Qabs (95043 # 1000) / 16384)%Q.
Proof.
  assert (H : (95043 # 1000 == 0 \/ pow2 (-120) <= Qabs (95043 # 1000) <= pow2 120)%Q)
    by (right; split; vm_compute; discriminate).
  split; [exact H | exact (convertNumberToBinaryStr_roundtrip _ NONE H)].
Defined.


End Codec.
