(* ===== verification/Replies.v ===== *)
(** * Fixed-layout replies: [Counts] (src/Counts.cpp) and [BlackMatrix]
      (src/BlackMatrix.h)

    The counts command [M6] answers with 20 bytes: six 16-bit big-endian
    sensor counts (top and bottom sensor, three channels each), a 16-bit
    thermal reading, the two thermal thresholds, the range byte and the
    error token.  The black-calibration commands answer with nineteen
    16-bit words (six ranges of three channels and the temperature) that
    must each lie in [500, 2500], followed at offset 41 by the error token.

    The decoders are [Counts_of_string] (the constructor [Counts(const
    std::string &)]) and [BlackMatrix_of_read] (the constructor
    [BlackMatrix(const std::string &, unsigned int)]). *)

From Stdlib Require Import String Ascii ZArith QArith Lqa Lia List Bool.
From S2P Require Import Prelude ErrorCodes Codec.
Import ListNotations.
Import KleinsErrorCodes Codec.
Open Scope Z_scope.

Module Replies.

(** ** Counts *)

Record Counts := mkCounts {
  th1 : Z;
  th2 : Z;
  therm : Z;
  theCounts : list (list Z);   (** [Matrix<int>] 2 x 3 *)
  errorcode : Z;
  redrange : Z;
  greenrange : Z;
  bluerange : Z
}.

(** [Counts(unsigned int error)]; the ranges keep the default
    [MeasurementRange()] value 0. *)
Definition Counts_of_error (error : Z) : Counts :=
  mkCounts 0 0 0 [[0; 0; 0]; [0; 0; 0]] error 0 0 0.

(** [Counts()]: the default constructor; it leaves the three ranges
    uninitialised, read 0 here. *)
Definition Counts_default : Counts := mkCounts 0 0 0 [[0; 0; 0]; [0; 0; 0]] 0 0 0 0.

(** [Counts(const std::string &s)]. *)
Definition Counts_of_string (s : list Z) : Counts :=
  let word i := s.[2 * i] * 256 + s.[2 * i + 1] in
  let '(r0, r1, r2) := parsingRange s.[16] in
  mkCounts s.[14] s.[15] (s.[12] * 256 + s.[13])
    [[word 0%nat; word 1%nat; word 2%nat]; [word 3%nat; word 4%nat; word 5%nat]]
    (getErrorCodeFromKlein (substr s 18 1)) r0 r1 r2.

(** The frame the device sends for given fields (bytes 17 and 19 are
    filler). *)
Definition counts_frame (top bot : list Z) (therm th1 th2 r0 r1 r2 tok : Z)
    : list Z :=
  flat_map (fun w => [w / 256; w mod 256]) (top ++ bot) ++
  [therm / 256; therm mod 256; th1; th2; encode_range r0 r1 r2; 0; tok; 0].

(** ** BlackMatrix *)

Record BlackMatrix := mkBlackMatrix {
  bm_range : list (list Q);    (** [range[6][3]] *)
  bm_therm : Q;
  bm_errorcode : Z
}.

(** [BlackMatrix(unsigned int error)]. *)
Definition BlackMatrix_of_error (error : Z) : BlackMatrix :=
  mkBlackMatrix (repeat (repeat 0%Q 3) 6) 0 error.

(** [fromMatrix(matrix)]: [range[5 - k][i] = matrix[i + 3k]],
    [therm = matrix[18]]. *)
Definition fromMatrix (matrix : list Q) : list (list Q) * Q :=
  let row k := [nth (3 * k) matrix 0%Q; nth (3 * k + 1) matrix 0%Q;
                nth (3 * k + 2) matrix 0%Q] in
  ([row 5%nat; row 4%nat; row 3%nat; row 2%nat; row 1%nat; row 0%nat],
   nth 18 matrix 0%Q).

(** The 16-bit word [i] of a black-calibration reply. *)
Definition black_word (read : list Z) (i : nat) : Z :=
  read.[(i + 1) * 2] * 256 + read.[(i + 1) * 2 + 1].

(** The parsing loop of the constructor, from index [i] with [n] words
    left: a word outside [500, 2500] ends the loop ([i = 19]), zeroes the
    whole matrix and sets [BLACK_PARSING_ROM] in the member [errorcode]. *)
Fixpoint black_loop (read : list Z) (i n : nat) (matrix : list Q) (errorcode : Z)
    : list Q * Z :=
  match n with
  | O => (matrix, errorcode)
  | S n' =>
      let v := black_word read i in
      let matrix := list_set matrix i (inject_Z v) in
      if (v <? 500) || (2500 <? v)
      then (repeat 0%Q 19, Z.lor errorcode BLACK_PARSING_ROM)
      else black_loop read (S i) n' matrix errorcode
  end.

(** [BlackMatrix(const std::string &read, unsigned int error)]: the loop,
    [fromMatrix], then [errorcode = error | getErrorCodeFromKlein(...)],
    which overwrites the member the loop updated.  The local array starts
    uninitialised; the model starts it at zero (every entry is written
    before it is read). *)
Definition BlackMatrix_of_read (read : list Z) (error : Z) : BlackMatrix :=
  let '(matrix, errorcode) := black_loop read 0 19 (repeat 0%Q 19) 0 in
  let '(range, therm) := fromMatrix matrix in
  let errorcode := Z.lor error (getErrorCodeFromKlein (substr read 41 1)) in
  mkBlackMatrix range therm errorcode.

(** All nineteen words lie in [500, 2500]. *)
Definition black_words_ok (read : list Z) : bool :=
  forallb (fun i => (500 <=? black_word read i) && (black_word read i <=? 2500))
          (seq 0 19).

(** [BlackMatrix(double matrix[19], error)]: [fromMatrix], then the
    error. *)
Definition BlackMatrix_of_matrix (matrix : list Q) (error : Z) : BlackMatrix :=
  let '(range, therm) := fromMatrix matrix in mkBlackMatrix range therm error.

(** [toMatrix(matrix)]: [matrix[i + 3k] = range[5 - k][i]] for the six
    ranges, then [matrix[18] = therm]. *)
Definition toMatrix (b : BlackMatrix) : list Q :=
  let at_ k i := nth i (nth (5 - k) (bm_range b) []) 0%Q in
  flat_map (fun k => [at_ k 0%nat; at_ k 1%nat; at_ k 2%nat]) (seq 0 6) ++ [bm_therm b].

(** ** Lemmas *)

Lemma word_split (w : Z) : 0 <= w < 65536 -> w / 256 * 256 + w mod 256 = w.
Proof. intros H. pose proof (Z.div_mod w 256). lia. Qed.

Lemma black_loop_bad (read : list Z) (n : nat) :
  forall i matrix errorcode,
  (exists k, (i <= k < i + n)%nat /\
     ((black_word read k <? 500) || (2500 <? black_word read k)) = true) ->
  fst (black_loop read i n matrix errorcode) = repeat 0%Q 19.
Proof.
  induction n as [|n IH]; intros i matrix errorcode [k [Hk Hbad]]; [lia|].
  simpl. destruct ((black_word read i <? 500) || (2500 <? black_word read i)) eqn:E;
    [reflexivity|].
  apply IH. exists k. split; [|exact Hbad].
  destruct (Nat.eq_dec k i) as [->|]; [congruence | lia].
Qed.

Lemma forallb_false {A : Type} (f : A -> bool) (l : list A) :
  forallb f l = false -> exists x, In x l /\ f x = false.
Proof.
  induction l as [|y r IH]; simpl; [discriminate|].
  destruct (f y) eqn:E; simpl; intros H.
  - destruct (IH H) as [x [Hx Hf]]. eauto.
  - eauto.
Qed.

Lemma black_words_ok_false (read : list Z) :
  black_words_ok read = false ->
  exists k, (0 <= k < 0 + 19)%nat /\
    ((black_word read k <? 500) || (2500 <? black_word read k)) = true.
Proof.
  unfold black_words_ok. intros H.
  destruct (forallb_false _ _ H) as [k [Hin Hf]].
  apply in_seq in Hin. exists k. split; [lia|].
  destruct (Z.leb_spec 500 (black_word read k)), (Z.leb_spec (black_word read k) 2500);
    simpl in Hf; try discriminate; zbool; reflexivity.
Qed.

(** ** Properties *)

(** The counts decoder reads back every field of a counts frame:
    the six 16-bit counts, the 16-bit thermal reading, both thresholds,
    the three ranges and the error token. *)
Theorem Counts_of_string_counts_frame (top bot : list Z) (therm th1 th2 r0 r1 r2 tok : Z) :
  length top = 3%nat -> length bot = 3%nat ->
  Forall (fun w => 0 <= w < 65536) (top ++ bot) -> 0 <= therm < 65536 ->
  1 <= r0 <= 6 -> 1 <= r1 <= 6 -> 1 <= r2 <= 6 ->
  Counts_of_string (counts_frame top bot therm th1 th2 r0 r1 r2 tok) =
  mkCounts th1 th2 therm [top; bot] (getErrorCodeFromKlein [tok]) r0 r1 r2.
Proof.
  intros Ht Hb Hw Hth H0 H1 H2.
  destruct top as [|a [|b [|c [|]]]]; try discriminate.
  destruct bot as [|d [|e [|f [|]]]]; try discriminate.
  simpl in Hw. repeat match goal with H : Forall _ (_ :: _) |- _ => inversion_clear H end.
  unfold Counts_of_string, counts_frame.
  cbn [flat_map app byte_at nth substr firstn skipn Nat.mul Nat.add].
  rewrite parsingRange_encode by assumption.
  rewrite !word_split by assumption. reflexivity.
Qed.

Lemma Counts_of_string_counts_frame_witness :
  Counts_of_string (counts_frame [1000; 2000; 65535] [0; 1; 256] 300 100 150 6 1 3 (chr "L")) =
  mkCounts 100 150 300 [[1000; 2000; 65535]; [0; 1; 256]] (getErrorCodeFromKlein [chr "L"]) 6 1 3.
Proof.
  apply Counts_of_string_counts_frame; try reflexivity; try lia.
  repeat constructor; lia.
Defined.

(** C36: when a black-calibration word lies outside [500, 2500], the
    constructor discards the whole matrix but the [BLACK_PARSING_ROM] bit
    it sets is overwritten by the final assignment of [errorcode], so the
    caller sees a zero matrix with no parsing error. *)
Theorem BlackMatrix_of_read_loses_parsing_error (read : list Z) (error : Z) :
  black_words_ok read = false -> has_flag error BLACK_PARSING_ROM = false ->
  bm_range (BlackMatrix_of_read read error) = repeat (repeat 0%Q 3) 6 /\
  has_flag (bm_errorcode (BlackMatrix_of_read read error)) BLACK_PARSING_ROM = false.
Proof.
  intros Hbad Herr. unfold BlackMatrix_of_read.
  pose proof (black_loop_bad read 19 0 (repeat 0%Q 19) 0 (black_words_ok_false read Hbad)) as H.
  destruct (black_loop read 0 19 (repeat 0%Q 19) 0) as [matrix ec]. simpl in H. subst matrix.
  simpl. split; [reflexivity|].
  rewrite has_flag_lor, Herr. unfold getErrorCodeFromKlein.
  repeat (destruct (list_eq_dec Z.eq_dec _ _); [reflexivity|]). reflexivity.
Qed.

Lemma BlackMatrix_of_read_loses_parsing_error_witness :
  black_words_ok (repeat 0 42 ++ [chr "0"]) = false /\
  has_flag NONE BLACK_PARSING_ROM = false /\
  bm_range (BlackMatrix_of_read (repeat 0 42 ++ [chr "0"]) NONE) = repeat (repeat 0%Q 3) 6 /\
  has_flag (bm_errorcode (BlackMatrix_of_read (repeat 0 42 ++ [chr "0"]) NONE)) BLACK_PARSING_ROM = false.
Proof.
  assert (H1 : black_words_ok (repeat 0 42 ++ [chr "0"]) = false) by reflexivity.
  assert (H2 : has_flag NONE BLACK_PARSING_ROM = false) by reflexivity.
  split; [exact H1|]. split; [exact H2|].
  exact (BlackMatrix_of_read_loses_parsing_error _ _ H1 H2).
Defined.

(** The shape of [range[6][3]]. *)
Definition black_shape (b : BlackMatrix) : Prop :=
  length (bm_range b) = 6%nat /\ Forall (fun r => length r = 3%nat) (bm_range b).

(** [fromMatrix] and [toMatrix] are inverse: the 19 doubles written
    by [toMatrix] rebuild the same [BlackMatrix], and a 19-entry array
    read by [fromMatrix] is written back unchanged. *)
Theorem toMatrix_fromMatrix (matrix : list Q) (b : BlackMatrix) (error : Z) :
  (length matrix = 19%nat -> toMatrix (BlackMatrix_of_matrix matrix error) = matrix) /\
  (black_shape b -> BlackMatrix_of_matrix (toMatrix b) (bm_errorcode b) = b).
Proof.
  split.
  - intros Hl. do 19 (destruct matrix as [|? matrix]; [discriminate|]).
    destruct matrix; [reflexivity | discriminate].
  - destruct b as [range therm err]. intros [Hl Hr]. cbn in Hl, Hr.
    do 6 (destruct range as [|? range]; [discriminate|]).
    destruct range; [|discriminate].
    repeat match goal with
           | H : Forall _ (_ :: _) |- _ => inversion H; subst; clear H
           end.
    repeat match goal with
           | H : length ?r = 3%nat |- _ =>
               do 3 (destruct r as [|? r]; [discriminate|]); destruct r; [clear H|discriminate]
           end.
    reflexivity.
Qed.

Lemma toMatrix_fromMatrix_witness :
  let b := mkBlackMatrix [[1;2;3];[4;5;6];[7;8;9];[10;11;12];[13;14;15];[16;17;18]]%Q 19%Q 0 in
  black_shape b /\ BlackMatrix_of_matrix (toMatrix b) (bm_errorcode b) = b.
Proof.
  intros b. assert (H : black_shape b) by (split; [reflexivity | repeat constructor]).
  split; [exact H | apply (proj2 (toMatrix_fromMatrix [] b 0) H)].
Defined.

(** The [Counts] read from any reply holds values of the types the
    C++ struct gives them: the six counts and the thermal reading are
    16-bit words, the thresholds bytes, the error a single bit or
    [NONE], and the three ranges values of [MeasurementRange] (1 to
    6). *)
Theorem Counts_of_string_typed (s : list Z) :
  bytes_ok s ->
  let c := Counts_of_string s in
  0 <= th1 c < 256 /\ 0 <= th2 c < 256 /\ 0 <= therm c < 65536 /\
  length (theCounts c) = 2%nat /\
  Forall (fun row => length row = 3%nat /\ Forall (fun w => 0 <= w < 65536) row) (theCounts c) /\
  (errorcode c = NONE \/ In (errorcode c) all_error_codes) /\
  1 <= redrange c <= 6 /\ 1 <= greenrange c <= 6 /\ 1 <= bluerange c <= 6.
Proof.
  intros Hb. unfold Counts_of_string.
  pose proof (parsingRange_bounds s.[16]) as Hr.
  destruct (parsingRange s.[16]) as [[r0 r1] r2]. cbn [th1 th2 therm theCounts errorcode redrange greenrange bluerange].
  assert (Hw : forall i : nat, 0 <= s.[2 * i] * 256 + s.[2 * i + 1] < 65536).
  { intros i. pose proof (byte_at_ok s (2 * i) Hb). pose proof (byte_at_ok s (2 * i + 1) Hb).
    unfold is_byte in *. lia. }
  pose proof (byte_at_ok s 14 Hb). pose proof (byte_at_ok s 15 Hb). unfold is_byte in *.
  pose proof (Hw 6%nat) as H6. change (2 * 6)%nat with 12%nat in H6. change (12 + 1)%nat with 13%nat in H6.
  repeat split; try lia.
  - repeat constructor; apply Hw.
  - destruct (in_dec (list_eq_dec Z.eq_dec) (substr s 18 1) klein_tokens) as [Hi|Hn].
    + right. apply (proj2 (getErrorCodeFromKlein_single_bit _)), Hi.
    + left. apply (proj1 (getErrorCodeFromKlein_single_bit _)), Hn.
Qed.

Lemma Counts_of_string_typed_witness :
  let s := counts_frame [100; 200; 300] [400; 500; 600] 3000 100 120 1 4 6 (chr "u") in
  bytes_ok s /\
  let c := Counts_of_string s in
  0 <= th1 c < 256 /\ 0 <= th2 c < 256 /\ 0 <= therm c < 65536 /\
  length (theCounts c) = 2%nat /\
  Forall (fun row => length row = 3%nat /\ Forall (fun w => 0 <= w < 65536) row) (theCounts c) /\
  (errorcode c = NONE \/ In (errorcode c) all_error_codes) /\
  1 <= redrange c <= 6 /\ 1 <= greenrange c <= 6 /\ 1 <= bluerange c <= 6.
Proof.
  intros s. assert (Hb : bytes_ok s) by (unfold bytes_ok; vm_compute; repeat constructor; discriminate).
  split; [exact Hb | exact (Counts_of_string_typed s Hb)].
Defined.

End Replies.
