(* ===== verification/Protocol.v ===== *)
(** * The command protocol: [sendMessageToSerialPort] and
      [readFromSerialPort] (src/KClmtr.cpp) over the POSIX [SerialPort]
      (src/SerialPort.cpp)

    The transport is a scripted serial port.  Its state is whether the
    device is still there ([port_open], what [isOpen()]'s [tcgetattr]
    answers), the bytes received and not yet read ([rx]), the script of
    what happens during each [sleep(50)] of the polling loop ([script]: a
    chunk of bytes arrives, or the device is unplugged) and the log of
    written commands ([tx]).

    [readExisting] follows the POSIX branch of src/SerialPort.cpp: it asks
    [ioctl(FIONREAD)] how many bytes are waiting, with [count] initialised
    to 1; when the device is gone the [ioctl] fails, [count] stays 1 and
    [readExisting] returns one NUL byte. *)

From Stdlib Require Import String Ascii ZArith List Lia Bool.
From S2P Require Import Prelude ErrorCodes.
Import ListNotations.
Import KleinsErrorCodes.
Open Scope Z_scope.

Module Protocol.

(** ** Commands (KClmtr.cpp lines 40-67) *)

Record command := mkCommand {
  commandString : string;
  expected : Z;
  timeout : Z
}.

Definition BLACKCAL_RAM := mkCommand "B4" 43 2.
Definition BLACKCAL_STORE := mkCommand "B7" 2 1.
Definition BLACKCAL_FLASH := mkCommand "B8" 43 2.
Definition BLACKCAL_NEW_RAM := mkCommand "B9" 43 8.
Definition BLACKCAL_COEFFICIENTMATRIX := mkCommand "S0" 133 2.
Definition CALFILE_INCOMING := mkCommand "D1" 2 2.
Definition CALFILE_FILELIST := mkCommand "D7" 1925 6.
Definition CALFILE_SAVING := mkCommand "D9" 2 2.
Definition AIMINGLIGHTS_OFF := mkCommand "L0" 0 0.
Definition AIMINGLIGHTS_ON := mkCommand "L1" 0 0.
Definition COUNTS_4PERSECOND := mkCommand "M6" 20 2.
Definition COLOR_2PERSECOND := mkCommand "N7" 15 1.
Definition COLOR_4PERSECOND := mkCommand "N6" 15 1.
Definition COLOR_8PERSECOND := mkCommand "N5" 15 1.
Definition COLOR_16PERSECOND := mkCommand "N4" 15 1.
Definition DEVICE_INFO := mkCommand "P0" 21 1.
Definition FLICKER_INFO := mkCommand "P4" 613 5.
Definition FLICKER_256PERSECOND := mkCommand "T2" (-1) 2.
Definition FLICKER_384PERSECOND := mkCommand "T1" (-1) 2.
Definition RANGE_FIX1 := mkCommand "J1" 1 2.
Definition RANGE_FIX2 := mkCommand "J2" 1 2.
Definition RANGE_FIX3 := mkCommand "J3" 1 2.
Definition RANGE_FIX4 := mkCommand "J4" 1 2.
Definition RANGE_FIX5 := mkCommand "J5" 1 2.
Definition RANGE_FIX6 := mkCommand "J6" 1 2.
Definition RANGE_FIXCURRENT := mkCommand "J7" 1 2.
Definition RANGE_AUTO := mkCommand "J8" 1 2.
Definition DUMMY := mkCommand "X9" (-1) 1.

(** ** The scripted port *)

Inductive event :=
| Arrive (bs : list Z)   (** bytes received during one [sleep(50)] *)
| Unplug.                (** the device is disconnected *)

Record Port := mkPort {
  port_open : bool;
  rx : list Z;
  script : list event;
  tx : list (list Z)
}.

(** [SerialPort::readExisting()]. *)
Definition readExisting (p : Port) : list Z * Port :=
  if port_open p
  then (rx p, mkPort true [] (script p) (tx p))
  else ([0], p).

(** [SerialPort::writePort(buf, size)]. *)
Definition writePort (p : Port) (buf : list Z) : Port :=
  if port_open p then mkPort true (rx p) (script p) (tx p ++ [buf]) else p.

(** [sleep(50)]: the next event of the script happens. *)
Definition sleep_tick (p : Port) : Port :=
  match script p with
  | [] => p
  | Arrive bs :: r => mkPort (port_open p) (if port_open p then rx p ++ bs else rx p) r (tx p)
  | Unplug :: r => mkPort false [] r (tx p)
  end.

(** ** [readFromSerialPort] *)

(** The polling loop [while(comPort.isOpen() && i < timeOut_Sec)], with [n]
    iterations left before [i] reaches the bound; the result is the error,
    the accumulated [readString] and the port. *)
Fixpoint read_loop (n : nat) (expected : Z) (readString : list Z) (p : Port)
    : Z * list Z * Port :=
  match n with
  | O => ((if port_open p then TIMED_OUT else LOST_CONNECTION), readString, p)
  | S n' =>
      if negb (port_open p) then (LOST_CONNECTION, readString, p) else
      let p := sleep_tick p in
      let '(bs, p) := readExisting p in
      let readString := readString ++ bs in
      if Z.of_nat (length readString) <? expected
      then read_loop n' expected readString p
      else (NONE, readString, p)
  end.

(** [readFromSerialPort(comPort, expected, timeOut_Sec, readString)]. *)
Definition readFromSerialPort (p : Port) (expected timeOut_Sec : Z) (readString : list Z)
    : Z * list Z * Port :=
  if port_open p then
    let '(bs, p) := readExisting p in
    read_loop (Z.to_nat (timeOut_Sec * 30)) expected (readString ++ bs) p
  else (LOST_CONNECTION, readString, p).

(** [sendMessageToSerialPort(comPort, strMsg, expected, timeOut_Sec,
    readString)]: flush, write the command and a carriage return, and
    read the reply when one is expected. *)
Definition sendMessageToSerialPort (p : Port) (strMsg : string) (expected timeOut_Sec : Z)
    : Z * list Z * Port :=
  if port_open p then
    let '(_, p) := readExisting p in
    let p := writePort p (bytes_of_string strMsg ++ [13]) in
    if 0 <? expected
    then readFromSerialPort p expected timeOut_Sec []
    else (NONE, [], p)
  else (NOT_OPEN, [], p).

(** The bytes of the first [k] chunks. *)
Definition received (chunks : list (list Z)) (k : nat) : list Z :=
  concat (firstn k chunks).

(** ** Lemmas *)

Lemma received_S (c : list Z) (cs : list (list Z)) (k : nat) :
  received (c :: cs) (S k) = c ++ received cs k.
Proof. reflexivity. Qed.

Lemma received_0 (cs : list (list Z)) : received cs 0 = [].
Proof. reflexivity. Qed.

Lemma received_nil (k : nat) : received [] k = [].
Proof. destruct k; reflexivity. Qed.

#[export] Hint Rewrite received_S received_0 received_nil : kclmtr_rw.

(** Chunks that arrive on an open port, the reply completing with the
    [k]-th one: the loop returns [NONE] after [k] polls. *)
Lemma read_loop_complete (k : nat) :
  forall n expected acc chunks rest w,
  (1 <= k <= n)%nat -> (k <= length chunks)%nat ->
  expected <= Z.of_nat (length (acc ++ received chunks k)) ->
  (forall j, (j < k)%nat -> Z.of_nat (length (acc ++ received chunks j)) < expected) ->
  read_loop n expected acc (mkPort true [] (map Arrive chunks ++ rest) w) =
  (NONE, acc ++ received chunks k, mkPort true [] (map Arrive (skipn k chunks) ++ rest) w).
Proof.
  induction k as [|k IH]; intros n expected acc chunks rest w Hk Hlen Hge Hlt; [lia|].
  destruct n as [|n]; [lia|]. destruct chunks as [|c cs]; simpl in Hlen; [lia|].
  cbn [read_loop negb port_open map app sleep_tick script rx tx readExisting].
  destruct k as [|k].
  - rewrite received_S, received_0, app_nil_r in Hge |- *.
    rewrite (proj2 (Z.ltb_ge _ _) Hge). reflexivity.
  - assert (H1 := Hlt 1%nat ltac:(lia)). rewrite received_S, received_0, app_nil_r in H1.
    rewrite (proj2 (Z.ltb_lt _ _) H1).
    rewrite received_S, app_assoc. apply IH; [lia | lia | now rewrite <- app_assoc |].
    intros j Hj. rewrite <- app_assoc, <- received_S. apply Hlt. lia.
Qed.

(** Chunks that arrive on an open port and never complete the reply: the
    loop returns [TIMED_OUT] after its [n] polls. *)
Lemma read_loop_timeout (n : nat) :
  forall expected acc chunks w,
  Z.of_nat (length (acc ++ received chunks n)) < expected ->
  read_loop n expected acc (mkPort true [] (map Arrive chunks) w) =
  (TIMED_OUT, acc ++ received chunks n, mkPort true [] (map Arrive (skipn n chunks)) w).
Proof.
  induction n as [|n IH]; intros expected acc chunks w Hlt.
  - rewrite received_0, app_nil_r. reflexivity.
  - destruct chunks as [|c cs].
    + cbn [read_loop negb port_open map sleep_tick script readExisting rx tx].
      rewrite received_nil, app_nil_r in *.
      rewrite (proj2 (Z.ltb_lt _ _) Hlt).
      pose proof (IH expected acc [] w) as H. rewrite received_nil, app_nil_r in H.
      cbn [map skipn] in H |- *. rewrite H by exact Hlt. now destruct n.
    + cbn [read_loop negb port_open map sleep_tick script readExisting rx tx app].
      rewrite received_S, app_assoc in *.
      assert (Hc : Z.of_nat (length (acc ++ c)) < expected).
      { rewrite !length_app in *. lia. }
      rewrite (proj2 (Z.ltb_lt _ _) Hc). apply IH. exact Hlt.
Qed.

(** An unplug after [chunks] on an open port, before the reply is
    complete: the NUL byte read from the closed port is appended, and the
    loop reports [LOST_CONNECTION] unless that byte completes the reply. *)
Lemma read_loop_unplug (chunks : list (list Z)) :
  forall n expected acc rest w,
  (length chunks < n)%nat ->
  Z.of_nat (length (acc ++ concat chunks)) < expected ->
  read_loop n expected acc (mkPort true [] (map Arrive chunks ++ Unplug :: rest) w) =
  if Z.of_nat (length (acc ++ concat chunks ++ [0])) <? expected
  then (LOST_CONNECTION, acc ++ concat chunks ++ [0], mkPort false [] rest w)
  else (NONE, acc ++ concat chunks ++ [0], mkPort false [] rest w).
Proof.
  induction chunks as [|c cs IH]; intros n expected acc rest w Hn Hlt.
  - destruct n as [|n]; [simpl in Hn; lia|].
    cbn [read_loop negb port_open map app sleep_tick script readExisting concat tx].
    destruct (Z.ltb _ expected); [destruct n; reflexivity | reflexivity].
  - destruct n as [|n]; [simpl in Hn; lia|].
    cbn [read_loop negb port_open map app sleep_tick script readExisting rx tx concat] in *.
    assert (Hc : Z.of_nat (length (acc ++ c)) < expected).
    { rewrite !length_app in *. lia. }
    rewrite (proj2 (Z.ltb_lt _ _) Hc).
    rewrite (IH n expected (acc ++ c) rest w).
    + now rewrite <- !app_assoc.
    + simpl in Hn. lia.
    + rewrite <- app_assoc. exact Hlt.
Qed.

(** Each poll consumes at most one event of the script. *)
Lemma read_loop_consumes (n : nat) :
  forall expected acc p,
  let '(_, _, p') := read_loop n expected acc p in
  (length (script p) - n <= length (script p') <= length (script p))%nat /\
  exists pre, script p = pre ++ script p'.
Proof.
  induction n as [|n IH]; intros expected acc p; simpl.
  - split; [lia|]. exists []. reflexivity.
  - destruct (port_open p) eqn:Ho; simpl; [|split; [lia|]; exists []; reflexivity].
    set (p1 := sleep_tick p).
    assert (Hp1 : (length (script p) - 1 <= length (script p1) <= length (script p))%nat /\
                  exists pre, script p = pre ++ script p1).
    { unfold p1, sleep_tick. destruct (script p) as [|[bs|] r] eqn:Es; simpl.
      - rewrite Es. split; [simpl; lia|]. exists []. reflexivity.
      - split; [lia|]. exists [Arrive bs]. reflexivity.
      - split; [lia|]. exists [Unplug]. reflexivity. }
    destruct (readExisting p1) as [bs p2] eqn:Er.
    assert (Hs : script p2 = script p1).
    { unfold readExisting in Er. destruct (port_open p1); now inversion Er. }
    destruct (Z.of_nat (length (acc ++ bs)) <? expected).
    + specialize (IH expected (acc ++ bs) p2).
      destruct (read_loop n expected (acc ++ bs) p2) as [[e r] p3].
      destruct IH as [Hl [pre Hpre]]. destruct Hp1 as [Hl1 [pre1 Hpre1]].
      rewrite Hs in Hl, Hpre. split; [lia|]. exists (pre1 ++ pre).
      rewrite Hpre1, Hpre, app_assoc. reflexivity.
    + rewrite Hs. destruct Hp1 as [Hl1 Hpre1]. split; [lia | exact Hpre1].
Qed.

(** The command is flushed in and written, then the reply is polled. *)
Lemma sendMessageToSerialPort_open (p : Port) (strMsg : string) (expected timeOut : Z) :
  port_open p = true -> 0 < expected ->
  sendMessageToSerialPort p strMsg expected timeOut =
  read_loop (Z.to_nat (timeOut * 30)) expected []
    (mkPort true [] (script p) (tx p ++ [bytes_of_string strMsg ++ [13]])).
Proof.
  intros Ho He. unfold sendMessageToSerialPort, readFromSerialPort, readExisting, writePort.
  rewrite Ho. simpl. rewrite (proj2 (Z.ltb_lt _ _) He). reflexivity.
Qed.

(** Reading never writes: the commands sent are untouched by the polls. *)
Lemma read_loop_tx (n : nat) :
  forall expected acc p, tx (snd (read_loop n expected acc p)) = tx p.
Proof.
  induction n as [|n IH]; intros expected acc p; cbn [read_loop]; [reflexivity|].
  destruct (port_open p) eqn:Ho; cbn [negb]; [|reflexivity].
  assert (Ht : tx (sleep_tick p) = tx p) by (unfold sleep_tick; destruct (script p) as [|[] ?]; reflexivity).
  unfold readExisting. destruct (port_open (sleep_tick p)); cbn [fst snd tx];
    destruct (_ <? _); rewrite ?IH; cbn [tx]; auto.
Qed.

(** A command writes at most one frame to the port. *)
Lemma sendMessageToSerialPort_tx (p : Port) (strMsg : string) (expected timeOut : Z) :
  (length (tx (snd (sendMessageToSerialPort p strMsg expected timeOut))) <= S (length (tx p)))%nat.
Proof.
  unfold sendMessageToSerialPort, readFromSerialPort, readExisting, writePort.
  destruct (port_open p); cbn; [|lia].
  destruct (0 <? expected); cbn; [|rewrite length_app; cbn; lia].
  rewrite read_loop_tx. cbn. rewrite length_app. cbn. lia.
Qed.

(** A reply read without error holds at least the [expected] bytes. *)
Lemma read_loop_none_length (n : nat) :
  forall expected acc p rs p', read_loop n expected acc p = (NONE, rs, p') ->
  expected <= Z.of_nat (length rs).
Proof.
  induction n as [|n IH]; intros expected acc p rs p' E; cbn [read_loop] in E.
  - destruct (port_open p); inversion E.
  - destruct (port_open p); cbn [negb] in E; [|inversion E].
    destruct (readExisting (sleep_tick p)) as [bs p2].
    destruct (Z.ltb_spec (Z.of_nat (length (acc ++ bs))) expected).
    + exact (IH _ _ _ _ _ E).
    + inversion E; subst; lia.
Qed.

Lemma sendMessageToSerialPort_none_length (p : Port) (strMsg : string) (expected timeOut : Z)
    (rs : list Z) (p' : Port) :
  0 < expected -> sendMessageToSerialPort p strMsg expected timeOut = (NONE, rs, p') ->
  expected <= Z.of_nat (length rs).
Proof.
  intros He E. destruct (port_open p) eqn:Ho.
  - rewrite sendMessageToSerialPort_open in E by assumption.
    exact (read_loop_none_length _ _ _ _ _ _ E).
  - unfold sendMessageToSerialPort in E. rewrite Ho in E. inversion E.
Qed.

(** A read that succeeds polled at least once, so its timeout was
    positive, and holds the [expected] bytes. *)
Lemma readFromSerialPort_none (p : Port) (expected timeOut : Z) (acc rs : list Z) (p' : Port) :
  readFromSerialPort p expected timeOut acc = (NONE, rs, p') ->
  0 < timeOut /\ expected <= Z.of_nat (length rs).
Proof.
  unfold readFromSerialPort. destruct (port_open p); [|intros E; inversion E].
  destruct (readExisting p) as [bs p1]. intros E. split.
  - destruct (Z.to_nat (timeOut * 30)) eqn:En.
    + cbn [read_loop] in E. destruct (port_open p1); inversion E.
    + lia.
  - exact (read_loop_none_length _ _ _ _ _ _ E).
Qed.

Lemma readFromSerialPort_tx (p : Port) (expected timeOut : Z) (acc : list Z) :
  tx (snd (readFromSerialPort p expected timeOut acc)) = tx p.
Proof.
  unfold readFromSerialPort, readExisting. destruct (port_open p); [|reflexivity].
  rewrite read_loop_tx. reflexivity.
Qed.

(** ** Properties *)

(** With the port closed, a command is neither written nor answered
    and the caller gets [NOT_OPEN]. *)
Theorem sendMessageToSerialPort_not_open (p : Port) (strMsg : string) (expected timeOut : Z) :
  port_open p = false ->
  sendMessageToSerialPort p strMsg expected timeOut = (NOT_OPEN, [], p).
Proof. intros Ho. unfold sendMessageToSerialPort. now rewrite Ho. Qed.

Lemma sendMessageToSerialPort_not_open_witness :
  sendMessageToSerialPort (mkPort false [] [] []) "N5" 15 1 =
  (NOT_OPEN, [], mkPort false [] [] []).
Proof. apply sendMessageToSerialPort_not_open. reflexivity. Defined.

(** A command that expects no reply is written with its carriage
    return after the unread input is flushed, and returns at once with
    [NONE] and an empty reply, consuming nothing of the device's output. *)
Theorem sendMessageToSerialPort_fire_and_forget (p : Port) (strMsg : string) (expected timeOut : Z) :
  port_open p = true -> expected <= 0 ->
  sendMessageToSerialPort p strMsg expected timeOut =
  (NONE, [], mkPort true [] (script p) (tx p ++ [bytes_of_string strMsg ++ [13]])).
Proof.
  intros Ho He. unfold sendMessageToSerialPort, readExisting, writePort.
  rewrite Ho. simpl. now rewrite (proj2 (Z.ltb_ge _ _) He).
Qed.

Lemma sendMessageToSerialPort_fire_and_forget_witness :
  sendMessageToSerialPort (mkPort true [1; 2] [Arrive [3]] []) "X9" (-1) 1 =
  (NONE, [], mkPort true [] (script (mkPort true [1; 2] [Arrive [3]] []))
     (tx (mkPort true [1; 2] [Arrive [3]] []) ++ [bytes_of_string "X9" ++ [13]])).
Proof. apply sendMessageToSerialPort_fire_and_forget; [reflexivity | lia]. Defined.

(** C7: when the device's bytes reach the expected length at the [k]-th
    poll, within the [30 * timeout] polls the loop allows, the command
    returns [NONE] with exactly the bytes received up to that poll, and
    the later output stays unread. *)
Theorem sendMessageToSerialPort_reply (p : Port) (strMsg : string) (expected timeOut : Z)
    (chunks : list (list Z)) (rest : list event) (k : nat) :
  port_open p = true -> script p = map Arrive chunks ++ rest -> 0 < expected ->
  (1 <= k <= Z.to_nat (timeOut * 30))%nat -> (k <= length chunks)%nat ->
  expected <= Z.of_nat (length (received chunks k)) ->
  (forall j, (j < k)%nat -> Z.of_nat (length (received chunks j)) < expected) ->
  sendMessageToSerialPort p strMsg expected timeOut =
  (NONE, received chunks k,
   mkPort true [] (map Arrive (skipn k chunks) ++ rest) (tx p ++ [bytes_of_string strMsg ++ [13]])).
Proof.
  intros Ho Hs He Hk Hl Hge Hlt. rewrite sendMessageToSerialPort_open by assumption.
  rewrite Hs. apply (read_loop_complete k); assumption.
Qed.

Lemma sendMessageToSerialPort_reply_witness :
  sendMessageToSerialPort (mkPort true [] [Arrive [60; 48]; Arrive [62]; Arrive [7]] []) "B7" 3 1 =
  (NONE, received [[60; 48]; [62]; [7]] 2,
   mkPort true [] (map Arrive (skipn 2 [[60; 48]; [62]; [7]]) ++ [])
     (tx (mkPort true [] [Arrive [60; 48]; Arrive [62]; Arrive [7]] []) ++
      [bytes_of_string "B7" ++ [13]])).
Proof.
  apply sendMessageToSerialPort_reply; try reflexivity; try (simpl; lia).
  intros j Hj. destruct j as [|[|]]; simpl; lia.
Defined.

(** C9: when the device sends fewer bytes than expected during the
    [30 * timeout] polls, the command returns [TIMED_OUT] with what
    arrived. *)
Theorem sendMessageToSerialPort_timeout (p : Port) (strMsg : string) (expected timeOut : Z)
    (chunks : list (list Z)) :
  port_open p = true -> script p = map Arrive chunks -> 0 < expected ->
  Z.of_nat (length (received chunks (Z.to_nat (timeOut * 30)))) < expected ->
  sendMessageToSerialPort p strMsg expected timeOut =
  (TIMED_OUT, received chunks (Z.to_nat (timeOut * 30)),
   mkPort true [] (map Arrive (skipn (Z.to_nat (timeOut * 30)) chunks))
     (tx p ++ [bytes_of_string strMsg ++ [13]])).
Proof.
  intros Ho Hs He Hlt. rewrite sendMessageToSerialPort_open by assumption.
  rewrite Hs. apply read_loop_timeout. exact Hlt.
Qed.

Lemma sendMessageToSerialPort_timeout_witness :
  sendMessageToSerialPort (mkPort true [] [Arrive [60]] []) "B7" 3 1 =
  (TIMED_OUT, received [[60]] (Z.to_nat (1 * 30)),
   mkPort true [] (map Arrive (skipn (Z.to_nat (1 * 30)) [[60]]))
     (tx (mkPort true [] [Arrive [60]] []) ++ [bytes_of_string "B7" ++ [13]])).
Proof. apply sendMessageToSerialPort_timeout; try reflexivity; simpl; lia. Defined.

(** C10: when the device is unplugged within the polls allowed, at least
    two bytes short of the reply, the command returns [LOST_CONNECTION]. *)
Theorem sendMessageToSerialPort_unplugged (p : Port) (strMsg : string) (expected timeOut : Z)
    (chunks : list (list Z)) (rest : list event) :
  port_open p = true -> script p = map Arrive chunks ++ Unplug :: rest ->
  (length chunks < Z.to_nat (timeOut * 30))%nat ->
  Z.of_nat (length (concat chunks)) + 1 < expected ->
  sendMessageToSerialPort p strMsg expected timeOut =
  (LOST_CONNECTION, concat chunks ++ [0],
   mkPort false [] rest (tx p ++ [bytes_of_string strMsg ++ [13]])).
Proof.
  intros Ho Hs Hn Hlt. rewrite sendMessageToSerialPort_open by (assumption || lia).
  rewrite Hs, read_loop_unplug by (simpl; lia).
  simpl app. rewrite (proj2 (Z.ltb_lt _ _)); [reflexivity|].
  rewrite length_app. simpl. lia.
Qed.

Lemma sendMessageToSerialPort_unplugged_witness :
  sendMessageToSerialPort (mkPort true [] [Arrive [60]; Unplug] []) "B7" 3 1 =
  (LOST_CONNECTION, concat [[60]] ++ [0],
   mkPort false [] [] (tx (mkPort true [] [Arrive [60]; Unplug] []) ++ [bytes_of_string "B7" ++ [13]])).
Proof. apply sendMessageToSerialPort_unplugged; try reflexivity; simpl; lia. Defined.

(** C8: when the device is unplugged exactly one byte short of the reply,
    the NUL byte that [readExisting] returns on the failed [ioctl]
    completes the reply: the command reports [NONE] with a corrupted
    reply on a port that is closed. *)
Theorem sendMessageToSerialPort_unplug_spurious_byte (p : Port) (strMsg : string)
    (expected timeOut : Z) (chunks : list (list Z)) (rest : list event) :
  port_open p = true -> script p = map Arrive chunks ++ Unplug :: rest ->
  (length chunks < Z.to_nat (timeOut * 30))%nat ->
  Z.of_nat (length (concat chunks)) + 1 = expected ->
  sendMessageToSerialPort p strMsg expected timeOut =
  (NONE, concat chunks ++ [0],
   mkPort false [] rest (tx p ++ [bytes_of_string strMsg ++ [13]])).
Proof.
  intros Ho Hs Hn Heq. rewrite sendMessageToSerialPort_open by (assumption || lia).
  rewrite Hs, read_loop_unplug by (simpl; lia).
  simpl app. rewrite (proj2 (Z.ltb_ge _ _)); [reflexivity|].
  rewrite length_app. simpl. lia.
Qed.

Lemma sendMessageToSerialPort_unplug_spurious_byte_witness :
  sendMessageToSerialPort (mkPort true [] [Arrive [60; 48]; Unplug] []) "B7" 3 1 =
  (NONE, concat [[60; 48]] ++ [0],
   mkPort false [] [] (tx (mkPort true [] [Arrive [60; 48]; Unplug] []) ++ [bytes_of_string "B7" ++ [13]])).
Proof. apply sendMessageToSerialPort_unplug_spurious_byte; try reflexivity; simpl; lia. Defined.

(** The wait for a reply is bounded: a command consumes at most
    [30 * timeout] polls of the device's output, and what it leaves is a
    suffix of it. *)
Theorem sendMessageToSerialPort_bounded_wait (p : Port) (strMsg : string) (expected timeOut : Z) :
  let '(_, _, p') := sendMessageToSerialPort p strMsg expected timeOut in
  (length (script p) - length (script p') <= Z.to_nat (timeOut * 30))%nat /\
  exists pre, script p = pre ++ script p'.
Proof.
  destruct (port_open p) eqn:Ho.
  - destruct (Z.ltb_spec 0 expected) as [He|He].
    + rewrite sendMessageToSerialPort_open by assumption.
      pose proof (read_loop_consumes (Z.to_nat (timeOut * 30)) expected []
                    (mkPort true [] (script p) (tx p ++ [bytes_of_string strMsg ++ [13]]))) as H.
      destruct (read_loop _ _ _ _) as [[e r] p']. simpl in H.
      destruct H as [Hl Hpre]. split; [lia | exact Hpre].
    + unfold sendMessageToSerialPort, readExisting, writePort. rewrite Ho. simpl.
      rewrite (proj2 (Z.ltb_ge _ _) He). simpl. split; [lia|]. now exists [].
  - unfold sendMessageToSerialPort. rewrite Ho. split; [lia|]. now exists [].
Qed.

End Protocol.
