(* ===== verification/SerialPosix.v ===== *)
(** * The POSIX side of [SerialPort]: the UUCP lock file and the line
      settings (src/SerialPort.cpp lines 66-107, 109-249, 311-345)

    [SerialPort::openPort] opens the device and then takes a lock file
    [LCK..<port>] in the first of five lock directories where it can
    create one ([lockFile]); a port it cannot lock is closed again, and
    [closePort] removes the lock ([unLockFile]).  [setSetting] fills a
    [struct termios]: the speed from a table, the character size, the
    parity, one stop bit, no flow control, [VMIN = 0] and
    [VTIME = timeOut * 10] in a one-byte [cc_t].

    The file system is what [open(O_RDWR | O_EXCL | O_CREAT)] and
    [unlink] see: the lock prefixes whose directory can be written and
    the files that exist ([FS]).  A [termios] is the fields [setSetting]
    writes, each [c_cflag] bit as a boolean, and the fields it leaves
    alone.  The device [open], [close] and [tcsetattr] are the operating
    system's; their outcomes are parameters. *)

From Stdlib Require Import String Ascii ZArith List Bool Lia.
From S2P Require Import Prelude.
Import ListNotations.
Open Scope Z_scope.

Module SerialPosix.

(** ** The lock file *)

(** [lock_dir_list] of [lockFile]. *)
Definition lock_dir_list : list (list Z) :=
  [bytes_of_string "/var/lock/LCK.."; bytes_of_string "/etc/locks/LCK..";
   bytes_of_string "/var/spool/locks/LCK.."; bytes_of_string "/var/spool/uucp/LCK..";
   bytes_of_string "/tmp/LCK.."].

Record FS := mkFS {
  lock_writable : list (list Z);  (** the lock prefixes whose directory can be written *)
  files : list (list Z)           (** the files that exist *)
}.

Definition file_exists (fs : FS) (path : list Z) : bool := existsb (bytes_eqb path) (files fs).

(** [open(path, O_RDWR | O_EXCL | O_CREAT, 0644)] for a lock [path] under
    the prefix [dir]: the file is created unless it exists or its
    directory cannot be written. *)
Definition open_excl (fs : FS) (dir path : list Z) : option FS :=
  if existsb (bytes_eqb dir) (lock_writable fs) && negb (file_exists fs path)
  then Some (mkFS (lock_writable fs) (path :: files fs)) else None.

(** [unlink(path)]. *)
Definition unlink (fs : FS) (path : list Z) : FS :=
  mkFS (lock_writable fs) (filter (fun f => negb (bytes_eqb f path)) (files fs)).

(** [strrchr(s, c)]: the suffix from the last [c], [None] for [NULL]. *)
Fixpoint strrchr (s : list Z) (c : Z) : option (list Z) :=
  match s with
  | [] => None
  | x :: r => match strrchr r c with
              | Some t => Some t
              | None => if x =? c then Some s else None
              end
  end.

(** [lockedFile = lock_dir_list[i]; lockedFile += port.substr(1)], where
    [port] starts with its ['/']. *)
Definition lockname (d port : list Z) : list Z := d ++ skipn 1 port.

(** The loop [for (i = 0; i < 5; ++i)] of [lockFile]: [lockedFile] is
    set to each candidate in turn and keeps the last one tried. *)
Fixpoint lock_loop (dirs : list (list Z)) (port lockedFile : list Z) (fs : FS) : bool * list Z * FS :=
  match dirs with
  | [] => (false, lockedFile, fs)
  | d :: ds =>
      let lockedFile := lockname d port in
      match open_excl fs d lockedFile with
      | Some fs => (true, lockedFile, fs)
      | None => lock_loop ds port lockedFile fs
      end
  end.

(** [lockFile()]: [None] when [portName] has no ['/'], where
    [port += strrchr(...)] appends a null pointer (undefined behaviour). *)
Definition lockFile (portName lockedFile : list Z) (fs : FS) : option (bool * list Z * FS) :=
  match strrchr portName (chr "/") with
  | None => None
  | Some port => Some (lock_loop lock_dir_list port lockedFile fs)
  end.

(** [unLockFile()]. *)
Definition unLockFile (lockedFile : list Z) (fs : FS) : list Z * FS :=
  if bytes_eqb lockedFile [] then (lockedFile, fs) else ([], unlink fs lockedFile).

(** [closePort()]: the device handle is closed and the lock removed. *)
Definition closePort (lockedFile : list Z) (fs : FS) : list Z * FS := unLockFile lockedFile fs.

(** [openPort()]: [dev_ok] is whether [open(portName)] succeeds; a port
    that cannot be locked is closed again. *)
Definition openPort (dev_ok : bool) (portName lockedFile : list Z) (fs : FS) : option (bool * list Z * FS) :=
  if negb dev_ok then Some (false, lockedFile, fs)
  else match lockFile portName lockedFile fs with
       | None => None
       | Some (true, lf, fs) => Some (true, lf, fs)
       | Some (false, lf, fs) => let '(lf, fs) := closePort lf fs in Some (false, lf, fs)
       end.

(** ** The line settings *)

(** The [speed_t] constants of [<termios.h>]. *)
Inductive speed_t := B0 | B50 | B75 | B110 | B200 | B300 | B600 | B1200 | B1800
                   | B2400 | B4800 | B9600 | B19200 | B38400.

(** The [c_cflag] and [c_iflag] bits [setSetting] uses, with their
    values on Linux ([asm-generic/termbits.h]). *)
Definition CSIZE : Z := 48.
Definition CS5 : Z := 0.
Definition CS6 : Z := 16.
Definition CS7 : Z := 32.
Definition CS8 : Z := 48.
Definition CSTOPB : Z := 64.
Definition CREAD : Z := 128.
Definition PARENB : Z := 256.
Definition PARODD : Z := 512.
Definition CLOCAL : Z := 2048.
Definition CRTSCTS : Z := 2147483648.
Definition IXON : Z := 1024.
Definition IXANY : Z := 2048.
Definition IXOFF : Z := 4096.

(** A [struct termios]; [cfsetispeed] and [cfsetospeed] write
    [c_ispeed] and [c_ospeed] (glibc also copies the speed into the
    [CBAUD] bits of [c_cflag], bits 0-3 and 12, which no theorem reads). *)
Record termios := mkTermios {
  c_iflag : Z; c_oflag : Z; c_cflag : Z; c_lflag : Z;
  c_vmin : Z;     (** [c_cc[VMIN]] *)
  c_vtime : Z;    (** [c_cc[VTIME]], a [cc_t]: one unsigned byte *)
  c_ispeed : speed_t; c_ospeed : speed_t
}.

(** [x &= ~m]. *)
Definition clear_bits (x m : Z) : Z := Z.land x (Z.lnot m).

(** The [switch (speed)] of [setSetting]. *)
Definition speedT_of (speed : Z) : speed_t :=
  match speed with
  | 0 => B0 | 50 => B50 | 75 => B75 | 110 => B110 | 200 => B200 | 300 => B300
  | 600 => B600 | 1200 => B1200 | 1800 => B1800 | 2400 => B2400 | 4800 => B4800
  | 9600 => B9600 | 19200 => B19200 | 38400 => B38400 | _ => B19200
  end.

(** The [switch (wordSize)] of [setSetting]. *)
Definition csize_of (wordSize : Z) : Z :=
  if wordSize =? 5 then CS5 else if wordSize =? 6 then CS6
  else if wordSize =? 7 then CS7 else CS8.

(** The parity branch of [setSetting]. *)
Definition set_parity (c : Z) (parity : ascii) : Z :=
  if Ascii.eqb parity "e" then Z.lor (clear_bits c PARODD) PARENB
  else if Ascii.eqb parity "o" then Z.lor c (Z.lor PARENB PARODD)
  else clear_bits c PARENB.

(** The [termios] [setSetting] hands to [tcsetattr], from the one
    [tcgetattr] read ([options]). *)
Definition setSetting_options (options : termios) (speed wordSize : Z) (parity : ascii) (timeOut : Z) : termios :=
  let speedT := speedT_of speed in
  let c := Z.lor (clear_bits (c_cflag options) CSIZE) (csize_of wordSize) in
  let c := set_parity c parity in
  let c := clear_bits (clear_bits c CSTOPB) CRTSCTS in
  let i := clear_bits (c_iflag options) (Z.lor IXON (Z.lor IXOFF IXANY)) in
  mkTermios i (c_oflag options) c (c_lflag options) 0 ((timeOut * 10) mod 256) speedT speedT.

(** [setSetting()], POSIX branch: [tcsetattr_ok] is whether [tcsetattr]
    succeeds; the line keeps its settings when it fails. *)
Definition setSetting (tcsetattr_ok : bool) (line : termios) (speed wordSize : Z) (parity : ascii) (timeOut : Z) : bool * termios :=
  if tcsetattr_ok then (true, setSetting_options line speed wordSize parity timeOut) else (false, line).


(** ** Bit masks *)

Lemma clear_clear (x a b : Z) : clear_bits (clear_bits x a) b = clear_bits x (Z.lor a b).
Proof. unfold clear_bits. rewrite <- !Z.ldiff_land. apply Z.ldiff_ldiff_l. Qed.

Lemma land_clear_self (x m : Z) : Z.land (clear_bits x m) m = 0.
Proof.
  apply Z.bits_inj'; intros n Hn. unfold clear_bits.
  rewrite !Z.land_spec, Z.lnot_spec, Z.testbit_0_l by exact Hn.
  destruct (Z.testbit x n), (Z.testbit m n); reflexivity.
Qed.

Lemma land_clear_disjoint (x m m' : Z) :
  Z.land m m' = 0 -> Z.land (clear_bits x m) m' = Z.land x m'.
Proof.
  intros H. apply Z.bits_inj'; intros n Hn. apply (f_equal (fun z => Z.testbit z n)) in H.
  unfold clear_bits. rewrite !Z.land_spec, Z.lnot_spec by exact Hn.
  rewrite Z.land_spec, Z.testbit_0_l in H.
  destruct (Z.testbit x n), (Z.testbit m n), (Z.testbit m' n); easy.
Qed.

Lemma land_lor_disjoint (x b m : Z) : Z.land b m = 0 -> Z.land (Z.lor x b) m = Z.land x m.
Proof.
  intros H. apply Z.bits_inj'; intros n Hn. apply (f_equal (fun z => Z.testbit z n)) in H.
  rewrite !Z.land_spec, Z.lor_spec. rewrite Z.land_spec, Z.testbit_0_l in H.
  destruct (Z.testbit x n), (Z.testbit b n), (Z.testbit m n); easy.
Qed.

Lemma land_lor_super (x b m : Z) : Z.land b m = m -> Z.land (Z.lor x b) m = m.
Proof.
  intros H. apply Z.bits_inj'; intros n Hn. apply (f_equal (fun z => Z.testbit z n)) in H.
  rewrite Z.land_spec, Z.lor_spec. rewrite Z.land_spec in H.
  destruct (Z.testbit x n), (Z.testbit b n), (Z.testbit m n); easy.
Qed.

Lemma land_lor_sub (x b m : Z) : Z.land b m = b -> Z.land (Z.lor x b) m = Z.lor (Z.land x m) b.
Proof.
  intros H. apply Z.bits_inj'; intros n Hn. apply (f_equal (fun z => Z.testbit z n)) in H.
  rewrite Z.land_spec, !Z.lor_spec, Z.land_spec. rewrite Z.land_spec in H.
  destruct (Z.testbit x n), (Z.testbit b n), (Z.testbit m n); easy.
Qed.

Lemma lor_land_self (x m : Z) : Z.lor (Z.land x m) m = m.
Proof.
  apply Z.bits_inj'; intros n Hn. rewrite Z.lor_spec, Z.land_spec.
  destruct (Z.testbit x n), (Z.testbit m n); reflexivity.
Qed.

Lemma csize_of_cases (w : Z) :
  csize_of w = CS5 \/ csize_of w = CS6 \/ csize_of w = CS7 \/ csize_of w = CS8.
Proof. unfold csize_of. destruct (w =? 5), (w =? 6), (w =? 7); tauto. Qed.

Lemma land_csize_of_self (w : Z) : Z.land (csize_of w) CSIZE = csize_of w.
Proof. destruct (csize_of_cases w) as [->|[->|[->| ->]]]; reflexivity. Qed.

(** The character size lies in the [CSIZE] field. *)
Lemma land_csize_of (w m : Z) : Z.land CSIZE m = 0 -> Z.land (csize_of w) m = 0.
Proof.
  intros H. rewrite <- land_csize_of_self, <- Z.land_assoc, H. apply Z.land_0_r.
Qed.

Create Rewrite HintDb bits.

Ltac mask_side := first [reflexivity | apply land_csize_of; reflexivity | apply land_csize_of_self].

#[export] Hint Rewrite land_clear_self clear_clear Z.lor_0_l : bits.
#[export] Hint Rewrite land_clear_disjoint land_lor_disjoint land_lor_super using mask_side : bits.
#[export] Hint Rewrite land_lor_sub using mask_side : bits.
#[export] Hint Rewrite lor_land_self : bits.


(** The parity field after [set_parity]. *)
Lemma land_set_parity (c : Z) (p : ascii) :
  Z.land (set_parity c p) PARENB = (if Ascii.eqb p "e" || Ascii.eqb p "o" then PARENB else 0) /\
  Z.land (set_parity c p) PARODD =
    (if Ascii.eqb p "e" then 0 else if Ascii.eqb p "o" then PARODD else Z.land c PARODD).
Proof.
  unfold set_parity. destruct (Ascii.eqb p "e"), (Ascii.eqb p "o"); cbn [orb];
    autorewrite with bits; auto.
Qed.

(** The fields outside the parity bits are those of the argument. *)
Lemma land_set_parity_other (c m : Z) (p : ascii) :
  Z.land (Z.lor PARENB PARODD) m = 0 -> Z.land (set_parity c p) m = Z.land c m.
Proof.
  intros H. assert (Ha : Z.land PARENB m = 0 /\ Z.land PARODD m = 0).
  { split; apply Z.bits_inj'; intros n Hn; apply (f_equal (fun z => Z.testbit z n)) in H;
      rewrite ?Z.land_spec, ?Z.lor_spec, ?Z.testbit_0_l in *;
      destruct (Z.testbit PARENB n), (Z.testbit PARODD n), (Z.testbit m n); easy. }
  destruct Ha as [H1 H2]. unfold set_parity.
  destruct (Ascii.eqb p "e"), (Ascii.eqb p "o"); rewrite ?land_lor_disjoint, ?land_clear_disjoint; auto.
Qed.

#[export] Hint Rewrite land_set_parity_other using mask_side : bits.


(** ** The lock file: lemmas *)

(** Whether [open(O_EXCL | O_CREAT)] can create the lock file for [port]
    under the prefix [d]. *)
Definition can_lock (fs : FS) (port d : list Z) : bool :=
  existsb (bytes_eqb d) (lock_writable fs) && negb (file_exists fs (lockname d port)).

Lemma last_cons_default {A} (x : A) (l : list A) (d : A) : last (x :: l) d = last l x.
Proof.
  revert x d. induction l as [|y l IH]; intros x d; [reflexivity|].
  change (last (y :: l) d = last (y :: l) x). rewrite !IH. reflexivity.
Qed.

(** The loop takes the lock in the first directory where it can create
    the file, and otherwise ends with the last name it tried. *)
Lemma lock_loop_spec (dirs : list (list Z)) (port lf : list Z) (fs : FS) :
  lock_loop dirs port lf fs =
  match find (can_lock fs port) dirs with
  | Some d => (true, lockname d port, mkFS (lock_writable fs) (lockname d port :: files fs))
  | None => (false, last (map (fun d => lockname d port) dirs) lf, fs)
  end.
Proof.
  revert lf. induction dirs as [|d ds IH]; intros lf; [reflexivity|].
  cbn [lock_loop find map]. unfold open_excl. fold (can_lock fs port d).
  destruct (can_lock fs port d); [reflexivity|].
  rewrite IH, last_cons_default. reflexivity.
Qed.

Lemma lockname_nonempty (a b : list Z) : a <> [] -> bytes_eqb (lockname a b) [] = false.
Proof.
  intros Ha. unfold bytes_eqb, lockname. destruct (list_eq_dec Z.eq_dec (a ++ skipn 1 b) []) as [E|]; [|reflexivity].
  apply app_eq_nil in E. tauto.
Qed.



(** A port name without ['/'] has no lock file name. *)
Lemma strrchr_none (s : list Z) (c : Z) : forallb (fun x => negb (x =? c)) s = true -> strrchr s c = None.
Proof.
  induction s as [|x s IH]; intros H; [reflexivity|].
  cbn [forallb] in H. apply andb_prop in H as [Hx Hs]. cbn [strrchr]. rewrite IH by exact Hs.
  apply negb_true_iff in Hx. rewrite Hx. reflexivity.
Qed.


(** ** Properties *)

(** C25: with the device open, [openPort] on a name [.../port] takes the
    lock file in the first of the five lock directories whose directory
    can be written and which holds no lock file for the port, and
    succeeds; a lock file another process holds in an earlier directory
    does not stop it.  When no directory serves, [openPort] fails, and
    [closePort] unlinks the last name tried, [/tmp/LCK..port], whoever
    created it. *)
Theorem openPort_spec (portName lf port : list Z) (fs : FS) :
  strrchr portName (chr "/") = Some port ->
  openPort true portName lf fs =
  Some (match find (can_lock fs port) lock_dir_list with
        | Some d => (true, lockname d port, mkFS (lock_writable fs) (lockname d port :: files fs))
        | None => (false, [], unlink fs (lockname (bytes_of_string "/tmp/LCK..") port))
        end).
Proof.
  intros H. unfold openPort, lockFile. rewrite H, lock_loop_spec. cbn [negb].
  destruct (find _ _); [reflexivity|].
  unfold closePort, unLockFile. cbn [last map lock_dir_list].
  rewrite lockname_nonempty by discriminate. reflexivity.
Qed.


(** C26: [setSetting] sets both speeds from its table (any other speed
    becomes [B19200]), the [CSIZE] field to the word size, enables
    parity for ['e'] and ['o'] only (even clears [PARODD], odd sets it,
    anything else keeps it), clears [CSTOPB], [CRTSCTS] and the
    software flow control bits, keeps [CREAD], [CLOCAL], [c_oflag] and
    [c_lflag] as [tcgetattr] read them, and stores [VMIN = 0] and
    [VTIME = timeOut * 10] reduced modulo 256 into the one-byte [cc_t]. *)
Theorem setSetting_options_spec (line : termios) (speed wordSize timeOut : Z) (parity : ascii) :
  let o := setSetting_options line speed wordSize parity timeOut in
  c_ispeed o = speedT_of speed /\ c_ospeed o = speedT_of speed /\
  Z.land (c_cflag o) CSIZE = csize_of wordSize /\
  Z.land (c_cflag o) PARENB = (if Ascii.eqb parity "e" || Ascii.eqb parity "o" then PARENB else 0) /\
  Z.land (c_cflag o) PARODD =
    (if Ascii.eqb parity "e" then 0 else if Ascii.eqb parity "o" then PARODD
     else Z.land (c_cflag line) PARODD) /\
  Z.land (c_cflag o) (Z.lor CSTOPB CRTSCTS) = 0 /\
  Z.land (c_cflag o) (Z.lor CREAD CLOCAL) = Z.land (c_cflag line) (Z.lor CREAD CLOCAL) /\
  Z.land (c_iflag o) (Z.lor IXON (Z.lor IXOFF IXANY)) = 0 /\
  c_oflag o = c_oflag line /\ c_lflag o = c_lflag line /\
  c_vmin o = 0 /\ c_vtime o = (timeOut * 10) mod 256 /\ 0 <= c_vtime o < 256.
Proof.
  cbn zeta. unfold setSetting_options. cbn [c_ispeed c_ospeed c_cflag c_iflag c_oflag c_lflag c_vmin c_vtime].
  destruct (land_set_parity (Z.lor (clear_bits (c_cflag line) CSIZE) (csize_of wordSize)) parity) as [Hpe Hpo].
  rewrite !clear_clear.
  repeat split; autorewrite with bits; rewrite ?Hpe, ?Hpo; autorewrite with bits; try reflexivity.
  all: apply Z.mod_pos_bound; lia.
Qed.


(** ** Witnesses *)

Definition ttyUSB0 : list Z := bytes_of_string "/dev/ttyUSB0".

(** Another process holds [/var/lock/LCK..ttyUSB0]; [/etc/locks] can be
    written. *)
Definition fs_held : FS :=
  mkFS [bytes_of_string "/var/lock/LCK.."; bytes_of_string "/etc/locks/LCK.."]
       [bytes_of_string "/var/lock/LCK..ttyUSB0"].


Lemma openPort_spec_witness :
  strrchr ttyUSB0 (chr "/") = Some (bytes_of_string "/ttyUSB0") /\
  openPort true ttyUSB0 [] fs_held =
  Some (match find (can_lock fs_held (bytes_of_string "/ttyUSB0")) lock_dir_list with
        | Some d => (true, lockname d (bytes_of_string "/ttyUSB0"),
                     mkFS (lock_writable fs_held) (lockname d (bytes_of_string "/ttyUSB0") :: files fs_held))
        | None => (false, [], unlink fs_held (lockname (bytes_of_string "/tmp/LCK..") (bytes_of_string "/ttyUSB0")))
        end).
Proof.
  assert (H : strrchr ttyUSB0 (chr "/") = Some (bytes_of_string "/ttyUSB0")) by (vm_compute; reflexivity).
  exact (conj H (openPort_spec ttyUSB0 [] (bytes_of_string "/ttyUSB0") fs_held H)).
Defined.


(** The lock in [/var/lock] does not stop [openPort]: it locks the port
    again under [/etc/locks]. *)
Example openPort_held_lock_ignored :
  openPort true ttyUSB0 [] fs_held =
  Some (true, bytes_of_string "/etc/locks/LCK..ttyUSB0",
        mkFS (lock_writable fs_held) (bytes_of_string "/etc/locks/LCK..ttyUSB0" :: files fs_held)).
Proof. vm_compute. reflexivity. Qed.


(** A port name without ['/'] reaches [port += strrchr(...)] with a null
    pointer: the model has no result there. *)
Lemma openPort_no_slash (portName lf : list Z) (fs : FS) :
  forallb (fun x => negb (x =? chr "/")) portName = true -> openPort true portName lf fs = None.
Proof. intros H. unfold openPort, lockFile. rewrite strrchr_none by exact H. reflexivity. Qed.

(** [connect()] calls [setSetting(9600, 8, 'n', 10000)]: [VTIME] is
    [100000 mod 256 = 160] tenths of a second, where the Windows branch
    waits [10000 * 1000] milliseconds. *)
Example setSetting_connect_vtime (line : termios) :
  c_vtime (snd (setSetting true line 9600 8 "n" 10000)) = 160.
Proof. reflexivity. Qed.

End SerialPosix.
