(* ===== verification/Averager.v ===== *)
(** * The box-car averager: [boxCarAvg] (src/KClmtr.cpp lines 721-811)

    The colour worker keeps the last [m_MaxAvgNumber] raw XYZ samples in
    three arrays used as a ring buffer indexed by the counter [m_AvgLast]
    modulo [m_MaxAvgNumber].  Each new sample is stored at
    [m_AvgLast % m_MaxAvgNumber]; the loop then walks back from the newest
    sample, folding samples into a running sum, and stops

    - when the next older sample differs from the running mean by more
      than 3% ([AVERAGING_LOW_LIGHT] is set),
    - in auto mode, as soon as the sum exceeds a threshold that depends on
      the number of samples, the model's sensitivity and the speed mode,
    - when it has folded [m_MaxAvgNumber] samples or reached the first
      sample ever stored.

    [parseAndPrintXYZ] then increments [m_AvgLast] (line 845); [feed]
    models that pair of steps.  The three arrays are a list of [V3]
    triples: they are always written together at the same index. *)

From Stdlib Require Import String Ascii ZArith QArith Qround Qabs Lqa Lia List Bool Morphisms Setoid.
From S2P Require Import Prelude ErrorCodes.
Import ListNotations.
Import KleinsErrorCodes.
Open Scope Z_scope.

Module Averager.

(** ** Data *)

(** [double data[3]]. *)
Record V3 := mkV3 { v0 : Q; v1 : Q; v2 : Q }.

Definition V3zero : V3 := mkV3 0 0 0.
Definition V3add (a b : V3) : V3 := mkV3 (v0 a + v0 b) (v1 a + v1 b) (v2 a + v2 b).
Definition V3div (a : V3) (n : Q) : V3 := mkV3 (v0 a / n) (v1 a / n) (v2 a / n).
Definition V3sum (a : V3) : Q := (v0 a + v1 a + v2 a)%Q.

(** [double minMax[3][2]]: per channel, the minimum and the maximum. *)
Record MinMax := mkMinMax { mins : V3; maxs : V3 }.

(** The reset values [minMax[i][0] = 10000], [minMax[i][1] = -10000]. *)
Definition minMax0 : MinMax := mkMinMax (mkV3 10000 10000 10000) (mkV3 (-10000) (-10000) (-10000)).

Definition min_upd (m t : Q) : Q := if Qltb t m then t else m.
Definition max_upd (m t : Q) : Q := if Qltb m t then t else m.

(** The min/max update of lines 768-777. *)
Definition minMax_upd (mm : MinMax) (t : V3) : MinMax :=
  mkMinMax (mkV3 (min_upd (v0 (mins mm)) (v0 t)) (min_upd (v1 (mins mm)) (v1 t))
                 (min_upd (v2 (mins mm)) (v2 t)))
           (mkV3 (max_upd (v0 (maxs mm)) (v0 t)) (max_upd (v1 (maxs mm)) (v1 t))
                 (max_upd (v2 (maxs mm)) (v2 t))).

(** The averaging state of a [KClmtr]: the ring [m_AvgX/Y/Z], the counter
    [m_AvgLast] and the window [m_MaxAvgNumber]. *)
Record AvgState := mkAvgState {
  ring : list V3;
  avgLast : Z;
  maxAvg : Z
}.

(** ** Sensitivity multipliers *)

Inductive SpeedMode := SPEEDMODE_SLOWEST | SPEEDMODE_SLOW | SPEEDMODE_NORMAL | SPEEDMODE_FAST.

(** [speedModeMultiplier()]. *)
Definition speedModeMultiplier (m : SpeedMode) : Q :=
  match m with
  | SPEEDMODE_SLOWEST => 1 # 4
  | SPEEDMODE_SLOW => 1 # 2
  | SPEEDMODE_FAST => 2
  | SPEEDMODE_NORMAL => 1
  end.

(** [modelSensitivity()]. *)
Definition modelSensitivity (m_Model : string) : Q :=
  if string_dec m_Model "K-1" then 30
  else if string_dec m_Model "K-10-A" then 3
  else if string_dec m_Model "K-10A" then 3
  else if string_dec m_Model "K-8" then 1 # 8
  else if string_dec m_Model "K-80" then 2
  else 1.

(** [multiplierForAveraging()]: [1 / modelSensitivity() * speedModeMultiplier()]. *)
Definition multiplierForAveraging (m_Model : string) (m : SpeedMode) : Q :=
  (1 / modelSensitivity m_Model * speedModeMultiplier m)%Q.

(** ** The averaging loop *)

(** The divergence test of lines 755-757:
    [ABS(runningSum - sum) / (runningSum + 1) > .01 * 3]. *)
Definition diverges (data temp : V3) (avgNumber : Z) : bool :=
  let sum := V3sum temp in
  let runningSum := (V3sum data / inject_Z (avgNumber - 1))%Q in
  div_gt (Qabs (runningSum - sum)) (runningSum + 1) (3 # 100).

(** The auto-mode threshold of lines 781-782. *)
Definition threshold (avgNumber : Z) (mult : Q) : Q :=
  (inject_Z avgNumber * 3 * 16 / (inject_Z avgNumber + 1) * mult)%Q.

(** The [for] loop of lines 739-790, with [fuel] bounding its iterations;
    the result is the final [avgNumber], the sum [data], the min/max, the
    error and [thresholdMet]. *)
Fixpoint avg_loop (fuel : nat) (ring : list V3) (maxAvg : Z) (autoAvg : bool) (mult : Q)
    (avgNumber avgLastI : Z) (data : V3) (mm : MinMax) (error : Z)
    : Z * V3 * MinMax * Z * bool :=
  match fuel with
  | O => (avgNumber, data, mm, error, false)
  | S fuel' =>
      if (avgNumber <=? maxAvg) && (0 <=? avgLastI) then
        let temp := nth (Z.to_nat (avgLastI mod maxAvg)) ring V3zero in
        if negb (avgNumber =? 1) && diverges data temp avgNumber
        then (avgNumber, data, mm, Z.lor error AVERAGING_LOW_LIGHT, false)
        else
          let data := V3add data temp in
          let mm := minMax_upd mm temp in
          if autoAvg && Qltb (threshold avgNumber mult) (V3sum data)
          then (avgNumber + 1, data, mm, error, true)
          else avg_loop fuel' ring maxAvg autoAvg mult (avgNumber + 1) (avgLastI - 1) data mm error
      else (avgNumber, data, mm, error, false)
  end.

(** [boxCarAvg(data, minMax, autoAvg, error)] (lines 721-811): the new
    state, and the returned [avgNumber] with the averaged [data], the
    min/max and the error. *)
Definition boxCarAvg (st : AvgState) (data : V3) (autoAvg : bool) (mult : Q) (error : Z)
    : AvgState * (Z * V3 * MinMax * Z) :=
  let AvgLastLocal := avgLast st mod maxAvg st in
  let ring := list_set (ring st) (Z.to_nat AvgLastLocal) data in
  let '(avgNumber, sum, mm, error, thresholdMet) :=
    avg_loop (Z.to_nat (maxAvg st)) ring (maxAvg st) autoAvg mult 1 (avgLast st)
             V3zero minMax0 error in
  let avgNumber := avgNumber - 1 in
  let data := V3div sum (inject_Z avgNumber) in
  let error :=
    if thresholdMet || (avgNumber =? maxAvg st) then error
    else Z.lor error AVERAGING_LOW_LIGHT in
  (mkAvgState ring (avgLast st) (maxAvg st), (avgNumber, data, mm, error)).

(** [boxCarAvg] followed by [++m_AvgLast] (lines 844-845 of
    [parseAndPrintXYZ]). *)
Definition feed (st : AvgState) (data : V3) (autoAvg : bool) (mult : Q) (error : Z)
    : AvgState * (Z * V3 * MinMax * Z) :=
  let '(st, r) := boxCarAvg st data autoAvg mult error in
  (mkAvgState (ring st) (avgLast st + 1) (maxAvg st), r).

(** A sequence of samples fed one after the other, each with no prior
    error; the result of the last one. *)
Fixpoint feed_list (st : AvgState) (samples : list V3) (autoAvg : bool) (mult : Q)
    : AvgState * option (Z * V3 * MinMax * Z) :=
  match samples with
  | [] => (st, None)
  | d :: rest =>
      let '(st, r) := feed st d autoAvg mult NONE in
      match rest with
      | [] => (st, Some r)
      | _ => feed_list st rest autoAvg mult
      end
  end.

(** A state right after [new double[m_MaxAvgNumber]] and [m_AvgLast = 0]:
    the ring's contents are arbitrary. *)
Definition fresh (ring : list V3) : AvgState := mkAvgState ring 0 (Z.of_nat (length ring)).

(** Equality of triples of doubles, component by component. *)
Definition V3eq (a b : V3) : Prop := (v0 a == v0 b /\ v1 a == v1 b /\ v2 a == v2 b)%Q.

(** [k] copies of [v] summed. *)
Definition V3scale (k : Z) (v : V3) : V3 :=
  mkV3 (inject_Z k * v0 v) (inject_Z k * v1 v) (inject_Z k * v2 v).

(** The samples of the ring the next call of [boxCarAvg] may read all
    equal [v]: the invariant of a run on constant input. *)
Definition const_ring (st : AvgState) (v : V3) : Prop :=
  Z.of_nat (length (ring st)) = maxAvg st /\ 1 <= maxAvg st /\ 0 <= avgLast st /\
  forall j, 0 <= j < avgLast st -> nth (Z.to_nat (j mod maxAvg st)) (ring st) V3zero = v.

(** ** Lemmas *)

Lemma inject_Z_nz (z : Z) : z <> 0 -> ~ (inject_Z z == 0)%Q.
Proof. intros Hz E. apply Hz, inject_Z_injective. exact E. Qed.

Lemma V3sum_eq (a b : V3) : V3eq a b -> (V3sum a == V3sum b)%Q.
Proof. unfold V3eq, V3sum. intros (H0 & H1 & H2). rewrite H0, H1, H2. reflexivity. Qed.

Lemma V3sum_scale (k : Z) (v : V3) : (V3sum (V3scale k v) == inject_Z k * V3sum v)%Q.
Proof. unfold V3sum, V3scale. simpl. ring. Qed.

Lemma V3scale_0 (v : V3) : V3eq V3zero (V3scale 0 v).
Proof. unfold V3eq, V3zero, V3scale. simpl. repeat split; ring. Qed.

Lemma V3add_scale (data v : V3) (k : Z) :
  V3eq data (V3scale k v) -> V3eq (V3add data v) (V3scale (k + 1) v).
Proof.
  unfold V3eq, V3add, V3scale. simpl. rewrite inject_Z_plus.
  intros (H0 & H1 & H2). rewrite H0, H1, H2. repeat split; ring.
Qed.

Lemma V3div_scale (d v : V3) (n : Z) :
  n <> 0 -> V3eq d (V3scale n v) -> V3eq (V3div d (inject_Z n)) v.
Proof.
  intros Hn. pose proof (inject_Z_nz n Hn).
  unfold V3eq, V3div, V3scale. simpl. intros (H0 & H1 & H2).
  rewrite H0, H1, H2. repeat split; field; assumption.
Qed.

#[export] Instance V3eq_Equivalence : Equivalence V3eq.
Proof.
  unfold V3eq. split.
  - intros a. repeat split; reflexivity.
  - intros a b (? & ? & ?). repeat split; symmetry; assumption.
  - intros a b c (? & ? & ?) (? & ? & ?). repeat split; etransitivity; eassumption.
Qed.

#[export] Instance V3sum_Proper : Proper (V3eq ==> Qeq) V3sum.
Proof. intros a b H. apply V3sum_eq, H. Qed.

(** The divergence test only depends on the values of the samples. *)
#[export] Instance diverges_Proper : Proper (V3eq ==> V3eq ==> eq ==> eq) diverges.
Proof.
  intros a a' Ha b b' Hb n n' <-. unfold diverges.
  rewrite (V3sum_eq _ _ Ha), (V3sum_eq _ _ Hb). reflexivity.
Qed.

(** A sample equal to the running mean never diverges. *)
Lemma diverges_const (data v : V3) (a : Z) :
  2 <= a -> V3eq data (V3scale (a - 1) v) -> diverges data v a = false.
Proof.
  intros Ha Hd. unfold diverges. apply div_gt_zero; [|unfold Qle; simpl; lia].
  rewrite (V3sum_eq _ _ Hd), V3sum_scale.
  pose proof (inject_Z_nz (a - 1) ltac:(lia)).
  setoid_replace (inject_Z (a - 1) * V3sum v / inject_Z (a - 1) - V3sum v)%Q with 0%Q
    by (field; assumption).
  reflexivity.
Qed.

(** The loop ends with [avgNumber] between its start and the first value
    the guard rejects. *)
Lemma avg_loop_count (fuel : nat) :
  forall ring max auto mult a l data mm err, 1 <= a ->
  let '(r, _, _, _, _) := avg_loop fuel ring max auto mult a l data mm err in
  a <= r <= Z.max a (Z.min (max + 1) (a + l + 1)).
Proof.
  induction fuel as [|fuel IH]; intros ring max auto mult a l data mm err Ha; simpl; [lia|].
  destruct ((a <=? max) && (0 <=? l)) eqn:G; [|lia].
  apply andb_prop in G as [G1 G2]. apply Z.leb_le in G1, G2.
  destruct (negb (a =? 1) && _); [lia|].
  destruct (auto && _); [lia|].
  specialize (IH ring max auto mult (a + 1) (l - 1)
               (V3add data (nth (Z.to_nat (l mod max)) ring V3zero))
               (minMax_upd mm (nth (Z.to_nat (l mod max)) ring V3zero)) err ltac:(lia)).
  destruct (avg_loop _ _ _ _ _ _ _ _ _ _) as [[[[r ?] ?] ?] ?]. lia.
Qed.

(** The first iteration always folds the newest sample. *)
Lemma avg_loop_first (fuel : nat) ring max auto mult l data mm err :
  (1 <= fuel)%nat -> 1 <= max -> 0 <= l ->
  let '(r, _, _, _, _) := avg_loop fuel ring max auto mult 1 l data mm err in
  2 <= r <= Z.min (max + 1) (l + 2).
Proof.
  intros Hf Hm Hl. destruct fuel as [|fuel]; [lia|]. simpl.
  rewrite (proj2 (Z.leb_le 1 max) Hm), (proj2 (Z.leb_le 0 l) Hl). simpl.
  destruct (auto && _); [lia|].
  pose proof (avg_loop_count fuel ring max auto mult 2 (l - 1)
               (V3add data (nth (Z.to_nat (l mod max)) ring V3zero))
               (minMax_upd mm (nth (Z.to_nat (l mod max)) ring V3zero)) err ltac:(lia)) as H.
  destruct (avg_loop _ _ _ _ _ _ _ _ _ _) as [[[[r ?] ?] ?] ?]. lia.
Qed.

(** On a ring whose readable samples all equal [v], with no auto mode,
    the loop folds every sample the guard admits and never diverges. *)
Lemma avg_loop_const (fuel : nat) :
  forall ring max mult v a l data mm err,
  1 <= a -> (Z.to_nat (max - a + 1) <= fuel)%nat ->
  (forall j, 0 <= j <= l -> nth (Z.to_nat (j mod max)) ring V3zero = v) ->
  V3eq data (V3scale (a - 1) v) ->
  let '(r, d, _, e, t) := avg_loop fuel ring max false mult a l data mm err in
  r = a + Z.max 0 (Z.min (max - a + 1) (l + 1)) /\ V3eq d (V3scale (r - 1) v) /\
  e = err /\ t = false.
Proof.
  induction fuel as [|fuel IH]; intros ring max mult v a l data mm err Ha Hf Hr Hd; simpl.
  { split; [lia|]. split; [exact Hd|]. auto. }
  destruct ((a <=? max) && (0 <=? l)) eqn:G.
  2:{ apply andb_false_iff in G as [G|G]; apply Z.leb_gt in G;
      (split; [lia|]); (split; [exact Hd|]); auto. }
  apply andb_prop in G as [G1 G2]. apply Z.leb_le in G1, G2.
  rewrite (Hr l ltac:(lia)).
  destruct (Z.eqb_spec a 1); simpl; [|rewrite diverges_const by (auto; lia); simpl].
  all: specialize (IH ring max mult v (a + 1) (l - 1) (V3add data v) (minMax_upd mm v) err
                     ltac:(lia) ltac:(lia) ltac:(intros j Hj; apply Hr; lia)).
  all: replace (a + 1 - 1) with (a - 1 + 1) in IH by lia;
       specialize (IH (V3add_scale _ _ _ Hd)).
  all: destruct (avg_loop _ _ _ _ _ _ _ _ _ _) as [[[[r d] ?] e0] t];
       destruct IH as (-> & Hd' & ? & ?); (split; [lia|]); (split; [exact Hd'|]); auto.
Qed.

(** One [feed] of [v] keeps [const_ring], counts [min(max, avgLast + 1)]
    samples, returns their mean [v] and flags low light unless the window
    is full. *)
Lemma feed_const (st : AvgState) (v : V3) (mult : Q) (err : Z) :
  const_ring st v ->
  let '(st', (n, d, _, e)) := feed st v false mult err in
  const_ring st' v /\ avgLast st' = avgLast st + 1 /\ maxAvg st' = maxAvg st /\
  n = Z.min (maxAvg st) (avgLast st + 1) /\ V3eq d v /\
  e = (if n =? maxAvg st then err else Z.lor err AVERAGING_LOW_LIGHT).
Proof.
  destruct st as [rg l m]. unfold const_ring. simpl. intros (Hlen & Hm & Hl & Hr).
  unfold feed, boxCarAvg. simpl.
  pose proof (Z.mod_pos_bound l m ltac:(lia)) as Hb.
  set (rg' := list_set rg (Z.to_nat (l mod m)) v).
  assert (Hr' : forall j, 0 <= j <= l -> nth (Z.to_nat (j mod m)) rg' V3zero = v).
  { intros j Hj. unfold rg'. rewrite nth_list_set by lia.
    destruct (Nat.eqb _ _) eqn:E; [reflexivity|]. apply Hr. split; [lia|].
    destruct (Z.eq_dec j l); [subst; rewrite Nat.eqb_refl in E; discriminate | lia]. }
  pose proof (avg_loop_const (Z.to_nat m) rg' m mult v 1 l V3zero minMax0 err
                ltac:(lia) ltac:(lia) Hr' (V3scale_0 v)) as H.
  destruct (avg_loop _ _ _ _ _ _ _ _ _ _) as [[[[r d] mm] e] t].
  destruct H as (Hn & Hd & -> & ->). simpl.
  split; [|split; [reflexivity|split; [reflexivity|split; [lia|split]]]].
  - unfold const_ring. simpl. split; [unfold rg'; rewrite length_list_set; lia|].
    split; [lia|]. split; [lia|]. intros j Hj. apply Hr'. lia.
  - apply V3div_scale; [lia | exact Hd].
  - reflexivity.
Qed.

Lemma feed_list_cons (st : AvgState) (d : V3) (rest : list V3) (auto : bool) (mult : Q) :
  rest <> [] ->
  feed_list st (d :: rest) auto mult = feed_list (fst (feed st d auto mult NONE)) rest auto mult.
Proof. intros H. simpl. destruct (feed _ _ _ _ _). destruct rest; [congruence | reflexivity]. Qed.

(** Feeding [S k] copies of [v] from a [const_ring] state. *)
Lemma feed_list_const (v : V3) (mult : Q) (k : nat) :
  forall st, const_ring st v ->
  match snd (feed_list st (repeat v (S k)) false mult) with
  | Some (n, d, _, e) =>
      n = Z.min (maxAvg st) (avgLast st + Z.of_nat (S k)) /\ V3eq d v /\
      e = (if n =? maxAvg st then NONE else AVERAGING_LOW_LIGHT)
  | None => False
  end.
Proof.
  induction k as [|k IH]; intros st Hc;
    pose proof (feed_const st v mult NONE Hc) as H.
  - cbn [repeat feed_list].
    destruct (feed st v false mult NONE) as [st' [[[n d] mm] e]].
    destruct H as (_ & _ & _ & Hn & Hd & He).
    cbn [snd]. split; [lia|split; [exact Hd | exact He]].
  - change (repeat v (S (S k))) with (v :: repeat v (S k)).
    rewrite feed_list_cons by discriminate.
    destruct (feed st v false mult NONE) as [st' [[[n d] mm] e]].
    destruct H as (Hc' & Hl & Hm & _). cbn [fst].
    specialize (IH st' Hc'). rewrite Hl, Hm in IH.
    destruct (snd (feed_list st' _ _ _)) as [[[[n' d'] ?] e']|]; [|contradiction].
    destruct IH as (? & ? & ?). split; [lia|split; auto].
Qed.

(** With a one-slot window, [feed] returns the sample itself, its
    min/max against the sentinels of [minMax0], and the error untouched. *)
Lemma feed_single (st : AvgState) (d : V3) (auto : bool) (mult : Q) (err : Z) :
  maxAvg st = 1 -> length (ring st) = 1%nat -> 0 <= avgLast st ->
  feed st d auto mult err =
  (mkAvgState [d] (avgLast st + 1) 1, (1, V3div (V3add V3zero d) (inject_Z 1), minMax_upd minMax0 d, err)).
Proof.
  destruct st as [[|r [|]] l m]; simpl; intros -> Hlen Hl; try discriminate.
  unfold feed, boxCarAvg. simpl. rewrite Z.mod_1_r. simpl.
  replace (1 <=? 1) with true by reflexivity. replace (0 <=? l) with true by (symmetry; zbool; lia).
  rewrite ?Z.mod_1_r. simpl. destruct (auto && _); reflexivity.
Qed.

(** ** Properties *)

(** [boxCarAvg] always averages at least one sample and never more
    than the window [m_MaxAvgNumber] or the samples stored so far. *)
Theorem boxCarAvg_count_bounds (st : AvgState) (data : V3) (autoAvg : bool) (mult : Q) (error : Z) :
  1 <= maxAvg st -> 0 <= avgLast st ->
  let '(_, (n, _, _, _)) := boxCarAvg st data autoAvg mult error in
  1 <= n <= Z.min (maxAvg st) (avgLast st + 1).
Proof.
  intros Hm Hl. unfold boxCarAvg.
  pose proof (avg_loop_first (Z.to_nat (maxAvg st))
    (list_set (ring st) (Z.to_nat (avgLast st mod maxAvg st)) data)
    (maxAvg st) autoAvg mult (avgLast st) V3zero minMax0 error ltac:(lia) Hm Hl) as H.
  destruct (avg_loop _ _ _ _ _ _ _ _ _ _) as [[[[r sum] mm] e] t]. simpl. lia.
Qed.

Lemma boxCarAvg_count_bounds_witness :
  1 <= maxAvg (fresh (repeat V3zero 4)) /\ 0 <= avgLast (fresh (repeat V3zero 4)) /\
  let '(_, (n, _, _, _)) := boxCarAvg (fresh (repeat V3zero 4)) (mkV3 1 2 3) false 1 NONE in
  1 <= n <= Z.min (maxAvg (fresh (repeat V3zero 4))) (avgLast (fresh (repeat V3zero 4)) + 1).
Proof.
  assert (H1 : 1 <= maxAvg (fresh (repeat V3zero 4))) by (simpl; lia).
  assert (H2 : 0 <= avgLast (fresh (repeat V3zero 4))) by (simpl; lia).
  split; [exact H1|]. split; [exact H2|].
  exact (boxCarAvg_count_bounds _ (mkV3 1 2 3) false 1%Q NONE H1 H2).
Defined.

(** A run that feeds the same sample [v] [k + 1] times into a fresh
    averager (window [length rg], no auto mode) averages
    [min(window, k + 1)] samples, returns exactly [v], and flags
    [AVERAGING_LOW_LIGHT] exactly while the window is not yet full; in
    particular after [window] samples the count is the whole window. *)
Theorem feed_list_constant_input (rg : list V3) (v : V3) (k : nat) (mult : Q) :
  (1 <= length rg)%nat ->
  match snd (feed_list (fresh rg) (repeat v (S k)) false mult) with
  | Some (n, d, _, e) =>
      n = Z.min (Z.of_nat (length rg)) (Z.of_nat (S k)) /\ V3eq d v /\
      e = (if n =? Z.of_nat (length rg) then NONE else AVERAGING_LOW_LIGHT)
  | None => False
  end.
Proof.
  intros H. apply (feed_list_const v mult k (fresh rg)).
  unfold const_ring, fresh. simpl. split; [reflexivity|]. split; [lia|]. split; [lia|].
  intros j Hj. lia.
Qed.

Lemma feed_list_constant_input_witness :
  (1 <= length (repeat V3zero 3))%nat /\
  match snd (feed_list (fresh (repeat V3zero 3)) (repeat (mkV3 1 2 3) 5) false 1) with
  | Some (n, d, _, e) =>
      n = Z.min (Z.of_nat (length (repeat V3zero 3))) (Z.of_nat 5) /\ V3eq d (mkV3 1 2 3) /\
      e = (if n =? Z.of_nat (length (repeat V3zero 3)) then NONE else AVERAGING_LOW_LIGHT)
  | None => False
  end.
Proof.
  assert (H : (1 <= length (repeat V3zero 3))%nat) by (simpl; lia).
  split; [exact H|].
  exact (feed_list_constant_input (repeat V3zero 3) (mkV3 1 2 3) 4 1 H).
Defined.

(** C32: when the newest sample diverges by more than 3% from the sample
    stored before it (and auto mode does not stop the loop first), the
    averager stops after a single sample: it returns that sample as the
    average and flags [AVERAGING_LOW_LIGHT]. *)
Theorem boxCarAvg_divergence_halts (st : AvgState) (data : V3) (autoAvg : bool) (mult : Q)
    (error : Z) :
  Z.of_nat (length (ring st)) = maxAvg st -> 2 <= maxAvg st -> 1 <= avgLast st ->
  (autoAvg && Qltb (threshold 1 mult) (V3sum data)) = false ->
  diverges data (nth (Z.to_nat ((avgLast st - 1) mod maxAvg st)) (ring st) V3zero) 2 = true ->
  let '(_, (n, d, _, e)) := boxCarAvg st data autoAvg mult error in
  n = 1 /\ V3eq d data /\ has_flag e AVERAGING_LOW_LIGHT = true.
Proof.
  destruct st as [rg l m]. simpl. intros Hlen Hm Hl Hauto Hdiv. unfold boxCarAvg. simpl.
  pose proof (Z.mod_pos_bound l m ltac:(lia)).
  pose proof (Z.mod_pos_bound (l - 1) m ltac:(lia)).
  pose proof (mod_pred_neq l m Hm).
  replace (Z.to_nat m) with (S (S (Z.to_nat m - 2))) by lia.
  cbn [avg_loop]. rewrite !nth_list_set by lia.
  set (i := l mod m) in *. set (j := (l - 1) mod m) in *.
  zbool. simpl.
  assert (Hd : V3eq (V3add V3zero data) data)
    by (unfold V3eq, V3add, V3zero; simpl; repeat split; ring).
  rewrite (Qltb_Proper _ _ (Qeq_refl _) _ _ (V3sum_eq _ _ Hd)), Hauto.
  rewrite (diverges_Proper _ _ Hd _ _ (reflexivity _) 2 2 eq_refl), Hdiv. simpl. zbool. split; [reflexivity|]. split.
  - unfold V3eq, V3div, V3add, V3zero. simpl. repeat split; field.
  - destruct_ifs; rewrite !has_flag_lor; apply orb_true_r.
Qed.

Lemma boxCarAvg_divergence_halts_witness :
  let st := mkAvgState [mkV3 1 1 1; V3zero; V3zero] 1 3 in
  Z.of_nat (length (ring st)) = maxAvg st /\ 2 <= maxAvg st /\ 1 <= avgLast st /\
  (false && Qltb (threshold 1 1) (V3sum (mkV3 2 2 2))) = false /\
  diverges (mkV3 2 2 2) (nth (Z.to_nat ((avgLast st - 1) mod maxAvg st)) (ring st) V3zero) 2 = true /\
  let '(_, (n, d, _, e)) := boxCarAvg st (mkV3 2 2 2) false 1 NONE in
  n = 1 /\ V3eq d (mkV3 2 2 2) /\ has_flag e AVERAGING_LOW_LIGHT = true.
Proof.
  intros st.
  assert (H1 : Z.of_nat (length (ring st)) = maxAvg st) by reflexivity.
  assert (H2 : 2 <= maxAvg st) by (simpl; lia).
  assert (H3 : 1 <= avgLast st) by (simpl; lia).
  assert (H4 : (false && Qltb (threshold 1 1) (V3sum (mkV3 2 2 2))) = false) by reflexivity.
  assert (H5 : diverges (mkV3 2 2 2)
                 (nth (Z.to_nat ((avgLast st - 1) mod maxAvg st)) (ring st) V3zero) 2 = true)
    by (vm_compute; reflexivity).
  split; [exact H1|]. split; [exact H2|]. split; [exact H3|]. split; [exact H4|].
  split; [exact H5|].
  exact (boxCarAvg_divergence_halts st (mkV3 2 2 2) false 1 NONE H1 H2 H3 H4 H5).
Defined.

End Averager.
