(* ===== verification/Measure.v ===== *)
(** * Colour measurements: [parseAndPrintXYZ] and its helpers
      (src/KClmtr.cpp lines 581-593, 626-644, 685-720, 813-906)

    One reply of a colour command ([N4] to [N7], 15 bytes) is decoded
    into a [Measurement]: the three K-floats X, Y, Z at offsets 2, 5 and
    8, the range byte at 11 and the error token at 13; the triple is
    averaged by the box-car filter of [Averager], clamped or flagged by
    the noise check, and corrected by the calibration matrix when a user
    calibration file is selected.

    The device configuration [parseAndPrintXYZ] reads ([m_Model],
    [m_speedMode], [m_ZeroNoise], [m_CalFileID], [m_CalMatrix]) is the
    [Context] of the section [Config]; the averaging state is passed and
    returned.  [Measurement::fromXYZ] lives in Measurement.cpp, which is
    not part of the sources: the model keeps the arguments it is given
    (the corrected XYZ and the error mask) and leaves out the colour
    spaces it derives from them. *)

From Stdlib Require Import String Ascii ZArith QArith Qabs Qminmax Lqa Lia List Bool.
From S2P Require Import Prelude ErrorCodes Codec Protocol Averager.
Import ListNotations.
Import KleinsErrorCodes.
Open Scope Z_scope.

Module Measure.

Import Codec Averager.

(** The fields of [Measurement] that [parseAndPrintXYZ] writes. *)
Record Measurement := mkMeasurement {
  bigx : Q; bigy : Q; bigz : Q;           (** the arguments of [fromXYZ] *)
  errorcode : Z;
  redrange : Z; greenrange : Z; bluerange : Z;
  bigxraw : Q; bigyraw : Q; bigzraw : Q;
  averagingby : Z;
  minX : Q; maxX : Q; minY : Q; maxY : Q; minZ : Q; maxZ : Q
}.

(** [Measurement::fromXYZ(X, Y, Z, gs, error)]. *)
Definition fromXYZ (x y z : Q) (error : Z) : Measurement :=
  mkMeasurement x y z error 0 0 0 0 0 0 0 0 0 0 0 0 0.

(** [Measurement::fromError(error)]. *)
Definition fromError (error : Z) : Measurement := fromXYZ 0 0 0 error.

(** [getColorMeasurmentCommand()]. *)
Definition getColorMeasurmentCommand (m : SpeedMode) : Protocol.command :=
  match m with
  | SPEEDMODE_SLOWEST => Protocol.COLOR_2PERSECOND
  | SPEEDMODE_SLOW => Protocol.COLOR_4PERSECOND
  | SPEEDMODE_FAST => Protocol.COLOR_16PERSECOND
  | SPEEDMODE_NORMAL => Protocol.COLOR_8PERSECOND
  end.

(** [speedModeSamples()]: samples per measurement at 32 samples a second. *)
Definition speedModeSamples (m : SpeedMode) : Q := (1 / speedModeMultiplier m * 32)%Q.

(** [modelSensitivityMultiplier()]. *)
Definition modelSensitivityMultiplier (m_Model : string) : Q := (1 / modelSensitivity m_Model)%Q.

(** [m_CalMatrix.v[i][j]]. *)
Definition cal_at (m : list (list Q)) (i j : nat) : Q := nth j (nth i m []) 0%Q.

Arguments cal_at m (i j)%_nat.

(** [correctXYZCalFile]: the calibration matrix applies to user files only. *)
Definition correctXYZCalFile (m_CalFileID : Z) (m_CalMatrix : list (list Q)) (d : V3) : V3 :=
  if negb (m_CalFileID =? 0) then
    let c := m_CalMatrix in
    mkV3 (v0 d * cal_at c 0 0 + v1 d * cal_at c 0 1 + v2 d * cal_at c 0 2)%Q
         (v0 d * cal_at c 1 0 + v1 d * cal_at c 1 1 + v2 d * cal_at c 1 2)%Q
         (v0 d * cal_at c 2 0 + v1 d * cal_at c 2 1 + v2 d * cal_at c 2 2)%Q
  else d.

(** One component of the noise check: clamp a small negative value to 0
    when [m_ZeroNoise] is set, flag a value at or below the threshold. *)
Definition noise_one (zeroNoise : bool) (theshold d : Q) (error : Z) : Q * Z :=
  if zeroNoise && Qltb d 0 && Qltb theshold d then (0%Q, error)
  else if Qle_bool d theshold then (d, Z.lor error NEGATIVE_VALUES)
  else (d, error).

Section Config.

Context `{Libm}.
Context (m_Model : string) (m_speedMode : SpeedMode) (m_ZeroNoise : bool)
        (m_CalFileID : Z) (m_CalMatrix : list (list Q)).

(** The threshold of component [i] for a measurement averaged over
    [avgNumber] readings (lines 852-861). *)
Definition noise_threshold (avgNumber : Z) (i : nat) : Q :=
  let samples := (speedModeSamples m_speedMode * inject_Z avgNumber)%Q in
  let samples := if Qltb 512 samples then 512%Q else samples in
  let muiti := (modelSensitivityMultiplier m_Model * 1 / sqrt (samples / 32))%Q in
  let muiti := if negb (Nat.eqb i 1) then (muiti * 3)%Q else muiti in
  (- (2 # 100) * muiti)%Q.

(** The loop [for (i = 0; i < 3; ++i)] of the noise check. *)
Definition noise_check (avgNumber : Z) (d : V3) (error : Z) : V3 * Z :=
  let '(x, error) := noise_one m_ZeroNoise (noise_threshold avgNumber 0) (v0 d) error in
  let '(y, error) := noise_one m_ZeroNoise (noise_threshold avgNumber 1) (v1 d) error in
  let '(z, error) := noise_one m_ZeroNoise (noise_threshold avgNumber 2) (v2 d) error in
  (mkV3 x y z, error).

(** [parseAndPrintXYZ(ReadString, autoAvg)]: the averaging state after
    [boxCarAvg] and [++m_AvgLast], and the measurement. *)
Definition parseAndPrintXYZ (st : AvgState) (ReadString : list Z) (autoAvg : bool)
    : AvgState * Measurement :=
  let data := mkV3 (parseK_float (substr ReadString 2 3))
                   (parseK_float (substr ReadString 5 3))
                   (parseK_float (substr ReadString 8 3)) in
  let '(r0, r1, r2) := parsingRange (substr ReadString 11 1).[0] in
  let error := getErrorCodeFromKlein (substr ReadString 13 1) in
  let '(st, (avgNumber, data, mm, error)) :=
    feed st data autoAvg (multiplierForAveraging m_Model m_speedMode) error in
  let '(data, error) := noise_check avgNumber data error in
  let big := correctXYZCalFile m_CalFileID m_CalMatrix data in
  let m := fromXYZ (v0 big) (v1 big) (v2 big) error in
  (st, mkMeasurement (bigx m) (bigy m) (bigz m) (errorcode m) r0 r1 r2
         (v0 data) (v1 data) (v2 data) avgNumber
         (v0 (mins mm)) (v0 (maxs mm)) (v1 (mins mm)) (v1 (maxs mm))
         (v2 (mins mm)) (v2 (maxs mm))).

End Config.

(** ** Lemmas *)

Lemma modelSensitivity_pos (m : string) : (0 < modelSensitivity m)%Q.
Proof. unfold modelSensitivity. destruct_ifs; reflexivity. Qed.

Lemma speedModeSamples_pos (m : SpeedMode) : (0 < speedModeSamples m)%Q.
Proof. destruct m; reflexivity. Qed.

Lemma Qdiv_pos (a b : Q) : (0 < a)%Q -> (0 < b)%Q -> (0 < a / b)%Q.
Proof. intros Ha Hb. apply Qlt_shift_div_l; [exact Hb | rewrite Qmult_0_l; exact Ha]. Qed.

Section Noise.

Context `{LibmLaws} (m_Model : string) (m_speedMode : SpeedMode) (m_ZeroNoise : bool).

(** The noise threshold is negative as soon as one reading is averaged. *)
Lemma noise_threshold_neg (avgNumber : Z) (i : nat) :
  0 < avgNumber -> (noise_threshold m_Model m_speedMode avgNumber i < 0)%Q.
Proof.
  intros Ha. unfold noise_threshold.
  set (samples := (speedModeSamples m_speedMode * inject_Z avgNumber)%Q).
  assert (Hs : (0 < samples)%Q).
  { apply Qmult_lt_0_compat; [apply speedModeSamples_pos|].
    unfold Qlt; simpl; lia. }
  set (s' := if Qltb 512 samples then 512%Q else samples).
  assert (Hs' : (0 < s')%Q) by (unfold s'; destruct (Qltb _ _); [reflexivity | exact Hs]).
  assert (Hm : (0 < modelSensitivityMultiplier m_Model * 1 / sqrt (s' / 32))%Q).
  { apply Qdiv_pos; [|apply sqrt_pos, Qdiv_pos; [exact Hs' | reflexivity]].
    rewrite Qmult_1_r. apply Qdiv_pos; [reflexivity | apply modelSensitivity_pos]. }
  destruct (negb _); lra.
Qed.

Lemma noise_one_nonneg (th d : Q) (e : Z) :
  (th < 0)%Q -> (0 <= d)%Q -> noise_one m_ZeroNoise th d e = (d, e).
Proof.
  intros Ht Hd. unfold noise_one.
  replace (Qltb d 0) with false by (symmetry; apply Qltb_ge; exact Hd).
  replace (Qle_bool d th) with false by (symmetry; apply not_true_iff_false; rewrite Qle_bool_iff; lra).
  rewrite andb_false_r. reflexivity.
Qed.

(** Nonnegative components pass the noise check unchanged and unflagged. *)
Lemma noise_check_nonneg (avgNumber : Z) (d : V3) (e : Z) :
  0 < avgNumber -> (0 <= v0 d)%Q -> (0 <= v1 d)%Q -> (0 <= v2 d)%Q ->
  noise_check m_Model m_speedMode m_ZeroNoise avgNumber d e = (d, e).
Proof.
  intros Ha Hx Hy Hz. unfold noise_check.
  rewrite !noise_one_nonneg by (apply noise_threshold_neg || idtac; assumption).
  destruct d; reflexivity.
Qed.

End Noise.

(** ** Properties *)

Section Sample.

Context `{LibmLaws}.

(** C31: with a one-slot averaging window and the factory calibration
    (file 0), a colour reply whose three K-floats are nonnegative yields a
    measurement whose XYZ and raw XYZ are exactly the decoded values, whose
    ranges are the decoded range byte, whose error mask is exactly the
    mapped error token, averaged over one reading; its minimum and maximum
    are the value against the sentinels 10000 and -10000 of the min/max
    initialisation, so a value above 10000 reports a minimum of 10000. *)
Theorem parseAndPrintXYZ_single_sample (model : string) (speed : SpeedMode) (zeroNoise : bool)
    (cm : list (list Q)) (st : AvgState) (s : list Z) (autoAvg : bool) :
  maxAvg st = 1 -> length (ring st) = 1%nat -> 0 <= avgLast st ->
  (0 <= parseK_float (substr s 2 3))%Q -> (0 <= parseK_float (substr s 5 3))%Q ->
  (0 <= parseK_float (substr s 8 3))%Q ->
  let x := parseK_float (substr s 2 3) in
  let y := parseK_float (substr s 5 3) in
  let z := parseK_float (substr s 8 3) in
  let '(st', m) := parseAndPrintXYZ model speed zeroNoise 0 cm st s autoAvg in
  ring st' = [mkV3 x y z] /\ avgLast st' = avgLast st + 1 /\
  (bigx m == x /\ bigy m == y /\ bigz m == z)%Q /\
  (bigxraw m == x /\ bigyraw m == y /\ bigzraw m == z)%Q /\
  errorcode m = getErrorCodeFromKlein (substr s 13 1) /\
  (redrange m, greenrange m, bluerange m) = parsingRange (s.[11]) /\
  averagingby m = 1 /\
  (minX m == Qmin x 10000 /\ maxX m == Qmax x (-10000))%Q /\
  (minY m == Qmin y 10000 /\ maxY m == Qmax y (-10000))%Q /\
  (minZ m == Qmin z 10000 /\ maxZ m == Qmax z (-10000))%Q.
Proof.
  intros Hm Hl Ha Hx Hy Hz x y z. unfold parseAndPrintXYZ.
  replace ((substr s 11 1).[0]) with (s.[11]) by (rewrite byte_at_substr; [reflexivity | lia]).
  destruct (parsingRange s.[11]) as [[r0 r1] r2].
  rewrite feed_single by assumption. fold x y z.
  assert (Hd : forall q, ((0 + q) / inject_Z 1 == q)%Q) by (intros; field).
  rewrite noise_check_nonneg by (cbn [v0 v1 v2 V3div V3add V3zero]; rewrite ?Hd; lia || assumption).
  cbn. rewrite !Hd.
  unfold min_upd, max_upd.
  repeat split; try reflexivity;
    match goal with
    | |- ((if Qltb ?a ?b then _ else _) == _)%Q =>
        destruct (Qltb a b) eqn:E; [apply Qltb_lt in E | apply Qltb_ge in E]
    end;
    first [ rewrite Q.min_l by lra | rewrite Q.min_r by lra
          | rewrite Q.max_l by lra | rewrite Q.max_r by lra ]; reflexivity.
Qed.

End Sample.

(** The reply of line 819 of src/KClmtr.cpp, read by a K-10 at normal
    speed with a one-slot window. *)
Lemma parseAndPrintXYZ_single_sample_witness :
  let s := [78; 53; 93; 90; 7; 102; 173; 7; 77; 42; 7; 128; 60; 48; 62] in
  let st := mkAvgState [V3zero] 0 1 in
  maxAvg st = 1 /\ length (ring st) = 1%nat /\ 0 <= avgLast st /\
  (0 <= parseK_float (substr s 2 3))%Q /\ (0 <= parseK_float (substr s 5 3))%Q /\
  (0 <= parseK_float (substr s 8 3))%Q /\
  let x := parseK_float (substr s 2 3) in
  let y := parseK_float (substr s 5 3) in
  let z := parseK_float (substr s 8 3) in
  let '(st', m) := @parseAndPrintXYZ stub_libm "K-10" SPEEDMODE_NORMAL true 0 [] st s false in
  ring st' = [mkV3 x y z] /\ avgLast st' = avgLast st + 1 /\
  (bigx m == x /\ bigy m == y /\ bigz m == z)%Q /\
  (bigxraw m == x /\ bigyraw m == y /\ bigzraw m == z)%Q /\
  errorcode m = getErrorCodeFromKlein (substr s 13 1) /\
  (redrange m, greenrange m, bluerange m) = parsingRange (s.[11]) /\
  averagingby m = 1 /\
  (minX m == Qmin x 10000 /\ maxX m == Qmax x (-10000))%Q /\
  (minY m == Qmin y 10000 /\ maxY m == Qmax y (-10000))%Q /\
  (minZ m == Qmin z 10000 /\ maxZ m == Qmax z (-10000))%Q.
Proof.
  intros s st.
  split; [reflexivity|]. split; [reflexivity|]. split; [vm_compute; discriminate|].
  split; [vm_compute; discriminate|]. split; [vm_compute; discriminate|].
  split; [vm_compute; discriminate|].
  apply (@parseAndPrintXYZ_single_sample stub_libm stub_libm_laws);
    first [reflexivity | vm_compute; discriminate].
Defined.

End Measure.
