(* ===== verification/Spectrum.v ===== *)
(** * The flicker spectrum: [FlickerSetting] and [Flicker] (src/Flicker.cpp,
      src/Flicker.h)

    [FlickerSetting] holds the analysis parameters and the per-range
    correction tables; [getCorrection] evaluates the correction at a
    frequency (linear interpolation in a table, or a polynomial).  The
    constructor [Flicker(settings, data, sectionOfFFT, nitsLast32Samples)]
    turns the ripple buffer into a time series, a flicker index, an FFT
    ([four1]), a normalised amplitude spectrum, percent and dB series and two
    top-K peak tables.

    The C library's [cos], [sin], [sqrt] and [log10] are the fields of the
    class [Libm]; every definition that calls them takes an instance, so the
    arithmetic around them is modelled exactly and the transcendental values
    are left abstract.  Two-column [Matrix<double>] values are lists of pairs
    (column 0, column 1), zero-initialised as [initializeV] does. *)

From Stdlib Require Import String Ascii ZArith QArith Qround Qabs Lqa Lia List Bool.
From S2P Require Import Prelude ErrorCodes.
Import ListNotations.
Open Scope Z_scope.

Module Spectrum.

(** ** Settings *)

Inductive CorrectionMode := ArrayFit | PolyFit.
Inductive DecibelMode := VESA | JEITA.
Inductive PercentMode := ContrastMethod | Normaized.

(** [FlickerSetting::Range]; [end] is a keyword of Rocq. *)
Record Range := mkRange { start : Z; end_ : Z }.

Definition numbers (r : Range) : Z := end_ r - start r + 1.

Record RangeCorrecionArray := mkRangeCorrecionArray {
  rangeOfHz : Range;
  mode : CorrectionMode;
  array : list Q
}.

Record FlickerSetting := mkFlickerSetting {
  samples : Z;
  speed : Z;
  numberOfPeaks : Z;
  cosine : bool;
  smoothing : bool;
  JETIADiscount_DB : bool;
  JEITADiscount_Percent : bool;
  decibel : DecibelMode;
  percent : PercentMode;
  corrections : list RangeCorrecionArray
}.

(** [FlickerSetting()]. *)
Definition FlickerSetting_default : FlickerSetting :=
  mkFlickerSetting 256 256 3 true true true false VESA ContrastMethod [].

(** [getResolution()]: [(double)speed / (double)samples]. *)
Definition getResolution (s : FlickerSetting) : Q := (inject_Z (speed s) / inject_Z (samples s))%Q.

(** The static helper [getNumberBetween(high, low, number)]. *)
Definition getNumberBetween (high low number : Q) : Q :=
  ((high - low) * (number - inject_Z (Qtrunc number)) + low)%Q.

(** [corrections[i].array[j]] with the vector's bounds left unchecked as in
    the source: an index outside the table reads 0. *)
Definition at_ (a : list Q) (j : Z) : Q := nth (Z.to_nat j) a 0%Q.

(** The [PolyFit] sum [c += array[j] * pow(hz, j)]. *)
Fixpoint poly_loop (a : list Q) (j : nat) (hz c : Q) : Q :=
  match a with
  | [] => c
  | x :: r => poly_loop r (S j) hz (c + x * Qpower hz (Z.of_nat j))%Q
  end.

(** One correction entry evaluated at [hz] (the [switch]). *)
Definition correction_value (c : RangeCorrecionArray) (hz : Q) : Q :=
  match mode c with
  | ArrayFit =>
      getNumberBetween (at_ (array c) (Qtrunc hz)) (at_ (array c) (Qtrunc hz + 1)) hz
  | PolyFit => poly_loop (array c) 0 hz 0
  end.

Definition in_range (r : Range) (hz : Q) : bool :=
  Qle_bool (inject_Z (start r)) hz && Qltb hz (inject_Z (end_ r)).

(** [getCorrection(hz)]: the first entry whose range holds [hz], else 1. *)
Fixpoint getCorrection_loop (cs : list RangeCorrecionArray) (hz : Q) : Q :=
  match cs with
  | [] => 1%Q
  | c :: rest => if in_range (rangeOfHz c) hz then correction_value c hz
                 else getCorrection_loop rest hz
  end.

Definition getCorrection (s : FlickerSetting) (hz : Q) : Q :=
  getCorrection_loop (corrections s) hz.

(** [appendCorrection(rangeOfHz, mode, array, size)]: the [size] first
    entries of the C array. *)
Definition appendCorrection (s : FlickerSetting) (r : Range) (m : CorrectionMode)
    (a : list Q) (size : Z) : FlickerSetting :=
  {| samples := samples s; speed := speed s; numberOfPeaks := numberOfPeaks s;
     cosine := cosine s; smoothing := smoothing s; JETIADiscount_DB := JETIADiscount_DB s;
     JEITADiscount_Percent := JEITADiscount_Percent s; decibel := decibel s;
     percent := percent s;
     corrections := corrections s ++ [mkRangeCorrecionArray r m (firstn (Z.to_nat size) a)] |}.

(** [deleteCorrection()]. *)
Definition deleteCorrection (s : FlickerSetting) : FlickerSetting :=
  {| samples := samples s; speed := speed s; numberOfPeaks := numberOfPeaks s;
     cosine := cosine s; smoothing := smoothing s; JETIADiscount_DB := JETIADiscount_DB s;
     JEITADiscount_Percent := JEITADiscount_Percent s; decibel := decibel s;
     percent := percent s; corrections := [] |}.

(** The JEITA weighting table [EIAJ_array] (64 entries). *)
Definition EIAJ_array : list Q :=
  [1.000000; 1.000000; 1.000000; 1.000000; 1.000000; 1.000000; 1.000000; 1.000000;
   1.000000; 1.000000; 1.000000; 1.000000; 1.000000; 1.000000; 1.000000; 1.000000;
   1.000000; 1.000000; 1.000000; 1.000000; 1.000000; 0.970795; 0.941589; 0.912384;
   0.883178; 0.853973; 0.824768; 0.795562; 0.766357; 0.737151; 0.707946; 0.687270;
   0.666594; 0.645918; 0.625242; 0.604567; 0.583891; 0.563215; 0.542539; 0.521863;
   0.501187; 0.476517; 0.451847; 0.427178; 0.402508; 0.377838; 0.353168; 0.328498;
   0.303829; 0.279159; 0.251189; 0.227070; 0.202951; 0.178832; 0.154713; 0.130595;
   0.106476; 0.082357; 0.058238; 0.034119; 0.010000; 0.005158; 0.000316; 0.000000]%Q.

(** The JEITA weight at [hz] as the constructor computes it. *)
Definition jeita_weight (hz : Q) : Q :=
  getNumberBetween (at_ EIAJ_array (Qtrunc hz)) (at_ EIAJ_array (Qtrunc hz + 1)) hz.

(** ** Peak tables *)

(** A two-column matrix. *)
Definition Mat2 := list (Q * Q).

Definition mget (m : Mat2) (i : Z) : Q * Q := nth (Z.to_nat i) m (0%Q, 0%Q).

(** The shift of lines 482-485: [for (k = K - 1; k > storePoint; --k)
    table[k] = table[k - 1]], with [fuel] bounding the iterations. *)
Fixpoint shift_down (table : Mat2) (k storePoint : Z) (fuel : nat) : Mat2 :=
  match fuel with
  | O => table
  | S f =>
      if storePoint <? k
      then shift_down (list_set table (Z.to_nat k) (mget table (k - 1))) (k - 1) storePoint f
      else table
  end.

(** The search of lines 478-491 for the first slot whose value is below
    the new peak's, then the shift and the store. *)
Fixpoint insert_peak_loop (table : Mat2) (K storePoint : Z) (p : Q * Q) (fuel : nat) : Mat2 :=
  match fuel with
  | O => table
  | S f =>
      if storePoint <? K then
        if Qltb (snd (mget table storePoint)) (snd p)
        then list_set (shift_down table (K - 1) storePoint (Z.to_nat K)) (Z.to_nat storePoint) p
        else insert_peak_loop table K (storePoint + 1) p f
      else table
  end.

Definition insert_peak (table : Mat2) (K : Z) (p : Q * Q) : Mat2 :=
  insert_peak_loop table K 0 p (Z.to_nat K).

(** The peak test of lines 463-473. *)
Definition isPeak (data : Mat2) (numberInArray i : Z) : bool :=
  if i =? numberInArray - 1
  then Qltb (snd (mget data (i - 1))) (snd (mget data i))
  else Qltb (snd (mget data (i - 1))) (snd (mget data i)) &&
       Qltb (snd (mget data (i + 1))) (snd (mget data i)).

(** The scan [for (i = 1; i < numberInArray; ++i)] of lines 461-493. *)
Fixpoint peak_scan (data table : Mat2) (numberInArray K i : Z) (fuel : nat) : Mat2 :=
  match fuel with
  | O => table
  | S f =>
      if i <? numberInArray then
        let table := if isPeak data numberInArray i then insert_peak table K (mget data i) else table in
        peak_scan data table numberInArray K (i + 1) f
      else table
  end.

(** The initial table of lines 440-448: [K] rows [(0, init)]. *)
Definition peak_table0 (K : Z) (init : Q) : Mat2 := repeat (0%Q, init) (Z.to_nat K).

(** The peak table of one series ([x = 0]: percent, sentinel 0; [x = 1]:
    dB, sentinel -100). *)
Definition find_peaks (data : Mat2) (numberInArray K : Z) (init : Q) : Mat2 :=
  peak_scan data (peak_table0 K init) numberInArray K 1 (Z.to_nat numberInArray).

(** The values of a table are non-increasing. *)
Definition d0 : Q * Q := (0%Q, 0%Q).

Definition desc (table : Mat2) : Prop :=
  forall i, (S i < length table)%nat -> (snd (nth (S i) table d0) <= snd (nth i table d0))%Q.

(** The series is strictly increasing up to index [m] and strictly
    decreasing from [m] to the last index [n - 1]. *)
Definition unimodal (data : Mat2) (n m : Z) : bool :=
  forallb (fun i => Qltb (snd (mget data (Z.of_nat i - 1))) (snd (mget data (Z.of_nat i))))
          (seq 1 (Z.to_nat m)) &&
  forallb (fun i => Qltb (snd (mget data (Z.of_nat i + 1))) (snd (mget data (Z.of_nat i))))
          (seq (Z.to_nat m) (Z.to_nat (n - 1 - m))).

(** ** Results *)

(** [class Flicker]; [range] is a [MeasurementRange] (1 .. 6). *)
Record Flicker := mkFlicker {
  bigY : Q;
  range : Z;
  peakfrequencyPercent : Mat2;
  peakfrequencyDB : Mat2;
  flickerPercent : Mat2;
  flickerDB : Mat2;
  counts : Mat2;
  nits : Mat2;
  amplitude : Mat2;
  errorcode : Z;
  settings : FlickerSetting;
  flickerIndex : Q
}.

(** [Flicker(unsigned int error)] (and [Flicker()] for [error = 0]). *)
Definition Flicker_of_error (error : Z) : Flicker :=
  mkFlicker 0 1 [] [] [] [] [] [] [] error FlickerSetting_default 0.

(** [Flicker()]: the default constructor, with the members of
    [Flicker(0)]. *)
Definition Flicker_default : Flicker := mkFlicker 0 1 [] [] [] [] [] [] [] 0 FlickerSetting_default 0.

(** ** The FFT [four1] (lines 496-546) *)

Definition qset (data : list Q) (i : Z) (v : Q) : list Q := list_set data (Z.to_nat i) v.

(** [data[a] <-> data[b]], through [tempr]. *)
Definition swap {A : Type} (d : A) (data : list A) (a b : Z) : list A :=
  let tempr := nth (Z.to_nat a) data d in
  let data := list_set data (Z.to_nat a) (nth (Z.to_nat b) data d) in
  list_set data (Z.to_nat b) tempr.

(** [while (m >= 2 && j > m) { j -= m; m >>= 1; }]. *)
Fixpoint br_while (m j : Z) (fuel : nat) : Z * Z :=
  match fuel with
  | O => (m, j)
  | S f => if (2 <=? m) && (m <? j) then br_while (Z.shiftr m 1) (j - m) f else (m, j)
  end.

(** The bit-reversal section [for (i = 1; i < n; i += 2)]; it only moves
    entries, so it is stated for any element type. *)
Fixpoint bitrev_loop {A : Type} (d : A) (data : list A) (n i j : Z) (fuel : nat) : list A :=
  match fuel with
  | O => data
  | S f =>
      if i <? n then
        let data := if i <? j then swap d (swap d data j i) (j + 1) (i + 1) else data in
        let '(m, j) := br_while (Z.shiftr n 1) j (Z.to_nat n) in
        bitrev_loop d data n (i + 2) (j + m) f
      else data
  end.

(** The Danielson-Lanczos butterflies [for (i = m; i <= n; i += istep)]. *)
Fixpoint dl_inner (data : list Q) (i n istep mmax : Z) (wr wi : Q) (fuel : nat) : list Q :=
  match fuel with
  | O => data
  | S f =>
      if i <=? n then
        let j := i + mmax in
        let tempr := (wr * at_ data j - wi * at_ data (j + 1))%Q in
        let tempi := (wr * at_ data (j + 1) + wi * at_ data j)%Q in
        let data := qset data j (at_ data i - tempr) in
        let data := qset data (j + 1) (at_ data (i + 1) - tempi) in
        let data := qset data i (at_ data i + tempr) in
        let data := qset data (i + 1) (at_ data (i + 1) + tempi) in
        dl_inner data (i + istep) n istep mmax wr wi f
      else data
  end.

(** [for (m = 1; m < mmax; m += 2)] with the trigonometric recurrence. *)
Fixpoint dl_middle (data : list Q) (m mmax istep n : Z) (wr wi wpr wpi : Q) (fuel : nat)
    : list Q :=
  match fuel with
  | O => data
  | S f =>
      if m <? mmax then
        let data := dl_inner data m n istep mmax wr wi (Z.to_nat n) in
        let wtemp := wr in
        let wr := (wtemp * wpr - wi * wpi + wr)%Q in
        let wi := (wi * wpr + wtemp * wpi + wi)%Q in
        dl_middle data (m + 2) mmax istep n wr wi wpr wpi f
      else data
  end.

(** The bit-reversal section of [four1] on [nn] complex entries. *)
Definition four1_bitrev {A : Type} (d : A) (data : list A) (nn : Z) : list A :=
  bitrev_loop d data (Z.shiftl nn 1) 1 1 (Z.to_nat (Z.shiftl nn 1)).

(** The [b]-bit reversal of [k]. *)
Fixpoint rev_bits (b : nat) (k : Z) : Z :=
  match b with
  | O => 0
  | S b' => Z.lor (Z.shiftl (k mod 2) (Z.of_nat b')) (rev_bits b' (k / 2))
  end.

(** The entry the bit-reversal section should bring to index [x]:
    complex entry [k] (indices [2k + 1], [2k + 2]) comes from complex
    entry [rev_bits b k]; index 0 is unused. *)
Definition bitrev_source (b : nat) (x : nat) : nat :=
  match x with
  | O => O
  | S x' => Z.to_nat (2 * rev_bits b (Z.of_nat x' / 2)) + 1 + x' mod 2
  end.

(** The sample counts [setFFT_Samples] accepts: powers of two in
    [64, 2048]. *)
Definition fft_sizes : list (nat * Z) :=
  [(6%nat, 64); (7%nat, 128); (8%nat, 256); (9%nat, 512); (10%nat, 1024); (11%nat, 2048)].

Definition bitrev_ok (b : nat) (nn : Z) : bool :=
  let len := Z.to_nat (2 * nn + 1) in
  if list_eq_dec Nat.eq_dec (four1_bitrev len (seq 0 len) nn) (map (bitrev_source b) (seq 0 len))
  then true else false.

Section WithLibm.
Context `{Libm}.

(** The outer loop [while (n > mmax)]. *)
Fixpoint dl_outer (data : list Q) (n mmax isign : Z) (fuel : nat) : list Q :=
  match fuel with
  | O => data
  | S f =>
      if mmax <? n then
        let istep := 2 * mmax in
        let theta := (2 * PI / inject_Z (isign * mmax))%Q in
        let wtemp := sin (0.5 * theta)%Q in
        let wpr := (-2 * wtemp * wtemp)%Q in
        let wpi := sin theta in
        let data := dl_middle data 1 mmax istep n 1 0 wpr wpi (Z.to_nat mmax) in
        dl_outer data n istep isign f
      else data
  end.

(** [four1(data, nn, isign)] on the 1-based array [data[1 .. 2 nn]]. *)
Definition four1 (data : list Q) (nn isign : Z) : list Q :=
  let n := Z.shiftl nn 1 in
  let data := four1_bitrev 0%Q data nn in
  dl_outer data n 2 isign (Z.to_nat n).

(** ** The constructor [Flicker(settings, data, sectionOfFFT, nitsLast32Samples)]
    (lines 269-495) *)

(** [numberInArray] of line 272, in C integer arithmetic. *)
Definition numberInArray (s : FlickerSetting) : Z :=
  Z.quot (samples s) 2 - Z.quot (28 * samples s) 256 + 1.

Definition zeros2 (n : Z) : Mat2 := repeat (0%Q, 0%Q) (Z.to_nat n).

(** [m.v[i][0] = x] and [m.v[i][1] = y]. *)
Definition set0 (m : Mat2) (i : Z) (x : Q) : Mat2 := list_set m (Z.to_nat i) (x, snd (mget m i)).
Definition set1 (m : Mat2) (i : Z) (y : Q) : Mat2 := list_set m (Z.to_nat i) (fst (mget m i), y).

(** The time-series loop of lines 287-301: the time axis of [counts] and
    [nits], the samples into [counts] and the real parts of [fftData], the
    optional raised-cosine window and the sum of the last 32 samples. *)
Fixpoint series_loop (s : FlickerSetting) (data : list Q) (timePerUnit timeBefore : Q) (i : Z)
    (fuel : nat) (counts nits : Mat2) (fftData : list Q) (countsAvg : Q)
    : Mat2 * Mat2 * list Q * Q :=
  match fuel with
  | O => (counts, nits, fftData, countsAvg)
  | S f =>
      if i <? samples s then
        let t := (inject_Z i * timePerUnit + timeBefore)%Q in
        let nits := set0 nits i t in
        let counts := set0 counts i t in
        let fftData := qset fftData (2 * i + 1) (at_ data i) in
        let counts := set1 counts i (at_ data i) in
        let fftData := qset fftData (2 * i + 2) 0 in
        let fftData :=
          if cosine s
          then qset fftData (2 * i + 1)
                 (at_ fftData (2 * i + 1) *
                  (1 + cos (2 * PI * (inject_Z i / (inject_Z (samples s) - 1)) + PI)))%Q
          else fftData in
        let countsAvg :=
          if samples s - 33 <? i then (countsAvg + snd (mget counts i))%Q else countsAvg in
        series_loop s data timePerUnit timeBefore (i + 1) f counts nits fftData countsAvg
      else (counts, nits, fftData, countsAvg)
  end.

(** The luminance and flicker-index loop of lines 311-322. *)
Fixpoint index_loop (n : Z) (counts nits : Mat2) (countsAvg muiltyP : Q) (i : Z) (fuel : nat)
    (area1 area2 : Q) : Mat2 * Q * Q :=
  match fuel with
  | O => (nits, area1, area2)
  | S f =>
      if i <? n then
        let c := snd (mget counts i) in
        let nits := set1 nits i (c * muiltyP)%Q in
        if Qltb countsAvg c
        then index_loop n counts nits countsAvg muiltyP (i + 1) f
               (area1 + (c - countsAvg))%Q (area2 + countsAvg)%Q
        else index_loop n counts nits countsAvg muiltyP (i + 1) f area1 (area2 + c)%Q
      else (nits, area1, area2)
  end.

(** The amplitude loop of lines 339-374: magnitude, correction, and the
    root-sum-of-squares smoothing that writes bin [i - 2] from the squares
    of bins [i - 3 .. i - 1] kept from the previous iteration. *)
Fixpoint amp_loop (s : FlickerSetting) (fftData : list Q) (nIA i : Z) (fuel : nat)
    (amplitude : Mat2) (MySqr1 MySqr2 MySqr3 : Q) : Mat2 :=
  match fuel with
  | O => amplitude
  | S f =>
      if i <? Z.quot (samples s) 2 then
        let real := at_ fftData (2 * i + 1) in
        let img := at_ fftData (2 * i + 2) in
        let amps := sqrt (real * real + img * img)%Q in
        let amps := (amps * getCorrection s (inject_Z i * getResolution s))%Q in
        let amplitude := if i <? nIA then set1 amplitude i amps else amplitude in
        if smoothing s && (4 <=? i) && (i <? nIA) then
          let MyOldVal := sqrt (MySqr1 + MySqr2 + MySqr3)%Q in
          let MySqr1 := (snd (mget amplitude (i - 2)) ^ 2)%Q in
          let MySqr2 := (snd (mget amplitude (i - 1)) ^ 2)%Q in
          let MySqr3 := (snd (mget amplitude i) ^ 2)%Q in
          let amplitude := if 4 <? i then set1 amplitude (i - 2) MyOldVal else amplitude in
          amp_loop s fftData nIA (i + 1) f amplitude MySqr1 MySqr2 MySqr3
        else amp_loop s fftData nIA (i + 1) f amplitude MySqr1 MySqr2 MySqr3
      else amplitude
  end.

(** One bin of the normalisation loop of lines 396-438. *)
Definition norm_bin (s : FlickerSetting) (DCLevel : Q) (i : Z)
    (amplitude flickerPercent flickerDB : Mat2) : Mat2 * Mat2 * Mat2 :=
  let hz := (inject_Z i * getResolution s)%Q in
  let flickerPercent := set0 flickerPercent i hz in
  let flickerDB := set0 flickerDB i hz in
  let amplitude := set0 amplitude i hz in
  let amplitude := set1 amplitude i (snd (mget amplitude i) / DCLevel)%Q in
  let amplitude := set1 amplitude i
    (snd (mget amplitude i) * (if cosine s && smoothing s then 0.819 else 1.046))%Q in
  let flickerPercent := set1 flickerPercent i (snd (mget amplitude i) * 100)%Q in
  let flickerPercent :=
    match percent s with
    | ContrastMethod => set1 flickerPercent i (snd (mget flickerPercent i) * 4)%Q
    | Normaized => flickerPercent
    end in
  let flickerPercent :=
    if JEITADiscount_Percent s then
      if Qltb hz 62 then set1 flickerPercent i (snd (mget flickerPercent i) * jeita_weight hz)%Q
      else set1 flickerPercent i 0
    else flickerPercent in
  let flickerDB :=
    if JETIADiscount_DB s && Qle_bool 62 hz then set1 flickerDB i (-100)
    else
      let weighted := if JETIADiscount_DB s then jeita_weight hz else 1%Q in
      let flickerDB := set1 flickerDB i (20 * log10 (sqrt 2 * weighted * snd (mget amplitude i)))%Q in
      match decibel s with
      | VESA => set1 flickerDB i (snd (mget flickerDB i) + 3.01)%Q
      | JEITA => flickerDB
      end in
  (amplitude, flickerPercent, flickerDB).

Fixpoint norm_loop (s : FlickerSetting) (nIA : Z) (DCLevel : Q) (i : Z) (fuel : nat)
    (amplitude flickerPercent flickerDB : Mat2) : Mat2 * Mat2 * Mat2 :=
  match fuel with
  | O => (amplitude, flickerPercent, flickerDB)
  | S f =>
      if i <? nIA then
        let '(amplitude, flickerPercent, flickerDB) :=
          norm_bin s DCLevel i amplitude flickerPercent flickerDB in
        norm_loop s nIA DCLevel (i + 1) f amplitude flickerPercent flickerDB
      else (amplitude, flickerPercent, flickerDB)
  end.

(** The constructor.  [bigY], [range] and [errorcode] are not assigned by
    it (the caller [parseAndPrintFFT] sets them); the model gives them the
    values of [Flicker()]. *)
Definition Flicker_of_data (s : FlickerSetting) (data : list Q) (sectionOfFFT : Z)
    (nitsLast32Samples : Q) : Flicker :=
  let nIA := numberInArray s in
  let timeBefore := (inject_Z (sectionOfFFT * 32 - samples s) / inject_Z (speed s))%Q in
  let timePerUnit := (1 / inject_Z (speed s))%Q in
  let '(counts, nits, fftData, countsAvg) :=
    series_loop s data timePerUnit timeBefore 0 (Z.to_nat (samples s))
      (zeros2 (samples s)) (zeros2 (samples s)) (repeat 0%Q (Z.to_nat (samples s * 2 + 1))) 0 in
  let countsAvg := (countsAvg / 32)%Q in
  let '(nits, area1, area2) :=
    if negb (Qeq_bool nitsLast32Samples (-1)) || Qeq_bool nitsLast32Samples 0
    then index_loop (samples s) counts nits countsAvg (nitsLast32Samples / countsAvg)%Q 0
           (Z.to_nat (samples s)) 0 0
    else (nits, 0%Q, 0%Q) in
  let flickerIndex := (area1 / (area1 + area2))%Q in
  let fftData := four1 fftData (samples s) 1 in
  let amplitude := amp_loop s fftData nIA 0 (Z.to_nat (Z.quot (samples s) 2)) (zeros2 nIA) 0 0 0 in
  let DCLevel := snd (mget amplitude 0) in
  let amplitude := set0 amplitude 0 0 in
  let flickerDB := set0 (zeros2 nIA) 0 0 in
  let flickerPercent := set0 (zeros2 nIA) 0 0 in
  let amplitude := set1 amplitude 0 1 in
  let flickerPercent := set1 flickerPercent 0 100 in
  let flickerDB := set1 flickerDB 0 0 in
  let amplitude := set1 amplitude 1 (snd (mget amplitude 2)) in
  let '(amplitude, flickerPercent, flickerDB) :=
    norm_loop s nIA DCLevel 1 (Z.to_nat nIA) amplitude flickerPercent flickerDB in
  let peakfrequencyPercent := find_peaks flickerPercent nIA (numberOfPeaks s) 0 in
  let peakfrequencyDB := find_peaks flickerDB nIA (numberOfPeaks s) (-100) in
  mkFlicker 0 1 peakfrequencyPercent peakfrequencyDB flickerPercent flickerDB counts nits
    amplitude 0 s flickerIndex.

End WithLibm.

(** [f i + f (i + 1) + ... + f (i + k - 1)]. *)
Fixpoint sum_from (f : Z -> Q) (i : Z) (k : nat) : Q :=
  match k with
  | O => 0%Q
  | S k' => (f i + sum_from f (i + 1) k')%Q
  end.

(** ** Lemmas on the peak tables *)

Lemma shift_down_length (fuel : nat) : forall t k sp,
  length (shift_down t k sp fuel) = length t.
Proof.
  induction fuel as [|f IH]; intros t k sp; simpl; [reflexivity|].
  destruct (sp <? k); [rewrite IH, length_list_set|]; reflexivity.
Qed.

(** The shift moves rows [sp .. k - 1] one place down. *)
Lemma shift_down_nth (fuel : nat) : forall t k sp idx,
  0 <= sp -> k < Z.of_nat (length t) -> (Z.to_nat (k - sp) <= fuel)%nat ->
  nth idx (shift_down t k sp fuel) d0 =
  if (Z.to_nat sp <? idx)%nat && (idx <=? Z.to_nat k)%nat then nth (idx - 1) t d0
  else nth idx t d0.
Proof.
  induction fuel as [|f IH]; intros t k sp idx Hsp Hk Hf; simpl.
  - destruct (Nat.ltb_spec (Z.to_nat sp) idx), (Nat.leb_spec idx (Z.to_nat k));
      simpl; auto; lia.
  - destruct (Z.ltb_spec sp k).
    + rewrite IH by (rewrite ?length_list_set; lia).
      unfold mget. fold d0. rewrite !nth_list_set by lia.
      destruct (Nat.ltb_spec (Z.to_nat sp) idx), (Nat.leb_spec idx (Z.to_nat (k - 1))),
        (Nat.leb_spec idx (Z.to_nat k)), (Nat.eqb_spec (idx - 1) (Z.to_nat k)),
        (Nat.eqb_spec idx (Z.to_nat k)); simpl; try lia; auto; f_equal; lia.
    + destruct (Nat.ltb_spec (Z.to_nat sp) idx), (Nat.leb_spec idx (Z.to_nat k));
        simpl; auto; lia.
Qed.

(** The rows after inserting [p] at slot [sp]. *)
Lemma insert_at_nth (t : Mat2) (K sp : Z) (p : Q * Q) (x : nat) :
  0 <= sp < K -> Z.of_nat (length t) = K ->
  nth x (list_set (shift_down t (K - 1) sp (Z.to_nat K)) (Z.to_nat sp) p) d0 =
  if Nat.eqb x (Z.to_nat sp) then p
  else if (Z.to_nat sp <? x)%nat && (x <=? Z.to_nat (K - 1))%nat then nth (x - 1) t d0
  else nth x t d0.
Proof.
  intros Hsp Hl. rewrite nth_list_set by (rewrite shift_down_length; lia).
  destruct (Nat.eqb x (Z.to_nat sp)); [reflexivity|].
  apply shift_down_nth; lia.
Qed.

Lemma insert_peak_loop_length (fuel : nat) : forall t K sp p,
  Z.of_nat (length t) = K -> length (insert_peak_loop t K sp p fuel) = length t.
Proof.
  induction fuel as [|f IH]; intros t K sp p Hl; simpl; [reflexivity|].
  destruct (sp <? K); [|reflexivity].
  destruct (Qltb _ _); [|apply IH; exact Hl].
  rewrite length_list_set, shift_down_length. reflexivity.
Qed.

(** Insertion keeps a non-increasing table non-increasing, given that the
    slots already passed hold values at least the new one's. *)
Lemma insert_peak_loop_desc (fuel : nat) : forall t K sp p,
  Z.of_nat (length t) = K -> 0 <= sp -> desc t ->
  (forall j, (j < Z.to_nat sp)%nat -> (snd p <= snd (nth j t d0))%Q) ->
  desc (insert_peak_loop t K sp p fuel).
Proof.
  induction fuel as [|f IH]; intros t K sp p Hl Hsp Hd Hbefore; simpl; [exact Hd|].
  destruct (Z.ltb_spec sp K) as [HK|]; [|exact Hd].
  unfold mget. fold d0. destruct (Qltb _ _) eqn:Hlt.
  - apply Qltb_lt in Hlt. intros i Hi.
    rewrite length_list_set, shift_down_length in Hi.
    rewrite !insert_at_nth by lia.
    destruct (Nat.eqb_spec (S i) (Z.to_nat sp)), (Nat.eqb_spec i (Z.to_nat sp));
      try lia.
    + destruct (Nat.ltb_spec (Z.to_nat sp) i); simpl; [lia|]. apply Hbefore. lia.
    + destruct (Nat.ltb_spec (Z.to_nat sp) (S i)); [|lia].
      destruct (Nat.leb_spec (S i) (Z.to_nat (K - 1))); [|lia]. simpl.
      rewrite Nat.sub_0_r, e. apply Qlt_le_weak, Hlt.
    + destruct (Nat.ltb_spec (Z.to_nat sp) (S i)), (Nat.leb_spec (S i) (Z.to_nat (K - 1))),
        (Nat.ltb_spec (Z.to_nat sp) i), (Nat.leb_spec i (Z.to_nat (K - 1)));
        simpl; rewrite ?Nat.sub_0_r; try lia.
      all: first [ apply Hd; lia | replace i with (S (i - 1)) at 1 by lia; apply Hd; lia ].
  - apply Qltb_ge in Hlt. apply IH; auto; [lia|].
    intros j Hj. destruct (Nat.eq_dec j (Z.to_nat sp)) as [->|]; [exact Hlt|].
    apply Hbefore. lia.
Qed.

Lemma peak_scan_desc (data : Mat2) (n K : Z) (fuel : nat) : forall t i,
  Z.of_nat (length t) = K -> desc t ->
  desc (peak_scan data t n K i fuel) /\ length (peak_scan data t n K i fuel) = length t.
Proof.
  induction fuel as [|f IH]; intros t i Hl Hd; simpl; [auto|].
  destruct (i <? n); [|auto].
  destruct (isPeak data n i); [|apply IH; auto].
  unfold insert_peak.
  pose proof (insert_peak_loop_length (Z.to_nat K) t K 0 (mget data i) Hl) as Hl'.
  destruct (IH (insert_peak_loop t K 0 (mget data i) (Z.to_nat K)) (i + 1)) as [H1 H2];
    [lia | apply insert_peak_loop_desc; auto; [lia | intros; lia] |].
  split; [exact H1 | congruence].
Qed.

Lemma desc_repeat (x : Q * Q) (k : nat) : desc (repeat x k).
Proof.
  intros i Hi. rewrite repeat_length in Hi.
  rewrite !nth_repeat_lt by lia. apply Qle_refl.
Qed.

Lemma unimodal_spec (data : Mat2) (n m : Z) :
  unimodal data n m = true -> 0 <= m ->
  (forall i, 1 <= i <= m -> (snd (mget data (i - 1)) < snd (mget data i))%Q) /\
  (forall i, m <= i < n - 1 -> (snd (mget data (i + 1)) < snd (mget data i))%Q).
Proof.
  unfold unimodal. intros H Hm. apply andb_prop in H as [H1 H2].
  rewrite forallb_forall in H1, H2. split; intros i Hi; apply Qltb_lt.
  - specialize (H1 (Z.to_nat i)). rewrite Z2Nat.id in H1 by lia. apply H1, in_seq. lia.
  - specialize (H2 (Z.to_nat i)). rewrite Z2Nat.id in H2 by lia. apply H2, in_seq. lia.
Qed.

Lemma Qltb_lt_false (a b : Q) : (a < b)%Q -> Qltb b a = false.
Proof. intros H. apply Qltb_ge, Qlt_le_weak, H. Qed.

(** On a unimodal series the only bin that passes the peak test is the
    summit. *)
Lemma isPeak_unimodal (data : Mat2) (n m i : Z) :
  unimodal data n m = true -> 1 <= m <= n - 1 -> 1 <= i <= n - 1 ->
  isPeak data n i = (i =? m).
Proof.
  intros Hu Hm Hi. destruct (unimodal_spec data n m Hu ltac:(lia)) as [Hup Hdown].
  unfold isPeak.
  destruct (Z.lt_total i m) as [Hlt|[->|Hgt]].
  - rewrite (proj2 (Z.eqb_neq i (n - 1))) by lia.
    specialize (Hup (i + 1) ltac:(lia)). replace (i + 1 - 1) with i in Hup by lia.
    rewrite (Qltb_lt_false _ _ Hup), andb_false_r. symmetry. apply Z.eqb_neq. lia.
  - rewrite Z.eqb_refl. specialize (Hup m ltac:(lia)).
    destruct (Z.eqb_spec m (n - 1)); [apply Qltb_lt, Hup|].
    rewrite (proj2 (Qltb_lt _ _) Hup), (proj2 (Qltb_lt _ _) (Hdown m ltac:(lia))). reflexivity.
  - specialize (Hdown (i - 1) ltac:(lia)). replace (i - 1 + 1) with i in Hdown by lia.
    rewrite (Qltb_lt_false _ _ Hdown). rewrite (proj2 (Z.eqb_neq i m)) by lia.
    destruct (i =? n - 1); reflexivity.
Qed.

(** The scan passes over bins that are not peaks without changing the
    table. *)
Lemma peak_scan_until (data : Mat2) (n K : Z) (fuel : nat) : forall t i stop,
  i <= stop <= n -> (Z.to_nat (stop - i) <= fuel)%nat ->
  (forall j, i <= j < stop -> isPeak data n j = false) ->
  peak_scan data t n K i fuel = peak_scan data t n K stop (fuel - Z.to_nat (stop - i)).
Proof.
  induction fuel as [|f IH]; intros t i stop Hi Hf Hp.
  - replace stop with i by lia. reflexivity.
  - destruct (Z.eq_dec i stop) as [<-|Hne].
    + rewrite Z.sub_diag. reflexivity.
    + cbn [peak_scan]. zbool. rewrite (Hp i ltac:(lia)).
      rewrite (IH t (i + 1) stop) by (auto; lia || (intros; apply Hp; lia)).
      f_equal. lia.
Qed.

Lemma peak_scan_end (data t : Mat2) (n K : Z) (fuel : nat) : peak_scan data t n K n fuel = t.
Proof. destruct fuel; simpl; [reflexivity|]. rewrite Z.ltb_irrefl. reflexivity. Qed.

(** Inserting a value above the sentinel into a fresh table. *)
Lemma insert_peak_fresh (K : Z) (init : Q) (p : Q * Q) :
  1 <= K -> (init < snd p)%Q ->
  insert_peak (peak_table0 K init) K p = p :: repeat (0%Q, init) (Z.to_nat K - 1).
Proof.
  intros HK Hp. unfold insert_peak, peak_table0.
  assert (E : Z.to_nat K = S (Z.to_nat K - 1)) by lia.
  rewrite E at 2. cbn [insert_peak_loop]. zbool.
  unfold mget at 1. rewrite nth_repeat_lt by lia. cbn [snd].
  rewrite (proj2 (Qltb_lt _ _) Hp).
  apply nth_ext with (d := d0) (d' := d0).
  - rewrite length_list_set, shift_down_length. simpl. rewrite !repeat_length. lia.
  - intros x Hx. rewrite length_list_set, shift_down_length, repeat_length in Hx.
    rewrite insert_at_nth by (rewrite ?repeat_length; lia).
    destruct x as [|x]; [reflexivity|]. simpl.
    rewrite !nth_repeat_lt by lia. destruct_ifs; reflexivity.
Qed.

(** ** Lemmas on [four1] *)

Lemma swap_map {A B : Type} (g : A -> B) (d : A) (l : list A) (a b : Z) :
  swap (g d) (map g l) a b = map g (swap d l a b).
Proof. unfold swap. rewrite !map_list_set, !map_nth. reflexivity. Qed.

(** The bit-reversal section commutes with any map on the entries. *)
Lemma bitrev_loop_map {A B : Type} (g : A -> B) (d : A) (fuel : nat) : forall l n i j,
  bitrev_loop (g d) (map g l) n i j fuel = map g (bitrev_loop d l n i j fuel).
Proof.
  induction fuel as [|f IH]; intros l n i j; simpl; [reflexivity|].
  destruct (i <? n); [|reflexivity].
  destruct (br_while _ _ _) as [m j'].
  destruct (i <? j); rewrite <- IH; [rewrite !swap_map|]; reflexivity.
Qed.

(** The section applied to any data is the section applied to the indices. *)
Lemma four1_bitrev_perm {A : Type} (d : A) (data : list A) (nn : Z) :
  four1_bitrev d data nn =
  map (fun k => nth k data d) (four1_bitrev (length data) (seq 0 (length data)) nn).
Proof.
  set (g := fun k => nth k data d).
  transitivity (four1_bitrev (g (length data)) (map g (seq 0 (length data))) nn).
  - f_equal; [unfold g; symmetry; apply nth_overflow; lia | apply map_nth_seq].
  - unfold four1_bitrev. apply bitrev_loop_map.
Qed.

(** The index permutation, checked for every accepted sample count. *)
Lemma bitrev_all_ok : forallb (fun p => bitrev_ok (fst p) (snd p)) fft_sizes = true.
Proof. vm_compute. reflexivity. Qed.

(** ** Lemmas on the constructor *)

Lemma mget_set0 (m : Mat2) (i j : Z) (x : Q) :
  0 <= i < Z.of_nat (length m) -> 0 <= j ->
  mget (set0 m i x) j = if i =? j then (x, snd (mget m i)) else mget m j.
Proof.
  intros Hi Hj. unfold set0, mget at 1. rewrite nth_list_set by lia.
  destruct (Z.eqb_spec i j), (Nat.eqb_spec (Z.to_nat j) (Z.to_nat i)); subst; try lia; reflexivity.
Qed.

Lemma mget_set1 (m : Mat2) (i j : Z) (y : Q) :
  0 <= i < Z.of_nat (length m) -> 0 <= j ->
  mget (set1 m i y) j = if i =? j then (fst (mget m i), y) else mget m j.
Proof.
  intros Hi Hj. unfold set1, mget at 1. rewrite nth_list_set by lia.
  destruct (Z.eqb_spec i j), (Nat.eqb_spec (Z.to_nat j) (Z.to_nat i)); subst; try lia; reflexivity.
Qed.

Lemma length_set0 (m : Mat2) (i : Z) (x : Q) : length (set0 m i x) = length m.
Proof. apply length_list_set. Qed.

Lemma length_set1 (m : Mat2) (i : Z) (y : Q) : length (set1 m i y) = length m.
Proof. apply length_list_set. Qed.

#[export] Hint Rewrite length_set0 length_set1 : kclmtr_rw.

Lemma sum_from_nonneg (f : Z -> Q) (k : nat) : forall i,
  (forall j, i <= j < i + Z.of_nat k -> (0 <= f j)%Q) -> (0 <= sum_from f i k)%Q.
Proof.
  induction k as [|k IH]; intros i Hf; simpl; [apply Qle_refl|].
  pose proof (Hf i ltac:(lia)). pose proof (IH (i + 1) ltac:(intros; apply Hf; lia)). lra.
Qed.

Lemma sum_from_pos (f : Z -> Q) (k : nat) (i j : Z) :
  (forall l, i <= l < i + Z.of_nat k -> (0 <= f l)%Q) -> i <= j < i + Z.of_nat k -> (0 < f j)%Q ->
  (0 < sum_from f i k)%Q.
Proof.
  revert i. induction k as [|k IH]; intros i Hf Hj Hpos; simpl; [lia|].
  destruct (Z.eq_dec i j) as [->|].
  - pose proof (sum_from_nonneg f k (j + 1) ltac:(intros; apply Hf; lia)). lra.
  - pose proof (Hf i ltac:(lia)). pose proof (IH (i + 1) ltac:(intros; apply Hf; lia) ltac:(lia) Hpos).
    lra.
Qed.

(** The time-series loop stores the samples in column 1 of [counts] and
    adds the samples of the last 32 indices to [countsAvg]. *)
Lemma series_loop_spec `{Libm} (s : FlickerSetting) (data : list Q) (tpu tb : Q) (fuel : nat) :
  forall i counts nits fft avg,
  0 <= i -> (Z.to_nat (samples s - i) <= fuel)%nat -> Z.of_nat (length counts) = samples s ->
  let '(counts', _, _, avg') := series_loop s data tpu tb i fuel counts nits fft avg in
  (forall j, i <= j < samples s -> snd (mget counts' j) = at_ data j) /\
  (forall j, 0 <= j < i -> mget counts' j = mget counts j) /\
  Z.of_nat (length counts') = samples s /\
  (avg' == avg + sum_from (fun j => if samples s - 33 <? j then at_ data j else 0) i
                                   (Z.to_nat (samples s - i)))%Q.
Proof.
  induction fuel as [|f IH]; intros i counts nits fft avg Hi Hf Hl; simpl.
  - split; [intros; lia|]. split; [reflexivity|]. split; [exact Hl|].
    replace (Z.to_nat (samples s - i)) with O by lia. simpl. ring.
  - destruct (Z.ltb_spec i (samples s)).
    2:{ split; [intros; lia|]. split; [reflexivity|]. split; [exact Hl|].
        replace (Z.to_nat (samples s - i)) with O by lia. simpl. ring. }
    set (c1 := set1 (set0 counts i _) i (at_ data i)).
    assert (Hc1 : forall j, 0 <= j ->
      mget c1 j = if i =? j then ((inject_Z i * tpu + tb)%Q, at_ data i) else mget counts j).
    { intros j Hj. unfold c1. rewrite mget_set1 by (rewrite ?length_set0; lia).
      rewrite !mget_set0, Z.eqb_refl by lia. destruct (i =? j); reflexivity. }
    match goal with |- context [series_loop s data tpu tb (i + 1) f c1 ?n ?ff ?a] =>
      specialize (IH (i + 1) c1 n ff a ltac:(lia) ltac:(lia) ltac:(unfold c1; autorewrite with kclmtr_rw; lia)) end.
    destruct (series_loop _ _ _ _ _ _ _ _ _ _) as [[[c' n'] ff'] a'].
    destruct IH as (Hs & Hp & Hl' & Ha). split; [|split; [|split; [exact Hl'|]]].
    + intros j Hj. destruct (Z.eq_dec j i) as [->|]; [|apply Hs; lia].
      rewrite Hp, Hc1, Z.eqb_refl by lia. reflexivity.
    + intros j Hj. rewrite Hp, Hc1 by lia. rewrite (proj2 (Z.eqb_neq i j)) by lia. reflexivity.
    + rewrite Ha. replace (Z.to_nat (samples s - i)) with (S (Z.to_nat (samples s - (i + 1)))) by lia.
      simpl. rewrite Hc1, Z.eqb_refl by lia. simpl. destruct (samples s - 33 <? i); ring.
Qed.

(** The flicker-index loop adds every sample to [area1 + area2], never
    decreases [area1], and never decreases [area2] on non-negative
    samples and average. *)
Lemma index_loop_spec (n : Z) (counts : Mat2) (avg mp : Q) (fuel : nat) : forall i nits a1 a2,
  0 <= i -> (Z.to_nat (n - i) <= fuel)%nat ->
  let '(_, a1', a2') := index_loop n counts nits avg mp i fuel a1 a2 in
  (a1' + a2' == a1 + a2 + sum_from (fun j => snd (mget counts j)) i (Z.to_nat (n - i)))%Q /\
  (a1 <= a1')%Q /\
  ((0 <= avg)%Q -> (forall j, i <= j < n -> (0 <= snd (mget counts j))%Q) -> (a2 <= a2')%Q).
Proof.
  induction fuel as [|f IH]; intros i nits a1 a2 Hi Hf; simpl.
  - replace (Z.to_nat (n - i)) with O by lia. simpl.
    split; [ring|]. split; [apply Qle_refl | intros; apply Qle_refl].
  - destruct (Z.ltb_spec i n).
    2:{ replace (Z.to_nat (n - i)) with O by lia. simpl.
        split; [ring|]. split; [apply Qle_refl | intros; apply Qle_refl]. }
    replace (Z.to_nat (n - i)) with (S (Z.to_nat (n - (i + 1)))) by lia. simpl.
    destruct (Qltb avg (snd (mget counts i))) eqn:E.
    + apply Qltb_lt in E.
      match goal with |- context [index_loop n counts ?nt avg mp (i + 1) f ?b1 ?b2] =>
        specialize (IH (i + 1) nt b1 b2 ltac:(lia) ltac:(lia)) end.
      destruct (index_loop _ _ _ _ _ _ _ _ _) as [[? a1'] a2']. destruct IH as (H1 & H2 & H3).
      split; [rewrite H1; ring|]. split; [lra|].
      intros Havg Hc. specialize (H3 Havg ltac:(intros; apply Hc; lia)). lra.
    + apply Qltb_ge in E.
      match goal with |- context [index_loop n counts ?nt avg mp (i + 1) f ?b1 ?b2] =>
        specialize (IH (i + 1) nt b1 b2 ltac:(lia) ltac:(lia)) end.
      destruct (index_loop _ _ _ _ _ _ _ _ _) as [[? a1'] a2']. destruct IH as (H1 & H2 & H3).
      split; [rewrite H1; ring|]. split; [exact H2|].
      intros Havg Hc. pose proof (Hc i ltac:(lia)).
      specialize (H3 Havg ltac:(intros; apply Hc; lia)). lra.
Qed.

(** At an integer frequency the interpolation weight of [high] is zero. *)
Lemma getNumberBetween_integer (high low : Q) (n : Z) :
  (getNumberBetween high low (inject_Z n) == low)%Q.
Proof. unfold getNumberBetween. rewrite Qtrunc_Z. ring. Qed.

(** ** Properties *)

(** Each peak table the constructor builds has exactly
    [numberOfPeaks] rows and its values never increase from one row to the
    next, whatever the series. *)
Theorem find_peaks_desc (data : Mat2) (n K : Z) (init : Q) :
  0 <= K ->
  desc (find_peaks data n K init) /\ length (find_peaks data n K init) = Z.to_nat K.
Proof.
  intros HK. unfold find_peaks, peak_table0.
  destruct (peak_scan_desc data n K (Z.to_nat n) (repeat (0%Q, init) (Z.to_nat K)) 1)
    as [H1 H2]; [rewrite repeat_length; lia | apply desc_repeat |].
  rewrite H2, repeat_length. auto.
Qed.

Lemma find_peaks_desc_witness :
  0 <= 3 /\
  desc (find_peaks [(0, 1); (1, 3); (2, 2); (3, 5); (4, 4)]%Q 5 3 0) /\
  length (find_peaks [(0, 1); (1, 3); (2, 2); (3, 5); (4, 4)]%Q 5 3 0) = Z.to_nat 3.
Proof.
  assert (H : 0 <= 3) by lia. split; [exact H|].
  exact (find_peaks_desc [(0, 1); (1, 3); (2, 2); (3, 5); (4, 4)]%Q 5 3 0 H).
Defined.

(** On a series that rises strictly up to bin [m >= 1] and falls
    strictly after it, the peak table holds exactly one peak, the summit
    [m], followed by the untouched sentinel rows (when the summit is above
    the sentinel). *)
Theorem find_peaks_unimodal (data : Mat2) (n m K : Z) (init : Q) :
  unimodal data n m = true -> 1 <= m <= n - 1 -> 1 <= K ->
  (init < snd (mget data m))%Q ->
  find_peaks data n K init = mget data m :: repeat (0%Q, init) (Z.to_nat K - 1).
Proof.
  intros Hu Hm HK Hv. unfold find_peaks.
  rewrite (peak_scan_until data n K (Z.to_nat n) _ 1 m) by
    (lia || (intros j Hj; rewrite (isPeak_unimodal data n m j Hu Hm) by lia; apply Z.eqb_neq; lia)).
  replace (Z.to_nat n - Z.to_nat (m - 1))%nat with (S (Z.to_nat n - Z.to_nat m)) by lia.
  cbn [peak_scan]. zbool. rewrite (isPeak_unimodal data n m m Hu Hm) by lia.
  rewrite Z.eqb_refl, insert_peak_fresh by assumption.
  rewrite (peak_scan_until data n K _ _ (m + 1) n) by
    (lia || (intros j Hj; rewrite (isPeak_unimodal data n m j Hu Hm) by lia; apply Z.eqb_neq; lia)).
  apply peak_scan_end.
Qed.

Lemma find_peaks_unimodal_witness :
  unimodal [(0, 1); (1, 3); (2, 7); (3, 5); (4, 4)]%Q 5 2 = true /\ 1 <= 2 <= 5 - 1 /\ 1 <= 3 /\
  (0 < snd (mget [(0, 1); (1, 3); (2, 7); (3, 5); (4, 4)]%Q 2))%Q /\
  find_peaks [(0, 1); (1, 3); (2, 7); (3, 5); (4, 4)]%Q 5 3 0 =
  mget [(0, 1); (1, 3); (2, 7); (3, 5); (4, 4)]%Q 2 :: repeat (0%Q, 0%Q) (Z.to_nat 3 - 1).
Proof.
  assert (H1 : unimodal [(0, 1); (1, 3); (2, 7); (3, 5); (4, 4)]%Q 5 2 = true) by reflexivity.
  assert (H2 : 1 <= 2 <= 5 - 1) by lia. assert (H3 : 1 <= 3) by lia.
  assert (H4 : (0 < snd (mget [(0, 1); (1, 3); (2, 7); (3, 5); (4, 4)]%Q 2))%Q) by reflexivity.
  split; [exact H1|]. split; [exact H2|]. split; [exact H3|]. split; [exact H4|].
  exact (find_peaks_unimodal _ 5 2 3 0 H1 H2 H3 H4).
Defined.

(** C38: inside an [ArrayFit] correction range, [getCorrection] at an
    integer frequency [n] returns the table entry for [n + 1], not the
    entry for [n]: [getNumberBetween(array[n], array[n + 1], hz)] gives
    [array[n]] the weight of the fractional part of [hz]. *)
Theorem getCorrection_arrayfit_integer (s : FlickerSetting) (c : RangeCorrecionArray)
    (rest : list RangeCorrecionArray) (n : Z) :
  corrections s = c :: rest -> mode c = ArrayFit -> in_range (rangeOfHz c) (inject_Z n) = true ->
  (getCorrection s (inject_Z n) == at_ (array c) (n + 1))%Q.
Proof.
  intros Hc Hm Hr. unfold getCorrection. rewrite Hc. simpl. rewrite Hr.
  unfold correction_value. rewrite Hm, Qtrunc_Z. apply getNumberBetween_integer.
Qed.

Lemma getCorrection_arrayfit_integer_witness :
  let s := appendCorrection (deleteCorrection FlickerSetting_default) (mkRange 0 70) ArrayFit
             (map (fun k => inject_Z (Z.of_nat k)) (seq 0 71)) 71 in
  corrections s = [mkRangeCorrecionArray (mkRange 0 70) ArrayFit (map (fun k => inject_Z (Z.of_nat k)) (seq 0 71))] /\
  mode (mkRangeCorrecionArray (mkRange 0 70) ArrayFit (map (fun k => inject_Z (Z.of_nat k)) (seq 0 71))) = ArrayFit /\
  in_range (mkRange 0 70) (inject_Z 10) = true /\
  (getCorrection s (inject_Z 10) == at_ (map (fun k => inject_Z (Z.of_nat k)) (seq 0 71)) (10 + 1))%Q.
Proof.
  intros s.
  assert (H1 : corrections s = [mkRangeCorrecionArray (mkRange 0 70) ArrayFit (map (fun k => inject_Z (Z.of_nat k)) (seq 0 71))]) by reflexivity.
  assert (H2 : mode (mkRangeCorrecionArray (mkRange 0 70) ArrayFit (map (fun k => inject_Z (Z.of_nat k)) (seq 0 71))) = ArrayFit) by reflexivity.
  assert (H3 : in_range (mkRange 0 70) (inject_Z 10) = true) by reflexivity.
  split; [exact H1|]. split; [exact H2|]. split; [exact H3|].
  exact (getCorrection_arrayfit_integer s _ [] 10 H1 H2 H3).
Defined.

(** The JEITA weight the constructor applies at an integer frequency
    [n] is [EIAJ_array[n + 1]]; at 20 Hz it is 0.970795 although the table
    gives 1 for 20 Hz. *)
Theorem jeita_weight_shifted (n : Z) :
  (jeita_weight (inject_Z n) == at_ EIAJ_array (n + 1))%Q /\
  (jeita_weight 20 == 0.970795)%Q /\ (at_ EIAJ_array 20 == 1)%Q.
Proof.
  unfold jeita_weight. rewrite Qtrunc_Z. split; [apply getNumberBetween_integer|].
  split; [vm_compute; reflexivity | reflexivity].
Qed.

(** For every sample count [setFFT_Samples] accepts ([nn = 2^b],
    [64 <= nn <= 2048]), the bit-reversal section of [four1] moves complex
    entry [rev_bits b k] to position [k], whatever the data. *)
Theorem four1_bitrev_reverses (b : nat) (nn : Z) (data : list Q) :
  In (b, nn) fft_sizes -> length data = Z.to_nat (2 * nn + 1) ->
  four1_bitrev 0%Q data nn = map (fun x => nth (bitrev_source b x) data 0%Q) (seq 0 (length data)).
Proof.
  intros Hin Hlen.
  pose proof (proj1 (forallb_forall _ _) bitrev_all_ok (b, nn) Hin) as Hok.
  unfold bitrev_ok in Hok. cbn [fst snd] in Hok.
  destruct (list_eq_dec _ _ _) as [E|]; [clear Hok|discriminate].
  rewrite four1_bitrev_perm.
  rewrite Hlen, E, map_map. reflexivity.
Qed.

Lemma four1_bitrev_reverses_witness :
  In (6%nat, 64) fft_sizes /\ length (repeat 1%Q 129) = Z.to_nat (2 * 64 + 1) /\
  four1_bitrev 0%Q (repeat 1%Q 129) 64 =
  map (fun x => nth (bitrev_source 6 x) (repeat 1%Q 129) 0%Q) (seq 0 (length (repeat 1%Q 129))).
Proof.
  assert (H1 : In (6%nat, 64) fft_sizes) by (simpl; auto).
  assert (H2 : length (repeat 1%Q 129) = Z.to_nat (2 * 64 + 1)) by reflexivity.
  split; [exact H1|]. split; [exact H2|].
  exact (four1_bitrev_reverses 6 64 (repeat 1%Q 129) H1 H2).
Defined.

(** When the caller passes the luminance of the last 32 samples
    ([nitsLast32Samples <> -1]) and the ripple samples are non-negative
    and not all zero, the flicker index [area1 / (area1 + area2)] lies in
    [0, 1]. *)
Theorem Flicker_index_bounds `{Libm} (s : FlickerSetting) (data : list Q) (sec : Z) (nl : Q) (j0 : Z) :
  0 <= samples s -> Qeq_bool nl (-1) = false ->
  (forall j, 0 <= j < samples s -> (0 <= at_ data j)%Q) ->
  0 <= j0 < samples s -> (0 < at_ data j0)%Q ->
  (0 <= flickerIndex (Flicker_of_data s data sec nl) <= 1)%Q.
Proof.
  intros Hs Hnl Hd Hj0 Hpos. unfold Flicker_of_data.
  match goal with |- context [series_loop s data ?tpu ?tb 0 ?fu ?c ?n ?ff ?a] =>
    pose proof (series_loop_spec s data tpu tb fu 0 c n ff a ltac:(lia) ltac:(lia)
                  ltac:(unfold zeros2; rewrite repeat_length; lia)) as Hser end.
  destruct (series_loop _ _ _ _ _ _ _ _ _ _) as [[[c nt] ff] a].
  destruct Hser as (Hc & _ & _ & Ha).
  rewrite Hnl. cbn [negb orb].
  assert (Havg : (0 <= a / 32)%Q).
  { apply Qle_shift_div_l; [reflexivity|]. rewrite Ha, Qmult_0_l, Qplus_0_l.
    apply sum_from_nonneg. intros j Hj. destruct (samples s - 33 <? j); [apply Hd; lia | apply Qle_refl]. }
  match goal with |- context [index_loop (samples s) c ?nt ?av ?mp 0 ?fu 0 0] =>
    pose proof (index_loop_spec (samples s) c av mp fu 0 nt 0 0 ltac:(lia) ltac:(lia)) as Hix end.
  destruct (index_loop _ _ _ _ _ _ _ _ _) as [[nt' a1] a2].
  destruct Hix as (Hsum & H1 & H2).
  specialize (H2 Havg ltac:(intros j Hj; rewrite Hc by lia; apply Hd; lia)).
  assert (Hpos' : (0 < a1 + a2)%Q).
  { rewrite Hsum, Qplus_0_l, Qplus_0_l.
    apply (sum_from_pos _ _ 0 j0); [intros l Hl; rewrite Hc by lia; apply Hd; lia | lia |].
    rewrite Hc by lia. exact Hpos. }
  destruct (norm_loop _ _ _ _ _ _ _ _) as [[? ?] ?]. cbn [flickerIndex].
  split; [apply Qle_shift_div_l; [exact Hpos'|]; lra | apply Qle_shift_div_r; [exact Hpos'|]; lra].
Qed.

Lemma Flicker_index_bounds_witness :
  let L : Libm := {| cos := fun _ => 0%Q; sin := fun _ => 0%Q; sqrt := fun x => x; log10 := fun x => x |} in
  0 <= samples FlickerSetting_default /\ Qeq_bool 5 (-1) = false /\
  (forall j, 0 <= j < samples FlickerSetting_default -> (0 <= at_ (repeat 1%Q 256) j)%Q) /\
  0 <= 3 < samples FlickerSetting_default /\ (0 < at_ (repeat 1%Q 256) 3)%Q /\
  (0 <= flickerIndex (@Flicker_of_data L FlickerSetting_default (repeat 1%Q 256) 8 5) <= 1)%Q.
Proof.
  intros L.
  assert (H1 : 0 <= samples FlickerSetting_default) by (simpl; lia).
  assert (H2 : Qeq_bool 5 (-1) = false) by reflexivity.
  assert (H3 : forall j, 0 <= j < samples FlickerSetting_default -> (0 <= at_ (repeat 1%Q 256) j)%Q).
  { intros j Hj. unfold at_. simpl in Hj. rewrite nth_repeat_lt by lia. discriminate. }
  assert (H4 : 0 <= 3 < samples FlickerSetting_default) by (simpl; lia).
  assert (H5 : (0 < at_ (repeat 1%Q 256) 3)%Q) by reflexivity.
  split; [exact H1|]. split; [exact H2|]. split; [exact H3|]. split; [exact H4|]. split; [exact H5|].
  exact (@Flicker_index_bounds L FlickerSetting_default (repeat 1%Q 256) 8 5 3 H1 H2 H3 H4 H5).
Defined.

End Spectrum.
