(* ===== verification/Matrix.v ===== *)
(** * The dense matrix class [Matrix<T>] (src/Matrix.cpp, src/Matrix.h)
      and [polyFit] (src/KClmtr.cpp lines 84-113)

    A [Matrix] is its dimensions and its rows; entries outside the rows
    read 0.  The operations are translated loop by loop: the product (which
    returns the left operand unchanged when the dimensions do not match),
    the transpose, the identity [Unity], [swapRows], the LU decomposition
    with partial pivoting and the triangular solves of [LUSolve].
    [polyFit] fits a polynomial by least squares with them; the driver uses
    it for the flicker range calibration.

    The pivot search of [LUDecomposition] calls [abs] on a [double]; the
    model reads it as the absolute value of the double ([Qabs]). *)

From Stdlib Require Import ZArith QArith Qabs Lqa Lia List Bool Setoid Morphisms.
From S2P Require Import Prelude.
Import ListNotations.
Open Scope Z_scope.

Module Matrix.

Record Matrix := mkMatrix {
  row : nat;
  column : nat;
  v : list (list Q)
}.

(** [v[i][j]]. *)
Definition mat_get (m : Matrix) (i j : nat) : Q := nth j (nth i (v m) []) 0%Q.

Arguments mat_get m (i j)%_nat.

(** [v[i][j] = x]. *)
Definition mat_set (m : Matrix) (i j : nat) (x : Q) : Matrix :=
  mkMatrix (row m) (column m) (list_set (v m) i (list_set (nth i (v m) []) j x)).

Arguments mat_set m (i j)%_nat x.

(** [initializeV(_row, _column)]: allocation followed by [clear()]. *)
Definition initializeV (r c : nat) : Matrix := mkMatrix r c (repeat (repeat 0%Q c) r).

(** [operator==(other)]: the dimensions, then every entry, compared as
    numbers. *)
Definition mat_eqb (a b : Matrix) : bool :=
  if negb (Nat.eqb (row a) (row b)) || negb (Nat.eqb (column a) (column b)) then false
  else forallb (fun i => forallb (fun j => Qeq_bool (mat_get a i j) (mat_get b i j))
                           (seq 0 (column a))) (seq 0 (row a)).

(** Row [i] of the copy loop [for (j = 0; j < column; ++j) v[i][j] = other.v[i][j]]. *)
Definition copy_row (other m : Matrix) (i : nat) : Matrix :=
  fold_left (fun m j => mat_set m i j (mat_get other i j)) (seq 0 (column other)) m.

(** [operator=(other)]: [initializeV] with the other's dimensions, then
    the copy loop over the rows. *)
Definition assign (other : Matrix) : Matrix :=
  fold_left (copy_row other) (seq 0 (row other)) (initializeV (row other) (column other)).

(** [Matrix(const Matrix &other)]: the same steps on a fresh matrix. *)
Definition Matrix_copy (other : Matrix) : Matrix :=
  fold_left (copy_row other) (seq 0 (row other)) (initializeV (row other) (column other)).

(** The entry of the product [this * other] at [(i, j)]: the loop
    [for (k = 0; k < getColumn(); ++k) number += v[i][k] * other.v[k][j]]. *)
Definition mult_entry (a b : Matrix) (i j : nat) : Q :=
  fold_left (fun number k => number + mat_get a i k * mat_get b k j)%Q (seq 0 (column a)) 0%Q.

(** [operator*]. *)
Definition mult (a b : Matrix) : Matrix :=
  if negb (Nat.eqb (column a) (row b)) then a
  else mkMatrix (row a) (column b)
         (map (fun i => map (fun j => mult_entry a b i j) (seq 0 (column b))) (seq 0 (row a))).

(** [transpose()]. *)
Definition transpose (m : Matrix) : Matrix :=
  mkMatrix (column m) (row m)
    (map (fun j => map (fun i => mat_get m i j) (seq 0 (row m))) (seq 0 (column m))).

(** [Unity(rowColumns)]. *)
Definition Unity (n : nat) : Matrix :=
  mkMatrix n n (map (fun i => map (fun j => if Nat.eqb i j then 1%Q else 0%Q) (seq 0 n)) (seq 0 n)).

(** [swapRows(row1, row2)]: [for (i = 0; i < getColumn(); i++)] swap. *)
Fixpoint swap_loop (m : Matrix) (r1 r2 i : nat) (fuel : nat) : Matrix :=
  match fuel with
  | O => m
  | S f =>
      if (i <? column m)%nat then
        let temp := mat_get m r1 i in
        let m := mat_set m r1 i (mat_get m r2 i) in
        let m := mat_set m r2 i temp in
        swap_loop m r1 r2 (S i) f
      else m
  end.

Definition swapRows (m : Matrix) (r1 r2 : nat) : Matrix := swap_loop m r1 r2 0 (column m).

(** [dotProduct(other, OK)]: the sum of the products of the entries,
    refused only when the columns differ and the rows agree. *)
Definition dotProduct (a b : Matrix) : Q * bool :=
  if negb (Nat.eqb (column a) (column b)) && Nat.eqb (row a) (row b) then (0%Q, false)
  else (fold_left (fun dot i =>
          fold_left (fun dot j => dot + mat_get a i j * mat_get b i j)%Q (seq 0 (column a)) dot)
          (seq 0 (row a)) 0%Q, true).

(** ** LU decomposition with partial pivoting *)

(** The pivot search of column [i]: the first row below [i] whose entry
    is strictly larger in absolute value than every one before it. *)
Fixpoint pivot_loop (A : Matrix) (i j N : nat) (max : Q) (pivot : nat) (fuel : nat) : nat :=
  match fuel with
  | O => pivot
  | S f =>
      if (j <? N)%nat then
        if Qltb max (Qabs (mat_get A j i))
        then pivot_loop A i (S j) N (Qabs (mat_get A j i)) j f
        else pivot_loop A i (S j) N max pivot f
      else pivot
  end.

(** [for (k = i + 1; k < N; ++k) tempA.v[j][k] -= tempA.v[j][i] * tempA.v[i][k]]. *)
Fixpoint elim_k (A : Matrix) (i j k N : nat) (fuel : nat) : Matrix :=
  match fuel with
  | O => A
  | S f =>
      if (k <? N)%nat
      then elim_k (mat_set A j k (mat_get A j k - mat_get A j i * mat_get A i k)%Q) i j (S k) N f
      else A
  end.

(** [for (j = i + 1; j < N; ++j)]: the multiplier, then the row update. *)
Fixpoint elim_j (A : Matrix) (i j N : nat) (fuel : nat) : Matrix :=
  match fuel with
  | O => A
  | S f =>
      if (j <? N)%nat then
        let A := mat_set A j i (mat_get A j i / mat_get A i i)%Q in
        elim_j (elim_k A i j (S i) N N) i (S j) N f
      else A
  end.

(** [for (i = 0; i < N - 1; ++i)]: pivot, swap in [tempA] and [P], eliminate. *)
Fixpoint lu_loop (A P : Matrix) (i N : nat) (fuel : nat) : Matrix * Matrix :=
  match fuel with
  | O => (A, P)
  | S f =>
      if (i <? N - 1)%nat then
        let pivot := pivot_loop A i (S i) N (Qabs (mat_get A i i)) i N in
        let '(A, P) := if negb (Nat.eqb pivot i) then (swapRows A i pivot, swapRows P i pivot)
                       else (A, P) in
        let A := if negb (Qeq_bool (mat_get A i i) 0) then elim_j A i (S i) N N else A in
        lu_loop A P (S i) N f
      else (A, P)
  end.

(** [LUDecomposition(L, U, P)]: [None] for a non-square matrix (the
    function returns [false] and leaves its outputs alone), else the
    factors and the permuted [P]. *)
Definition LUDecomposition (A P : Matrix) : option (Matrix * Matrix * Matrix) :=
  if negb (Nat.eqb (row A) (column A)) then None
  else
    let N := row A in
    let '(tempA, P) := lu_loop A P 0 N N in
    let L := mkMatrix N N (map (fun i => map (fun j =>
               if Nat.eqb i j then 1%Q else if (j <? i)%nat then mat_get tempA i j else 0%Q)
               (seq 0 N)) (seq 0 N)) in
    let U := mkMatrix N N (map (fun i => map (fun j =>
               if (j <? i)%nat then 0%Q else mat_get tempA i j) (seq 0 N)) (seq 0 N)) in
    Some (L, U, P).

(** ** Triangular solves *)

(** [y.v[i][0] = b[i] / L[i][i]; for (j = 0; j < i; ++j) y[i] += -L[i][j] * y[j] / L[i][i]]. *)
Definition fwd_row (L b : Matrix) (y : list Q) (i : nat) : Q :=
  fold_left (fun acc j => acc + - mat_get L i j * nth j y 0 / mat_get L i i)%Q (seq 0 i)
    (mat_get b i 0 / mat_get L i i)%Q.

Fixpoint fwd_loop (L b : Matrix) (y : list Q) (i N : nat) (fuel : nat) : list Q :=
  match fuel with
  | O => y
  | S f => if (i <? N)%nat then fwd_loop L b (list_set y i (fwd_row L b y i)) (S i) N f else y
  end.

(** [x.v[i][0] = y[i] / U[i][i]; for (j = i + 1; j < N; ++j) x[i] += -U[i][j] * x[j] / U[i][i]]. *)
Definition bwd_row (U : Matrix) (y x : list Q) (i N : nat) : Q :=
  fold_left (fun acc j => acc + - mat_get U i j * nth j x 0 / mat_get U i i)%Q (seq (S i) (N - S i))
    (nth i y 0 / mat_get U i i)%Q.

(** [for (i = N - 2; i >= 0; --i)], counting [k] rows still to solve. *)
Fixpoint bwd_loop (U : Matrix) (y x : list Q) (k N : nat) : list Q :=
  match k with
  | O => x
  | S k' => bwd_loop U y (list_set x k' (bwd_row U y x k' N)) k' N
  end.

(** [LUSolve(L, U, b)]: the column [x] with [L y = b] and [U x = y]. *)
Definition LUSolve (L U b : Matrix) : Matrix :=
  let N := row U in
  let y := fwd_loop L b (repeat 0%Q (row b)) 0 N N in
  let x := list_set (repeat 0%Q (row b)) (N - 1) (nth (N - 1) y 0 / mat_get U (N - 1) (N - 1))%Q in
  let x := bwd_loop U y x (N - 1) N in
  mkMatrix (row b) 1 (map (fun q => [q]) x).

(** ** [polyFit(data, degree, consts)] *)

(** The coefficients of the least-squares polynomial of degree [degree - 1]
    through the points [(data[i][0], data[i][1])]; [consts] is returned
    unchanged when the decomposition fails. *)
Definition polyFit (data : Matrix) (degree : nat) (consts : list Q) : list Q :=
  let X := mkMatrix (row data) degree
             (map (fun i => map (fun j => Qpower (mat_get data i 0) (Z.of_nat j)) (seq 0 degree))
                  (seq 0 (row data))) in
  let Y := mkMatrix (row data) 1 (map (fun i => [mat_get data i 1]) (seq 0 (row data))) in
  let TX := transpose X in
  let XSquare := mult TX X in
  let P := Unity degree in
  match LUDecomposition XSquare P with
  | Some (L, U, P) =>
      let b := mult P (mult TX Y) in
      let Final := LUSolve L U b in
      map (fun i => if (i <? degree)%nat then mat_get Final i 0 else nth i consts 0%Q)
          (seq 0 (length consts))
  | None => consts
  end.

(** ** Well-formed matrices and the equality of [operator==] *)

(** The rows the dimensions announce, each of [column] entries. *)
Definition wf (m : Matrix) : Prop :=
  length (v m) = row m /\ forall i, (i < row m)%nat -> length (nth i (v m) []) = column m.

(** Equal dimensions and numerically equal entries: what [operator==]
    tests. *)
Definition mat_equiv (a b : Matrix) : Prop :=
  row a = row b /\ column a = column b /\
  forall i j, (i < row a)%nat -> (j < column a)%nat -> (mat_get a i j == mat_get b i j)%Q.

#[export] Instance mat_equiv_Equivalence : Equivalence mat_equiv.
Proof.
  split.
  - intros a. repeat split; intros; reflexivity.
  - intros a b (R & C & E). repeat split; auto. intros i j Hi Hj. symmetry. apply E; congruence.
  - intros a b c (R & C & E) (R' & C' & E'). repeat split; try congruence.
    intros i j Hi Hj. rewrite E by assumption. apply E'; congruence.
Qed.

Lemma forallb_seq_iff (f : nat -> bool) (n : nat) :
  forallb f (seq 0 n) = true <-> forall i, (i < n)%nat -> f i = true.
Proof.
  rewrite forallb_forall. split.
  - intros H i Hi. apply H, in_seq. lia.
  - intros H i Hi. apply in_seq in Hi. apply H. lia.
Qed.

(** [operator==] decides [mat_equiv]. *)
Lemma mat_eqb_spec (a b : Matrix) : mat_eqb a b = true <-> mat_equiv a b.
Proof.
  unfold mat_eqb, mat_equiv.
  destruct (Nat.eqb_spec (row a) (row b)), (Nat.eqb_spec (column a) (column b)); cbn [negb orb];
    [|split; [discriminate | intros (? & ? & _); contradiction] ..].
  rewrite forallb_seq_iff. split.
  - intros H. repeat split; auto. intros i j Hi Hj.
    specialize (H i Hi). rewrite forallb_seq_iff in H. apply Qeq_bool_iff, H, Hj.
  - intros (_ & _ & H) i Hi. apply forallb_seq_iff. intros j Hj. apply Qeq_bool_iff, H; assumption.
Qed.

Lemma wf_initializeV (r c : nat) : wf (initializeV r c).
Proof.
  split; cbn; [apply repeat_length|]. intros i Hi.
  rewrite nth_repeat_lt by (rewrite ?repeat_length; lia). apply repeat_length.
Qed.

Lemma mat_get_initializeV (r c i j : nat) : mat_get (initializeV r c) i j = 0%Q.
Proof.
  unfold mat_get, initializeV. cbn [v].
  destruct (Nat.ltb_spec i r).
  - rewrite nth_repeat_lt by lia. destruct (Nat.ltb_spec j c).
    + apply nth_repeat_lt. lia.
    + apply nth_overflow. rewrite repeat_length. lia.
  - rewrite (nth_overflow (repeat (repeat 0%Q c) r)) by (rewrite repeat_length; lia). destruct j; reflexivity.
Qed.

(** A write inside the dimensions changes that entry only. *)
Lemma mat_set_spec (m : Matrix) (i j : nat) (x : Q) :
  wf m -> (i < row m)%nat -> (j < column m)%nat ->
  wf (mat_set m i j x) /\ row (mat_set m i j x) = row m /\ column (mat_set m i j x) = column m /\
  forall i' j', mat_get (mat_set m i j x) i' j' =
                if Nat.eqb i' i && Nat.eqb j' j then x else mat_get m i' j'.
Proof.
  intros (Hl & Hr) Hi Hj. unfold mat_set, mat_get. cbn [row column v].
  split; [split; cbn [row column v]|]; [rewrite length_list_set; exact Hl| |split; [reflexivity|split; [reflexivity|]]].
  - intros i' Hi'. rewrite nth_list_set by lia.
    destruct (Nat.eqb_spec i' i); [subst; rewrite length_list_set|]; apply Hr; lia.
  - intros i' j'. rewrite nth_list_set by lia.
    destruct (Nat.eqb_spec i' i); cbn [andb]; [subst|reflexivity].
    rewrite nth_list_set by (rewrite Hr by exact Hi; exact Hj). reflexivity.
Qed.

(** ** Lemmas on the product and the identity *)

(** A sum of [f k] over [k < n] against the indicator of [j < n]. *)
Lemma fold_indicator (f : nat -> Q) (n j : nat) (acc : Q) :
  (j < n)%nat ->
  (fold_left (fun a k => a + f k * (if Nat.eqb k j then 1 else 0))%Q (seq 0 n) acc == acc + f j)%Q.
Proof.
  revert acc. induction n as [|n IH]; intros acc Hj; [lia|].
  rewrite seq_S, fold_left_app. cbn [fold_left Nat.add].
  destruct (Nat.eqb_spec j n) as [->|Hn].
  - rewrite Nat.eqb_refl.
    assert (E : forall m a, (m <= n)%nat ->
      (fold_left (fun a k => a + f k * (if Nat.eqb k n then 1 else 0))%Q (seq 0 m) a == a)%Q).
    { induction m as [|m IHm]; intros a Hm; [reflexivity|].
      rewrite seq_S, fold_left_app. cbn [fold_left Nat.add]. rewrite (proj2 (Nat.eqb_neq m n)) by lia.
      rewrite IHm by lia. ring. }
    rewrite E by lia. ring.
  - rewrite (proj2 (Nat.eqb_neq n j)) by lia. rewrite IH by lia. ring.
Qed.

Lemma mat_get_map (r c : nat) (g : nat -> nat -> Q) (i j : nat) :
  (i < r)%nat -> (j < c)%nat ->
  mat_get (mkMatrix r c (map (fun i => map (fun j => g i j) (seq 0 c)) (seq 0 r))) i j = g i j.
Proof.
  intros Hi Hj. unfold mat_get. cbn [v].
  rewrite nth_indep with (d' := map (fun j => g i j) (seq 0 c)) by (rewrite length_map, length_seq; lia).
  rewrite (map_nth (fun i => map (fun j => g i j) (seq 0 c))), seq_nth by lia. cbn [Nat.add].
  rewrite nth_indep with (d' := g i 0%nat) by (rewrite length_map, length_seq; lia).
  rewrite (map_nth (fun j => g i j)), seq_nth by lia. reflexivity.
Qed.

(** Two well-formed matrices with the same dimensions and entries are
    the same matrix. *)
Lemma Matrix_ext (a b : Matrix) :
  wf a -> wf b -> row a = row b -> column a = column b ->
  (forall i j, (i < row a)%nat -> (j < column a)%nat -> mat_get a i j = mat_get b i j) -> a = b.
Proof.
  destruct a as [r c va], b as [r' c' vb]. unfold wf, mat_get. cbn [row column v].
  intros (La & Ra) (Lb & Rb) <- <- E. f_equal.
  apply nth_ext with (d := []) (d' := []); [congruence|]. intros i Hi. rewrite La in Hi.
  apply nth_ext with (d := 0%Q) (d' := 0%Q); [rewrite Ra, Rb by exact Hi; reflexivity|].
  intros j Hj. rewrite Ra in Hj by exact Hi. apply E; assumption.
Qed.

(** The first [n] steps of the copy loop of row [i]. *)
Lemma copy_row_prefix (o m : Matrix) (i n : nat) :
  wf m -> row m = row o -> column m = column o -> (i < row o)%nat -> (n <= column o)%nat ->
  let m' := fold_left (fun m j => mat_set m i j (mat_get o i j)) (seq 0 n) m in
  wf m' /\ row m' = row o /\ column m' = column o /\
  forall i' j', mat_get m' i' j' = if Nat.eqb i' i && (j' <? n)%nat then mat_get o i j' else mat_get m i' j'.
Proof.
  intros Hw Hr Hc Hi. induction n as [|n IH]; intros Hn m'.
  - split; [exact Hw|]. split; [exact Hr|]. split; [exact Hc|].
    intros i' j'. destruct (Nat.eqb i' i); reflexivity.
  - subst m'. rewrite seq_S, fold_left_app. cbn [fold_left Nat.add].
    destruct (IH ltac:(lia)) as (W & R & C & G).
    destruct (mat_set_spec _ i n (mat_get o i n) W ltac:(lia) ltac:(lia)) as (W' & R' & C' & G').
    split; [exact W'|]. split; [congruence|]. split; [congruence|].
    intros i' j'. rewrite G', G.
    destruct (Nat.eqb_spec i' i), (Nat.eqb_spec j' n), (Nat.ltb_spec j' n), (Nat.ltb_spec j' (S n));
      cbn [andb]; subst; try reflexivity; lia.
Qed.

(** The first [n] rows of the copy. *)
Lemma assign_prefix (o : Matrix) (n : nat) :
  (n <= row o)%nat ->
  let m := fold_left (copy_row o) (seq 0 n) (initializeV (row o) (column o)) in
  wf m /\ row m = row o /\ column m = column o /\
  forall i j, mat_get m i j = if (i <? n)%nat && (j <? column o)%nat then mat_get o i j else 0%Q.
Proof.
  induction n as [|n IH]; intros Hn m.
  - split; [apply wf_initializeV|]. split; [reflexivity|]. split; [reflexivity|].
    intros i j. apply mat_get_initializeV.
  - subst m. rewrite seq_S, fold_left_app. cbn [fold_left Nat.add].
    destruct (IH ltac:(lia)) as (W & R & C & G).
    destruct (copy_row_prefix o _ n (column o) W R C ltac:(lia) ltac:(lia)) as (W' & R' & C' & G').
    split; [exact W'|]. split; [exact R'|]. split; [exact C'|].
    intros i j. unfold copy_row. rewrite G', G.
    destruct (Nat.eqb_spec i n), (Nat.ltb_spec i n), (Nat.ltb_spec i (S n)), (Nat.ltb_spec j (column o));
      cbn [andb]; subst; try reflexivity; lia.
Qed.

Lemma assign_spec (o : Matrix) :
  wf (assign o) /\ row (assign o) = row o /\ column (assign o) = column o /\
  forall i j, mat_get (assign o) i j = if (i <? row o)%nat && (j <? column o)%nat then mat_get o i j else 0%Q.
Proof. exact (assign_prefix o (row o) (le_n _)). Qed.

(** A sum whose terms are numerically equal. *)
Lemma fold_sum_compat (h h' : nat -> Q) (l : list nat) :
  (forall k, In k l -> (h k == h' k)%Q) ->
  forall acc acc', (acc == acc')%Q ->
  (fold_left (fun a k => a + h k) l acc == fold_left (fun a k => a + h' k) l acc')%Q.
Proof.
  induction l as [|k l IH]; intros E acc acc' Ea; cbn [fold_left]; [exact Ea|].
  apply IH; [intros k' Hk'; apply E; right; exact Hk'|]. rewrite Ea, (E k (or_introl eq_refl)). reflexivity.
Qed.

#[export] Instance mult_Proper : Proper (mat_equiv ==> mat_equiv ==> mat_equiv) mult.
Proof.
  intros a a' (Ra & Ca & Ea) b b' (Rb & Cb & Eb). unfold mult.
  rewrite <- Ra, <- Ca, <- Rb, <- Cb.
  destruct (Nat.eqb_spec (column a) (row b)) as [Hab|Hab]; cbn [negb];
    [|split; [exact Ra | split; [exact Ca | exact Ea]]].
  split; [reflexivity|]. split; [reflexivity|]. cbn [row column]. intros i j Hi Hj.
  rewrite !mat_get_map by assumption. unfold mult_entry. rewrite <- Ca.
  apply fold_sum_compat; [|reflexivity]. intros k Hk. apply in_seq in Hk.
  rewrite Ea, Eb by lia. reflexivity.
Qed.

Lemma mat_get_Unity (n k j : nat) :
  (k < n)%nat -> (j < n)%nat -> mat_get (Unity n) k j = if Nat.eqb k j then 1%Q else 0%Q.
Proof. intros Hk Hj. unfold Unity. apply mat_get_map; assumption. Qed.

(** Summing [f k] against the indicator of [k = j], [j] in range. *)
Lemma fold_pick (f : nat -> Q) (g : nat -> Q) (n j : nat) :
  (j < n)%nat -> (forall k, (k < n)%nat -> (g k == f k * (if Nat.eqb k j then 1 else 0))%Q) ->
  (fold_left (fun a k => a + g k)%Q (seq 0 n) 0 == f j)%Q.
Proof.
  intros Hj E. rewrite (fold_sum_compat g (fun k => f k * (if Nat.eqb k j then 1 else 0))%Q);
    [| intros k Hk; apply in_seq in Hk; apply E; lia | reflexivity].
  rewrite fold_indicator by exact Hj. ring.
Qed.

(** ** Properties *)

(** [operator=] and the copy constructor copy: the copy is
    well-formed, [operator==] finds it equal to the original, a
    well-formed original is reproduced exactly, and both copies agree. *)
Theorem assign_roundtrip (m : Matrix) :
  wf (assign m) /\ mat_eqb (assign m) m = true /\ (wf m -> assign m = m) /\ Matrix_copy m = assign m.
Proof.
  destruct (assign_spec m) as (W & R & C & G). split; [exact W|]. split; [|split; [|reflexivity]].
  - apply mat_eqb_spec. split; [exact R|]. split; [exact C|]. intros i j Hi Hj.
    rewrite G, (proj2 (Nat.ltb_lt i (row m))), (proj2 (Nat.ltb_lt j (column m))) by lia. reflexivity.
  - intros Wm. apply Matrix_ext; try assumption. intros i j Hi Hj.
    rewrite G, (proj2 (Nat.ltb_lt i (row m))), (proj2 (Nat.ltb_lt j (column m))) by lia. reflexivity.
Qed.

(** [Unity] is neutral for [operator*] on both sides, as
    [operator==] sees it: [m * Unity(columns)] and [Unity(rows) * m]
    equal [m]. *)
Theorem Unity_neutral (m : Matrix) :
  mat_eqb (mult m (Unity (column m))) m = true /\ mat_eqb (mult (Unity (row m)) m) m = true.
Proof.
  split; apply mat_eqb_spec; unfold mult; cbn [Unity row column]; rewrite Nat.eqb_refl; cbn [negb].
  - split; [reflexivity|]. split; [reflexivity|]. cbn [row column]. intros i j Hi Hj.
    rewrite mat_get_map by assumption. unfold mult_entry.
    apply fold_pick; [exact Hj|]. intros k Hk. rewrite mat_get_Unity by assumption. reflexivity.
  - split; [reflexivity|]. split; [reflexivity|]. cbn [row column]. intros i j Hi Hj.
    rewrite mat_get_map by assumption. unfold mult_entry. cbn [column Unity].
    apply (fold_pick (fun k => mat_get m k j)); [exact Hi|]. intros k Hk.
    rewrite mat_get_Unity by assumption. rewrite Nat.eqb_sym. destruct (Nat.eqb k i); ring.
Qed.

(** A 2 x 3 matrix. *)
Definition sample_matrix : Matrix := mkMatrix 2 3 [[1; 2; 3]; [4; 5; 6]]%Q.

Lemma assign_roundtrip_witness :
  wf sample_matrix /\ wf (assign sample_matrix) /\ mat_eqb (assign sample_matrix) sample_matrix = true /\
  (wf sample_matrix -> assign sample_matrix = sample_matrix) /\ Matrix_copy sample_matrix = assign sample_matrix.
Proof.
  assert (W : wf sample_matrix).
  { split; [reflexivity|]. intros i Hi. destruct i as [|[|i]]; [reflexivity | reflexivity | cbn in Hi; lia]. }
  split; [exact W|]. exact (assign_roundtrip sample_matrix).
Defined.

End Matrix.
