(* ===== verification/MatrixSolve.v ===== *)
(** * The triangular solves of [Matrix::LUSolve] (src/Matrix.cpp lines
      220-248)

    [LUSolve(L, U, b)] solves [L y = b] by forward substitution
    ([fwd_loop]) and [U x = y] by backward substitution ([bwd_loop]).
    This file holds finite sums over index lists ([qsum]), the fixed
    points the two loops reach (each entry is its row's substitution over
    the final vector), and the theorem that for a lower-triangular [L]
    and an upper-triangular [U] with non-zero diagonals the result solves
    [(L * U) x = b], as [operator*] computes the product. *)

From Stdlib Require Import ZArith QArith Lqa Lia List Bool Setoid Morphisms.
From S2P Require Import Prelude Matrix.
Import ListNotations.
Open Scope Z_scope.

Module MatrixSolve.

Import Matrix.

(** ** Finite sums *)

(** [f k] summed over [l] in order, as the code's accumulation loops do. *)
Definition qsum (l : list nat) (f : nat -> Q) : Q := fold_left (fun a k => a + f k)%Q l 0%Q.

Lemma qsum_acc (l : list nat) (f : nat -> Q) :
  forall acc, (fold_left (fun a k => a + f k)%Q l acc == acc + qsum l f)%Q.
Proof.
  unfold qsum. induction l as [|k l IH]; intros acc; cbn [fold_left]; [ring|].
  rewrite IH, (IH (0 + f k)%Q). ring.
Qed.

Lemma qsum_nil (f : nat -> Q) : qsum [] f = 0%Q.
Proof. reflexivity. Qed.

Lemma qsum_cons (k : nat) (l : list nat) (f : nat -> Q) : (qsum (k :: l) f == f k + qsum l f)%Q.
Proof. unfold qsum at 1. cbn [fold_left]. rewrite qsum_acc. ring. Qed.

Lemma qsum_app (l1 l2 : list nat) (f : nat -> Q) : (qsum (l1 ++ l2) f == qsum l1 f + qsum l2 f)%Q.
Proof. unfold qsum at 1. rewrite fold_left_app. apply qsum_acc. Qed.

Lemma qsum_ext (l : list nat) (f g : nat -> Q) :
  (forall k, In k l -> (f k == g k)%Q) -> (qsum l f == qsum l g)%Q.
Proof. intros E. apply fold_sum_compat; [exact E | reflexivity]. Qed.

Lemma qsum_zero (l : list nat) (f : nat -> Q) : (forall k, In k l -> (f k == 0)%Q) -> (qsum l f == 0)%Q.
Proof.
  intros E. rewrite (qsum_ext l f (fun _ => 0%Q)) by exact E.
  induction l as [|k l IH]; [reflexivity|]. rewrite qsum_cons, IH by (intros; apply E; right; assumption). ring.
Qed.

Lemma qsum_scale (c : Q) (l : list nat) (f : nat -> Q) : (c * qsum l f == qsum l (fun k => c * f k))%Q.
Proof. induction l as [|k l IH]; [cbn; ring|]. rewrite !qsum_cons, <- IH. ring. Qed.

Lemma qsum_plus (l : list nat) (f g : nat -> Q) :
  (qsum l (fun k => f k + g k) == qsum l f + qsum l g)%Q.
Proof. induction l as [|k l IH]; [cbn; ring|]. rewrite !qsum_cons, IH. ring. Qed.

(** Sums over two index lists commute. *)
Lemma qsum_swap (l1 l2 : list nat) (f : nat -> nat -> Q) :
  (qsum l1 (fun i => qsum l2 (fun j => f i j)) == qsum l2 (fun j => qsum l1 (fun i => f i j)))%Q.
Proof.
  induction l1 as [|i l1 IH].
  - rewrite qsum_nil, qsum_zero; [reflexivity|]. intros; reflexivity.
  - rewrite qsum_cons, IH, <- qsum_plus. apply qsum_ext. intros j _. rewrite qsum_cons. reflexivity.
Qed.

(** [0 .. N) is [0 .. i), then [i], then [i + 1 .. N). *)
Lemma seq_split (i N : nat) : (i < N)%nat -> seq 0 N = seq 0 i ++ i :: seq (S i) (N - S i).
Proof.
  intros Hi. replace N with (i + S (N - S i))%nat at 1 by lia.
  rewrite seq_app. reflexivity.
Qed.

(** The product entry [operator*] computes is a [qsum]. *)
Lemma mult_entry_qsum (a b : Matrix) (i j : nat) :
  mult_entry a b i j = qsum (seq 0 (column a)) (fun k => mat_get a i k * mat_get b k j)%Q.
Proof. reflexivity. Qed.

(** ** Forward substitution *)

Lemma fold_left_ext_in {A : Type} (f g : A -> nat -> A) (l : list nat) :
  (forall a k, In k l -> f a k = g a k) -> forall a, fold_left f l a = fold_left g l a.
Proof.
  induction l as [|k l IH]; intros E a; [reflexivity|]. cbn [fold_left].
  rewrite E by (left; reflexivity). apply IH. intros; apply E; right; assumption.
Qed.

Lemma nth_list_set_Q (y : list Q) (i j : nat) (x : Q) :
  (i < length y)%nat -> nth j (list_set y i x) 0%Q = if Nat.eqb j i then x else nth j y 0%Q.
Proof. apply nth_list_set. Qed.

(** [fwd_row] reads the entries of [y] below [i] only. *)
Lemma fwd_row_ext (L b : Matrix) (y1 y2 : list Q) (i : nat) :
  (forall k, (k < i)%nat -> nth k y1 0%Q = nth k y2 0%Q) -> fwd_row L b y1 i = fwd_row L b y2 i.
Proof.
  intros E. unfold fwd_row. apply fold_left_ext_in. intros acc k Hk. apply in_seq in Hk.
  rewrite E by lia. reflexivity.
Qed.

(** Row [i] of the forward substitution, as an equation. *)
Lemma fwd_row_eq (L b : Matrix) (y : list Q) (i : nat) :
  ~ (mat_get L i i == 0)%Q ->
  (fwd_row L b y i == (mat_get b i 0 - qsum (seq 0 i) (fun j => mat_get L i j * nth j y 0)) / mat_get L i i)%Q.
Proof.
  intros Hd. unfold fwd_row. rewrite qsum_acc.
  rewrite (qsum_ext _ _ (fun j => (- / mat_get L i i) * (mat_get L i j * nth j y 0))%Q)
    by (intros; field; exact Hd).
  rewrite <- qsum_scale. field. exact Hd.
Qed.

(** The loop leaves the entries below [i] alone and ends with every
    entry from [i] to [N] equal to its row's substitution over the final
    vector. *)
Lemma fwd_loop_spec (L b : Matrix) (N fuel : nat) :
  forall i y, (N - i <= fuel)%nat -> (N <= length y)%nat ->
  let y' := fwd_loop L b y i N fuel in
  length y' = length y /\
  (forall j, (j < i)%nat -> nth j y' 0%Q = nth j y 0%Q) /\
  (forall j, (i <= j < N)%nat -> nth j y' 0%Q = fwd_row L b y' j).
Proof.
  induction fuel as [|f IH]; intros i y Hf Hl y'; subst y'; cbn [fwd_loop].
  - split; [reflexivity|]. split; [reflexivity|]. intros; lia.
  - destruct (Nat.ltb_spec i N) as [Hi|Hi]; [|split; [reflexivity|]; split; [reflexivity|]; intros; lia].
    set (y1 := list_set y i (fwd_row L b y i)).
    assert (Hl1 : length y1 = length y) by apply length_list_set.
    destruct (IH (S i) y1 ltac:(lia) ltac:(lia)) as (L' & Below & Above).
    set (y' := fwd_loop L b y1 (S i) N f) in *.
    assert (Hb : forall j, (j < i)%nat -> nth j y' 0%Q = nth j y 0%Q).
    { intros j Hj. rewrite Below by lia. unfold y1. rewrite nth_list_set_Q by lia.
      rewrite (proj2 (Nat.eqb_neq j i)) by lia. reflexivity. }
    split; [congruence|]. split; [exact Hb|].
    intros j Hj. destruct (Nat.eq_dec j i) as [->|Hne]; [|apply Above; lia].
    rewrite Below by lia. unfold y1. rewrite nth_list_set_Q, Nat.eqb_refl by lia.
    apply fwd_row_ext. intros k Hk. symmetry. apply Hb, Hk.
Qed.

(** ** Backward substitution *)

(** [bwd_row] reads the entries of [x] above [i] only. *)
Lemma bwd_row_ext (U : Matrix) (y x1 x2 : list Q) (i N : nat) :
  (forall k, (i < k)%nat -> nth k x1 0%Q = nth k x2 0%Q) -> bwd_row U y x1 i N = bwd_row U y x2 i N.
Proof.
  intros E. unfold bwd_row. apply fold_left_ext_in. intros acc k Hk. apply in_seq in Hk.
  rewrite E by lia. reflexivity.
Qed.

(** Row [i] of the backward substitution, as an equation. *)
Lemma bwd_row_eq (U : Matrix) (y x : list Q) (i N : nat) :
  ~ (mat_get U i i == 0)%Q ->
  (bwd_row U y x i N ==
   (nth i y 0 - qsum (seq (S i) (N - S i)) (fun j => mat_get U i j * nth j x 0)) / mat_get U i i)%Q.
Proof.
  intros Hd. unfold bwd_row. rewrite qsum_acc.
  rewrite (qsum_ext _ _ (fun j => (- / mat_get U i i) * (mat_get U i j * nth j x 0))%Q)
    by (intros; field; exact Hd).
  rewrite <- qsum_scale. field. exact Hd.
Qed.

(** The loop [for (i = k - 1; i >= 0; --i)] leaves the entries from [k]
    on alone and ends with every entry below [k] equal to its row's
    substitution over the final vector. *)
Lemma bwd_loop_spec (U : Matrix) (y : list Q) (N : nat) (k : nat) :
  forall x, (k <= length x)%nat ->
  let x' := bwd_loop U y x k N in
  length x' = length x /\
  (forall j, (k <= j)%nat -> nth j x' 0%Q = nth j x 0%Q) /\
  (forall j, (j < k)%nat -> nth j x' 0%Q = bwd_row U y x' j N).
Proof.
  induction k as [|k IH]; intros x Hl x'; subst x'; cbn [bwd_loop].
  - split; [reflexivity|]. split; [reflexivity|]. intros; lia.
  - set (x1 := list_set x k (bwd_row U y x k N)).
    assert (Hl1 : length x1 = length x) by apply length_list_set.
    destruct (IH x1 ltac:(lia)) as (L' & Above & Below).
    set (x' := bwd_loop U y x1 k N) in *.
    assert (Ha : forall j, (S k <= j)%nat -> nth j x' 0%Q = nth j x 0%Q).
    { intros j Hj. rewrite Above by lia. unfold x1. rewrite nth_list_set_Q by lia.
      rewrite (proj2 (Nat.eqb_neq j k)) by lia. reflexivity. }
    split; [congruence|]. split; [exact Ha|].
    intros j Hj. destruct (Nat.eq_dec j k) as [->|Hne]; [|apply Below; lia].
    rewrite Above by lia. unfold x1. rewrite nth_list_set_Q, Nat.eqb_refl by lia.
    apply bwd_row_ext. intros m Hm. symmetry. apply Ha. lia.
Qed.

(** ** The solves as equations *)

Section Triangular.

Variables (L U b : Matrix) (N : nat).
Hypothesis HN : (1 <= N)%nat.
Hypothesis Hb : row b = N.
Hypothesis HL : forall i j, (i < j < N)%nat -> (mat_get L i j == 0)%Q.
Hypothesis HU : forall i j, (j < i < N)%nat -> (mat_get U i j == 0)%Q.
Hypothesis HLd : forall i, (i < N)%nat -> ~ (mat_get L i i == 0)%Q.
Hypothesis HUd : forall i, (i < N)%nat -> ~ (mat_get U i i == 0)%Q.

(** The intermediate vector [y] of [LUSolve]. *)
Definition y_fwd : list Q := fwd_loop L b (repeat 0%Q (row b)) 0 N N.

(** The solution vector of [LUSolve]. *)
Definition x_bwd : list Q :=
  bwd_loop U y_fwd
    (list_set (repeat 0%Q (row b)) (N - 1) (nth (N - 1) y_fwd 0 / mat_get U (N - 1) (N - 1))%Q) (N - 1) N.

(** [L y = b], row by row. *)
Lemma y_fwd_solves (i : nat) : (i < N)%nat ->
  (qsum (seq 0 N) (fun j => mat_get L i j * nth j y_fwd 0) == mat_get b i 0)%Q.
Proof.
  intros Hi.
  destruct (fwd_loop_spec L b N N 0 (repeat 0%Q (row b)) ltac:(lia) ltac:(rewrite repeat_length; lia))
    as (_ & _ & Fix).
  fold y_fwd in Fix. specialize (Fix i ltac:(lia)).
  rewrite (seq_split i N Hi), qsum_app, qsum_cons.
  rewrite (qsum_zero (seq (S i) (N - S i))) by (intros k Hk; apply in_seq in Hk; rewrite HL by lia; ring).
  rewrite Fix, fwd_row_eq by (apply HLd, Hi). field. apply HLd, Hi.
Qed.

Lemma x_bwd_fix (i : nat) : (i < N)%nat -> nth i x_bwd 0%Q = bwd_row U y_fwd x_bwd i N.
Proof.
  intros Hi. set (x0 := list_set (repeat 0%Q (row b)) (N - 1) (nth (N - 1) y_fwd 0 / mat_get U (N - 1) (N - 1))%Q).
  assert (Hl0 : length x0 = row b) by (unfold x0; rewrite length_list_set; apply repeat_length).
  destruct (bwd_loop_spec U y_fwd N (N - 1) x0 ltac:(lia)) as (_ & Keep & Fix).
  fold x_bwd in Keep, Fix.
  destruct (Nat.ltb_spec i (N - 1)); [apply Fix; lia|].
  replace i with (N - 1)%nat by lia. rewrite Keep by lia. unfold x0.
  rewrite nth_list_set_Q, Nat.eqb_refl by (rewrite repeat_length; lia).
  unfold bwd_row. replace (N - S (N - 1))%nat with O by lia. reflexivity.
Qed.

(** [U x = y], row by row. *)
Lemma x_bwd_solves (i : nat) : (i < N)%nat ->
  (qsum (seq 0 N) (fun j => mat_get U i j * nth j x_bwd 0) == nth i y_fwd 0)%Q.
Proof.
  intros Hi. rewrite (seq_split i N Hi), qsum_app, qsum_cons.
  rewrite (qsum_zero (seq 0 i)) by (intros k Hk; apply in_seq in Hk; rewrite HU by lia; ring).
  rewrite x_bwd_fix, bwd_row_eq by (auto; apply HUd, Hi). field. apply HUd, Hi.
Qed.

Lemma length_x_bwd : length x_bwd = N.
Proof.
  unfold x_bwd. destruct (bwd_loop_spec U y_fwd N (N - 1)
    (list_set (repeat 0%Q (row b)) (N - 1) (nth (N - 1) y_fwd 0 / mat_get U (N - 1) (N - 1))%Q)
    ltac:(rewrite length_list_set, repeat_length; lia)) as (Hl & _).
  rewrite Hl, length_list_set, repeat_length. exact Hb.
Qed.

End Triangular.

Lemma mat_get_column (r : nat) (x : list Q) (k : nat) :
  (k < length x)%nat -> mat_get (mkMatrix r 1 (map (fun q => [q]) x)) k 0 = nth k x 0%Q.
Proof.
  intros Hk. unfold mat_get. cbn [v].
  rewrite nth_indep with (d' := [0%Q]) by (rewrite length_map; exact Hk).
  rewrite (map_nth (fun q => [q])). reflexivity.
Qed.

(** ** Decision procedures for the hypotheses on concrete matrices *)

Definition lower_b (L : Matrix) (N : nat) : bool :=
  forallb (fun i => forallb (fun j => negb (i <? j)%nat || Qeq_bool (mat_get L i j) 0) (seq 0 N)) (seq 0 N).

Definition upper_b (U : Matrix) (N : nat) : bool :=
  forallb (fun i => forallb (fun j => negb (j <? i)%nat || Qeq_bool (mat_get U i j) 0) (seq 0 N)) (seq 0 N).

Definition diag_b (A : Matrix) (N : nat) : bool :=
  forallb (fun i => negb (Qeq_bool (mat_get A i i) 0)) (seq 0 N).

Lemma entries_b (A : Matrix) (N : nat) (P : nat -> nat -> bool) :
  forallb (fun i => forallb (fun j => negb (P i j) || Qeq_bool (mat_get A i j) 0) (seq 0 N)) (seq 0 N) = true ->
  forall i j, (i < N)%nat -> (j < N)%nat -> P i j = true -> (mat_get A i j == 0)%Q.
Proof.
  intros H i j Hi Hj Hp. apply forallb_seq_iff with (i := i) in H; [|exact Hi].
  apply forallb_seq_iff with (i := j) in H; [|exact Hj]. rewrite Hp in H. apply Qeq_bool_iff, H.
Qed.

Lemma lower_b_spec (L : Matrix) (N : nat) :
  lower_b L N = true -> forall i j, (i < j < N)%nat -> (mat_get L i j == 0)%Q.
Proof. intros H i j Hij. apply (entries_b L N (fun i j => i <? j)%nat H); [lia | lia | apply Nat.ltb_lt; lia]. Qed.

Lemma upper_b_spec (U : Matrix) (N : nat) :
  upper_b U N = true -> forall i j, (j < i < N)%nat -> (mat_get U i j == 0)%Q.
Proof. intros H i j Hij. apply (entries_b U N (fun i j => j <? i)%nat H); [lia | lia | apply Nat.ltb_lt; lia]. Qed.

Lemma diag_b_spec (A : Matrix) (N : nat) :
  diag_b A N = true -> forall i, (i < N)%nat -> ~ (mat_get A i i == 0)%Q.
Proof.
  intros H i Hi E. apply forallb_seq_iff with (i := i) in H; [|exact Hi].
  apply Qeq_bool_iff in E. rewrite E in H. discriminate.
Qed.

(** ** Properties *)

(** C37: [LUSolve] solves the system: for a lower-triangular [L] and an
    upper-triangular [U] of size [N >= 1] with non-zero diagonals and a
    column [b] of [N] entries, the column [x] it returns satisfies
    [(L * U) * x = b], the products computed by [operator*] and the
    equality being [operator==]'s. *)
Theorem LUSolve_solves (L U b : Matrix) (N : nat) :
  (1 <= N)%nat -> row L = N -> column L = N -> row U = N -> column U = N ->
  row b = N -> column b = 1%nat ->
  (forall i j, (i < j < N)%nat -> (mat_get L i j == 0)%Q) ->
  (forall i j, (j < i < N)%nat -> (mat_get U i j == 0)%Q) ->
  (forall i, (i < N)%nat -> ~ (mat_get L i i == 0)%Q) ->
  (forall i, (i < N)%nat -> ~ (mat_get U i i == 0)%Q) ->
  mat_equiv (mult (mult L U) (LUSolve L U b)) b.
Proof.
  intros HN HrL HcL HrU HcU Hrb Hcb HL HU HLd HUd.
  assert (EX : LUSolve L U b = mkMatrix (row b) 1 (map (fun q => [q]) (x_bwd L U b N))).
  { unfold LUSolve, x_bwd, y_fwd. rewrite HrU. reflexivity. }
  pose proof (length_x_bwd L U b N HN Hrb) as Hlx.
  rewrite EX. unfold mult at 2. rewrite HcL, HrU, Nat.eqb_refl. cbn [negb].
  unfold mult. cbn [row column]. rewrite HcU, Hrb, Nat.eqb_refl. cbn [negb].
  split; [cbn; lia|]. split; [cbn; lia|]. cbn [row column]. intros i j Hi Hj.
  assert (j = O) as -> by lia. rewrite HrL in Hi.
  rewrite mat_get_map by (rewrite ?HrL; lia). rewrite mult_entry_qsum. cbn [column].
  rewrite (qsum_ext _ _ (fun k => qsum (seq 0 N) (fun m => mat_get L i m * (mat_get U m k * nth k (x_bwd L U b N) 0)))%Q).
  2:{ intros k Hk. apply in_seq in Hk.
      rewrite mat_get_map by (rewrite ?HrL, ?HcU; lia). rewrite mat_get_column by lia.
      rewrite mult_entry_qsum, HcL, Qmult_comm, qsum_scale. apply qsum_ext. intros m _. ring. }
  rewrite qsum_swap.
  rewrite (qsum_ext _ _ (fun m => mat_get L i m * nth m (y_fwd L b N) 0)%Q).
  2:{ intros m Hm. apply in_seq in Hm. rewrite <- qsum_scale.
      rewrite (x_bwd_solves L U b N HN Hrb HU HUd m) by lia. reflexivity. }
  apply (y_fwd_solves L b N); assumption.
Qed.

(** A 2 x 2 system. *)
Definition sample_L : Matrix := mkMatrix 2 2 [[2; 0]; [1; 3]]%Q.
Definition sample_U : Matrix := mkMatrix 2 2 [[1; 4]; [0; 5]]%Q.
Definition sample_b : Matrix := mkMatrix 2 1 [[7]; [9]]%Q.

Lemma LUSolve_solves_witness :
  ((1 <= 2)%nat /\ row sample_L = 2%nat /\ column sample_L = 2%nat /\ row sample_U = 2%nat /\
   column sample_U = 2%nat /\ row sample_b = 2%nat /\ column sample_b = 1%nat /\
   (forall i j, (i < j < 2)%nat -> (mat_get sample_L i j == 0)%Q) /\
   (forall i j, (j < i < 2)%nat -> (mat_get sample_U i j == 0)%Q) /\
   (forall i, (i < 2)%nat -> ~ (mat_get sample_L i i == 0)%Q) /\
   (forall i, (i < 2)%nat -> ~ (mat_get sample_U i i == 0)%Q)) /\
  mat_equiv (mult (mult sample_L sample_U) (LUSolve sample_L sample_U sample_b)) sample_b.
Proof.
  assert (HL := lower_b_spec sample_L 2 ltac:(vm_compute; reflexivity)).
  assert (HU := upper_b_spec sample_U 2 ltac:(vm_compute; reflexivity)).
  assert (HLd := diag_b_spec sample_L 2 ltac:(vm_compute; reflexivity)).
  assert (HUd := diag_b_spec sample_U 2 ltac:(vm_compute; reflexivity)).
  split; [repeat (split; [first [lia | reflexivity] |]); repeat split; assumption|].
  apply (LUSolve_solves sample_L sample_U sample_b 2); first [lia | reflexivity | assumption].
Defined.

End MatrixSolve.
