(* ===== verification/Calibration.v ===== *)
(** * The calibration solver (src/KClmtr.cpp lines 1207-1306 and 1307-1425)

    A user calibration turns the XYZ the instrument measures into the XYZ
    of a reference instrument.  From the white, red, green and blue
    readings of both instruments ([WRGB]), [distruibuteWhiteToRGB] spreads
    the white over the three primaries by Cramer's rule on their
    chromaticities (blending the result with the measured primaries), and
    [makeCorrectedXYZ] solves, again by Cramer's rule, for the 3 x 3 matrix
    that maps the instrument's primaries onto the reference's.
    [getCoefficientTestMatrix] chains them into a [CorrectedCoefficient]. *)

From Stdlib Require Import ZArith QArith Lqa Lia List Bool.
From S2P Require Import Prelude ErrorCodes Matrix.
Import ListNotations.
Import KleinsErrorCodes Matrix.
Open Scope Q_scope.

Module Calibration.

(** [struct WRGB]: [v[4][3]], rows white, red, green, blue; columns X, Y, Z. *)
Record WRGB := mkWRGB { wv : list (list Q) }.

Definition wget (w : WRGB) (i j : nat) : Q := nth j (nth i (wv w) []) 0.

Arguments wget w (i j)%_nat.

(** [struct CorrectedCoefficient] and its constructor. *)
Record CorrectedCoefficient := mkCorrectedCoefficient {
  colorMatrix : Matrix;
  rgbMatrix : Matrix;
  cc_error : Z
}.

Definition CorrectedCoefficient_default : CorrectedCoefficient :=
  mkCorrectedCoefficient (initializeV 3 3) (initializeV 3 3) 0.

(** The static [getDeterminant(v1, ..., v9)]: minus the determinant of the
    rows [(v1 v2 v3) (v4 v5 v6) (v7 v8 v9)]. *)
Definition getDeterminant (v1 v2 v3 v4 v5 v6 v7 v8 v9 : Q) : Q :=
  v1 * v8 * v6 + v4 * v2 * v9 + v7 * v5 * v3 - v3 * v4 * v8 - v2 * v6 * v7 - v1 * v5 * v9.

(** The 3 x 3 matrix with the given rows. *)
Definition mat3 (a b c d e f g h i : Q) : Matrix := mkMatrix 3 3 [[a; b; c]; [d; e; f]; [g; h; i]].

(** [distruibuteWhiteToRGB(ref, distributed)]: the error and the matrix. *)
Definition distruibuteWhiteToRGB (ref : WRGB) : Z * Matrix :=
  let distributed := initializeV 3 3 in
  let OldRt := wget ref 1 0 + wget ref 1 1 + wget ref 1 2 in
  let R1 := wget ref 1 0 / OldRt in
  let R2 := wget ref 1 1 / OldRt in
  let R3 := wget ref 1 2 / OldRt in
  let oldGt := wget ref 2 0 + wget ref 2 1 + wget ref 2 2 in
  let R4 := wget ref 2 0 / oldGt in
  let R5 := wget ref 2 1 / oldGt in
  let R6 := wget ref 2 2 / oldGt in
  let oldBt := wget ref 3 0 + wget ref 3 1 + wget ref 3 2 in
  let R7 := wget ref 3 0 / oldBt in
  let R8 := wget ref 3 1 / oldBt in
  let R9 := wget ref 3 2 / oldBt in
  let Denom := getDeterminant R1 R2 R3 R4 R5 R6 R7 R8 R9 in
  if Qeq_bool Denom 0 then (CAL_WHITE_RGB, distributed)
  else
    let W0 := wget ref 0 0 in
    let W1 := wget ref 0 1 in
    let W2 := wget ref 0 2 in
    let Rt := getDeterminant W0 W1 W2 R4 R5 R6 R7 R8 R9 / Denom in
    let Gt := getDeterminant R1 R2 R3 W0 W1 W2 R7 R8 R9 / Denom in
    let Bt := getDeterminant R1 R2 R3 R4 R5 R6 W0 W1 W2 / Denom in
    let Rt := (2 * Rt + 1 * OldRt) / 3 in
    let Gt := (2 * Gt + 1 * oldGt) / 3 in
    let Bt := (2 * Bt + 1 * oldBt) / 3 in
    (NONE, mat3 (R1 * Rt) (R2 * Rt) (R3 * Rt) (R4 * Gt) (R5 * Gt) (R6 * Gt)
                (R7 * Bt) (R8 * Bt) (R9 * Bt)).

(** [makeCorrectedXYZ(target, kclmtr, correctedXYZ)]: the nine entries of
    [correctedXYZ], each a ratio of determinants ([kij] is
    [kclmtr.v[i][j]], [tij] is [target.v[i][j]]). *)
Definition makeCorrectedXYZ (target kclmtr correctedXYZ : Matrix) : Matrix :=
  let k00 := mat_get kclmtr 0 0 in
  let k01 := mat_get kclmtr 0 1 in
  let k02 := mat_get kclmtr 0 2 in
  let k10 := mat_get kclmtr 1 0 in
  let k11 := mat_get kclmtr 1 1 in
  let k12 := mat_get kclmtr 1 2 in
  let k20 := mat_get kclmtr 2 0 in
  let k21 := mat_get kclmtr 2 1 in
  let k22 := mat_get kclmtr 2 2 in
  let t00 := mat_get target 0 0 in
  let t01 := mat_get target 0 1 in
  let t02 := mat_get target 0 2 in
  let t10 := mat_get target 1 0 in
  let t11 := mat_get target 1 1 in
  let t12 := mat_get target 1 2 in
  let t20 := mat_get target 2 0 in
  let t21 := mat_get target 2 1 in
  let t22 := mat_get target 2 2 in
  let Denom := k00 * k11 * k22 + k10 * k21 * k02 + k20 * k01 * k12 -
               k02 * k11 * k20 - k01 * k10 * k22 - k00 * k12 * k21 in
  let Denom := if Qeq_bool Denom 0 then 0.00001 else Denom in
  let c := correctedXYZ in
  let top := t00 * k11 * k22 + t10 * k21 * k02 + t20 * k01 * k12 -
             k02 * k11 * t20 - k01 * t10 * k22 - t00 * k12 * k21 in
  let c := mat_set c 0 0 (top / Denom) in
  let top := k00 * t10 * k22 + k10 * t20 * k02 + k20 * t00 * k12 -
             k02 * t10 * k20 - t00 * k10 * k22 - k00 * k12 * t20 in
  let c := mat_set c 0 1 (top / Denom) in
  let top := k00 * k11 * t20 + k10 * k21 * t00 + k20 * k01 * t10 -
             t00 * k11 * k20 - k01 * k10 * t20 - k00 * t10 * k21 in
  let c := mat_set c 0 2 (top / Denom) in
  let top := t01 * k11 * k22 + t11 * k21 * k02 + t21 * k01 * k12 -
             k02 * k11 * t21 - k01 * t11 * k22 - t01 * k12 * k21 in
  let c := mat_set c 1 0 (top / Denom) in
  let top := k00 * t11 * k22 + k10 * t21 * k02 + k20 * t01 * k12 -
             k02 * t11 * k20 - t01 * k10 * k22 - k00 * k12 * t21 in
  let c := mat_set c 1 1 (top / Denom) in
  let top := k00 * k11 * t21 + k10 * k21 * t01 + k20 * k01 * t11 -
             t01 * k11 * k20 - k01 * k10 * t21 - k00 * t11 * k21 in
  let c := mat_set c 1 2 (top / Denom) in
  let top := t02 * k11 * k22 + t12 * k21 * k02 + t22 * k01 * k12 -
             k02 * k11 * t22 - k01 * t12 * k22 - t02 * k12 * k21 in
  let c := mat_set c 2 0 (top / Denom) in
  let top := k00 * t12 * k22 + k10 * t22 * k02 + k20 * t02 * k12 -
             k02 * t12 * k20 - t02 * k10 * k22 - k00 * k12 * t22 in
  let c := mat_set c 2 1 (top / Denom) in
  let top := k00 * k11 * t22 + k10 * k21 * t02 + k20 * k01 * t12 -
             t02 * k11 * k20 - k01 * k10 * t22 - k00 * t12 * k21 in
  mat_set c 2 2 (top / Denom).

(** [getCoefficientTestMatrix(reference, kclmtr)]. *)
Definition getCoefficientTestMatrix (reference kclmtr : WRGB) : CorrectedCoefficient :=
  let corrected := CorrectedCoefficient_default in
  let '(e1, refDist) := distruibuteWhiteToRGB reference in
  let '(e2, kclmtrDist) := distruibuteWhiteToRGB kclmtr in
  let error := Z.lor (Z.lor 0 e1) e2 in
  let targetRGB := mat3 100 0 0 0 100 0 0 0 100 in
  let colorM := makeCorrectedXYZ refDist kclmtrDist (colorMatrix corrected) in
  let rgbM := makeCorrectedXYZ targetRGB refDist (rgbMatrix corrected) in
  mkCorrectedCoefficient colorM rgbM (Z.lor (cc_error corrected) error).

(** The fixed RGB matrix [storeMatrices(id, name, correctedXYZ)] pairs
    with a colour matrix given directly. *)
Definition default_rgbMatrix : Matrix :=
  mat3 3.85266 (-1.7702026) (-0.59213258) (-1.09594727) 2.027709961 0.020358086
       0.05136680603 (-0.190895080566) 0.9453125.

(** The coefficient [storeMatrices(id, name, correctedXYZ)] stores. *)
Definition coefficient_of_matrix (correctedXYZ : Matrix) : CorrectedCoefficient :=
  mkCorrectedCoefficient
    (mat3 (mat_get correctedXYZ 0 0) (mat_get correctedXYZ 0 1) (mat_get correctedXYZ 0 2)
          (mat_get correctedXYZ 1 0) (mat_get correctedXYZ 1 1) (mat_get correctedXYZ 1 2)
          (mat_get correctedXYZ 2 0) (mat_get correctedXYZ 2 1) (mat_get correctedXYZ 2 2))
    default_rgbMatrix 0.

(** The determinant of a 3 x 3 matrix, in the form [makeCorrectedXYZ]
    writes it. *)
Definition det3 (m : Matrix) : Q :=
  mat_get m 0 0 * mat_get m 1 1 * mat_get m 2 2 + mat_get m 1 0 * mat_get m 2 1 * mat_get m 0 2 +
  mat_get m 2 0 * mat_get m 0 1 * mat_get m 1 2 - mat_get m 0 2 * mat_get m 1 1 * mat_get m 2 0 -
  mat_get m 0 1 * mat_get m 1 0 * mat_get m 2 2 - mat_get m 0 0 * mat_get m 1 2 * mat_get m 2 1.

(** Row [r] of [a] times row [i] of [b]. *)
Definition row_dot (a b : Matrix) (r i : nat) : Q :=
  mat_get a r 0 * mat_get b i 0 + mat_get a r 1 * mat_get b i 1 + mat_get a r 2 * mat_get b i 2.

(** ** Properties *)

Lemma Qeq_bool_false (a : Q) : ~ (a == 0) -> Qeq_bool a 0 = false.
Proof. intros H. destruct (Qeq_bool a 0) eqn:E; [apply Qeq_bool_iff in E; contradiction | reflexivity]. Qed.

(** When the instrument's primaries are independent ([det3 kclmtr]
    is not 0), the matrix [makeCorrectedXYZ] writes maps each primary the
    instrument measured onto the target's: [kclmtr * C^T = target], i.e.
    true XYZ = C * measured XYZ for the red, green and blue fields. *)
Theorem makeCorrectedXYZ_solves (target kclmtr : Matrix) :
  ~ (det3 kclmtr == 0) ->
  forall r i, (r < 3)%nat -> (i < 3)%nat ->
  row_dot kclmtr (makeCorrectedXYZ target kclmtr (initializeV 3 3)) r i == mat_get target r i.
Proof.
  intros Hd r i Hr Hi. unfold det3 in Hd.
  unfold row_dot, makeCorrectedXYZ.
  rewrite (Qeq_bool_false _ Hd).
  destruct r as [|[|[|r]]]; [| | |lia]; destruct i as [|[|[|i]]]; [| | |lia| | | |lia| | | |lia];
    cbn [mat_set mat_get initializeV repeat list_set nth v row column]; field; exact Hd.
Qed.

Lemma makeCorrectedXYZ_solves_witness :
  ~ (det3 (mat3 3 1 2 0 5 1 4 2 7) == 0) /\ (1 < 3)%nat /\ (2 < 3)%nat /\
  row_dot (mat3 3 1 2 0 5 1 4 2 7)
    (makeCorrectedXYZ (mat3 1 2 3 4 5 6 7 8 10) (mat3 3 1 2 0 5 1 4 2 7) (initializeV 3 3)) 1 2
  == mat_get (mat3 1 2 3 4 5 6 7 8 10) 1 2.
Proof.
  assert (H : ~ (det3 (mat3 3 1 2 0 5 1 4 2 7) == 0)) by (vm_compute; discriminate).
  split; [exact H|]. split; [lia|]. split; [lia|].
  exact (makeCorrectedXYZ_solves (mat3 1 2 3 4 5 6 7 8 10) _ H 1 2 ltac:(lia) ltac:(lia)).
Defined.

(** Cramer's rule in the form [distruibuteWhiteToRGB] applies it. *)
Lemma cramer3 (r1 r2 r3 r4 r5 r6 r7 r8 r9 w0 w1 w2 : Q) :
  ~ (getDeterminant r1 r2 r3 r4 r5 r6 r7 r8 r9 == 0) ->
  let D := getDeterminant r1 r2 r3 r4 r5 r6 r7 r8 r9 in
  let Rt := getDeterminant w0 w1 w2 r4 r5 r6 r7 r8 r9 / D in
  let Gt := getDeterminant r1 r2 r3 w0 w1 w2 r7 r8 r9 / D in
  let Bt := getDeterminant r1 r2 r3 r4 r5 r6 w0 w1 w2 / D in
  r1 * Rt + r4 * Gt + r7 * Bt == w0 /\ r2 * Rt + r5 * Gt + r8 * Bt == w1 /\
  r3 * Rt + r6 * Gt + r9 * Bt == w2.
Proof. intros HD. cbv zeta. unfold getDeterminant in *. split; [|split]; field; exact HD. Qed.

Lemma div_mul_cancel (a s : Q) : ~ (s == 0) -> a / s * s == a.
Proof. intros H. field. exact H. Qed.

(** When the three primaries have non-zero luminance sums and
    independent chromaticities, [distruibuteWhiteToRGB] reports no error
    and its three rows add up, channel by channel, to two thirds of the
    white plus one third of the measured red, green and blue. *)
Theorem distruibuteWhiteToRGB_sum (ref : WRGB) :
  let R := wget ref 1 0 + wget ref 1 1 + wget ref 1 2 in
  let G := wget ref 2 0 + wget ref 2 1 + wget ref 2 2 in
  let B := wget ref 3 0 + wget ref 3 1 + wget ref 3 2 in
  ~ (R == 0) -> ~ (G == 0) -> ~ (B == 0) ->
  ~ (getDeterminant (wget ref 1 0 / R) (wget ref 1 1 / R) (wget ref 1 2 / R)
                    (wget ref 2 0 / G) (wget ref 2 1 / G) (wget ref 2 2 / G)
                    (wget ref 3 0 / B) (wget ref 3 1 / B) (wget ref 3 2 / B) == 0) ->
  fst (distruibuteWhiteToRGB ref) = NONE /\
  forall c, (c < 3)%nat ->
    mat_get (snd (distruibuteWhiteToRGB ref)) 0 c + mat_get (snd (distruibuteWhiteToRGB ref)) 1 c +
    mat_get (snd (distruibuteWhiteToRGB ref)) 2 c
    == 2 / 3 * wget ref 0 c + 1 / 3 * (wget ref 1 c + wget ref 2 c + wget ref 3 c).
Proof.
  intros R G B HR HG HB HD. unfold distruibuteWhiteToRGB. fold R G B.
  rewrite (Qeq_bool_false _ HD). split; [reflexivity|].
  destruct (cramer3 (wget ref 1 0 / R) (wget ref 1 1 / R) (wget ref 1 2 / R)
                    (wget ref 2 0 / G) (wget ref 2 1 / G) (wget ref 2 2 / G)
                    (wget ref 3 0 / B) (wget ref 3 1 / B) (wget ref 3 2 / B)
                    (wget ref 0 0) (wget ref 0 1) (wget ref 0 2) HD) as (C0 & C1 & C2).
  intros c Hc. cbn [snd mat_get mat3 v nth].
  pose proof (div_mul_cancel (wget ref 1 0) R HR) as E1.
  pose proof (div_mul_cancel (wget ref 1 1) R HR) as E2.
  pose proof (div_mul_cancel (wget ref 1 2) R HR) as E3.
  pose proof (div_mul_cancel (wget ref 2 0) G HG) as E4.
  pose proof (div_mul_cancel (wget ref 2 1) G HG) as E5.
  pose proof (div_mul_cancel (wget ref 2 2) G HG) as E6.
  pose proof (div_mul_cancel (wget ref 3 0) B HB) as E7.
  pose proof (div_mul_cancel (wget ref 3 1) B HB) as E8.
  pose proof (div_mul_cancel (wget ref 3 2) B HB) as E9.
  set (r1 := wget ref 1 0 / R) in *. set (r2 := wget ref 1 1 / R) in *.
  set (r3 := wget ref 1 2 / R) in *. set (r4 := wget ref 2 0 / G) in *.
  set (r5 := wget ref 2 1 / G) in *. set (r6 := wget ref 2 2 / G) in *.
  set (r7 := wget ref 3 0 / B) in *. set (r8 := wget ref 3 1 / B) in *.
  set (r9 := wget ref 3 2 / B) in *.
  set (D := getDeterminant r1 r2 r3 r4 r5 r6 r7 r8 r9) in *.
  set (Rt := getDeterminant (wget ref 0 0) (wget ref 0 1) (wget ref 0 2) r4 r5 r6 r7 r8 r9 / D) in *.
  set (Gt := getDeterminant r1 r2 r3 (wget ref 0 0) (wget ref 0 1) (wget ref 0 2) r7 r8 r9 / D) in *.
  set (Bt := getDeterminant r1 r2 r3 r4 r5 r6 (wget ref 0 0) (wget ref 0 1) (wget ref 0 2) / D) in *.
  destruct c as [|[|[|c]]]; [| | |lia]; cbn [nth];
    [ rewrite <- C0, <- E1, <- E4, <- E7
    | rewrite <- C1, <- E2, <- E5, <- E8
    | rewrite <- C2, <- E3, <- E6, <- E9 ]; field.
Qed.

(** A white, red, green, blue reading used by the witnesses. *)
Definition sample_wrgb : WRGB :=
  mkWRGB [[95; 100; 108]; [41; 21; 2]; [36; 72; 12]; [18; 7; 95]].

Lemma distruibuteWhiteToRGB_sum_witness :
  let ref := sample_wrgb in
  let R := wget ref 1 0 + wget ref 1 1 + wget ref 1 2 in
  let G := wget ref 2 0 + wget ref 2 1 + wget ref 2 2 in
  let B := wget ref 3 0 + wget ref 3 1 + wget ref 3 2 in
  ~ (R == 0) /\ ~ (G == 0) /\ ~ (B == 0) /\
  ~ (getDeterminant (wget ref 1 0 / R) (wget ref 1 1 / R) (wget ref 1 2 / R)
                    (wget ref 2 0 / G) (wget ref 2 1 / G) (wget ref 2 2 / G)
                    (wget ref 3 0 / B) (wget ref 3 1 / B) (wget ref 3 2 / B) == 0) /\
  fst (distruibuteWhiteToRGB ref) = NONE /\
  forall c, (c < 3)%nat ->
    mat_get (snd (distruibuteWhiteToRGB ref)) 0 c + mat_get (snd (distruibuteWhiteToRGB ref)) 1 c +
    mat_get (snd (distruibuteWhiteToRGB ref)) 2 c
    == 2 / 3 * wget ref 0 c + 1 / 3 * (wget ref 1 c + wget ref 2 c + wget ref 3 c).
Proof.
  intros ref R G B.
  assert (H1 : ~ (R == 0)) by (vm_compute; discriminate).
  assert (H2 : ~ (G == 0)) by (vm_compute; discriminate).
  assert (H3 : ~ (B == 0)) by (vm_compute; discriminate).
  assert (H4 : ~ (getDeterminant (wget ref 1 0 / R) (wget ref 1 1 / R) (wget ref 1 2 / R)
                    (wget ref 2 0 / G) (wget ref 2 1 / G) (wget ref 2 2 / G)
                    (wget ref 3 0 / B) (wget ref 3 1 / B) (wget ref 3 2 / B) == 0))
    by (vm_compute; discriminate).
  split; [exact H1|]. split; [exact H2|]. split; [exact H3|]. split; [exact H4|].
  exact (distruibuteWhiteToRGB_sum ref H1 H2 H3 H4).
Defined.

End Calibration.
