(* ===== verification/FlickerStream.v ===== *)
(** * The flicker stream: frames, ripple buffer and [parseAndPrintFFT]
      (src/KClmtr.cpp lines 1749-1766 and 2055-2190)

    In flicker mode the device streams 96-byte frames.  Byte [3i] of a
    frame is a marker or a field byte: ['T'] at 0, the mode digit ['2'] at
    3, the K-float X, Y, Z at 6/9/12, 15/18/21, 24/27/30, the range byte at
    33, the error token at 39, ['>'] at 42 and ['_'] at 45, 48, ..., 93.
    Bytes [3i + 1] and [3i + 2] carry sample [i] (32 samples a frame).

    [verify_FFTString] checks the markers, [parseSignal_from_FFT_str]
    shifts the ripple buffer [m_ParsedOutRippleArray] 32 places left and
    appends the frame's samples, and [parseAndPrintFFT] combines them with
    the XYZ of the frame ([parseN5Command]), the range bookkeeping and the
    [Flicker] constructor, consuming 96 bytes of the caller's string.  The
    state [FState] gathers the members of [KClmtr] these functions use. *)

From Stdlib Require Import String Ascii ZArith QArith Qround Lqa Lia List Bool.
From S2P Require Import Prelude ErrorCodes Codec Spectrum.
Import ListNotations.
Import KleinsErrorCodes Codec Spectrum.
Open Scope Z_scope.

Module FlickerStream.

(** [static const int polyDegree = 5] (src/KClmtr.h line 45). *)
Definition polyDegree : Z := 5.

(** The flicker members of [KClmtr]. *)
Record FState := mkFState {
  flickering : bool;               (** [m_Flickering] *)
  flickering2 : bool;              (** [m_Flickering2] *)
  fft_numPass : Z;                 (** [m_fft_numPass] *)
  flickerSettings : FlickerSetting;(** [m_flickerSettings] *)
  fft_lastRange : Z;               (** [m_fft_lastRange] *)
  ripple : list Q;                 (** [m_ParsedOutRippleArray] *)
  coeff1 : list (list Q);          (** [m_FFTCalRangeCoeff1[3][71]] *)
  coeff2 : list (list Q);          (** [m_FFTCalRangeCoeff2[3][polyDegree]] *)
  fft_count : Z;                   (** [m_fft_count] *)
  calMatrix : list (list Q)        (** [m_CalMatrix], 3 x 3 *)
}.

Definition with_ripple (st : FState) (r : list Q) : FState :=
  mkFState (flickering st) (flickering2 st) (fft_numPass st) (flickerSettings st)
    (fft_lastRange st) r (coeff1 st) (coeff2 st) (fft_count st) (calMatrix st).

(** [resetFlicker()]. *)
Definition resetFlicker (st : FState) : FState :=
  let n := samples (flickerSettings st) in
  mkFState false (flickering2 st) (Z.quot n 32) (flickerSettings st) (-1)
    (repeat 0%Q (Z.to_nat n)) (coeff1 st) (coeff2 st) 0 (calMatrix st).

(** ** Frames *)

(** [for (j = 45; j < 96; j += 3) if (FFTString[j] != '_') return false]. *)
Fixpoint underscores (s : list Z) (j : Z) (fuel : nat) : bool :=
  match fuel with
  | O => true
  | S f => if j <? 96 then (s.[Z.to_nat j] =? chr "_") && underscores s (j + 3) f else true
  end.

(** [verify_FFTString(FFTString)]. *)
Definition verify_FFTString (s : list Z) : bool :=
  (s.[0] =? chr "T") && (s.[3] =? chr "2") && (s.[42] =? chr ">") && underscores s 45 17.

(** The shift [for (i = 0; i < samples - 32; ++i) r[i] = r[i + 32]]. *)
Fixpoint shift_loop (r : list Q) (n i : Z) (fuel : nat) : list Q :=
  match fuel with
  | O => r
  | S f => if i <? n - 32 then shift_loop (qset r i (at_ r (i + 32))) n (i + 1) f else r
  end.

(** The 16-bit sample [i] of a frame. *)
Definition frame_sample (s : list Z) (i : Z) : Z :=
  s.[Z.to_nat ((i + 1) * 3 - 2)] * 256 + s.[Z.to_nat ((i + 1) * 3 - 1)].

(** [for (i = 0; i < 32; ++i)]: store the samples, flag saturation. *)
Fixpoint samples_loop (s : list Z) (r : list Q) (n i : Z) (error : Z) (fuel : nat) : list Q * Z :=
  match fuel with
  | O => (r, error)
  | S f =>
      if i <? 32 then
        let nits := frame_sample s i in
        let error := if 61000 <? nits then Z.lor error FFT_OVER_SATURATED else error in
        samples_loop s (qset r (i + n - 32) (inject_Z nits)) n (i + 1) error f
      else (r, error)
  end.

(** [parseSignal_from_FFT_str(FFTString)]. *)
Definition parseSignal_from_FFT_str (st : FState) (s : list Z) : FState * Z :=
  let n := samples (flickerSettings st) in
  let r := shift_loop (ripple st) n 0 (Z.to_nat n) in
  let '(r, error) := samples_loop s r n 0 NONE 32 in
  (with_ripple st r, error).

(** [parseN5Command(FFTString, x, y, z, range)]: the K-floats at the
    marker positions, the middle range of the range byte, the error token. *)
Definition parseN5Command (s : list Z) : Q * Q * Q * Z * Z :=
  let x := parseK_float [s.[6]; s.[9]; s.[12]] in
  let y := parseK_float [s.[15]; s.[18]; s.[21]] in
  let z := parseK_float [s.[24]; s.[27]; s.[30]] in
  let '(_, r1, _) := parsingRange s.[33] in
  (x, y, z, r1, getErrorCodeFromKlein (substr s 39 1)).

(** [m_CalMatrix.v[i][j]]. *)
Definition cal (st : FState) (i j : nat) : Q := nth j (nth i (calMatrix st) []) 0%Q.

(** The range bookkeeping of lines 2079-2094: on a range change, record
    it (flagging [FFT_PREVIOUS_RANGE] unless it is the first range), reset
    the pass count outside [getNextFlicker], and load the corrections of
    the new range. *)
Definition range_update (st : FState) (range error : Z) : FState * Z :=
  if negb (range =? fft_lastRange st) then
    let '(numPass, error) :=
      if fft_lastRange st =? -1 then (fft_numPass st, error)
      else (if flickering2 st then fft_numPass st
            else Z.quot (speed (flickerSettings st)) 32,
            Z.lor error FFT_PREVIOUS_RANGE) in
    let k := Z.to_nat (Z.quot (range - 1) 2) in
    let fs := deleteCorrection (flickerSettings st) in
    let fs := appendCorrection fs (mkRange 0 70) ArrayFit (nth k (coeff1 st) []) 71 in
    let fs := appendCorrection fs (mkRange 70 151) PolyFit (nth k (coeff2 st) []) polyDegree in
    (mkFState (flickering st) (flickering2 st) numPass fs range (ripple st) (coeff1 st)
       (coeff2 st) (fft_count st) (calMatrix st), error)
  else (st, error).

Definition set_fields (f : Flicker) (y : Q) (range error : Z) : Flicker :=
  mkFlicker y range (peakfrequencyPercent f) (peakfrequencyDB f) (flickerPercent f)
    (flickerDB f) (counts f) (nits f) (amplitude f) error (settings f) (flickerIndex f).

Section WithLibm.
Context `{Libm}.

(** [parseAndPrintFFT(read)]: the flicker of the first frame of [read],
    the rest of [read], and the new state.  Inside [getNextFlicker]
    ([m_Flickering2]) it recurses on the next frame while passes remain;
    each call decrements [m_fft_numPass], so [fuel] is [m_fft_numPass]. *)
Fixpoint parseAndPrintFFT (fuel : nat) (st : FState) (read : list Z) : Flicker * list Z * FState :=
  if negb (verify_FFTString read) then (Flicker_of_error FFT_BAD_STRING, read, st)
  else
    let '(st, error) := parseSignal_from_FFT_str st read in
    let ErrorByte := read.[39] in
    let st :=
      if negb (ErrorByte =? chr "0") && negb (ErrorByte =? chr "L")
      then mkFState (flickering st) (flickering2 st) (fft_numPass st) (flickerSettings st) 100
             (ripple st) (coeff1 st) (coeff2 st) (fft_count st) (calMatrix st)
      else st in
    let '(x, y, z, range, e) := parseN5Command read in
    let error := Z.lor error e in
    let y := (x * cal st 1 0 + y * cal st 1 1 + z * cal st 1 2)%Q in
    let '(st, error) := range_update st range error in
    let count := fft_count st + 1 in
    let theFlicker := Flicker_of_data (flickerSettings st) (ripple st) count y in
    let numPass := fft_numPass st - 1 in
    let st := mkFState (flickering st) (flickering2 st) numPass (flickerSettings st)
                (fft_lastRange st) (ripple st) (coeff1 st) (coeff2 st) count (calMatrix st) in
    let rest := substr read 96 (length read - 96) in
    if 0 <? numPass then
      let error := Z.lor error FFT_INSUFFICIENT_DATA in
      if flickering2 st then
        match fuel with
        | O => (set_fields theFlicker y range error, rest, st)
        | S f => parseAndPrintFFT f st rest
        end
      else (set_fields theFlicker y range error, rest, st)
    else
      let error := Z.land error (lnot32 FFT_INSUFFICIENT_DATA) in
      (set_fields theFlicker y range error, rest, st).

End WithLibm.

(** ** Resynchronisation (threadStuff, lines 425-433) *)

(** [s.find(c, i)], with [fuel] bounding the scan. *)
Fixpoint find_from (s : list Z) (c : Z) (i : nat) (fuel : nat) : option nat :=
  match fuel with
  | O => None
  | S f => if (i <? length s)%nat
           then if s.[i] =? c then Some i else find_from s c (S i) f
           else None
  end.

(** The resynchronisation of a buffer whose first frame is malformed:
    drop everything before the next ['T'] after position 0, or everything. *)
Definition resync (s : list Z) : list Z :=
  match find_from s (chr "T") 1 (length s) with
  | None => []
  | Some nextT => skipn nextT s
  end.

(** ** Realignment of a one-shot capture (getNextFlicker, lines 1977-1999) *)

(** The marker test of [getNextFlicker]'s scan at [x]: ['T'], ['2'],
    ['>'] and four of the seventeen ['_'] of a frame starting there. *)
Definition frame_at (s : list Z) (x : nat) : bool :=
  (s.[x] =? chr "T") && (s.[x + 3] =? chr "2") && (s.[x + 42] =? chr ">") &&
  (s.[x + 45] =? chr "_") && (s.[x + 48] =? chr "_") && (s.[x + 51] =? chr "_") &&
  (s.[x + 93] =? chr "_").

(** [for (; x > 0; --x) if (frame_at x) break;]: the last frame start in
    [1 .. x], or 0 when there is none (position 0 is never tested). *)
Fixpoint scan_frames (s : list Z) (x : nat) : nat :=
  match x with
  | O => O
  | S x' => if frame_at s x then x else scan_frames s x'
  end.

(** [for (i = 0; i < 96 * numPass; ++i)] on the string after
    [erase(0, x % 3)] and [x -= x % 3]: the bytes at positions [i % 3 == 0]
    (markers and frame fields) are those of the frame at [x], the others
    (the samples) the string's own. *)
Definition copy_frames (s : list Z) (x n : nat) : list Z :=
  map (fun i => if (i mod 3 =? 0)%nat then s.[i mod 96 + x] else s.[i]) (seq 0 n).

(** [correctString]: the scan starts at [x = readString.length() - 96]
    (a [size_t]; the read has at least [96 * numPass + 2] bytes whenever
    the scan runs, see [getNextFlicker_read_bounds]); an empty string when
    no frame start is found. *)
Definition align_frames (readString : list Z) (numPass : Z) : list Z :=
  let x := scan_frames readString (length readString - 96) in
  if (0 <? x)%nat then
    copy_frames (skipn (x mod 3) readString) (x - x mod 3) (Z.to_nat (96 * numPass))
  else [].

(** ** Lemmas *)

Lemma length_qset (r : list Q) (i : Z) (v : Q) : length (qset r i v) = length r.
Proof. apply length_list_set. Qed.

Lemma at_qset (r : list Q) (i j : Z) (v : Q) :
  0 <= i -> (Z.to_nat i < length r)%nat -> 0 <= j ->
  at_ (qset r i v) j = if i =? j then v else at_ r j.
Proof.
  intros Hi Hl Hj. unfold at_, qset. rewrite nth_list_set by lia.
  destruct (Z.eqb_spec i j), (Nat.eqb_spec (Z.to_nat j) (Z.to_nat i)); try lia; subst; reflexivity.
Qed.

#[export] Hint Rewrite length_qset : kclmtr_rw.

(** The shift moves entry [j + 32] to [j] for every [j] below [n - 32]. *)
Lemma shift_loop_spec (n : Z) (fuel : nat) : forall r i,
  0 <= i -> length r = Z.to_nat n -> (Z.to_nat (n - 32 - i) <= fuel)%nat ->
  length (shift_loop r n i fuel) = length r /\
  forall j, 0 <= j ->
    at_ (shift_loop r n i fuel) j = if (i <=? j) && (j <? n - 32) then at_ r (j + 32) else at_ r j.
Proof.
  induction fuel as [|f IH]; intros r i Hi Hl Hf; simpl.
  - split; [reflexivity|]. intros j Hj.
    destruct (Z.leb_spec i j), (Z.ltb_spec j (n - 32)); simpl; auto; lia.
  - destruct (Z.ltb_spec i (n - 32)).
    + destruct (IH (qset r i (at_ r (i + 32))) (i + 1)) as [IHl IHj];
        [lia | rewrite length_qset; exact Hl | lia |].
      split; [rewrite IHl; apply length_qset|].
      intros j Hj. rewrite IHj by exact Hj.
      rewrite !at_qset by lia.
      destruct (Z.eqb_spec i j), (Z.leb_spec (i + 1) j), (Z.leb_spec i j), (Z.ltb_spec j (n - 32)),
        (Z.eqb_spec i (j + 32)); simpl; try lia; subst; reflexivity.
    + split; [reflexivity|]. intros j Hj.
      destruct (Z.leb_spec i j), (Z.ltb_spec j (n - 32)); simpl; auto; lia.
Qed.

(** The saturation test of the samples [i .. 31]. *)
Definition saturated (s : list Z) (i : Z) : bool :=
  existsb (fun k => 61000 <? frame_sample s (Z.of_nat k)) (seq (Z.to_nat i) (Z.to_nat (32 - i))).

(** The sample loop writes sample [k] at [n - 32 + k] and flags saturation. *)
Lemma samples_loop_spec (s : list Z) (n : Z) (fuel : nat) : forall r i error,
  0 <= i <= 32 -> 32 <= n -> length r = Z.to_nat n -> (Z.to_nat (32 - i) <= fuel)%nat ->
  let '(r', error') := samples_loop s r n i error fuel in
  length r' = length r /\
  (forall j, 0 <= j ->
     at_ r' j = if (n - 32 + i <=? j) && (j <? n) then inject_Z (frame_sample s (j - (n - 32)))
                else at_ r j) /\
  error' = (if saturated s i then Z.lor error FFT_OVER_SATURATED else error).
Proof.
  induction fuel as [|f IH]; intros r i error Hi Hn Hl Hf; simpl.
  - replace i with 32 by lia. split; [reflexivity|]. split.
    + intros j Hj. destruct (Z.leb_spec (n - 32 + 32) j), (Z.ltb_spec j n); simpl; auto; lia.
    + unfold saturated. replace (Z.to_nat (32 - 32)) with O by lia. reflexivity.
  - destruct (Z.ltb_spec i 32).
    + set (e1 := if 61000 <? frame_sample s i then Z.lor error FFT_OVER_SATURATED else error).
      specialize (IH (qset r (i + n - 32) (inject_Z (frame_sample s i))) (i + 1) e1
                    ltac:(lia) Hn ltac:(rewrite length_qset; exact Hl) ltac:(lia)).
      destruct (samples_loop _ _ _ _ _ _) as [r' e']. destruct IH as (IHl & IHj & IHe).
      split; [rewrite IHl; apply length_qset|]. split.
      * intros j Hj. rewrite IHj, at_qset by lia.
        destruct (Z.eqb_spec (i + n - 32) j), (Z.leb_spec (n - 32 + (i + 1)) j),
          (Z.leb_spec (n - 32 + i) j), (Z.ltb_spec j n); simpl; try lia; subst; try reflexivity.
        f_equal. f_equal. lia.
      * rewrite IHe. unfold saturated, e1.
        replace (Z.to_nat (32 - i)) with (S (Z.to_nat (32 - (i + 1)))) by lia.
        replace (Z.to_nat (i + 1)) with (S (Z.to_nat i)) by lia. cbn [seq existsb].
        rewrite Z2Nat.id by lia.
        destruct (61000 <? frame_sample s i), (existsb _ _); simpl; try reflexivity.
        rewrite <- Z.lor_assoc, Z.lor_diag. reflexivity.
    + split; [reflexivity|]. split.
      * intros j Hj. destruct (Z.leb_spec (n - 32 + i) j), (Z.ltb_spec j n); simpl; auto; lia.
      * unfold saturated. replace (Z.to_nat (32 - i)) with O by lia. reflexivity.
Qed.

(** *** The realignment of [getNextFlicker] *)

Lemma byte_at_skipn (s : list Z) (k i : nat) : (skipn k s).[i] = s.[k + i].
Proof. unfold byte_at. apply nth_skipn. Qed.

(** Position [p] of block [j] has the offset [p] in its frame and the
    phase of [p] in threes. *)
Lemma mod_block (j p : nat) : (p < 96)%nat -> ((96 * j + p) mod 96 = p /\ (96 * j + p) mod 3 = p mod 3)%nat.
Proof.
  intros Hp. replace (96 * j + p)%nat with (p + j * 96)%nat by lia. split.
  - rewrite Nat.Div0.mod_add. apply Nat.mod_small, Hp.
  - replace (p + j * 96)%nat with (p + (32 * j) * 3)%nat by lia. apply Nat.Div0.mod_add.
Qed.

(** The scan returns the last frame start in [1 .. x], or 0. *)
Lemma scan_frames_spec (s : list Z) (x : nat) :
  (scan_frames s x <= x)%nat /\ (scan_frames s x = O \/ frame_at s (scan_frames s x) = true) /\
  forall y, (scan_frames s x < y <= x)%nat -> frame_at s y = false.
Proof.
  induction x as [|x IH]; cbn [scan_frames].
  - split; [lia|]. split; [now left|]. intros; lia.
  - destruct (frame_at s (S x)) eqn:E.
    + split; [lia|]. split; [now right|]. intros; lia.
    + destruct IH as (H1 & H2 & H3). split; [lia|]. split; [exact H2|].
      intros y Hy. destruct (Nat.eq_dec y (S x)); [subst; exact E | apply H3; lia].
Qed.

Lemma length_copy_frames (s : list Z) (x n : nat) : length (copy_frames s x n) = n.
Proof. unfold copy_frames. rewrite length_map. apply length_seq. Qed.

Lemma copy_frames_nth (s : list Z) (x n i : nat) : (i < n)%nat ->
  (copy_frames s x n).[i] = if (i mod 3 =? 0)%nat then s.[i mod 96 + x] else s.[i].
Proof.
  intros Hi. unfold copy_frames, byte_at.
  set (f := fun i => if (i mod 3 =? 0)%nat then s.[i mod 96 + x] else s.[i]).
  rewrite nth_indep with (d' := f O) by (rewrite length_map, length_seq; exact Hi).
  rewrite map_nth, seq_nth by exact Hi. reflexivity.
Qed.

#[export] Hint Rewrite length_copy_frames : kclmtr_rw.

(** Byte [i] of [correctString], read in the received string. *)
Lemma align_frames_nth (rs : list Z) (n : Z) (x i : nat) :
  scan_frames rs (length rs - 96) = x -> (0 < x)%nat -> (i < Z.to_nat (96 * n))%nat ->
  (align_frames rs n).[i] = if (i mod 3 =? 0)%nat then rs.[x + i mod 96] else rs.[i + x mod 3].
Proof.
  intros Hx Hp Hi. unfold align_frames. rewrite Hx.
  replace (0 <? x)%nat with true by (symmetry; apply Nat.ltb_lt, Hp).
  rewrite copy_frames_nth by exact Hi. rewrite !byte_at_skipn.
  pose proof (Nat.Div0.mod_le x 3).
  destruct (i mod 3 =? 0)%nat; f_equal; lia.
Qed.

Lemma length_align_frames (rs : list Z) (n : Z) :
  (0 < scan_frames rs (length rs - 96))%nat -> length (align_frames rs n) = Z.to_nat (96 * n).
Proof.
  intros Hp. unfold align_frames.
  replace (0 <? _)%nat with true by (symmetry; apply Nat.ltb_lt, Hp).
  apply length_copy_frames.
Qed.

(** [underscores] reads the positions [j, j + 3, ...] below 96 only. *)
Lemma underscores_ext (s t : list Z) (fuel : nat) : forall j,
  0 <= j -> (forall p, (Z.to_nat j <= p < 96)%nat -> (p mod 3 = Z.to_nat j mod 3)%nat -> s.[p] = t.[p]) ->
  underscores s j fuel = underscores t j fuel.
Proof.
  induction fuel as [|f IH]; intros j Hj He; cbn [underscores]; [reflexivity|].
  destruct (Z.ltb_spec j 96); [|reflexivity].
  rewrite He by lia. f_equal. apply IH; [lia|]. intros p Hp Hm. apply He; [lia|].
  rewrite Hm. replace (Z.to_nat (j + 3)) with (Z.to_nat j + 1 * 3)%nat by lia.
  apply Nat.Div0.mod_add.
Qed.

(** [verify_FFTString] reads the positions [3i] of the first frame only. *)
Lemma verify_FFTString_ext (s t : list Z) :
  (forall p, (p < 96)%nat -> (p mod 3 = 0)%nat -> s.[p] = t.[p]) ->
  verify_FFTString s = verify_FFTString t.
Proof.
  intros He. unfold verify_FFTString.
  rewrite (He 0%nat), (He 3%nat), (He 42%nat) by (cbn; lia).
  rewrite (underscores_ext s t 17 45); [reflexivity | lia |].
  intros p Hp Hm. apply He; [lia | exact Hm].
Qed.

(** ** Properties *)

(** A valid frame slides the ripple buffer by one frame: the oldest
    32 samples leave, the frame's 32 samples are appended in order, and
    [FFT_OVER_SATURATED] is reported exactly when one of them exceeds
    61000. *)
Theorem parseSignal_from_FFT_str_window (st : FState) (s : list Z) :
  32 <= samples (flickerSettings st) ->
  length (ripple st) = Z.to_nat (samples (flickerSettings st)) ->
  let '(st', error) := parseSignal_from_FFT_str st s in
  ripple st' = skipn 32 (ripple st) ++ map (fun k => inject_Z (frame_sample s (Z.of_nat k))) (seq 0 32) /\
  error = (if saturated s 0 then FFT_OVER_SATURATED else NONE).
Proof.
  intros Hn Hl. unfold parseSignal_from_FFT_str.
  set (n := samples (flickerSettings st)) in *.
  destruct (shift_loop_spec n (Z.to_nat n) (ripple st) 0 ltac:(lia) Hl ltac:(lia)) as [Hsl Hsj].
  pose proof (samples_loop_spec s n 32 (shift_loop (ripple st) n 0 (Z.to_nat n)) 0 NONE
                ltac:(lia) Hn ltac:(rewrite Hsl; exact Hl) ltac:(lia)) as Hs.
  destruct (samples_loop _ _ _ _ _ _) as [r' e']. destruct Hs as (Hrl & Hrj & He).
  split; [|exact He]. cbn [ripple with_ripple].
  apply nth_ext with (d := 0%Q) (d' := 0%Q).
  - rewrite Hrl, Hsl, length_app, length_skipn, length_map, length_seq. lia.
  - intros x Hx. rewrite Hrl, Hsl, Hl in Hx.
    replace (nth x r' 0%Q) with (at_ r' (Z.of_nat x)) by (unfold at_; rewrite Nat2Z.id; reflexivity).
    rewrite Hrj by lia. destruct (Z.ltb_spec (Z.of_nat x) (n - 32)).
    + rewrite (proj2 (Z.leb_gt _ _)) by lia. cbn [andb].
      rewrite Hsj by lia. rewrite (proj2 (Z.leb_le 0 _)), (proj2 (Z.ltb_lt _ _)) by lia.
      cbn [andb]. unfold at_.
      rewrite app_nth1 by (rewrite length_skipn; lia). rewrite nth_skipn. f_equal. lia.
    + rewrite (proj2 (Z.leb_le _ _)), (proj2 (Z.ltb_lt _ _)) by lia. cbn [andb].
      rewrite app_nth2 by (rewrite length_skipn; lia). rewrite length_skipn.
      set (g := fun k : nat => inject_Z (frame_sample s (Z.of_nat k))).
      rewrite nth_indep with (d' := g 0%nat) by (rewrite length_map, length_seq; lia).
      rewrite map_nth, seq_nth by lia. unfold g. f_equal. f_equal. lia.
Qed.

Lemma parseSignal_from_FFT_str_window_witness :
  let st := resetFlicker (mkFState true false 0 FlickerSetting_default (-1) [] [] [] 0 []) in
  32 <= samples (flickerSettings st) /\
  length (ripple st) = Z.to_nat (samples (flickerSettings st)) /\
  let '(st', error) := parseSignal_from_FFT_str st (repeat 250 96) in
  ripple st' = skipn 32 (ripple st) ++
               map (fun k => inject_Z (frame_sample (repeat 250 96) (Z.of_nat k))) (seq 0 32) /\
  error = (if saturated (repeat 250 96) 0 then FFT_OVER_SATURATED else NONE).
Proof.
  intros st.
  assert (H1 : 32 <= samples (flickerSettings st)) by (simpl; lia).
  assert (H2 : length (ripple st) = Z.to_nat (samples (flickerSettings st))) by reflexivity.
  split; [exact H1|]. split; [exact H2|].
  exact (parseSignal_from_FFT_str_window st (repeat 250 96) H1 H2).
Defined.

(** A frame with every marker in place and the byte ['0'] elsewhere. *)
Definition marked_frame : list Z :=
  map (fun i => if (i =? 0)%nat then chr "T" else if (i =? 3)%nat then chr "2"
                else if (i =? 42)%nat then chr ">"
                else if (45 <=? i)%nat && (i mod 3 =? 0)%nat then chr "_" else chr "0")
    (seq 0 96).

(** C22: [getNextFlicker]'s realignment: when the backward scan finds a
    frame start [x > 0], [correctString] has [96 * numPass] bytes, and
    each of its [numPass] 96-byte blocks carries at every position [3i]
    (markers, XYZ, range byte, error token) the byte of the frame found
    at [x], and at the other positions (the samples) the received bytes
    shifted by [x mod 3]; every block therefore passes
    [verify_FFTString] exactly when the frame at [x] does. *)
Theorem align_frames_blocks (rs : list Z) (n : Z) (x j : nat) :
  scan_frames rs (length rs - 96) = x -> (0 < x)%nat -> (j < Z.to_nat n)%nat ->
  let b := skipn (96 * j) (align_frames rs n) in
  length (align_frames rs n) = Z.to_nat (96 * n) /\
  (forall p, (p < 96)%nat -> (p mod 3 = 0)%nat -> b.[p] = rs.[x + p]) /\
  (forall p, (p < 96)%nat -> (p mod 3 <> 0)%nat -> b.[p] = rs.[96 * j + p + x mod 3]) /\
  verify_FFTString b = verify_FFTString (skipn x rs).
Proof.
  intros Hx Hp Hj b.
  assert (Hb : forall p, (p < 96)%nat ->
            b.[p] = if (p mod 3 =? 0)%nat then rs.[x + p] else rs.[96 * j + p + x mod 3]).
  { intros p Hp96. unfold b. rewrite byte_at_skipn, (align_frames_nth rs n x) by (auto; lia).
    destruct (mod_block j p Hp96) as [E1 E2]. rewrite E1, E2. reflexivity. }
  split; [apply length_align_frames; lia|]. split; [|split].
  - intros p Hp96 Hm. rewrite Hb by exact Hp96. now rewrite Hm.
  - intros p Hp96 Hm. rewrite Hb by exact Hp96. apply Nat.eqb_neq in Hm. now rewrite Hm.
  - apply verify_FFTString_ext. intros p Hp96 Hm. rewrite Hb, byte_at_skipn by exact Hp96.
    now rewrite Hm.
Qed.

Lemma align_frames_blocks_witness :
  let rs := [9; 9; 9; 9] ++ marked_frame ++ marked_frame ++ marked_frame in
  scan_frames rs (length rs - 96) = 196%nat /\
  let b := skipn (96 * 1) (align_frames rs 2) in
  length (align_frames rs 2) = Z.to_nat (96 * 2) /\
  (forall p, (p < 96)%nat -> (p mod 3 = 0)%nat -> b.[p] = rs.[196 + p]) /\
  (forall p, (p < 96)%nat -> (p mod 3 <> 0)%nat -> b.[p] = rs.[96 * 1 + p + 196 mod 3]) /\
  verify_FFTString b = verify_FFTString (skipn 196 rs).
Proof.
  intros rs. assert (Hs : scan_frames rs (length rs - 96) = 196%nat) by (vm_compute; reflexivity).
  split; [exact Hs|]. exact (align_frames_blocks rs 2 196 1 Hs ltac:(lia) ltac:(cbn; lia)).
Defined.

End FlickerStream.
