(* ===== verification/FFTRangeCal.v ===== *)
(** * The flicker range calibration: [printStartupString],
      [loadFFTRangeCal], [checkThreeFFT_Validity], [caluclateCoef] and
      [checkCoef] (src/KClmtr.cpp lines 1821-1926)

    The reply to [P4] carries, from offset 26, three blocks of 128 bytes:
    for each pair of measurement ranges, 64 big-endian 16-bit words.  Word
    [k] becomes the gain [256 * 128 / word] at frequency [2k + 1]; the even
    frequencies are the means of their neighbours, frequency 0 copies 1, a
    kink at 100 is straightened, a table that falls below 1 at 102 is
    zeroed from there, and 128 copies 127.  A table passes when it starts
    at 1, ends between 25 and 150 at frequency 99 and increases to within
    1% up to there.  The driver then keeps the first 71 entries as the
    interpolation table of a range and the degree-4 least-squares fit of
    entries 1 to 100 as its polynomial ([polyFit] of [Matrix]).

    A table is a [list Q] of 129 entries written with [list_set]; every
    entry of [MyArray] is written before it is read. *)

From Stdlib Require Import String Ascii ZArith QArith Qabs Lqa Lia List Bool.
From S2P Require Import Prelude ErrorCodes Matrix FlickerStream.
Import ListNotations.
Import KleinsErrorCodes.
Open Scope Z_scope.

Module FFTRangeCal.

Import Matrix FlickerStream.

(** [MyArray[i][j]]. *)
Definition at_ (a : list Q) (j : nat) : Q := nth j a 0%Q.

(** The gain of one word: [MySin = Byte1 * 256 + Byte2], replaced by
    [0.0000001] when zero, then [1 / MySin * 256 * 128]. *)
Definition word_gain (Byte1 Byte2 : Z) : Q :=
  let MySin := inject_Z (Byte1 * 256 + Byte2) in
  let MySin := if Qeq_bool MySin 0 then (1 # 10000000)%Q else MySin in
  (1 / MySin * 256 * 128)%Q.

(** [for (j = 0; j < 127; j += 2) MyArray[i][j + 1] = gain(InArray[j], InArray[j + 1])]. *)
Fixpoint words_loop (InArray : list Z) (a : list Q) (j : nat) (fuel : nat) : list Q :=
  match fuel with
  | O => a
  | S f =>
      if (j <? 127)%nat
      then words_loop InArray (list_set a (S j) (word_gain InArray.[j] InArray.[S j])) (j + 2) f
      else a
  end.

(** [for (j = 1; j < 126; j += 2) MyArray[i][j + 1] = (MyArray[i][j] + MyArray[i][j + 2]) / 2]. *)
Fixpoint mean_loop (a : list Q) (j : nat) (fuel : nat) : list Q :=
  match fuel with
  | O => a
  | S f =>
      if (j <? 126)%nat
      then mean_loop (list_set a (S j) ((at_ a j + at_ a (j + 2)) / 2)%Q) (j + 2) f
      else a
  end.

(** [for (j = 102; j < 129; ++j) MyArray[i][j] = 0]. *)
Fixpoint zero_loop (a : list Q) (j : nat) (fuel : nat) : list Q :=
  match fuel with
  | O => a
  | S f => if (j <? 129)%nat then zero_loop (list_set a j 0%Q) (S j) f else a
  end.

(** The straightening of frequency 100 (lines 1876-1884). *)
Definition fix_100 (a : list Q) : list Q :=
  let MySin := (2 * at_ a 99 - at_ a 98)%Q in
  if negb (Qeq_bool MySin 0) then
    if Qltb (2 # 100) (Qabs ((at_ a 100 - MySin) / MySin)) then
      let a := list_set a 100 MySin in
      list_set a 101 (2 * MySin - at_ a 99)%Q
    else a
  else a.

(** The body of the loop [for (i = 0; i < 3; ++i)] of [loadFFTRangeCal]
    on the block [MyBStr = readString.substr(i * 128, 128)]. *)
Definition decode_block (MyBStr : list Z) : list Q :=
  let a := words_loop MyBStr (repeat 0%Q 129) 0 64 in
  let a := list_set a 0 (at_ a 1) in
  let a := mean_loop a 1 63 in
  let a := fix_100 a in
  let a := if Qltb (at_ a 102) 1 then zero_loop a 102 27 else a in
  list_set a 128 (at_ a 127).

(** [for (j = 2; j < 100; ++j) if (array[i][j] <= OldValue * 0.99) fail;
    OldValue = array[i][j]]: [true] when the table passes. *)
Fixpoint mono_loop (a : list Q) (OldValue : Q) (j : nat) (fuel : nat) : bool :=
  match fuel with
  | O => true
  | S f =>
      if (j <? 100)%nat then
        if Qle_bool (at_ a j) (OldValue * (99 # 100)) then false
        else mono_loop a (at_ a j) (S j) f
      else true
  end.

(** The checks of one table in [checkThreeFFT_Validity]. *)
Definition table_ok (a : list Q) : bool :=
  Qeq_bool (at_ a 1) 1 &&
  negb (Qltb 150 (at_ a 99) || Qltb (at_ a 99) 25) &&
  mono_loop a (at_ a 1) 2 98.

(** [checkThreeFFT_Validity(array)]. *)
Definition checkThreeFFT_Validity (array : list (list Q)) : Z :=
  if forallb table_ok (firstn 3 array) then NONE else FFT_RANGE_CAL.

(** The [data] matrix of [caluclateCoef]: [data.v[j - 1] = (j, array[i][j])]
    for [j = 1 .. 100]. *)
Definition coef_data (a : list Q) : Matrix :=
  mkMatrix 100 2 (map (fun j => [inject_Z (Z.of_nat j); at_ a j]) (seq 1 100)).

(** [caluclateCoef(array)]. *)
Definition caluclateCoef (st : FState) (array : list (list Q)) : FState :=
  let c1 := map (fun i => firstn 71 (nth i array [])) (seq 0 3) in
  let c2 := map (fun i => polyFit (coef_data (nth i array [])) (Z.to_nat polyDegree)
                                  (nth i (coeff2 st) [])) (seq 0 3) in
  mkFState (flickering st) (flickering2 st) (fft_numPass st) (flickerSettings st)
    (fft_lastRange st) (ripple st) c1 c2 (fft_count st) (calMatrix st).

(** [loadFFTRangeCal(readString)]. *)
Definition loadFFTRangeCal (st : FState) (readString : list Z) : FState * Z :=
  if negb (Nat.eqb (length readString) (128 * 3)) then (st, FFT_RANGE_CAL)
  else
    let MyArray := map (fun i => decode_block (substr readString (i * 128) 128)) (seq 0 3) in
    let error := checkThreeFFT_Validity MyArray in
    if negb (error =? NONE) then (st, error)
    else (caluclateCoef st MyArray, NONE).

(** [checkCoef()]: no polynomial coefficient still holds the -1 of the
    constructor. *)
Definition checkCoef (st : FState) : bool :=
  forallb (fun i => forallb (fun j => negb (Qeq_bool (nth j (nth i (coeff2 st) []) 0%Q) (-1)))
                            (seq 0 (Z.to_nat polyDegree)))
          (seq 0 3).

(** [printStartupString(read)]: the firmware version at 19 and the
    calibration blocks at 26; the result is [m_firmware], the state and
    the error. *)
Definition printStartupString (st : FState) (read : list Z) : list Z * FState * Z :=
  let m_firmware := substr read 19 7 in
  let '(st, error) := loadFFTRangeCal st (substr read 26 384) in
  (m_firmware, st, error).

(** ** Specification of a valid table *)

(** What [checkThreeFFT_Validity] demands of one table, declaratively. *)
Definition table_spec (a : list Q) : Prop :=
  (at_ a 1 == 1)%Q /\ (25 <= at_ a 99 <= 150)%Q /\
  forall j, (2 <= j < 100)%nat -> (at_ a (j - 1) * (99 # 100) < at_ a j)%Q.

(** ** Lemmas *)

Lemma Qle_bool_false (a b : Q) : Qle_bool a b = false <-> (b < a)%Q.
Proof.
  rewrite <- not_true_iff_false, Qle_bool_iff. split; [apply Qnot_le_lt | apply Qlt_not_le].
Qed.

(** The monotonicity loop from [j] with the previous value [old]. *)
Lemma mono_loop_spec (a : list Q) (fuel : nat) :
  forall j old, (2 <= j <= 100)%nat -> (100 <= j + fuel)%nat ->
  mono_loop a old j fuel = true <->
  ((j < 100)%nat -> (old * (99 # 100) < at_ a j)%Q) /\
  forall k, (j < k < 100)%nat -> (at_ a (k - 1) * (99 # 100) < at_ a k)%Q.
Proof.
  induction fuel as [|f IH]; intros j old Hj Hf; cbn [mono_loop].
  - replace j with 100%nat by lia. split; [intros _; split; [lia | intros; lia] | reflexivity].
  - destruct (Nat.ltb_spec j 100) as [Hlt|Hge].
    + destruct (Qle_bool (at_ a j) (old * (99 # 100))) eqn:E.
      * split; [discriminate|]. intros [H _]. apply Qle_bool_iff in E.
        specialize (H Hlt). lra.
      * apply Qle_bool_false in E. rewrite IH by lia. split.
        -- intros [H1 H2]. split; [intros _; exact E|]. intros k Hk.
           destruct (Nat.eq_dec k (S j)) as [->|]; [rewrite Nat.sub_1_r; apply H1; lia | apply H2; lia].
        -- intros [_ H2]. split; [intros Hs; specialize (H2 (S j) ltac:(lia)); now rewrite Nat.sub_1_r in H2|].
           intros k Hk. apply H2. lia.
    + split; [intros _; split; [lia | intros; lia] | reflexivity].
Qed.

Lemma table_ok_spec (a : list Q) : table_ok a = true <-> table_spec a.
Proof.
  unfold table_ok, table_spec. rewrite !andb_true_iff, negb_true_iff, orb_false_iff,
    !Qltb_ge, Qeq_bool_iff, mono_loop_spec by lia.
  split.
  - intros [[H1 [H2 H3]] [H4 H5]]. split; [exact H1|]. split; [lra|].
    intros j Hj. destruct (Nat.eq_dec j 2) as [->|]; [apply H4; lia | apply H5; lia].
  - intros [H1 [H2 H3]]. split; [split; [exact H1 | lra]|]. split.
    + intros _. apply (H3 2%nat). lia.
    + intros k Hk. apply H3. lia.
Qed.

Lemma at_list_set (a : list Q) (k i : nat) (x : Q) :
  (k < length a)%nat -> at_ (list_set a k x) i = if Nat.eqb i k then x else at_ a i.
Proof. apply nth_list_set. Qed.

Ltac at_set := rewrite ?at_list_set by (rewrite ?length_list_set; lia); zbool.

(** [words_loop] from [j = 2m] writes the gain of word [k] at [2k + 1] for
    [m <= k < 64] and leaves the entries up to [2m] alone. *)
Lemma words_loop_spec (b : list Z) (fuel : nat) :
  forall m a, length a = 129%nat -> (64 <= m + fuel)%nat ->
  let r := words_loop b a (2 * m) fuel in
  length r = 129%nat /\ (forall i, (i <= 2 * m)%nat -> at_ r i = at_ a i) /\
  forall k, (m <= k < 64)%nat -> at_ r (2 * k + 1) = word_gain b.[2 * k] b.[2 * k + 1].
Proof.
  induction fuel as [|f IH]; intros m a Hl Hf r; subst r; cbn [words_loop].
  - split; [exact Hl|]. split; [reflexivity | intros; lia].
  - destruct (Nat.ltb_spec (2 * m) 127) as [Hlt|Hge].
    + replace (2 * m + 2)%nat with (2 * S m)%nat by lia.
      destruct (IH (S m) (list_set a (S (2 * m)) (word_gain b.[2 * m] b.[S (2 * m)])))
        as (Hl' & Hp & Hk); [rewrite length_list_set; exact Hl | lia |].
      split; [exact Hl'|]. split.
      * intros i Hi. rewrite Hp by lia. at_set. reflexivity.
      * intros k Hk'. destruct (Nat.eq_dec k m) as [->|].
        -- rewrite Hp by lia. at_set. now rewrite Nat.add_1_r.
        -- apply Hk. lia.
    + split; [exact Hl|]. split; [reflexivity | intros; lia].
Qed.

(** [mean_loop] from [j = 2m + 1] writes the mean of the odd neighbours at
    [2k] for [m < k <= 63] and leaves the odd entries and the entries up to
    [2m + 1] alone. *)
Lemma mean_loop_spec (fuel : nat) :
  forall m a, length a = 129%nat -> (63 <= m + fuel)%nat ->
  let r := mean_loop a (2 * m + 1) fuel in
  length r = 129%nat /\ (forall i, (i <= 2 * m + 1)%nat -> at_ r i = at_ a i) /\
  (forall k, (k < 64)%nat -> at_ r (2 * k + 1) = at_ a (2 * k + 1)) /\
  forall k, (m < k <= 63)%nat -> at_ r (2 * k) = ((at_ a (2 * k - 1) + at_ a (2 * k + 1)) / 2)%Q.
Proof.
  induction fuel as [|f IH]; intros m a Hl Hf r; subst r; cbn [mean_loop].
  - split; [exact Hl|]. split; [reflexivity|]. split; [reflexivity | intros; lia].
  - destruct (Nat.ltb_spec (2 * m + 1) 126) as [Hlt|Hge].
    + replace (2 * m + 1 + 2)%nat with (2 * S m + 1)%nat by lia.
      set (v := ((at_ a (2 * m + 1) + at_ a (2 * S m + 1)) / 2)%Q).
      destruct (IH (S m) (list_set a (S (2 * m + 1)) v))
        as (Hl' & Hp & Ho & Hk); [rewrite length_list_set; exact Hl | lia |].
      split; [exact Hl'|]. split; [|split].
      * intros i Hi. rewrite Hp by lia. at_set. reflexivity.
      * intros k Hk'. rewrite Ho by lia. at_set. reflexivity.
      * intros k Hk'. destruct (Nat.eq_dec k (S m)) as [->|].
        -- rewrite Hp by lia. at_set. unfold v. do 2 f_equal. f_equal. lia.
        -- rewrite Hk by lia. at_set. reflexivity.
    + split; [exact Hl|]. split; [reflexivity|]. split; [reflexivity | intros; lia].
Qed.

Lemma zero_loop_spec (fuel : nat) :
  forall j a, length a = 129%nat ->
  length (zero_loop a j fuel) = 129%nat /\
  forall i, (i < j)%nat -> at_ (zero_loop a j fuel) i = at_ a i.
Proof.
  induction fuel as [|f IH]; intros j a Hl; cbn [zero_loop]; [split; auto|].
  destruct (Nat.ltb_spec j 129); [|split; auto].
  destruct (IH (S j) (list_set a j 0%Q)) as [Hl' Hp]; [rewrite length_list_set; exact Hl|].
  split; [exact Hl'|]. intros i Hi. rewrite Hp by lia. at_set. reflexivity.
Qed.

Lemma fix_100_spec (a : list Q) :
  length a = 129%nat ->
  length (fix_100 a) = 129%nat /\ forall i, (i < 100)%nat -> at_ (fix_100 a) i = at_ a i.
Proof.
  intros Hl. unfold fix_100. destruct_ifs; rewrite ?length_list_set; split; auto;
    intros i Hi; at_set; reflexivity.
Qed.

Lemma checkThreeFFT_Validity_cases (a : list (list Q)) :
  checkThreeFFT_Validity a = NONE \/ checkThreeFFT_Validity a = FFT_RANGE_CAL.
Proof. unfold checkThreeFFT_Validity. destruct (forallb _ _); auto. Qed.

(** ** Properties *)

(** The table decoded from a calibration block has 129 entries; the
    odd frequencies 1 to 99 hold the gains [32768 / word] of the words
    0 to 49, frequency 0 repeats frequency 1, every even frequency from 2
    to 98 is the mean of its two odd neighbours, and frequency 128 repeats
    127; the straightening and zeroing only touch frequencies above 99. *)
Theorem decode_block_spec (b : list Z) :
  let a := decode_block b in
  length a = 129%nat /\
  (forall k, (k < 50)%nat -> at_ a (2 * k + 1) = word_gain b.[2 * k] b.[2 * k + 1]) /\
  at_ a 0 = at_ a 1 /\
  (forall k, (1 <= k < 50)%nat -> at_ a (2 * k) = ((at_ a (2 * k - 1) + at_ a (2 * k + 1)) / 2)%Q) /\
  at_ a 128 = at_ a 127.
Proof.
  cbv zeta. unfold decode_block. cbv zeta.
  destruct (words_loop_spec b 64 0 (repeat 0%Q 129) eq_refl ltac:(lia)) as (Hl1 & _ & Hw).
  change (2 * 0)%nat with 0%nat in *.
  set (a1 := words_loop b (repeat 0%Q 129) 0 64) in *.
  set (a2 := list_set a1 0 (at_ a1 1)).
  assert (Hl2 : length a2 = 129%nat) by (unfold a2; rewrite length_list_set; exact Hl1).
  destruct (mean_loop_spec 63 0 a2 Hl2 ltac:(lia)) as (Hl3 & Hp3 & Ho3 & Hm3).
  change (2 * 0 + 1)%nat with 1%nat in *. set (a3 := mean_loop a2 1 63) in *.
  destruct (fix_100_spec a3 Hl3) as (Hl4 & Hp4).
  set (a4 := fix_100 a3) in *.
  set (a5 := if Qltb (at_ a4 102) 1 then zero_loop a4 102 27 else a4).
  assert (Hl5 : length a5 = 129%nat /\ forall i, (i < 102)%nat -> at_ a5 i = at_ a4 i).
  { unfold a5. destruct (Qltb _ _); [apply zero_loop_spec; exact Hl4 | split; auto]. }
  destruct Hl5 as (Hl5 & Hp5).
  (* the odd entries below 100 are the gains *)
  assert (Hodd : forall k, (k < 50)%nat -> at_ a5 (2 * k + 1) = word_gain b.[2 * k] b.[2 * k + 1]).
  { intros k Hk. rewrite Hp5, Hp4, Ho3 by lia. unfold a2. at_set. apply Hw. lia. }
  rewrite length_list_set. split; [exact Hl5|]. split; [|split; [|split]].
  - intros k Hk. at_set. apply Hodd, Hk.
  - at_set. rewrite Hp5, Hp4, Hp3 by lia. rewrite (Hp5 1%nat), (Hp4 1%nat), (Hp3 1%nat) by lia.
    unfold a2. at_set. reflexivity.
  - intros k Hk. at_set. rewrite Hp5, Hp4, Hm3 by lia.
    replace (2 * k - 1)%nat with (2 * (k - 1) + 1)%nat by lia.
    rewrite Hp5, Hp4, Hp5, Hp4 by lia. rewrite !Ho3 by lia. reflexivity.
  - at_set. reflexivity.
Qed.

(** C30: [loadFFTRangeCal] succeeds exactly when the string has 384 bytes
    and each of the three decoded tables starts at 1, lies between 25 and
    150 at frequency 99 and increases to within 1% up to there; on
    failure it returns [FFT_RANGE_CAL] and changes nothing; on success the
    interpolation tables are the first 71 entries of the decoded tables
    and the polynomials their fits, the rest of the state untouched. *)
Theorem loadFFTRangeCal_spec (st : FState) (s : list Z) :
  let blocks := map (fun i => decode_block (substr s (i * 128) 128)) (seq 0 3) in
  let '(st', e) := loadFFTRangeCal st s in
  (e = NONE <-> length s = 384%nat /\ Forall table_spec blocks) /\
  (e <> NONE -> e = FFT_RANGE_CAL /\ st' = st) /\
  (e = NONE ->
     coeff1 st' = map (firstn 71) blocks /\
     coeff2 st' = map (fun i => polyFit (coef_data (nth i blocks [])) 5 (nth i (coeff2 st) []))
                      (seq 0 3) /\
     ripple st' = ripple st /\ flickerSettings st' = flickerSettings st /\
     fft_lastRange st' = fft_lastRange st /\ flickering st' = flickering st).
Proof.
  intros blocks. unfold loadFFTRangeCal. fold blocks.
  assert (Hlen : length blocks = 3%nat) by (unfold blocks; rewrite length_map, length_seq; reflexivity).
  clearbody blocks.
  assert (Hchk : checkThreeFFT_Validity blocks = NONE <-> Forall table_spec blocks).
  { unfold checkThreeFFT_Validity. rewrite firstn_all2 by lia.
    rewrite Forall_forall. destruct (forallb _ _) eqn:E.
    - rewrite forallb_forall in E. split; [intros _ x Hx; apply table_ok_spec, E, Hx | reflexivity].
    - split; [discriminate|]. intros H. rewrite <- not_true_iff_false, forallb_forall in E.
      exfalso. apply E. intros x Hx. apply table_ok_spec, H, Hx. }
  destruct (Nat.eqb_spec (length s) (128 * 3)) as [Hl|Hl]; cbn [negb].
  - destruct (Z.eqb_spec (checkThreeFFT_Validity blocks) NONE) as [He|He]; cbn [negb].
    + split; [split; [intros _; split; [exact Hl | apply Hchk, He] | reflexivity]|].
      split; [intros H; contradiction|]. intros _.
      destruct blocks as [|b0 [|b1 [|b2 [|]]]]; try discriminate.
      repeat split.
    + destruct (checkThreeFFT_Validity_cases blocks) as [|Hr]; [contradiction|].
      split; [split; [intros H; contradiction | intros [_ H]; apply Hchk in H; contradiction]|].
      split; [intros _; split; [exact Hr | reflexivity] | intros H; contradiction].
  - split; [split; [discriminate | intros [H _]; lia]|].
    split; [intros _; split; reflexivity | discriminate].
Qed.

End FFTRangeCal.
