(* ===== verification/Session.v ===== *)
(** * The acquisition session: the worker thread, its handshake with the
      controller and the mode flags (src/KClmtr.cpp lines 385-556, 594-617,
      1746-1820, 2024-2054, 2191-2241, 2404-2470)

    [KClmtr] runs one worker thread, [threadStuff], that repeatedly issues
    the command of the current [measureMode] and publishes the decoded
    result with a fresh flag.  The controller and the worker share two
    flags: [threadModeParent] (the controller's intent) and
    [threadModeChild] (the worker's status).  [stopThread2] asks the worker
    to stop and, unless it runs on the worker itself, waits until the
    worker reports [NOT_RUNNING].

    The state [KState] gathers the members of [KClmtr] these functions
    read or write, with the position [worker] of the worker thread in
    [threadStuff] ([WNone]: no thread; [WPrologue]: started, before the
    flicker start commands; [WLoop]: at the top of the [while] loop) and
    its local [FFTString].  A worker step is one iteration of the loop (or
    the prologue, or the exit through [endThread]): the worker and the
    controller interleave at that grain.

    The functions that may run on either thread ([stopThread2] and every
    function that can call it: the [stop*] functions,
    [sendMessageToKColorimeter], [readFromKColorimeter], [closePort],
    [endFlicker]) are defined once in the section [Thread], over the
    variable [wait] that models the wait loop
    [while (threadModeChild != NOT_RUNNING) sleep(1)]: on the worker's own
    thread ([threadId == currentThreadID]) it is skipped ([self_thread]);
    on the controller it runs the worker ([wait_worker], in SessionApi). *)

From Stdlib Require Import String Ascii ZArith QArith List Bool.
From S2P Require Import Prelude ErrorCodes Codec Replies Protocol Averager Measure Spectrum FlickerStream FFTRangeCal.
Import ListNotations.
Import KleinsErrorCodes.
Open Scope Z_scope.

Module Session.

Import Replies Protocol Averager Measure Spectrum FlickerStream FFTRangeCal.

(** [enum _ThreadMode] and [enum _measureMode] (src/KClmtr.h lines 775-784). *)
Inductive ThreadMode := NOT_RUNNING | RUN | STOP.
Inductive MeasureMode := MEASURE | FLICKER | COUNTS.

Scheme Equality for ThreadMode.
Scheme Equality for MeasureMode.

(** The position of the worker thread in [threadStuff]. *)
Inductive WorkerPc := WNone | WPrologue | WLoop.

Record KState := mkKState {
  port : Port; (** [m_CommPort]: the scripted serial port *)
  measureMode : MeasureMode; (** [measureMode] *)
  threadModeParent : ThreadMode; (** [threadModeParent]: the controller's intent *)
  threadModeChild : ThreadMode; (** [threadModeChild]: the worker's status *)
  worker : WorkerPc; (** where the worker thread is in [threadStuff] *)
  FFTString : list Z; (** the worker's local [FFTString] *)
  m_MeasuringN5 : bool; (** [m_MeasuringN5] *)
  m_MeasuringM6 : bool; (** [m_MeasuringM6] *)
  m_isMeasurefresh : bool; (** [m_isMeasurefresh] *)
  m_isCountsfresh : bool; (** [m_isCountsfresh] *)
  m_isFlickerfresh : bool; (** [m_isFlickerfresh] *)
  avg : AvgState; (** [m_AvgX/Y/Z], [m_AvgLast], [m_MaxAvgNumber] *)
  fs : FState; (** the flicker members *)
  m_measure : Measurement; (** [m_measure] *)
  m_counts : Counts; (** [m_counts] *)
  m_flicker : Flicker; (** [m_flicker] *)
  m_speedMode : SpeedMode; (** [m_speedMode] *)
  m_Model : string; (** [m_Model] *)
  m_firmware : list Z; (** [m_firmware] *)
  m_DeviceFlickerSpeed : bool; (** [m_DeviceFlickerSpeed] *)
  m_ZeroNoise : bool; (** [m_ZeroNoise] *)
  m_CalFileID : Z; (** [m_CalFileID] *)
  m_isOpen : bool; (** [m_isOpen] *)
  m_CalFileList : list (list Z); (** [m_CalFileList[99]]: the names of the calibration files *)
  m_CalFileName : list Z; (** [m_CalFileName] *)
  m_Calindex : Z; (** [m_Calindex] *)
  m_range : Z; (** [m_range] *)
  m_SerialNumber : list Z (** [m_SerialNumber] *)
}.

Definition set_port (k : KState) (v : Port) : KState :=
  mkKState v (measureMode k) (threadModeParent k) (threadModeChild k) (worker k) (FFTString k)
    (m_MeasuringN5 k) (m_MeasuringM6 k) (m_isMeasurefresh k) (m_isCountsfresh k)
    (m_isFlickerfresh k) (avg k) (fs k) (m_measure k) (m_counts k) (m_flicker k) (m_speedMode k)
    (m_Model k) (m_firmware k) (m_DeviceFlickerSpeed k) (m_ZeroNoise k) (m_CalFileID k)
    (m_isOpen k) (m_CalFileList k) (m_CalFileName k) (m_Calindex k) (m_range k) (m_SerialNumber k).
Definition set_measureMode (k : KState) (v : MeasureMode) : KState :=
  mkKState (port k) v (threadModeParent k) (threadModeChild k) (worker k) (FFTString k)
    (m_MeasuringN5 k) (m_MeasuringM6 k) (m_isMeasurefresh k) (m_isCountsfresh k)
    (m_isFlickerfresh k) (avg k) (fs k) (m_measure k) (m_counts k) (m_flicker k) (m_speedMode k)
    (m_Model k) (m_firmware k) (m_DeviceFlickerSpeed k) (m_ZeroNoise k) (m_CalFileID k)
    (m_isOpen k) (m_CalFileList k) (m_CalFileName k) (m_Calindex k) (m_range k) (m_SerialNumber k).
Definition set_threadModeParent (k : KState) (v : ThreadMode) : KState :=
  mkKState (port k) (measureMode k) v (threadModeChild k) (worker k) (FFTString k)
    (m_MeasuringN5 k) (m_MeasuringM6 k) (m_isMeasurefresh k) (m_isCountsfresh k)
    (m_isFlickerfresh k) (avg k) (fs k) (m_measure k) (m_counts k) (m_flicker k) (m_speedMode k)
    (m_Model k) (m_firmware k) (m_DeviceFlickerSpeed k) (m_ZeroNoise k) (m_CalFileID k)
    (m_isOpen k) (m_CalFileList k) (m_CalFileName k) (m_Calindex k) (m_range k) (m_SerialNumber k).
Definition set_threadModeChild (k : KState) (v : ThreadMode) : KState :=
  mkKState (port k) (measureMode k) (threadModeParent k) v (worker k) (FFTString k)
    (m_MeasuringN5 k) (m_MeasuringM6 k) (m_isMeasurefresh k) (m_isCountsfresh k)
    (m_isFlickerfresh k) (avg k) (fs k) (m_measure k) (m_counts k) (m_flicker k) (m_speedMode k)
    (m_Model k) (m_firmware k) (m_DeviceFlickerSpeed k) (m_ZeroNoise k) (m_CalFileID k)
    (m_isOpen k) (m_CalFileList k) (m_CalFileName k) (m_Calindex k) (m_range k) (m_SerialNumber k).
Definition set_worker (k : KState) (v : WorkerPc) : KState :=
  mkKState (port k) (measureMode k) (threadModeParent k) (threadModeChild k) v (FFTString k)
    (m_MeasuringN5 k) (m_MeasuringM6 k) (m_isMeasurefresh k) (m_isCountsfresh k)
    (m_isFlickerfresh k) (avg k) (fs k) (m_measure k) (m_counts k) (m_flicker k) (m_speedMode k)
    (m_Model k) (m_firmware k) (m_DeviceFlickerSpeed k) (m_ZeroNoise k) (m_CalFileID k)
    (m_isOpen k) (m_CalFileList k) (m_CalFileName k) (m_Calindex k) (m_range k) (m_SerialNumber k).
Definition set_FFTString (k : KState) (v : list Z) : KState :=
  mkKState (port k) (measureMode k) (threadModeParent k) (threadModeChild k) (worker k) v
    (m_MeasuringN5 k) (m_MeasuringM6 k) (m_isMeasurefresh k) (m_isCountsfresh k)
    (m_isFlickerfresh k) (avg k) (fs k) (m_measure k) (m_counts k) (m_flicker k) (m_speedMode k)
    (m_Model k) (m_firmware k) (m_DeviceFlickerSpeed k) (m_ZeroNoise k) (m_CalFileID k)
    (m_isOpen k) (m_CalFileList k) (m_CalFileName k) (m_Calindex k) (m_range k) (m_SerialNumber k).
Definition set_m_MeasuringN5 (k : KState) (v : bool) : KState :=
  mkKState (port k) (measureMode k) (threadModeParent k) (threadModeChild k) (worker k)
    (FFTString k) v (m_MeasuringM6 k) (m_isMeasurefresh k) (m_isCountsfresh k)
    (m_isFlickerfresh k) (avg k) (fs k) (m_measure k) (m_counts k) (m_flicker k) (m_speedMode k)
    (m_Model k) (m_firmware k) (m_DeviceFlickerSpeed k) (m_ZeroNoise k) (m_CalFileID k)
    (m_isOpen k) (m_CalFileList k) (m_CalFileName k) (m_Calindex k) (m_range k) (m_SerialNumber k).
Definition set_m_MeasuringM6 (k : KState) (v : bool) : KState :=
  mkKState (port k) (measureMode k) (threadModeParent k) (threadModeChild k) (worker k)
    (FFTString k) (m_MeasuringN5 k) v (m_isMeasurefresh k) (m_isCountsfresh k)
    (m_isFlickerfresh k) (avg k) (fs k) (m_measure k) (m_counts k) (m_flicker k) (m_speedMode k)
    (m_Model k) (m_firmware k) (m_DeviceFlickerSpeed k) (m_ZeroNoise k) (m_CalFileID k)
    (m_isOpen k) (m_CalFileList k) (m_CalFileName k) (m_Calindex k) (m_range k) (m_SerialNumber k).
Definition set_m_isMeasurefresh (k : KState) (v : bool) : KState :=
  mkKState (port k) (measureMode k) (threadModeParent k) (threadModeChild k) (worker k)
    (FFTString k) (m_MeasuringN5 k) (m_MeasuringM6 k) v (m_isCountsfresh k) (m_isFlickerfresh k)
    (avg k) (fs k) (m_measure k) (m_counts k) (m_flicker k) (m_speedMode k) (m_Model k)
    (m_firmware k) (m_DeviceFlickerSpeed k) (m_ZeroNoise k) (m_CalFileID k) (m_isOpen k)
    (m_CalFileList k) (m_CalFileName k) (m_Calindex k) (m_range k) (m_SerialNumber k).
Definition set_m_isCountsfresh (k : KState) (v : bool) : KState :=
  mkKState (port k) (measureMode k) (threadModeParent k) (threadModeChild k) (worker k)
    (FFTString k) (m_MeasuringN5 k) (m_MeasuringM6 k) (m_isMeasurefresh k) v (m_isFlickerfresh k)
    (avg k) (fs k) (m_measure k) (m_counts k) (m_flicker k) (m_speedMode k) (m_Model k)
    (m_firmware k) (m_DeviceFlickerSpeed k) (m_ZeroNoise k) (m_CalFileID k) (m_isOpen k)
    (m_CalFileList k) (m_CalFileName k) (m_Calindex k) (m_range k) (m_SerialNumber k).
Definition set_m_isFlickerfresh (k : KState) (v : bool) : KState :=
  mkKState (port k) (measureMode k) (threadModeParent k) (threadModeChild k) (worker k)
    (FFTString k) (m_MeasuringN5 k) (m_MeasuringM6 k) (m_isMeasurefresh k) (m_isCountsfresh k) v
    (avg k) (fs k) (m_measure k) (m_counts k) (m_flicker k) (m_speedMode k) (m_Model k)
    (m_firmware k) (m_DeviceFlickerSpeed k) (m_ZeroNoise k) (m_CalFileID k) (m_isOpen k)
    (m_CalFileList k) (m_CalFileName k) (m_Calindex k) (m_range k) (m_SerialNumber k).
Definition set_avg (k : KState) (v : AvgState) : KState :=
  mkKState (port k) (measureMode k) (threadModeParent k) (threadModeChild k) (worker k)
    (FFTString k) (m_MeasuringN5 k) (m_MeasuringM6 k) (m_isMeasurefresh k) (m_isCountsfresh k)
    (m_isFlickerfresh k) v (fs k) (m_measure k) (m_counts k) (m_flicker k) (m_speedMode k)
    (m_Model k) (m_firmware k) (m_DeviceFlickerSpeed k) (m_ZeroNoise k) (m_CalFileID k)
    (m_isOpen k) (m_CalFileList k) (m_CalFileName k) (m_Calindex k) (m_range k) (m_SerialNumber k).
Definition set_fs (k : KState) (v : FState) : KState :=
  mkKState (port k) (measureMode k) (threadModeParent k) (threadModeChild k) (worker k)
    (FFTString k) (m_MeasuringN5 k) (m_MeasuringM6 k) (m_isMeasurefresh k) (m_isCountsfresh k)
    (m_isFlickerfresh k) (avg k) v (m_measure k) (m_counts k) (m_flicker k) (m_speedMode k)
    (m_Model k) (m_firmware k) (m_DeviceFlickerSpeed k) (m_ZeroNoise k) (m_CalFileID k)
    (m_isOpen k) (m_CalFileList k) (m_CalFileName k) (m_Calindex k) (m_range k) (m_SerialNumber k).
Definition set_m_measure (k : KState) (v : Measurement) : KState :=
  mkKState (port k) (measureMode k) (threadModeParent k) (threadModeChild k) (worker k)
    (FFTString k) (m_MeasuringN5 k) (m_MeasuringM6 k) (m_isMeasurefresh k) (m_isCountsfresh k)
    (m_isFlickerfresh k) (avg k) (fs k) v (m_counts k) (m_flicker k) (m_speedMode k) (m_Model k)
    (m_firmware k) (m_DeviceFlickerSpeed k) (m_ZeroNoise k) (m_CalFileID k) (m_isOpen k)
    (m_CalFileList k) (m_CalFileName k) (m_Calindex k) (m_range k) (m_SerialNumber k).
Definition set_m_counts (k : KState) (v : Counts) : KState :=
  mkKState (port k) (measureMode k) (threadModeParent k) (threadModeChild k) (worker k)
    (FFTString k) (m_MeasuringN5 k) (m_MeasuringM6 k) (m_isMeasurefresh k) (m_isCountsfresh k)
    (m_isFlickerfresh k) (avg k) (fs k) (m_measure k) v (m_flicker k) (m_speedMode k) (m_Model k)
    (m_firmware k) (m_DeviceFlickerSpeed k) (m_ZeroNoise k) (m_CalFileID k) (m_isOpen k)
    (m_CalFileList k) (m_CalFileName k) (m_Calindex k) (m_range k) (m_SerialNumber k).
Definition set_m_flicker (k : KState) (v : Flicker) : KState :=
  mkKState (port k) (measureMode k) (threadModeParent k) (threadModeChild k) (worker k)
    (FFTString k) (m_MeasuringN5 k) (m_MeasuringM6 k) (m_isMeasurefresh k) (m_isCountsfresh k)
    (m_isFlickerfresh k) (avg k) (fs k) (m_measure k) (m_counts k) v (m_speedMode k) (m_Model k)
    (m_firmware k) (m_DeviceFlickerSpeed k) (m_ZeroNoise k) (m_CalFileID k) (m_isOpen k)
    (m_CalFileList k) (m_CalFileName k) (m_Calindex k) (m_range k) (m_SerialNumber k).
Definition set_m_speedMode (k : KState) (v : SpeedMode) : KState :=
  mkKState (port k) (measureMode k) (threadModeParent k) (threadModeChild k) (worker k)
    (FFTString k) (m_MeasuringN5 k) (m_MeasuringM6 k) (m_isMeasurefresh k) (m_isCountsfresh k)
    (m_isFlickerfresh k) (avg k) (fs k) (m_measure k) (m_counts k) (m_flicker k) v (m_Model k)
    (m_firmware k) (m_DeviceFlickerSpeed k) (m_ZeroNoise k) (m_CalFileID k) (m_isOpen k)
    (m_CalFileList k) (m_CalFileName k) (m_Calindex k) (m_range k) (m_SerialNumber k).
Definition set_m_Model (k : KState) (v : string) : KState :=
  mkKState (port k) (measureMode k) (threadModeParent k) (threadModeChild k) (worker k)
    (FFTString k) (m_MeasuringN5 k) (m_MeasuringM6 k) (m_isMeasurefresh k) (m_isCountsfresh k)
    (m_isFlickerfresh k) (avg k) (fs k) (m_measure k) (m_counts k) (m_flicker k) (m_speedMode k) v
    (m_firmware k) (m_DeviceFlickerSpeed k) (m_ZeroNoise k) (m_CalFileID k) (m_isOpen k)
    (m_CalFileList k) (m_CalFileName k) (m_Calindex k) (m_range k) (m_SerialNumber k).
Definition set_m_firmware (k : KState) (v : list Z) : KState :=
  mkKState (port k) (measureMode k) (threadModeParent k) (threadModeChild k) (worker k)
    (FFTString k) (m_MeasuringN5 k) (m_MeasuringM6 k) (m_isMeasurefresh k) (m_isCountsfresh k)
    (m_isFlickerfresh k) (avg k) (fs k) (m_measure k) (m_counts k) (m_flicker k) (m_speedMode k)
    (m_Model k) v (m_DeviceFlickerSpeed k) (m_ZeroNoise k) (m_CalFileID k) (m_isOpen k)
    (m_CalFileList k) (m_CalFileName k) (m_Calindex k) (m_range k) (m_SerialNumber k).
Definition set_m_DeviceFlickerSpeed (k : KState) (v : bool) : KState :=
  mkKState (port k) (measureMode k) (threadModeParent k) (threadModeChild k) (worker k)
    (FFTString k) (m_MeasuringN5 k) (m_MeasuringM6 k) (m_isMeasurefresh k) (m_isCountsfresh k)
    (m_isFlickerfresh k) (avg k) (fs k) (m_measure k) (m_counts k) (m_flicker k) (m_speedMode k)
    (m_Model k) (m_firmware k) v (m_ZeroNoise k) (m_CalFileID k) (m_isOpen k) (m_CalFileList k)
    (m_CalFileName k) (m_Calindex k) (m_range k) (m_SerialNumber k).
Definition set_m_ZeroNoise (k : KState) (v : bool) : KState :=
  mkKState (port k) (measureMode k) (threadModeParent k) (threadModeChild k) (worker k)
    (FFTString k) (m_MeasuringN5 k) (m_MeasuringM6 k) (m_isMeasurefresh k) (m_isCountsfresh k)
    (m_isFlickerfresh k) (avg k) (fs k) (m_measure k) (m_counts k) (m_flicker k) (m_speedMode k)
    (m_Model k) (m_firmware k) (m_DeviceFlickerSpeed k) v (m_CalFileID k) (m_isOpen k)
    (m_CalFileList k) (m_CalFileName k) (m_Calindex k) (m_range k) (m_SerialNumber k).
Definition set_m_CalFileID (k : KState) (v : Z) : KState :=
  mkKState (port k) (measureMode k) (threadModeParent k) (threadModeChild k) (worker k)
    (FFTString k) (m_MeasuringN5 k) (m_MeasuringM6 k) (m_isMeasurefresh k) (m_isCountsfresh k)
    (m_isFlickerfresh k) (avg k) (fs k) (m_measure k) (m_counts k) (m_flicker k) (m_speedMode k)
    (m_Model k) (m_firmware k) (m_DeviceFlickerSpeed k) (m_ZeroNoise k) v (m_isOpen k)
    (m_CalFileList k) (m_CalFileName k) (m_Calindex k) (m_range k) (m_SerialNumber k).
Definition set_m_isOpen (k : KState) (v : bool) : KState :=
  mkKState (port k) (measureMode k) (threadModeParent k) (threadModeChild k) (worker k)
    (FFTString k) (m_MeasuringN5 k) (m_MeasuringM6 k) (m_isMeasurefresh k) (m_isCountsfresh k)
    (m_isFlickerfresh k) (avg k) (fs k) (m_measure k) (m_counts k) (m_flicker k) (m_speedMode k)
    (m_Model k) (m_firmware k) (m_DeviceFlickerSpeed k) (m_ZeroNoise k) (m_CalFileID k) v
    (m_CalFileList k) (m_CalFileName k) (m_Calindex k) (m_range k) (m_SerialNumber k).
Definition set_m_CalFileList (k : KState) (v : list (list Z)) : KState :=
  mkKState (port k) (measureMode k) (threadModeParent k) (threadModeChild k) (worker k)
    (FFTString k) (m_MeasuringN5 k) (m_MeasuringM6 k) (m_isMeasurefresh k) (m_isCountsfresh k)
    (m_isFlickerfresh k) (avg k) (fs k) (m_measure k) (m_counts k) (m_flicker k) (m_speedMode k)
    (m_Model k) (m_firmware k) (m_DeviceFlickerSpeed k) (m_ZeroNoise k) (m_CalFileID k)
    (m_isOpen k) v (m_CalFileName k) (m_Calindex k) (m_range k) (m_SerialNumber k).
Definition set_m_CalFileName (k : KState) (v : list Z) : KState :=
  mkKState (port k) (measureMode k) (threadModeParent k) (threadModeChild k) (worker k)
    (FFTString k) (m_MeasuringN5 k) (m_MeasuringM6 k) (m_isMeasurefresh k) (m_isCountsfresh k)
    (m_isFlickerfresh k) (avg k) (fs k) (m_measure k) (m_counts k) (m_flicker k) (m_speedMode k)
    (m_Model k) (m_firmware k) (m_DeviceFlickerSpeed k) (m_ZeroNoise k) (m_CalFileID k)
    (m_isOpen k) (m_CalFileList k) v (m_Calindex k) (m_range k) (m_SerialNumber k).
Definition set_m_Calindex (k : KState) (v : Z) : KState :=
  mkKState (port k) (measureMode k) (threadModeParent k) (threadModeChild k) (worker k)
    (FFTString k) (m_MeasuringN5 k) (m_MeasuringM6 k) (m_isMeasurefresh k) (m_isCountsfresh k)
    (m_isFlickerfresh k) (avg k) (fs k) (m_measure k) (m_counts k) (m_flicker k) (m_speedMode k)
    (m_Model k) (m_firmware k) (m_DeviceFlickerSpeed k) (m_ZeroNoise k) (m_CalFileID k)
    (m_isOpen k) (m_CalFileList k) (m_CalFileName k) v (m_range k) (m_SerialNumber k).
Definition set_m_range (k : KState) (v : Z) : KState :=
  mkKState (port k) (measureMode k) (threadModeParent k) (threadModeChild k) (worker k)
    (FFTString k) (m_MeasuringN5 k) (m_MeasuringM6 k) (m_isMeasurefresh k) (m_isCountsfresh k)
    (m_isFlickerfresh k) (avg k) (fs k) (m_measure k) (m_counts k) (m_flicker k) (m_speedMode k)
    (m_Model k) (m_firmware k) (m_DeviceFlickerSpeed k) (m_ZeroNoise k) (m_CalFileID k)
    (m_isOpen k) (m_CalFileList k) (m_CalFileName k) (m_Calindex k) v (m_SerialNumber k).
Definition set_m_SerialNumber (k : KState) (v : list Z) : KState :=
  mkKState (port k) (measureMode k) (threadModeParent k) (threadModeChild k) (worker k)
    (FFTString k) (m_MeasuringN5 k) (m_MeasuringM6 k) (m_isMeasurefresh k) (m_isCountsfresh k)
    (m_isFlickerfresh k) (avg k) (fs k) (m_measure k) (m_counts k) (m_flicker k) (m_speedMode k)
    (m_Model k) (m_firmware k) (m_DeviceFlickerSpeed k) (m_ZeroNoise k) (m_CalFileID k)
    (m_isOpen k) (m_CalFileList k) (m_CalFileName k) (m_Calindex k) (m_range k) v.

(** [KClmtr()]: the constructor.  The fresh flags and [m_range] are not
    initialised by the source and are parameters; [measureMode],
    [m_fft_lastRange] and [m_fft_count] are not initialised either and
    are only read after [startThread2] or [resetFlicker] has written
    them. *)
Definition KClmtr_init (p : Port) (mf cf ff : bool) (range : Z) : KState :=
  mkKState p MEASURE NOT_RUNNING NOT_RUNNING WNone [] false false mf cf ff
    (mkAvgState [] 0 32)
    (mkFState false false 0 FlickerSetting_default (-1) []
       (repeat (repeat (-1)%Q 71) 3) (repeat (repeat (-1)%Q 5) 3) 0 (repeat (repeat 0%Q 3) 3))
    (fromError 0) Counts_default Flicker_default
    SPEEDMODE_NORMAL "" [] true false 0 false
    (repeat [] 99) (bytes_of_string "Factory Cal File") 0 range [].

(** ** Helpers on the flicker members *)

Definition fs_set_flickering (st : FState) (b : bool) : FState :=
  mkFState b (flickering2 st) (fft_numPass st) (flickerSettings st) (fft_lastRange st)
    (ripple st) (coeff1 st) (coeff2 st) (fft_count st) (calMatrix st).

Definition fs_set_flickering2 (st : FState) (b : bool) : FState :=
  mkFState (flickering st) b (fft_numPass st) (flickerSettings st) (fft_lastRange st)
    (ripple st) (coeff1 st) (coeff2 st) (fft_count st) (calMatrix st).

(** [m_flickerSettings.speed = v]. *)
Definition fs_set_speed (st : FState) (v : Z) : FState :=
  let s := flickerSettings st in
  let s := mkFlickerSetting (samples s) v (numberOfPeaks s) (cosine s) (smoothing s)
             (JETIADiscount_DB s) (JEITADiscount_Percent s) (decibel s) (percent s)
             (corrections s) in
  mkFState (flickering st) (flickering2 st) (fft_numPass st) s (fft_lastRange st)
    (ripple st) (coeff1 st) (coeff2 st) (fft_count st) (calMatrix st).

(** The members [closePort] resets: both coefficient tables to -1, the
    calibration matrix to 0 and the ripple array freed. *)
Definition fs_close (st : FState) : FState :=
  mkFState (flickering st) (flickering2 st) (fft_numPass st) (flickerSettings st)
    (fft_lastRange st) [] (repeat (repeat (-1)%Q 71) 3) (repeat (repeat (-1)%Q 5) 3)
    (fft_count st) (repeat (repeat 0%Q 3) 3).

(** [std::string::operator>]: lexicographic order of the bytes. *)
Fixpoint str_gt (a b : list Z) : bool :=
  match a, b with
  | [], _ => false
  | _ :: _, [] => true
  | x :: a', y :: b' => if x <? y then false else if y <? x then true else str_gt a' b'
  end.

(** [isFlickerNew()]. *)
Definition isFlickerNew (k : KState) : bool :=
  m_DeviceFlickerSpeed k && str_gt (m_firmware k) (bytes_of_string "01.09fh").

(** [m_Model += "CLOSED"] unless it already ends with it. *)
Definition closed_model (m : string) : string :=
  if (String.length m <? 6)%nat || negb (String.eqb (substring (String.length m - 6) 6 m) "CLOSED")
  then (m ++ "CLOSED")%string else m.

(** [SerialPort::closePort()]: the port is no longer open. *)
(** [for (int i = 1; i < 99; ++i) m_CalFileList[i] = ""]: every name
    but the factory file's is cleared. *)
Definition clear_names (l : list (list Z)) : list (list Z) :=
  firstn 1 l ++ repeat [] (length l - 1).

Definition closeSerial (p : Port) : Port := mkPort false (rx p) (script p) (tx p).

Definition is_color_command (strMsg : string) : bool :=
  String.eqb strMsg (commandString COLOR_2PERSECOND) ||
  String.eqb strMsg (commandString COLOR_4PERSECOND) ||
  String.eqb strMsg (commandString COLOR_8PERSECOND) ||
  String.eqb strMsg (commandString COLOR_16PERSECOND).

(** ** Functions that run on either thread *)

Section Thread.

(** The wait loop of [stopThread2]. *)
Variable wait : KState -> KState.

(** [stopThread2()]. *)
Definition stopThread2 (k : KState) : KState :=
  if ThreadMode_beq (threadModeChild k) NOT_RUNNING then k
  else
    let k := set_threadModeParent k STOP in
    let k := wait k in
    set_threadModeParent k NOT_RUNNING.

(** [stopMeasuring()]: [stopMeasuring2()], then the averaging index and
    the N5 flag are reset and the averaging arrays freed ([NULL] is the
    empty buffer). *)
Definition stopMeasuring (k : KState) : KState :=
  let k := stopThread2 k in
  let k := set_avg k (mkAvgState (ring (avg k)) 0 (maxAvg (avg k))) in
  let k := set_m_MeasuringN5 k false in
  set_avg k (mkAvgState [] (avgLast (avg k)) (maxAvg (avg k))).

(** [stopMeasureCounts()]. *)
Definition stopMeasureCounts (k : KState) : KState :=
  set_m_MeasuringM6 (stopThread2 k) false.

(** [stopFlicker()]. *)
Definition stopFlicker (k : KState) : KState :=
  if ThreadMode_beq (threadModeChild k) NOT_RUNNING then set_fs k (resetFlicker (fs k))
  else stopThread2 k.

(** [sendMessageToKColorimeter(strMsg, expected, timeOut_Sec, readString)]:
    a command other than the current mode's own stops that mode first. *)
Definition sendMessageToKColorimeter (k : KState) (strMsg : string) (expected timeOut_Sec : Z)
    : KState * (Z * list Z) :=
  let k := if m_MeasuringN5 k && negb (is_color_command strMsg) then stopMeasuring k else k in
  let k := if m_MeasuringM6 k && negb (String.eqb strMsg (commandString COUNTS_4PERSECOND))
           then stopMeasureCounts k else k in
  let k := if flickering (fs k) && negb (expected =? -1) &&
                negb (String.eqb strMsg (commandString FLICKER_256PERSECOND) ||
                      String.eqb strMsg (commandString FLICKER_384PERSECOND))
           then stopFlicker k else k in
  let '(error, readString, p) := sendMessageToSerialPort (port k) strMsg expected timeOut_Sec in
  (set_port k p, (error, readString)).

(** [sendMessageToKColorimeter(m, readString)]. *)
Definition send_cmd (k : KState) (m : command) : KState * (Z * list Z) :=
  sendMessageToKColorimeter k (commandString m) (expected m) (timeout m).

(** [closePort()]. *)
Definition closePort (k : KState) : KState :=
  let k := if m_MeasuringN5 k then stopMeasuring k else k in
  let k := if flickering (fs k) then stopFlicker k else set_fs k (resetFlicker (fs k)) in
  let k := set_port k (closeSerial (port k)) in
  let k := set_m_CalFileList k (clear_names (m_CalFileList k)) in
  let k := set_m_range k (-1) in
  let k := set_m_isOpen k false in
  let k := set_m_CalFileName k [] in
  let k := set_m_CalFileID k 0 in
  let k := set_m_SerialNumber k [] in
  let k := set_m_Model k (closed_model (m_Model k)) in
  let k := set_m_Calindex k 0 in
  set_fs k (fs_close (fs k)).

(** [readFromKColorimeter(expected, timeOut_Sec, readString)]: the state
    and the error with the new [readString]. *)
Definition readFromKColorimeter (k : KState) (expected timeOut_Sec : Z) (readString : list Z)
    : KState * (Z * list Z) :=
  if port_open (port k) then
    if negb (flickering (fs k)) then
      let '(_, p) := readExisting (port k) in
      (set_port k p, (TIMED_OUT, []))
    else
      let '(error, readString, p) := readFromSerialPort (port k) expected timeOut_Sec readString in
      let k := set_port k p in
      let error := Z.lor NONE error in
      if has_flag error LOST_CONNECTION then (closePort k, (error, readString))
      else (k, (error, readString))
  else (closePort k, (LOST_CONNECTION, readString)).

(** [endFlicker()]: three (or two) [DUMMY] commands stop the stream; the
    sleeps and the baud-rate change have no counterpart in the model. *)
Definition endFlicker (k : KState) : KState :=
  let k := fst (send_cmd k DUMMY) in
  let k := fst (send_cmd k DUMMY) in
  let k := if isFlickerNew k then k else fst (send_cmd k DUMMY) in
  let '(_, p) := readExisting (port k) in
  let k := set_port k p in
  set_fs k (resetFlicker (fs k)).

End Thread.

(** On the worker's own thread, [stopThread2] does not wait. *)
Definition self_thread (k : KState) : KState := k.

(** ** The worker, [threadStuff] *)

(** [endThread()]. *)
Definition endThread (k : KState) : KState :=
  let k := if MeasureMode_beq (measureMode k) FLICKER then endFlicker self_thread k else k in
  set_worker (set_threadModeChild k NOT_RUNNING) WNone.

(** The start of [threadStuff] after [threadModeChild = RUN]: in flicker
    mode, the stream is started at 384 or 256 samples a second. *)
Definition worker_prologue (k : KState) : KState :=
  let k :=
    if MeasureMode_beq (measureMode k) FLICKER then
      if isFlickerNew k then
        fst (send_cmd self_thread (set_fs k (fs_set_speed (fs k) 384)) FLICKER_384PERSECOND)
      else
        fst (send_cmd self_thread (set_fs k (fs_set_speed (fs k) 256)) FLICKER_256PERSECOND)
    else k in
  set_worker (set_FFTString k []) WLoop.

Section Worker.

Context `{Libm}.

(** One iteration of [while (threadModeParent == RUN)] in colour mode. *)
Definition iter_measure (k : KState) : KState :=
  let '(k, (error, measure)) := send_cmd self_thread k (getColorMeasurmentCommand (m_speedMode k)) in
  if (error =? 0) && ThreadMode_beq (threadModeParent k) RUN then
    let '(a, m) := parseAndPrintXYZ (m_Model k) (m_speedMode k) (m_ZeroNoise k) (m_CalFileID k)
                     (calMatrix (fs k)) (avg k) measure true in
    set_m_isMeasurefresh (set_m_measure (set_avg k a) m) true
  else if negb (error =? 0) then
    set_m_isMeasurefresh (set_threadModeParent (set_m_measure k (fromError error)) STOP) true
  else k.

(** One iteration in flicker mode ([error] is always 0 at the test). *)
Definition iter_flicker (k : KState) : KState :=
  if (96 <? length (FFTString k))%nat then
    if negb (verify_FFTString (FFTString k)) then set_FFTString k (resync (FFTString k))
    else
      let '(f, rest, st) := parseAndPrintFFT (Z.to_nat (fft_numPass (fs k))) (fs k) (FFTString k) in
      let k := set_fs (set_FFTString (set_m_flicker k f) rest) st in
      if ThreadMode_beq (threadModeParent k) RUN then
        let k := if negb (Z.land (Spectrum.errorcode f) (lnot32 flickerTolerated) =? 0)
                 then set_threadModeParent k STOP else k in
        set_m_isFlickerfresh k true
      else k
  else
    let '(k, (error, s)) := readFromKColorimeter self_thread k 96 2 (FFTString k) in
    let k := set_FFTString k s in
    if negb (error =? 0) then
      set_threadModeParent (set_m_isFlickerfresh (set_m_flicker k (Flicker_of_error error)) true) STOP
    else k.

(** One iteration in counts mode; on an error the source raises
    [m_isMeasurefresh], not [m_isCountsfresh]. *)
Definition iter_counts (k : KState) : KState :=
  let '(k, (error, counts)) := send_cmd self_thread k COUNTS_4PERSECOND in
  if (error =? 0) && ThreadMode_beq (threadModeParent k) RUN then
    set_m_isCountsfresh (set_m_counts k (Counts_of_string counts)) true
  else if negb (error =? 0) then
    set_m_isMeasurefresh (set_threadModeParent (set_m_counts k (Counts_of_error error)) STOP) true
  else k.

(** The loop test, then one iteration, or the exit through [endThread]. *)
Definition worker_iter (k : KState) : KState :=
  if negb (ThreadMode_beq (threadModeParent k) RUN) then endThread k
  else match measureMode k with
       | MEASURE => iter_measure k
       | FLICKER => iter_flicker k
       | COUNTS => iter_counts k
       end.

(** One step of the worker thread. *)
Definition worker_step (k : KState) : KState :=
  match worker k with
  | WNone => k
  | WPrologue => worker_prologue k
  | WLoop => worker_iter k
  end.

End Worker.

End Session.
