(* ===== verification/CalFiles.v ===== *)
(** * Calibration files: the list, loading, storing and deleting
      (src/KClmtr.cpp lines 77-83, 272-296, 985-1206, 1421-1597)

    The device keeps 96 user calibration files besides the factory one.
    [setCalFileList] parses the 96 names of the [D7] reply into
    [m_CalFileList]; [setCalFileID] selects a file, fetches it with [D1]
    and [loadedCalFile] decodes its 3 x 3 correction matrix into
    [m_CalMatrix], from K-floats at offset 101 or, for a CalMAN file, from
    8-byte doubles at offset 24 ([unpackCalMan_float]).  [storeMatrices]
    packs a matrix into the 128-byte layout ([packUserMatrix]), wraps it in
    the [MAT id ( ... )] envelope ([appendMatrixPassword]) and writes it;
    [deleteCalFile] writes a file of 255 bytes instead.  Both then reload
    the list.

    The code can throw [std::out_of_range]: [substr] past the end, and
    [trim] of a string of blanks (its [find_first_not_of] returns [npos]).
    Members written before the throw keep their values.  The model is the
    state-and-exception monad [M]: a computation maps the session state to
    the state reached and a result or [Throw]; [catch_all] is the
    [catch (...)] of [storeMatrices] and [deleteCalFile].  The functions
    that send commands are defined over the wait loop [wait] of
    [stopThread2], as in [Session]. *)

From Stdlib Require Import String Ascii ZArith QArith Qabs Lqa Lia List Bool.
From S2P Require Import Prelude ErrorCodes Codec Protocol Matrix Calibration FlickerStream Session.
Import ListNotations.
Import KleinsErrorCodes.
Open Scope Z_scope.

Module CalFiles.

Import Codec Protocol Matrix Calibration FlickerStream Session.

(** ** The state-and-exception monad *)

Inductive exn (A : Type) := Ret (a : A) | Throw.
Arguments Ret {A} a.
Arguments Throw {A}.

Definition M (A : Type) : Type := KState -> KState * exn A.

Definition ret {A : Type} (a : A) : M A := fun k => (k, Ret a).

Definition bind {A B : Type} (m : M A) (f : A -> M B) : M B :=
  fun k => match m k with
           | (k', Ret a) => f a k'
           | (k', Throw) => (k', Throw)
           end.

Definition get : M KState := fun k => (k, Ret k).

Definition modify (f : KState -> KState) : M unit := fun k => (f k, Ret tt).

(** A pure computation that may throw. *)
Definition lift {A : Type} (e : exn A) : M A := fun k => (k, e).

(** [try { body } catch (...) { return h; }]. *)
Definition catch_all {A : Type} (m : M A) (h : A) : M A :=
  fun k => match m k with
           | (k', Ret a) => (k', Ret a)
           | (k', Throw) => (k', Ret h)
           end.

Declare Scope calfile_scope.
Delimit Scope calfile_scope with cf.
(** [let* x := m in k] runs [m], then [k] on its result; the pattern
    form destructs a pair. *)
Notation "'let*' x ':=' m 'in' k" := (bind m (fun x => k))
  (at level 10, x name, m at level 100, k at level 200) : calfile_scope.
Notation "'let*' ' ( a , b ) ':=' m 'in' k" := (bind m (fun r => let '(a, b) := r in k))
  (at level 10, a name, b name, m at level 100, k at level 200) : calfile_scope.
Open Scope calfile_scope.

(** ** Strings *)

(** [s.substr(pos, len)], which throws when [pos > size()]. *)
Definition substr_exn (s : list Z) (pos len : nat) : exn (list Z) :=
  if Nat.leb pos (length s) then Ret (substr s pos len) else Throw.

(** The characters of [" \t\n\r"]. *)
Definition is_blank (c : Z) : bool := (c =? 32) || (c =? 9) || (c =? 10) || (c =? 13).

(** [s.find_first_not_of(" \t\n\r")], [None] for [npos]. *)
Fixpoint find_first_not (s : list Z) : option nat :=
  match s with
  | [] => None
  | c :: r => if is_blank c then option_map S (find_first_not r) else Some 0%nat
  end.

(** [s.find_last_not_of(" \t\n\r")]. *)
Definition find_last_not (s : list Z) : option nat :=
  option_map (fun i => length s - 1 - i)%nat (find_first_not (rev s)).

(** The static [trim(s)]: with [begin = npos] the [substr] throws; the
    end is [find_last_not_of + 1], and [npos + 1 = 0]. *)
Definition trim (s : list Z) : exn (list Z) :=
  match find_first_not s with
  | None => Throw
  | Some b =>
      let e := match find_last_not s with Some e => S e | None => 0%nat end in
      substr_exn s b (e - b)
  end.

(** The reference for [trim]: the leading blanks dropped, then the
    trailing ones. *)
Fixpoint drop_blanks (s : list Z) : list Z :=
  match s with
  | [] => []
  | c :: r => if is_blank c then drop_blanks r else s
  end.

Definition strip (s : list Z) : list Z := rev (drop_blanks (rev (drop_blanks s))).

(** ** [setCalFileList] *)

(** The loop [for (i = 1; i < 97; ++i)], with [Bitval = 3 + 20 (i - 1)]:
    a name whose byte 10 is 255 is an empty slot. *)
Fixpoint cal_list_loop (CalFileList : list Z) (i Bitval : nat) (fuel : nat) : M unit :=
  match fuel with
  | O => ret tt
  | S f =>
      let* theSubString := lift (substr_exn CalFileList (Bitval - 1) 20) in
      let theSubString :=
        if theSubString.[10] =? 255 then bytes_of_string "Blank" else theSubString in
      let* theSubString := lift (trim theSubString) in
      let* _ := modify (fun k => set_m_CalFileList k (list_set (m_CalFileList k) i theSubString)) in
      cal_list_loop CalFileList (S i) (Bitval + 20) f
  end.

(** [setCalFileList(CalFileList)]. *)
Definition setCalFileList (CalFileList : list Z) : M unit :=
  let* _ := modify (fun k => set_m_CalFileList k
                             (list_set (m_CalFileList k) 0 (bytes_of_string "Factory Cal File"))) in
  cal_list_loop CalFileList 1 3 96.

(** ** Decoding a file: [unpackCalMan_float] and [loadedCalFile] *)

(** [MyBigDoub[i] = myRead[i]]: byte [i] as a double. *)
Definition MyBigDoub (s : list Z) (i : nat) : Q := inject_Z s.[i].
Arguments MyBigDoub s i%_nat.

(** [unpackCalMan_float(PartString)]: the eight bytes of a little-endian
    double; [exp(MyExp * log(2.0))] is [2 ^ MyExp], exact for the
    integral [MyExp]. *)
Definition unpackCalMan_float (PartString : list Z) : Q :=
  let '(MySign, MyExp) :=
    if Qle_bool 128 (MyBigDoub PartString 7) then (-1, (MyBigDoub PartString 7 - 128)%Q) else (1, MyBigDoub PartString 7) in
  let MyExp := (MyExp * 16)%Q in
  let MyExp := (MyExp + inject_Z (Qtrunc (MyBigDoub PartString 6 / 16)) - 1022)%Q in
  let MyFraction := ((MyBigDoub PartString 6 / 16 - inject_Z (Qtrunc (MyBigDoub PartString 6 / 16))) * 16 + 16)%Q in
  let MyFraction := (MyFraction * 256 + MyBigDoub PartString 5)%Q in
  let MyFraction := (MyFraction * 256 + MyBigDoub PartString 4)%Q in
  let MyFraction := (MyFraction * 256 + MyBigDoub PartString 3)%Q in
  let MyFraction := (MyFraction / 256 / 256 / 256 / 32)%Q in
  let MyNumber := (pow2 (Qtrunc MyExp) * MyFraction)%Q in
  (MyNumber * inject_Z MySign)%Q.

(** The loop [for (i = 0; i < 9; ++i) CalMatrix[i] = dec(s.substr(pos i, len))]. *)
Fixpoint read_entries (dec : list Z -> Q) (s : list Z) (pos : nat -> nat) (len : nat)
    (i : nat) (fuel : nat) : exn (list Q) :=
  match fuel with
  | O => Ret []
  | S f =>
      match substr_exn s (pos i) len with
      | Throw => Throw
      | Ret PartString =>
          match read_entries dec s pos len (S i) f with
          | Throw => Throw
          | Ret r => Ret (dec PartString :: r)
          end
      end
  end.

(** [m_CalMatrix.v[i][j] = CalMatrix[c++]]. *)
Definition rows3 (c : list Q) : list (list Q) :=
  [firstn 3 c; firstn 3 (skipn 3 c); firstn 3 (skipn 6 c)].

Definition fs_set_cal (st : FState) (m : list (list Q)) : FState :=
  mkFState (flickering st) (flickering2 st) (fft_numPass st) (flickerSettings st)
    (fft_lastRange st) (ripple st) (coeff1 st) (coeff2 st) (fft_count st) m.

(** [m_CalFileList[m_Calindex]]; a negative index reads out of the array
    in C++ and the model reads entry 0 instead. *)
Definition selected_name (k : KState) : list Z :=
  nth (Z.to_nat (m_Calindex k)) (m_CalFileList k) [].

(** The test [m_CalFileList[m_Calindex] == "Blank" || m_Calindex == 0 ||
    m_CalFileList[m_Calindex] == "Factory Cal File"]. *)
Definition factory_selected (k : KState) : bool :=
  bytes_eqb (selected_name k) (bytes_of_string "Blank") || (m_Calindex k =? 0) ||
  bytes_eqb (selected_name k) (bytes_of_string "Factory Cal File").

(** [CalMatrix[0..8]] of the factory file: the identity. *)
Definition identity9 : list Q := [1; 0; 0; 0; 1; 0; 0; 0; 1]%Q.

(** [loadedCalFile(CalFileString)]. *)
Definition loadedCalFile (CalFileString : list Z) : M unit :=
  let* k := get in
  if factory_selected k then
    modify (fun k => set_fs (set_m_CalFileName (set_m_CalFileID k 0)
                               (bytes_of_string "Factory Cal File"))
                            (fs_set_cal (fs k) (rows3 identity9)))
  else
    let* _ := modify (fun k => set_m_CalFileName (set_m_CalFileID k (m_Calindex k)) (selected_name k)) in
    let* flag := lift (substr_exn CalFileString 21 1) in
    let* CalMatrix := lift (if bytes_eqb flag (bytes_of_string "C")
                          then read_entries unpackCalMan_float CalFileString
                                 (fun i => 24 + i * 8)%nat 8 0 9
                          else read_entries unpackK_float CalFileString
                                 (fun i => (102 + i * 3) - 1)%nat 3 0 9) in
    modify (fun k => set_fs k (fs_set_cal (fs k) (rows3 CalMatrix))).

(** [v[y][x]] for [y], then [x], in [0, 3): the order in which the
    source copies a 3 x 3 matrix to and from a flat array. *)
Definition entries9 (m : Matrix) : list Q :=
  map (fun yx => mat_get m (fst yx) (snd yx)) (list_prod (seq 0 3) (seq 0 3)).

(** [setTempCalFile(coeff)]. *)
Definition setTempCalFile (coeff : CorrectedCoefficient) (k : KState) : KState :=
  let k := set_m_CalFileName (set_m_CalFileID k 0) (bytes_of_string "Temporary Cal File") in
  set_fs k (fs_set_cal (fs k) (rows3 (entries9 (colorMatrix coeff)))).

(** ** Writing a file: [packUserMatrix] and [appendMatrixPassword] *)

(** [memcpy(calFile + i, src, 3)]. *)
Definition memcpy3 (buf : list Z) (i : nat) (src : list Z) : list Z :=
  list_set (list_set (list_set buf i src.[0]) (S i) src.[1]) (S (S i)) src.[2].

(** [for (i = 0; i < 20; ++i) calFile[i] = ' ']. *)
Fixpoint fill_loop (buf : list Z) (i : nat) (c : Z) (fuel : nat) : list Z :=
  match fuel with
  | O => buf
  | S f => fill_loop (list_set buf i c) (S i) c f
  end.

(** [for (i = 0; i < (int)name.size() && i < 20; ++i) calFile[i] = name[i]]. *)
Fixpoint name_loop (buf name : list Z) (i : nat) (fuel : nat) : list Z :=
  match fuel with
  | O => buf
  | S f => if Nat.ltb i (length name) then name_loop (list_set buf i name.[i]) name (S i) f
           else buf
  end.

(** Consecutive [memcpy(calFile + i, convertNumberToBinaryStr(v, error), 3);
    i += 3], the error mask threaded through the calls. *)
Fixpoint write_kfloats (buf : list Z) (i : nat) (vs : list Q) (error : Z) : list Z * Z :=
  match vs with
  | [] => (buf, error)
  | v :: r =>
      let '(bytes, error) := convertNumberToBinaryStr v error in
      write_kfloats (memcpy3 buf i bytes) (i + 3) r error
  end.

(** The white specification of a stored file: X, Y, Z = 95.043, 100,
    108.890 and the tolerances 0.005 and 5. *)
Definition white_spec : list Q := [95043 # 1000; 100; 10889 # 100; 5 # 1000; 5]%Q.

(** [packUserMatrix(name, corrected, error)]: the 128 bytes of the file
    (name, reserved ["//"], white specification at 59, RGB matrix at 74,
    XYZ matrix at 101) and the error mask. *)
Definition packUserMatrix (name : list Z) (corrected : CorrectedCoefficient) (error : Z)
    : list Z * Z :=
  let calFile := repeat 0 128 in
  let calFile := fill_loop calFile 0 (chr " ") 20 in
  let calFile := name_loop calFile name 0 20 in
  let calFile := list_set (list_set calFile 20 (chr "/")) 21 (chr "/") in
  let '(calFile, error) := write_kfloats calFile 59 white_spec error in
  let '(calFile, error) := write_kfloats calFile 74 (entries9 (rgbMatrix corrected)) error in
  write_kfloats calFile 101 (entries9 (colorMatrix corrected)) error.

(** [appendMatrixPassword(ID, str)]: ["MAT"], the byte [ID], ["("], the
    file and [")"]. *)
Definition appendMatrixPassword (ID : Z) (str : list Z) : list Z :=
  [77; 65; 84; ID mod 256; 40] ++ str ++ [chr ")"].

(** ** The operations that talk to the device *)

Section Commands.

(** The wait loop of [stopThread2]. *)
Variable wait : KState -> KState.

(** [sendMessageToKColorimeter(strMsg, expected, timeOut_Sec, readString)]. *)
Definition sendK (strMsg : string) (expected timeOut_Sec : Z) : M (Z * list Z) :=
  fun k => let '(k, r) := sendMessageToKColorimeter wait k strMsg expected timeOut_Sec in
           (k, Ret r).

(** [sendMessageToKColorimeter(m, readString)]. *)
Definition sendK_cmd (m : command) : M (Z * list Z) :=
  sendK (commandString m) (expected m) (timeout m).

(** [sendMessageToSerialPort(m_CommPort, strMsg, expected, timeOut_Sec,
    returnString)]: the file goes to the port without stopping a mode. *)
Definition sendSerial (strMsg : list Z) (expected timeOut_Sec : Z) : M (Z * list Z) :=
  fun k => let '(e, r, p) := sendMessageToSerialPort (port k) (string_of_bytes strMsg)
                               expected timeOut_Sec in
           (set_port k p, Ret (e, r)).

(** [setCalFileID(calFileID)]: the file's index is the one character
    [CalFile = m_Calindex]. *)
Definition setCalFileID (calFileID : Z) : M unit :=
  let* _ := modify (fun k => if calFileID <? 96 then set_m_Calindex k calFileID else k) in
  let* k := get in
  if factory_selected k then loadedCalFile []
  else
    let* '(error, returnString) := sendK_cmd CALFILE_INCOMING in
    if (error =? 0) && bytes_eqb returnString (bytes_of_string "D1") then
      let* k := get in
      let* '(error, CalFile) := sendK (string_of_bytes [m_Calindex k mod 256]) 131 2 in
      if error =? 0 then loadedCalFile CalFile else ret tt
    else ret tt.

(** The common end of [storeMatrices] and [deleteCalFile]: write the
    file, check the device's answer and reload the list. *)
Definition write_and_list (CalFile : list Z) : M Z :=
  let* '(error, returnString) := sendSerial CalFile 3 5 in
  if negb (error =? NONE) then ret error
  else if bytes_eqb returnString (bytes_of_string "<e>") then ret CAL_STORING
  else
    let* '(error, returnString) := sendK_cmd CALFILE_FILELIST in
    if negb (error =? NONE) then ret error
    else
      let* _ := setCalFileList returnString in
      ret NONE.

(** The [D9] handshake that opens a store. *)
Definition saving_handshake (k : M Z) : M Z :=
  let* '(error, returnString) := sendK_cmd CALFILE_SAVING in
  if negb (error =? NONE) then ret error
  else if negb (bytes_eqb returnString (bytes_of_string "D9")) then ret CAL_STORING
  else k.

(** [storeMatrices(id, name, correctionMatrix)]. *)
Definition storeMatrices (id : Z) (name : list Z) (correctionMatrix : CorrectedCoefficient) : M Z :=
  catch_all
    (saving_handshake
       (let '(CalFile, error) := packUserMatrix name correctionMatrix NONE in
        if negb (error =? NONE) then ret error
        else write_and_list (appendMatrixPassword id CalFile)))
    CAL_STORING.

(** [storeMatrices(id, name, correctedXYZ)]. *)
Definition storeMatrices_matrix (id : Z) (name : list Z) (correctedXYZ : Matrix) : M Z :=
  storeMatrices id name (coefficient_of_matrix correctedXYZ).

(** [storeMatrices(id, name, reference, kclmtr)]. *)
Definition storeMatrices_wrgb (id : Z) (name : list Z) (reference kclmtr : WRGB) : M Z :=
  storeMatrices id name (getCoefficientTestMatrix reference kclmtr).

(** [deleteCalFile(calFileID)]: a file of 128 bytes 255 replaces it. *)
Definition deleteCalFile (calFileID : Z) : M Z :=
  catch_all
    (let* k := get in
     let* _ := (if m_CalFileID k =? calFileID then setCalFileID 0 else ret tt) in
     let emptyCalFile := appendMatrixPassword calFileID (repeat 255 128) in
     saving_handshake (write_and_list emptyCalFile))
    CAL_STORING.

End Commands.

(** ** Reference definitions for the properties *)

(** The 20-byte slot of file [i] (from 1) in a [D7] reply. *)
Definition cal_slot (s : list Z) (i : nat) : list Z := substr s (2 + 20 * (i - 1)) 20.

(** What [setCalFileList] makes of a slot before [trim]. *)
Definition slot_name (blk : list Z) : list Z :=
  if blk.[10] =? 255 then bytes_of_string "Blank" else blk.

(** Slot [i] parses: it starts inside the reply and holds a character
    that is not blank. *)
Definition slot_ok (s : list Z) (i : nat) : bool :=
  Nat.leb (2 + 20 * (i - 1)) (length s) && negb (forallb is_blank (slot_name (cal_slot s i))).

(** The names of slots [i], ..., [i + m - 1] written into [L]. *)
Fixpoint set_names (L : list (list Z)) (s : list Z) (i m : nat) : list (list Z) :=
  match m with
  | O => L
  | S m' => set_names (list_set L i (strip (slot_name (cal_slot s i)))) s (S i) m'
  end.

(** The three bytes [convertNumberToBinaryStr] writes for [v]; they do not
    depend on the error mask. *)
Definition kbytes (v : Q) : list Z := fst (convertNumberToBinaryStr v 0).

(** A value the K-float format carries: zero, or a magnitude in
    [[2^-120, 2^120]]. *)
Definition kfloat_range (v : Q) : Prop := (v == 0 \/ pow2 (-120) <= Qabs v <= pow2 120)%Q.

(** [kfloat_range] as a test. *)
Definition kfloat_range_b (v : Q) : bool :=
  Qeq_bool v 0 || (Qle_bool (pow2 (-120)) (Qabs v) && Qle_bool (Qabs v) (pow2 120)).

(** The IEEE-754 value of the little-endian double [b] read as a normal
    number: sign bit, 11-bit biased exponent, 52-bit fraction with its
    hidden leading 1. *)
Definition ieee_normal (b : list Z) : Q :=
  let sign := if 128 <=? b.[7] then -1 else 1 in
  let e := (b.[7] mod 128) * 16 + b.[6] / 16 in
  let m := (b.[6] mod 16) * 2 ^ 48 + b.[5] * 2 ^ 40 + b.[4] * 2 ^ 32 + b.[3] * 2 ^ 24 +
           b.[2] * 2 ^ 16 + b.[1] * 2 ^ 8 + b.[0] in
  (inject_Z sign * pow2 (e - 1023) * (1 + inject_Z m / inject_Z (2 ^ 52)))%Q.

(** ** Sample data for the witnesses *)

(** A [D7] reply: a two-byte header, the names padded with blanks to 20
    bytes, and a trailer. *)
Definition sample_list_reply (names : list (list Z)) : list Z :=
  [60; 48] ++ concat (map (fun nm => firstn 20 (nm ++ repeat 32 20)) names) ++ [62; 13; 10].

(** The names ["Cal1"], ["Cal2"], ..., with an empty name in slot [blank_at]. *)
Definition sample_names (blank_at : nat) : list (list Z) :=
  map (fun i => if Nat.eqb i blank_at then []
                else bytes_of_string "Cal" ++ [48 + Z.of_nat (i mod 10)]) (seq 1 96).

(** A session on a device that answers a store with [D9] and [<0>], then
    lists [lst]. *)
Definition store_session (lst : list Z) : KState :=
  KClmtr_init (mkPort true [] [Arrive (bytes_of_string "D9"); Arrive (bytes_of_string "<0>");
                               Arrive lst] []) false false false (-1).

(** A session with user file 3, ["MyCal"], selected. *)
Definition user_file_session : KState :=
  set_m_Calindex (set_m_CalFileList (KClmtr_init (mkPort true [] [] []) false false false (-1))
                                    (list_set (repeat [] 99) 3 (bytes_of_string "MyCal"))) 3.

Definition sample_coefficient : CorrectedCoefficient :=
  coefficient_of_matrix (mat3 1 (1 # 2) 0 (-3) 2 (1 # 1000) 0 0 7).

(** ** Lemmas *)

(** Running a bind whose first computation returns. *)
Lemma bind_Ret {A B : Type} (m : M A) (f : A -> M B) (k k' : KState) (a : A) :
  m k = (k', Ret a) -> bind m f k = f a k'.
Proof. intros E. unfold bind. now rewrite E. Qed.

(** *** [trim] *)

Lemma drop_blanks_split (s : list Z) :
  exists pre, s = pre ++ drop_blanks s /\ forallb is_blank pre = true.
Proof.
  induction s as [|c r [pre [E B]]]; [now exists []|]. cbn.
  destruct (is_blank c) eqn:Ec; [exists (c :: pre); cbn; rewrite Ec, <- E; auto|now exists []].
Qed.

Lemma drop_blanks_nil (s : list Z) : drop_blanks s = [] <-> forallb is_blank s = true.
Proof.
  induction s as [|c r IH]; cbn; [tauto|].
  destruct (is_blank c); cbn; [exact IH|split; discriminate].
Qed.

Lemma drop_blanks_app (s t : list Z) :
  forallb is_blank s = false -> drop_blanks (s ++ t) = drop_blanks s ++ t.
Proof.
  induction s as [|c r IH]; cbn; [discriminate|].
  destruct (is_blank c); cbn; auto.
Qed.

Lemma find_first_not_spec (s : list Z) :
  match find_first_not s with
  | None => forallb is_blank s = true
  | Some b => drop_blanks s = skipn b s /\ (b < length s)%nat /\ forallb is_blank s = false
  end.
Proof.
  induction s as [|c r IH]; cbn; [reflexivity|].
  destruct (is_blank c) eqn:Ec; cbn; [|auto with arith].
  destruct (find_first_not r) as [b|]; cbn; [|exact IH].
  destruct IH as (E & L & F). rewrite F. repeat split; auto with arith.
Qed.

(** [trim] throws on a string of blanks and otherwise strips it. *)
Lemma trim_spec (s : list Z) :
  trim s = if forallb is_blank s then Throw else Ret (strip s).
Proof.
  unfold trim, find_last_not. pose proof (find_first_not_spec s) as H1.
  destruct (find_first_not s) as [b|]; [|now rewrite H1].
  destruct H1 as (Eb & Lb & Fs). rewrite Fs.
  destruct (drop_blanks_split s) as (pre & Es & Bp). set (x := drop_blanks s) in *.
  assert (Fx : forallb is_blank x = false).
  { rewrite Es, forallb_app, Bp in Fs. exact Fs. }
  assert (Lpre : length pre = b).
  { assert (H : length s = (length pre + length x)%nat) by (rewrite Es at 1; apply length_app).
    rewrite Eb, length_skipn in H. lia. }
  pose proof (find_first_not_spec (rev s)) as H2.
  destruct (find_first_not (rev s)) as [b'|]; cbn [option_map].
  2:{ rewrite forallb_rev, Fs in H2. discriminate. }
  destruct H2 as (Eb' & Lb' & _). rewrite length_rev in Lb'.
  assert (Ey : drop_blanks (rev s) = drop_blanks (rev x) ++ rev pre).
  { rewrite Es at 1. rewrite rev_app_distr. apply drop_blanks_app. now rewrite forallb_rev. }
  set (y := drop_blanks (rev x)) in *.
  assert (Hb' : (b' = length s - length y - length pre)%nat).
  { pose proof (f_equal (@length Z) Eb') as H. rewrite Ey, length_skipn, length_app, !length_rev in H.
    lia. }
  unfold substr_exn, substr. replace (Nat.leb b (length s)) with true by (symmetry; apply Nat.leb_le; lia).
  unfold strip. fold x. fold y. f_equal.
  destruct (drop_blanks_split (rev x)) as (pre' & Ex & _). fold y in Ex.
  assert (Ex' : x = rev y ++ rev pre') by (rewrite <- (rev_involutive x), Ex, rev_app_distr; reflexivity).
  rewrite <- Eb, Ex'. replace (S (length s - 1 - b') - b)%nat with (length (rev y)).
  - rewrite firstn_app, firstn_all. replace (length (rev y) - length (rev y))%nat with 0%nat by lia.
    now rewrite firstn_O, app_nil_r.
  - pose proof (f_equal (@length Z) Es) as L1. pose proof (f_equal (@length Z) Ex') as L2.
    rewrite length_app in L1. rewrite length_app, !length_rev in L2. rewrite length_rev. lia.
Qed.

(** *** [setCalFileList] *)

Lemma set_m_CalFileList_same (k : KState) : set_m_CalFileList k (m_CalFileList k) = k.
Proof. now destruct k. Qed.

Lemma length_set_names (L : list (list Z)) (s : list Z) (i m : nat) :
  length (set_names L s i m) = length L.
Proof.
  revert L i. induction m as [|m IH]; intros L i; cbn; [reflexivity|].
  now rewrite IH, length_list_set.
Qed.

Lemma nth_set_names (L : list (list Z)) (s : list Z) (i m n : nat) :
  (i + m <= length L)%nat ->
  nth n (set_names L s i m) [] =
  if Nat.leb i n && Nat.ltb n (i + m) then strip (slot_name (cal_slot s n)) else nth n L [].
Proof.
  revert L i. induction m as [|m IH]; intros L i Hl; cbn [set_names].
  - rewrite Nat.add_0_r.
    destruct (Nat.leb i n) eqn:E1, (Nat.ltb n i) eqn:E2; cbn [andb]; auto.
    rewrite Nat.leb_le in E1. rewrite Nat.ltb_lt in E2. lia.
  - rewrite IH by (rewrite length_list_set; lia). rewrite nth_list_set by lia.
    destruct (Nat.eqb n i) eqn:E0;
      [apply Nat.eqb_eq in E0|apply Nat.eqb_neq in E0];
      destruct (Nat.leb i n) eqn:E1, (Nat.ltb n (i + S m)) eqn:E2,
               (Nat.leb (S i) n) eqn:E3, (Nat.ltb n (S i + m)) eqn:E4; cbn [andb];
      try reflexivity; try (subst; reflexivity);
      rewrite ?Nat.leb_le, ?Nat.leb_gt, ?Nat.ltb_lt, ?Nat.ltb_ge in *; lia.
Qed.

(** The loop parses [m] good slots, then stops: at the end of its 96
    turns, or by throwing on the next slot. *)
Lemma cal_list_loop_spec (s : list Z) (fuel i m : nat) (k : KState) :
  (1 <= i)%nat -> (m <= fuel)%nat ->
  (forall n, (i <= n < i + m)%nat -> slot_ok s n = true) ->
  ((m < fuel)%nat -> slot_ok s (i + m) = false) ->
  cal_list_loop s i (3 + 20 * (i - 1)) fuel k =
  (set_m_CalFileList k (set_names (m_CalFileList k) s i m),
   if Nat.eqb m fuel then Ret tt else Throw).
Proof.
  revert i m k. induction fuel as [|f IH]; intros i m k Hi Hm Hok Hbad.
  { replace m with 0%nat by lia. cbn. now rewrite set_m_CalFileList_same. }
  cbn [cal_list_loop]. unfold bind, lift, modify, substr_exn.
  replace (3 + 20 * (i - 1) - 1)%nat with (2 + 20 * (i - 1))%nat by lia.
  destruct m as [|m].
  - specialize (Hbad ltac:(lia)). rewrite Nat.add_0_r in Hbad. unfold slot_ok in Hbad.
    cbn [set_names]. rewrite set_m_CalFileList_same.
    destruct (Nat.leb (2 + 20 * (i - 1)) (length s)) eqn:Hl; [|reflexivity].
    cbn [andb] in Hbad. apply negb_false_iff in Hbad.
    rewrite trim_spec. unfold slot_name, cal_slot in Hbad. now rewrite Hbad.
  - pose proof (Hok i ltac:(lia)) as Hs. unfold slot_ok in Hs.
    apply andb_prop in Hs as [Hs1 Hs2]. rewrite Hs1. apply negb_true_iff in Hs2.
    rewrite trim_spec. unfold slot_name, cal_slot in Hs2 |- *. rewrite Hs2.
    replace (3 + 20 * (i - 1) + 20)%nat with (3 + 20 * (S i - 1))%nat by lia.
    rewrite (IH (S i) m); try lia.
    + reflexivity.
    + intros n Hn. apply Hok. lia.
    + intros Hlt. replace (S i + m)%nat with (i + S m)%nat by lia. apply Hbad. lia.
Qed.

(** *** [packUserMatrix] *)

Lemma convert_bytes_indep (v : Q) (error : Z) :
  fst (convertNumberToBinaryStr v error) = kbytes v.
Proof.
  unfold kbytes, convertNumberToBinaryStr. destruct (Qeq_bool v 0); [reflexivity|].
  destruct (if Qle_bool 0 v then (1, v) else (-1, (- v)%Q)) as [g a].
  destruct (kfloat_fraction a). reflexivity.
Qed.

Lemma length_memcpy3 (buf : list Z) (i : nat) (src : list Z) :
  length (memcpy3 buf i src) = length buf.
Proof. unfold memcpy3. now rewrite !length_list_set. Qed.

Lemma memcpy3_nth (buf : list Z) (i n : nat) (src : list Z) :
  (i + 3 <= length buf)%nat ->
  (memcpy3 buf i src).[n] =
  if Nat.leb i n && Nat.ltb n (i + 3) then src.[n - i] else buf.[n].
Proof.
  intros Hl. unfold memcpy3, byte_at. rewrite !nth_list_set by (rewrite ?length_list_set; lia).
  destruct (Nat.eqb_spec n (S (S i))), (Nat.eqb_spec n (S i)), (Nat.eqb_spec n i);
  destruct (Nat.leb_spec i n), (Nat.ltb_spec n (i + 3)); cbn [andb];
  try lia; subst; first [reflexivity | f_equal; lia].
Qed.

(** [write_kfloats] puts the bytes of entry [j] at [i + 3 j] and leaves
    the rest of the buffer alone. *)
Lemma write_kfloats_spec (vs : list Q) (buf : list Z) (i : nat) (error : Z) :
  (i + 3 * length vs <= length buf)%nat ->
  length (fst (write_kfloats buf i vs error)) = length buf /\
  (forall j d, (j < length vs)%nat -> (d < 3)%nat ->
     (fst (write_kfloats buf i vs error)).[i + 3 * j + d] = (kbytes (nth j vs 0%Q)).[d]) /\
  (forall n, (n < i \/ i + 3 * length vs <= n)%nat ->
     (fst (write_kfloats buf i vs error)).[n] = buf.[n]).
Proof.
  revert buf i error. induction vs as [|v vs IH]; intros buf i error Hl; cbn [write_kfloats].
  { cbn in *. repeat split; auto. intros j d Hj. lia. }
  pose proof (convert_bytes_indep v error) as Hb.
  destruct (convertNumberToBinaryStr v error) as [bytes error'] eqn:Ec. cbn [fst] in *.
  cbn [length] in Hl.
  destruct (IH (memcpy3 buf i bytes) (i + 3)%nat error') as (L & A & B);
    [rewrite length_memcpy3; lia|].
  repeat split.
  - now rewrite L, length_memcpy3.
  - intros [|j] d Hj Hd; cbn [nth].
    + rewrite B by lia. rewrite memcpy3_nth by lia.
      destruct (Nat.leb i (i + 3 * 0 + d) && Nat.ltb (i + 3 * 0 + d) (i + 3)) eqn:E.
      * rewrite <- Hb. f_equal. lia.
      * rewrite andb_false_iff, Nat.leb_gt, Nat.ltb_ge in E. lia.
    + replace (i + 3 * S j + d)%nat with (i + 3 + 3 * j + d)%nat by lia.
      apply A; cbn [length] in Hj; lia.
  - intros n Hn. rewrite B by (cbn [length] in Hn; lia). rewrite memcpy3_nth by lia.
    destruct (Nat.leb i n && Nat.ltb n (i + 3)) eqn:E; [|reflexivity].
    rewrite andb_true_iff, Nat.leb_le, Nat.ltb_lt in E. cbn [length] in Hn. lia.
Qed.

Lemma length_fill_loop (buf : list Z) (i : nat) (c : Z) (fuel : nat) :
  length (fill_loop buf i c fuel) = length buf.
Proof.
  revert buf i. induction fuel as [|f IH]; intros buf i; cbn; [reflexivity|].
  now rewrite IH, length_list_set.
Qed.

Lemma length_name_loop (buf name : list Z) (i fuel : nat) :
  length (name_loop buf name i fuel) = length buf.
Proof.
  revert buf i. induction fuel as [|f IH]; intros buf i; cbn [name_loop]; [reflexivity|].
  destruct (Nat.ltb i (length name)); [|reflexivity]. now rewrite IH, length_list_set.
Qed.

Lemma length_entries9 (m : Matrix) : length (entries9 m) = 9%nat.
Proof. reflexivity. Qed.

(** The file [packUserMatrix] builds: 128 bytes, the reserved byte 21 is
    ['/'] (so the loader takes the K-float branch), and entry [j] of the
    colour matrix is encoded at [101 + 3 j]. *)
Lemma packUserMatrix_layout (name : list Z) (c : CorrectedCoefficient) (error : Z) :
  let f := fst (packUserMatrix name c error) in
  length f = 128%nat /\ f.[21] = chr "/" /\
  (forall j d, (j < 9)%nat -> (d < 3)%nat ->
     f.[101 + 3 * j + d] = (kbytes (nth j (entries9 (colorMatrix c)) 0%Q)).[d]).
Proof.
  unfold packUserMatrix.
  set (b3 := list_set (list_set (name_loop (fill_loop (repeat 0 128) 0 (chr " ") 20) name 0 20)
                                20 (chr "/")) 21 (chr "/")).
  assert (L3 : length b3 = 128%nat)
    by (unfold b3; now rewrite !length_list_set, length_name_loop, length_fill_loop, repeat_length).
  assert (S3 : b3.[21] = chr "/")
    by (unfold b3, byte_at; rewrite nth_list_set by (rewrite length_list_set, length_name_loop,
          length_fill_loop, repeat_length; lia); reflexivity).
  destruct (write_kfloats_spec white_spec b3 59 error ltac:(rewrite L3; cbn; lia)) as (L4 & _ & K4).
  destruct (write_kfloats b3 59 white_spec error) as [b4 e4]. cbn [fst] in *.
  destruct (write_kfloats_spec (entries9 (rgbMatrix c)) b4 74 e4
              ltac:(rewrite length_entries9, L4, L3; lia))
    as (L5 & _ & K5).
  destruct (write_kfloats b4 74 (entries9 (rgbMatrix c)) e4) as [b5 e5]. cbn [fst] in *.
  destruct (write_kfloats_spec (entries9 (colorMatrix c)) b5 101 e5
              ltac:(rewrite length_entries9, L5, L4, L3; lia))
    as (L6 & A6 & K6).
  repeat split.
  - rewrite L6, L5, L4. exact L3.
  - rewrite K6, K5, K4 by (rewrite ?length_entries9; cbn [length white_spec]; lia). exact S3.
  - intros j d Hj Hd. apply A6; [rewrite length_entries9|]; lia.
Qed.

(** *** [loadedCalFile] *)

Lemma read_entries_ok (dec : list Z -> Q) (s : list Z) (pos : nat -> nat) (len i fuel : nat) :
  (forall j, (i <= j < i + fuel)%nat -> (pos j <= length s)%nat) ->
  read_entries dec s pos len i fuel = Ret (map (fun j => dec (substr s (pos j) len)) (seq i fuel)).
Proof.
  revert i. induction fuel as [|f IH]; intros i Hp; cbn [read_entries]; [reflexivity|].
  unfold substr_exn. replace (Nat.leb (pos i) (length s)) with true
    by (symmetry; apply Nat.leb_le, Hp; lia).
  rewrite IH by (intros j Hj; apply Hp; lia). reflexivity.
Qed.

Lemma unpackK_float_bytes (a b : list Z) :
  a.[0] = b.[0] -> a.[1] = b.[1] -> a.[2] = b.[2] -> unpackK_float a = unpackK_float b.
Proof. intros E0 E1 E2. unfold unpackK_float. now rewrite E0, E1, E2. Qed.

Lemma rows3_nth (g : nat -> Q) (i j : nat) :
  (i < 3)%nat -> (j < 3)%nat -> nth j (nth i (rows3 (map g (seq 0 9))) []) 0%Q = g (3 * i + j)%nat.
Proof. intros Hi Hj. destruct i as [|[|[|i]]], j as [|[|[|j]]]; try lia; reflexivity. Qed.

Lemma entries9_nth (m : Matrix) (i j : nat) :
  (i < 3)%nat -> (j < 3)%nat -> nth (3 * i + j) (entries9 m) 0%Q = mat_get m i j.
Proof. intros Hi Hj. destruct i as [|[|[|i]]], j as [|[|[|j]]]; try lia; reflexivity. Qed.

(** A user file whose byte 21 is not ['C'] is decoded as nine K-floats
    at [101 + 3 i]. *)
Lemma loadedCalFile_kfloat (s : list Z) (k : KState) :
  factory_selected k = false -> (128 <= length s)%nat -> s.[21] <> chr "C" ->
  loadedCalFile s k =
  (set_fs (set_m_CalFileName (set_m_CalFileID k (m_Calindex k)) (selected_name k))
          (fs_set_cal (fs k) (rows3 (map (fun i => unpackK_float (substr s (101 + 3 * i) 3))
                                         (seq 0 9)))),
   Ret tt).
Proof.
  intros Hf Hl Hc. unfold loadedCalFile, bind, get, modify, lift. rewrite Hf.
  unfold substr_exn. replace (Nat.leb 21 (length s)) with true by (symmetry; apply Nat.leb_le; lia).
  replace (bytes_eqb (substr s 21 1) (bytes_of_string "C")) with false.
  2:{ unfold bytes_eqb. destruct (list_eq_dec Z.eq_dec _ _) as [E|]; [|reflexivity].
      exfalso. apply Hc. pose proof (f_equal (fun l => l.[0]) E) as E0. cbn beta in E0.
      rewrite byte_at_substr in E0 by lia. exact E0. }
  rewrite read_entries_ok by (intros j Hj; lia). cbn [fs set_m_CalFileName set_m_CalFileID].
  replace (map (fun j => unpackK_float (substr s (102 + j * 3 - 1) 3)) (seq 0 9))
    with (map (fun i => unpackK_float (substr s (101 + 3 * i) 3)) (seq 0 9)); [reflexivity|].
  apply map_ext. intros i. do 2 f_equal. lia.
Qed.

Lemma kfloat_range_b_spec (v : Q) : kfloat_range_b v = true -> kfloat_range v.
Proof.
  unfold kfloat_range_b, kfloat_range. rewrite orb_true_iff, andb_true_iff, !Qle_bool_iff.
  intros [H|H]; [left; now apply Qeq_bool_iff|right; exact H].
Qed.

(** A value in the K-float range comes back from its three bytes within
    a relative error of 2^-14. *)
Lemma kbytes_close (v : Q) :
  kfloat_range v -> (Qabs (unpackK_float (kbytes v) - v) <= Qabs v / 16384)%Q.
Proof.
  intros [H0|Hr].
  - unfold kbytes, convertNumberToBinaryStr.
    replace (Qeq_bool v 0) with true by (symmetry; now apply Qeq_bool_iff).
    cbn [fst]. rewrite H0. vm_compute. discriminate.
  - pose proof (convertNumberToBinaryStr_close v 0 Hr) as H. unfold kbytes.
    destruct (convertNumberToBinaryStr v 0) as [b e]. now destruct H as (_ & _ & H).
Qed.

(** *** The whole of [setCalFileList] *)

Lemma setCalFileList_run (s : list Z) (k : KState) (m : nat) :
  (m <= 96)%nat ->
  (forall n, (1 <= n < 1 + m)%nat -> slot_ok s n = true) ->
  ((m < 96)%nat -> slot_ok s (1 + m) = false) ->
  setCalFileList s k =
  (set_m_CalFileList k (set_names (list_set (m_CalFileList k) 0 (bytes_of_string "Factory Cal File"))
                                  s 1 m),
   if Nat.eqb m 96 then Ret tt else Throw).
Proof.
  intros Hm Hok Hbad. unfold setCalFileList, bind, modify.
  erewrite (cal_list_loop_spec s 96 1 m); auto.
Qed.

(** ** Properties *)

(** C11: a colour matrix stored by [packUserMatrix] and read back by
    [loadedCalFile] (the file followed by any trailing bytes, while a user
    file is selected) is the stored matrix up to the K-float quantisation:
    each entry within a relative error of 2^-14, for entries that are zero
    or of magnitude in [[2^-120, 2^120]].  The selected file's index and
    name become [m_CalFileID] and [m_CalFileName]. *)
Theorem packUserMatrix_loadedCalFile (name : list Z) (c : CorrectedCoefficient) (t : list Z)
    (k : KState) :
  factory_selected k = false -> Forall kfloat_range (entries9 (colorMatrix c)) ->
  let '(k', r) := loadedCalFile (fst (packUserMatrix name c NONE) ++ t) k in
  r = Ret tt /\ m_CalFileID k' = m_Calindex k /\ m_CalFileName k' = selected_name k /\
  forall i j, (i < 3)%nat -> (j < 3)%nat ->
    (Qabs (cal (fs k') i j - mat_get (colorMatrix c) i j) <= Qabs (mat_get (colorMatrix c) i j) / 16384)%Q.
Proof.
  intros Hf Hr. destruct (packUserMatrix_layout name c NONE) as (L & F21 & E).
  set (f := fst (packUserMatrix name c NONE)) in *.
  rewrite loadedCalFile_kfloat; [|exact Hf|rewrite length_app; lia|].
  2:{ rewrite byte_at_app_l by lia. rewrite F21. discriminate. }
  repeat split. intros i j Hi Hj. unfold cal. cbn [fs set_fs calMatrix fs_set_cal].
  rewrite rows3_nth by assumption. rewrite <- entries9_nth by assumption.
  assert (Hn : (3 * i + j < 9)%nat) by lia.
  rewrite (unpackK_float_bytes _ (kbytes (nth (3 * i + j) (entries9 (colorMatrix c)) 0%Q))).
  1: apply kbytes_close; apply Forall_nth; [exact Hr|now rewrite length_entries9].
  all: rewrite byte_at_substr, byte_at_app_l by lia; rewrite <- E by lia; f_equal; lia.
Qed.

(** C15: [unpackCalMan_float] is the IEEE-754 decoding of a normal double
    whose three low mantissa bytes are cleared: it reads the sign, the
    exponent and the 28 high fraction bits, and its offset of 1022 is the
    bias 1023 once its fraction is taken in [[1/2, 1)].  It gives every
    exponent field the hidden bit, so the double 0.0 decodes as 2^-1023. *)
Theorem unpackCalMan_float_ieee (b : list Z) :
  bytes_ok b ->
  (unpackCalMan_float b == ieee_normal ([0; 0; 0] ++ skipn 3 b)%Z)%Q /\
  (unpackCalMan_float (repeat 0%Z 8) == pow2 (-1023))%Q.
Proof.
  intros Hb. split; [|vm_compute; reflexivity].
  unfold unpackCalMan_float, ieee_normal, MyBigDoub.
  assert (Hs : forall i, (3 <= i)%nat -> ([0; 0; 0] ++ skipn 3 b).[i] = b.[i]).
  { intros i Hi. unfold byte_at. rewrite app_nth2 by (cbn; lia). cbn [length].
    rewrite nth_skipn. f_equal. lia. }
  rewrite !Hs by lia. change (([0; 0; 0] ++ skipn 3 b).[0]) with 0.
  change (([0; 0; 0] ++ skipn 3 b).[1]) with 0. change (([0; 0; 0] ++ skipn 3 b).[2]) with 0.
  pose proof (byte_at_ok b 3 Hb) as H3. pose proof (byte_at_ok b 4 Hb) as H4.
  pose proof (byte_at_ok b 5 Hb) as H5. pose proof (byte_at_ok b 6 Hb) as H6.
  pose proof (byte_at_ok b 7 Hb) as H7. unfold is_byte in *.
  set (b3 := b.[3]) in *. set (b4 := b.[4]) in *. set (b5 := b.[5]) in *.
  set (b6 := b.[6]) in *. set (b7 := b.[7]) in *.
  rewrite (Qtrunc_div_pos b6 16) by lia.
  assert (E6 : (inject_Z b6 / 16 - inject_Z (b6 / 16) == inject_Z (b6 mod 16) / 16)%Q).
  { rewrite (Z.div_mod b6 16) at 1 by lia. rewrite inject_Z_plus, inject_Z_mult. field. }
  change 128%Q with (inject_Z 128). rewrite Qle_bool_Z.
  assert (Hexp : forall s7, (inject_Z s7 * 16 + inject_Z (b6 / 16) - 1022 ==
                             inject_Z ((s7 * 16 + b6 / 16 - 1023) + 1))%Q)
    by (intros s7; rewrite inject_Z_plus, inject_Z_minus, inject_Z_plus, inject_Z_mult; ring).
  destruct (128 <=? b7) eqn:S7; [apply Z.leb_le in S7|apply Z.leb_gt in S7].
  - replace (b7 mod 128) with (b7 - 128) by (apply Z.mod_unique with 1; lia).
    rewrite (Qtrunc_comp _ (inject_Z ((b7 - 128) * 16 + b6 / 16 - 1023 + 1)))
      by (rewrite <- Hexp, inject_Z_minus; reflexivity).
    rewrite Qtrunc_Z.
    rewrite pow2_succ, E6, !inject_Z_plus, !inject_Z_mult. pow_consts. field.
  - replace (b7 mod 128) with b7 by (symmetry; apply Z.mod_small; lia).
    rewrite (Qtrunc_comp _ _ (Hexp b7)), Qtrunc_Z.
    rewrite pow2_succ, E6, !inject_Z_plus, !inject_Z_mult. pow_consts. field.
Qed.

(** C13: on a file-list reply whose 96 slots each hold a name,
    [setCalFileList] completes and sets entry 0 to the factory file,
    entry [n] in [1..96] to slot [n] with its blanks trimmed (["Blank"]
    when its byte 10 is 255), and leaves entries 97 and 98. *)
Theorem setCalFileList_names (s : list Z) (k : KState) :
  length (m_CalFileList k) = 99%nat ->
  (forall n, (1 <= n <= 96)%nat -> slot_ok s n = true) ->
  exists L, setCalFileList s k = (set_m_CalFileList k L, Ret tt) /\ length L = 99%nat /\
  forall n, nth n L [] =
    if Nat.eqb n 0 then bytes_of_string "Factory Cal File"
    else if Nat.leb n 96 then strip (slot_name (cal_slot s n))
    else nth n (m_CalFileList k) [].
Proof.
  intros Hl Hok. rewrite (setCalFileList_run s k 96); [|lia|intros n Hn; apply Hok; lia|lia].
  eexists. split; [reflexivity|]. split.
  - now rewrite length_set_names, length_list_set.
  - intros n. rewrite nth_set_names by (rewrite length_list_set; lia).
    rewrite nth_list_set by lia.
    destruct (Nat.eqb_spec n 0), (Nat.leb_spec 1 n), (Nat.ltb_spec n (1 + 96)), (Nat.leb_spec n 96);
      cbn [andb]; try reflexivity; lia.
Qed.

(** C12: storing a file reports [CAL_STORING] when the file list that
    follows the store has a slot of blanks before any empty slot marks it
    (the name of a file stored with an empty or all-blank name): [trim]
    throws and the [catch (...)] of [storeMatrices] turns the exception
    into the error, although the device acknowledged the file.  The
    names before that slot are updated, the later ones keep their old
    values. *)
Theorem storeMatrices_blank_name_fails (wait : KState -> KState) (id : Z) (name : list Z)
    (c : CorrectedCoefficient) (k k1 k2 k3 : KState) (rs lst : list Z) (j : nat) :
  sendK_cmd wait CALFILE_SAVING k = (k1, Ret (NONE, bytes_of_string "D9")) ->
  snd (packUserMatrix name c NONE) = NONE ->
  sendSerial (appendMatrixPassword id (fst (packUserMatrix name c NONE))) 3 5 k1 =
    (k2, Ret (NONE, rs)) ->
  bytes_eqb rs (bytes_of_string "<e>") = false ->
  sendK_cmd wait CALFILE_FILELIST k2 = (k3, Ret (NONE, lst)) ->
  (1 <= j <= 96)%nat ->
  (forall n, (1 <= n < j)%nat -> slot_ok lst n = true) -> slot_ok lst j = false ->
  storeMatrices wait id name c k =
  (set_m_CalFileList k3 (set_names (list_set (m_CalFileList k3) 0
                                      (bytes_of_string "Factory Cal File")) lst 1 (j - 1)),
   Ret CAL_STORING).
Proof.
  intros H1 Hp H2 Hr H3 Hj Hok Hbad.
  unfold storeMatrices, catch_all, saving_handshake, bind at 1. rewrite H1.
  unfold bytes_eqb at 1. destruct (list_eq_dec Z.eq_dec _ _) as [_|C]; [|now contradiction C].
  destruct (packUserMatrix name c NONE) as [f e] eqn:Ep. cbn [snd fst] in Hp, H2. subst e.
  cbv beta iota zeta delta [NONE Z.eqb negb].
  unfold write_and_list, bind at 1. rewrite H2. cbv beta iota zeta delta [NONE Z.eqb negb].
  rewrite Hr. unfold bind at 1. rewrite H3. cbv beta iota zeta delta [NONE Z.eqb negb]. unfold bind.
  rewrite (setCalFileList_run lst k3 (j - 1)); [|lia|intros n Hn; apply Hok; lia|].
  - destruct (Nat.eqb_spec (j - 1) 96); [lia|reflexivity].
  - intros _. replace (1 + (j - 1))%nat with j by lia. exact Hbad.
Qed.

(** C14: [setCalFileID] never selects file 96, although [setCalFileList]
    fills slots 1 to 96: an index of 96 or more leaves [m_Calindex] as it
    is, so the call is the re-selection of the current file, and from the
    factory selection it loads the identity matrix. *)
Theorem setCalFileID_ge_96 (wait : KState -> KState) (calFileID : Z) (k : KState) :
  96 <= calFileID ->
  setCalFileID wait calFileID k = setCalFileID wait (m_Calindex k) k /\
  (m_Calindex k = 0 ->
   setCalFileID wait calFileID k =
   (set_fs (set_m_CalFileName (set_m_CalFileID k 0) (bytes_of_string "Factory Cal File"))
           (fs_set_cal (fs k) (rows3 identity9)), Ret tt)).
Proof.
  intros H. unfold setCalFileID, bind at 1, modify at 1.
  replace (calFileID <? 96) with false by (symmetry; apply Z.ltb_ge; lia).
  split.
  - destruct (m_Calindex k <? 96); [|reflexivity]. now destruct k.
  - intros H0. assert (Hf : factory_selected k = true)
      by (unfold factory_selected; rewrite H0; apply orb_true_iff; left; apply orb_true_r).
    unfold bind, get, modify. cbv beta iota zeta. rewrite Hf.
    unfold loadedCalFile, bind, get. rewrite Hf. reflexivity.
Qed.

(** ** Witnesses *)

Lemma packUserMatrix_loadedCalFile_witness :
  factory_selected user_file_session = false /\
  Forall kfloat_range (entries9 (colorMatrix sample_coefficient)) /\
  let '(k', r) := loadedCalFile (fst (packUserMatrix (bytes_of_string "MyCal") sample_coefficient NONE)
                                 ++ []) user_file_session in
  r = Ret tt /\ m_CalFileID k' = m_Calindex user_file_session /\
  m_CalFileName k' = selected_name user_file_session /\
  forall i j, (i < 3)%nat -> (j < 3)%nat ->
    (Qabs (cal (fs k') i j - mat_get (colorMatrix sample_coefficient) i j) <=
     Qabs (mat_get (colorMatrix sample_coefficient) i j) / 16384)%Q.
Proof.
  assert (H1 : factory_selected user_file_session = false) by (vm_compute; reflexivity).
  assert (H2 : Forall kfloat_range (entries9 (colorMatrix sample_coefficient))).
  { apply Forall_forall. intros x Hx. apply kfloat_range_b_spec. revert x Hx.
    apply forallb_forall. vm_compute. reflexivity. }
  split; [exact H1|split; [exact H2|]].
  exact (packUserMatrix_loadedCalFile (bytes_of_string "MyCal") sample_coefficient [] _ H1 H2).
Defined.

Lemma unpackCalMan_float_ieee_witness :
  bytes_ok [0; 0; 0; 0; 0; 0; 248; 63] /\
  (unpackCalMan_float [0; 0; 0; 0; 0; 0; 248; 63]%Z ==
   ieee_normal ([0; 0; 0] ++ skipn 3 [0; 0; 0; 0; 0; 0; 248; 63])%Z)%Q /\
  (unpackCalMan_float (repeat 0%Z 8) == pow2 (-1023))%Q.
Proof.
  assert (H : bytes_ok [0; 0; 0; 0; 0; 0; 248; 63])
    by (repeat constructor; unfold is_byte; lia).
  split; [exact H|exact (unpackCalMan_float_ieee _ H)].
Defined.

Lemma setCalFileList_names_witness :
  let s := sample_list_reply (sample_names 0) in
  let k := KClmtr_init (mkPort true [] [] []) false false false (-1) in
  length (m_CalFileList k) = 99%nat /\ (forall n, (1 <= n <= 96)%nat -> slot_ok s n = true) /\
  exists L, setCalFileList s k = (set_m_CalFileList k L, Ret tt) /\ length L = 99%nat /\
  forall n, nth n L [] =
    if Nat.eqb n 0 then bytes_of_string "Factory Cal File"
    else if Nat.leb n 96 then strip (slot_name (cal_slot s n))
    else nth n (m_CalFileList k) [].
Proof.
  intros s k. assert (H1 : length (m_CalFileList k) = 99%nat) by reflexivity.
  assert (H2 : forall n, (1 <= n <= 96)%nat -> slot_ok s n = true)
    by (intros n Hn; apply (forallb_seq (slot_ok s) 1 96); [vm_compute; reflexivity|lia]).
  split; [exact H1|split; [exact H2|exact (setCalFileList_names s k H1 H2)]].
Defined.

Lemma storeMatrices_blank_name_fails_witness :
  let lst := sample_list_reply (sample_names 5) in
  let k := store_session lst in
  let f := fst (packUserMatrix (bytes_of_string "MyCal") sample_coefficient NONE) in
  let '(k1, _) := sendK_cmd self_thread CALFILE_SAVING k in
  let '(k2, r2) := sendSerial (appendMatrixPassword 3 f) 3 5 k1 in
  let '(k3, _) := sendK_cmd self_thread CALFILE_FILELIST k2 in
  sendK_cmd self_thread CALFILE_SAVING k = (k1, Ret (NONE, bytes_of_string "D9")) /\
  snd (packUserMatrix (bytes_of_string "MyCal") sample_coefficient NONE) = NONE /\
  sendSerial (appendMatrixPassword 3 f) 3 5 k1 = (k2, Ret (NONE, bytes_of_string "<0>")) /\
  bytes_eqb (bytes_of_string "<0>") (bytes_of_string "<e>") = false /\
  sendK_cmd self_thread CALFILE_FILELIST k2 = (k3, Ret (NONE, lst)) /\
  (1 <= 5 <= 96)%nat /\ (forall n, (1 <= n < 5)%nat -> slot_ok lst n = true) /\
  slot_ok lst 5 = false /\
  storeMatrices self_thread 3 (bytes_of_string "MyCal") sample_coefficient k =
  (set_m_CalFileList k3 (set_names (list_set (m_CalFileList k3) 0
                                      (bytes_of_string "Factory Cal File")) lst 1 (5 - 1)),
   Ret CAL_STORING).
Proof.
  intros lst k f. cbv zeta.
  destruct (sendK_cmd self_thread CALFILE_SAVING k) as [k1 r1] eqn:E1.
  destruct (sendSerial (appendMatrixPassword 3 f) 3 5 k1) as [k2 r2] eqn:E2.
  destruct (sendK_cmd self_thread CALFILE_FILELIST k2) as [k3 r3] eqn:E3.
  assert (R1 : r1 = Ret (NONE, bytes_of_string "D9")).
  { pose proof (f_equal snd E1) as H. cbn [snd] in H. rewrite <- H. vm_compute. reflexivity. }
  assert (K1 : k1 = fst (sendK_cmd self_thread CALFILE_SAVING k)) by now rewrite E1.
  assert (R2 : r2 = Ret (NONE, bytes_of_string "<0>")).
  { pose proof (f_equal snd E2) as H. cbn [snd] in H. rewrite <- H, K1. vm_compute. reflexivity. }
  assert (K2 : k2 = fst (sendSerial (appendMatrixPassword 3 f) 3 5 k1)) by now rewrite E2.
  assert (R3 : r3 = Ret (NONE, lst)).
  { pose proof (f_equal snd E3) as H. cbn [snd] in H. rewrite <- H, K2, K1. vm_compute. reflexivity. }
  subst r1 r2 r3.
  assert (Hp : snd (packUserMatrix (bytes_of_string "MyCal") sample_coefficient NONE) = NONE)
    by (vm_compute; reflexivity).
  assert (Hr : bytes_eqb (bytes_of_string "<0>") (bytes_of_string "<e>") = false)
    by (vm_compute; reflexivity).
  assert (Hj : (1 <= 5 <= 96)%nat) by lia.
  assert (Hok : forall n, (1 <= n < 5)%nat -> slot_ok lst n = true)
    by (intros n Hn; apply (forallb_seq (slot_ok lst) 1 4); [vm_compute; reflexivity|lia]).
  assert (Hbad : slot_ok lst 5 = false) by (vm_compute; reflexivity).
  do 8 (split; [first [assumption|reflexivity]|]).
  exact (storeMatrices_blank_name_fails self_thread 3 (bytes_of_string "MyCal") sample_coefficient
           k k1 k2 k3 (bytes_of_string "<0>") lst 5 E1 Hp E2 Hr E3 Hj Hok Hbad).
Defined.

Lemma setCalFileID_ge_96_witness :
  let k := KClmtr_init (mkPort true [] [] []) false false false (-1) in
  96 <= 96 /\
  setCalFileID self_thread 96 k = setCalFileID self_thread (m_Calindex k) k /\
  (m_Calindex k = 0 ->
   setCalFileID self_thread 96 k =
   (set_fs (set_m_CalFileName (set_m_CalFileID k 0) (bytes_of_string "Factory Cal File"))
           (fs_set_cal (fs k) (rows3 identity9)), Ret tt)).
Proof. intros k. split; [lia|apply setCalFileID_ge_96; lia]. Defined.

End CalFiles.
