(* ===== verification/CalFileList.v ===== *)
(** * The printed calibration-file list [getCalFileList()]
      (src/KClmtr.cpp lines 308-316)

    [getCalFileList] renders the names of files 0 to 96 of [m_CalFileList]
    as ["<id>: <name>"], the id printed by [intToString] (ErrorText).  The
    reader [parse_entry] takes the leading digits as the id and the text
    after [": "] as the name; the roundtrip theorem shows that every entry
    reads back as its id and the name stored in the session. *)

From Stdlib Require Import String Ascii ZArith List Bool Lia.
From S2P Require Import Prelude ErrorText Protocol Session.
Import ListNotations.
Open Scope Z_scope.

Module CalFileList.

Import ErrorText Protocol Session.

(** [getCalFileList()]: [for (i = 0; i < 97; ++i)
    CalList.push_back(intToString(i) + ": " + m_CalFileList[i])]. *)
Definition getCalFileList (k : KState) : list (list Z) :=
  map (fun i => intToString (Z.of_nat i) ++ bytes_of_string ": " ++ nth i (m_CalFileList k) [])
    (seq 0 97).

(** ** A reader of the entries *)

(** The leading decimal digits of [s] and the rest. *)
Fixpoint take_digits (s : list Z) : list Z * list Z :=
  match s with
  | [] => ([], [])
  | c :: r => if is_digit c then let '(d, rest) := take_digits r in (c :: d, rest) else ([], s)
  end.

(** An entry ["<id>: <name>"] read back as its id and name. *)
Definition parse_entry (s : list Z) : Z * list Z :=
  let '(d, rest) := take_digits s in (decimal_value d, skipn 2 rest).

(** ** Lemmas *)

Lemma take_digits_app (d r : list Z) :
  forallb is_digit d = true -> is_digit (hd 0 r) = false ->
  take_digits (d ++ r) = (d, r).
Proof.
  intros Hd Hr. induction d as [|c d IH]; cbn [app take_digits].
  - destruct r as [|c r]; [reflexivity|]. cbn [hd] in Hr. cbn [take_digits]. now rewrite Hr.
  - cbn [forallb] in Hd. apply andb_prop in Hd as [Hc Hd]. rewrite Hc, IH by exact Hd. reflexivity.
Qed.

Lemma length_getCalFileList (k : KState) : length (getCalFileList k) = 97%nat.
Proof. unfold getCalFileList. rewrite length_map. apply length_seq. Qed.

Lemma nth_getCalFileList (k : KState) (i : nat) :
  (i < 97)%nat ->
  nth i (getCalFileList k) [] =
  intToString (Z.of_nat i) ++ bytes_of_string ": " ++ nth i (m_CalFileList k) [].
Proof.
  intros Hi. unfold getCalFileList.
  set (f := fun i => intToString (Z.of_nat i) ++ bytes_of_string ": " ++ nth i (m_CalFileList k) []).
  rewrite nth_indep with (d' := f O) by (rewrite length_map, length_seq; exact Hi).
  rewrite map_nth, seq_nth by exact Hi. reflexivity.
Qed.

(** ** Properties *)

(** C40: [getCalFileList] lists 97 entries, and entry [i] reads back as
    the id [i] (printed by [intToString] as a canonical numeral) and the
    name [m_CalFileList[i]] stored in the session, whatever that name
    holds. *)
Theorem getCalFileList_roundtrip (k : KState) (i : nat) :
  (i < 97)%nat ->
  length (getCalFileList k) = 97%nat /\
  parse_entry (nth i (getCalFileList k) []) = (Z.of_nat i, nth i (m_CalFileList k) []).
Proof.
  intros Hi. split; [apply length_getCalFileList|]. rewrite nth_getCalFileList by exact Hi.
  destruct (intToString_canonical (Z.of_nat i) ltac:(lia)) as [[Hd _] Hv].
  unfold parse_entry. rewrite take_digits_app by (auto; reflexivity). rewrite Hv. reflexivity.
Qed.

Lemma getCalFileList_roundtrip_witness :
  let k := set_m_CalFileList (KClmtr_init (mkPort true [] [] []) false false false (-1))
             (repeat (bytes_of_string "Blank") 99) in
  (42 < 97)%nat /\
  length (getCalFileList k) = 97%nat /\
  parse_entry (nth 42 (getCalFileList k) []) = (Z.of_nat 42, nth 42 (m_CalFileList k) []).
Proof. intros k. split; [lia|]. apply (getCalFileList_roundtrip k 42). lia. Defined.

End CalFileList.
