(* ===== verification/BlackCal.v ===== *)
(** * Black calibration (src/KClmtr.cpp lines 1653-1744, 2471-2486)

    The black level of the three sensors is a [BlackMatrix]: a row of
    three counts for each of the six ranges and the temperature.  The
    controller reads the device's stored matrices ([getFlashMatrix],
    [getRAMMatrix]), the signed coefficient matrix
    ([getCoefficientMatrix]), and captures a new black level
    ([captureBlackLevel]): one counts reading checks that the two
    thresholds are in [50, 200], [B9] makes the device measure a new
    matrix into RAM, [B7] and the password store it into flash.

    The operations run in the state-and-exception monad of [CalFiles] on
    the session, sending their commands through
    [sendMessageToKColorimeter] (which stops a running mode first); none of
    them throws.  The wait loop of [stopThread2] is the section variable
    [wait], as in [CalFiles].

    The theorems give the decoding of the coefficient matrix against a
    sign-magnitude reference, and the outcome of [captureBlackLevel] on
    each answer to the store command. *)

From Stdlib Require Import String Ascii ZArith QArith List Bool Lia.
From S2P Require Import Prelude ErrorCodes Codec Replies Protocol Session CalFiles.
Import ListNotations.
Import KleinsErrorCodes.
Open Scope Z_scope.

Module BlackCal.

Import Codec Replies Protocol Session CalFiles.

(** [checkTH1andTH2(counts)]: both thresholds in [50, 200]. *)
Definition checkTH1andTH2 (counts : Counts) : bool :=
  let CheckTH1_and_TH2 := true in
  let CheckTH1_and_TH2 :=
    if (th1 counts <? 50) || (200 <? th1 counts) then false else CheckTH1_and_TH2 in
  let CheckTH1_and_TH2 :=
    if (th2 counts <? 50) || (200 <? th2 counts) then false else CheckTH1_and_TH2 in
  CheckTH1_and_TH2.

(** The password frame ["{00000000}@%#\r"]. *)
Definition black_password : string :=
  "{00000000}@%#" ++ String (ascii_of_nat 13) EmptyString.

(** One coefficient of [getCoefficientMatrix]: the big-endian word [i],
    [32768 - w] above [32768], over [4096]. *)
Definition coef_word (myRead : list Z) (i : nat) : Q :=
  let mySin := myRead.[(i + 1) * 2] in
  let mySin := mySin * 256 + myRead.[(i + 1) * 2 + 1] in
  let mySin := if 32768 <? mySin then 32768 - mySin else mySin in
  (inject_Z mySin / 4096)%Q.

(** The signed reading of a 16-bit sign-magnitude word, the reference
    [coef_word] is compared with. *)
Definition sign_magnitude (w : Z) : Q :=
  ((if Z.testbit w 15 then -1 else 1) * inject_Z (w mod 32768) / 4096)%Q.

Section Commands.

Variable wait : KState -> KState.

(** [sendMessageToKColorimeter(m)]: the reply is dropped. *)
Definition sendK_clear (m : command) : M Z :=
  let* '(error, _) := sendK_cmd wait m in ret error.

(** [getNextMeasureCount()]: one command to clear the buffer, one read. *)
Definition getNextMeasureCount : M Counts :=
  let* error := sendK_clear COUNTS_4PERSECOND in
  if negb (error =? NONE) then ret (Counts_of_error error)
  else
    let* '(error, returnString) := sendK_cmd wait COUNTS_4PERSECOND in
    if negb (error =? NONE) then ret (Counts_of_error error)
    else ret (Counts_of_string returnString).

(** [captureBlackLevel()]. *)
Definition captureBlackLevel : M BlackMatrix :=
  let* counts := getNextMeasureCount in
  if negb (checkTH1andTH2 counts) then
    ret (BlackMatrix_of_error (Z.lor (errorcode counts) BLACK_STORING_ROM))
  else
    let* '(error, returnString) := sendK_cmd wait BLACKCAL_NEW_RAM in
    if negb (error =? NONE) then ret (BlackMatrix_of_error error)
    else
      let ranges := BlackMatrix_of_read returnString error in
      if negb (bm_errorcode ranges =? NONE) then ret ranges
      else
        let* '(error, returnString) := sendK_cmd wait BLACKCAL_STORE in
        if negb (error =? NONE) ||
           negb (bytes_eqb returnString (bytes_of_string (commandString BLACKCAL_STORE)))
        then ret (BlackMatrix_of_error error)
        else
          let* '(error, returnString) := sendK wait black_password 3 1 in
          if negb (error =? NONE) then ret (BlackMatrix_of_error error)
          else if negb (bytes_eqb (substr returnString 0 3) (bytes_of_string "<0>")) then
            ret (BlackMatrix_of_error (Z.lor error BLACK_STORING_ROM))
          else ret ranges.

(** [getFlashMatrix()] and [getRAMMatrix()]: one command and the
    [BlackMatrix(read, error)] constructor. *)
Definition read_black (m : command) : M BlackMatrix :=
  let* '(error, returnString) := sendK_cmd wait m in
  if negb (error =? NONE) then ret (BlackMatrix_of_error error)
  else ret (BlackMatrix_of_read returnString error).

Definition getFlashMatrix : M BlackMatrix := read_black BLACKCAL_FLASH.

Definition getRAMMatrix : M BlackMatrix := read_black BLACKCAL_RAM.

(** [getCoefficientMatrix()]: eighteen signed words; [matrix[18]] is
    never written, and the [therm] it becomes is overwritten with 0, so
    the model puts 0 there. *)
Definition getCoefficientMatrix : M BlackMatrix :=
  let* '(error, returnString) := sendK_cmd wait BLACKCAL_COEFFICIENTMATRIX in
  if negb (error =? 0) then ret (BlackMatrix_of_error error)
  else
    let matrix := map (coef_word returnString) (seq 0 18) ++ [0%Q] in
    let coefficientMatrix := BlackMatrix_of_matrix matrix error in
    ret (mkBlackMatrix (bm_range coefficientMatrix) 0 (bm_errorcode coefficientMatrix)).

End Commands.

(** ** A scripted black calibration *)

(** A counts frame with both thresholds at 100, a [B9] reply of nineteen
    words of 1000, and a [B7] answer other than ["B7"]. *)
Definition sample_counts : list Z :=
  counts_frame [100; 100; 100] [100; 100; 100] 300 100 100 1 1 1 0.

Definition sample_black : list Z :=
  [0; 0] ++ flat_map (fun w => [w / 256; w mod 256]) (repeat 1000 19) ++ [0; 0; 0].

Definition black_session (store_reply : list Z) : KState :=
  KClmtr_init (mkPort true [] [Arrive sample_counts; Arrive sample_counts;
                               Arrive sample_black; Arrive store_reply] [])
    false false false (-1).

(** A coefficient reply: header, eighteen words (one of them [0x8000]
    and one [0xFFFF]), and padding up to 133 bytes. *)
Definition sample_coefficients : list Z :=
  [0; 0] ++ flat_map (fun w => [w / 256; w mod 256])
                     ([32768; 65535; 4096] ++ repeat 0 15) ++ repeat 0 95.

(** ** Lemmas *)

(** Bit 15 of a 16-bit word is its comparison with [0x8000]. *)
Lemma testbit15_word (w : Z) : 0 <= w < 65536 -> Z.testbit w 15 = (32768 <=? w).
Proof.
  intros Hw. pose proof (Z.testbit_spec' w 15 ltac:(lia)) as E. change (2 ^ 15) with 32768 in E.
  destruct (Z.leb_spec 32768 w).
  - assert (Hq : w / 32768 = 1) by (symmetry; apply Z.div_unique with (w - 32768); lia).
    rewrite Hq in E. destruct (Z.testbit w 15); [reflexivity | discriminate].
  - rewrite Z.div_small in E by lia. destruct (Z.testbit w 15); [discriminate | reflexivity].
Qed.

Lemma black_word_range (myRead : list Z) (i : nat) :
  bytes_ok myRead -> 0 <= black_word myRead i < 65536.
Proof.
  intros Hb. unfold black_word. pose proof (byte_at_ok _ ((i + 1) * 2) Hb).
  pose proof (byte_at_ok _ ((i + 1) * 2 + 1) Hb). unfold is_byte in *. lia.
Qed.

(** A word of the coefficient matrix read against the sign-magnitude
    reference: equal everywhere but at [0x8000], the negative zero, which
    reads as [+8]. *)
Lemma coef_word_sign_magnitude (myRead : list Z) (i : nat) :
  bytes_ok myRead ->
  (black_word myRead i <> 32768 -> (coef_word myRead i == sign_magnitude (black_word myRead i))%Q) /\
  (black_word myRead i = 32768 -> (coef_word myRead i == 8)%Q).
Proof.
  intros Hb. pose proof (black_word_range myRead i Hb) as Hw.
  unfold coef_word, sign_magnitude. fold (black_word myRead i).
  set (w := black_word myRead i) in *. rewrite testbit15_word by exact Hw.
  split; intros Hn.
  - destruct (Z.ltb_spec 32768 w) as [Hg|Hl].
    + rewrite (proj2 (Z.leb_le 32768 w)) by lia.
      replace (w mod 32768) with (w - 32768) by (apply Z.mod_unique with 1; lia).
      replace (32768 - w) with (- (w - 32768)) by lia. rewrite inject_Z_opp. field.
    + rewrite (proj2 (Z.leb_gt 32768 w)) by lia. rewrite Z.mod_small by lia. field.
  - rewrite Hn. reflexivity.
Qed.

Lemma Qdiv4096_bounds (m : Z) : -32768 <= m <= 32768 -> (-8 <= inject_Z m / 4096 <= 8)%Q.
Proof.
  intros Hm. assert (H0 : (0 < 4096)%Q) by (unfold Qlt; cbn; lia).
  split; [apply Qle_shift_div_l | apply Qle_shift_div_r]; try exact H0.
  - change (-8 * 4096)%Q with (inject_Z (-32768)). rewrite <- Zle_Qle. lia.
  - change (8 * 4096)%Q with (inject_Z 32768). rewrite <- Zle_Qle. lia.
Qed.

(** A coefficient lies in [[-8, 8]]. *)
Lemma coef_word_bounds (myRead : list Z) (i : nat) :
  bytes_ok myRead -> (-8 <= coef_word myRead i <= 8)%Q.
Proof.
  intros Hb. pose proof (black_word_range myRead i Hb) as Hw.
  unfold coef_word. fold (black_word myRead i). set (w := black_word myRead i) in *.
  destruct (Z.ltb_spec 32768 w); apply Qdiv4096_bounds; lia.
Qed.

(** An entry of the coefficient matrix is the word [3 (5 - r) + c]. *)
Lemma coefficient_entry (rs : list Z) (r c : nat) :
  (r < 6)%nat -> (c < 3)%nat ->
  nth c (nth r (fst (fromMatrix (map (coef_word rs) (seq 0 18) ++ [0%Q]))) []) 0%Q =
  coef_word rs (3 * (5 - r) + c).
Proof.
  intros Hr Hc.
  do 6 (destruct r as [|r]; [do 3 (destruct c as [|c]; [reflexivity|]); lia|]). lia.
Qed.

(** ** Properties *)

(** C27: when the device answers [S0] without error, [getCoefficientMatrix]
    returns the eighteen words as signed coefficients, range [r] taking
    words [3 (5 - r)] to [3 (5 - r) + 2]: each equals the sign-magnitude
    reading of its word over 4096, except the negative zero [0x8000],
    which reads as [+8]; all lie in [[-8, 8]], the temperature is 0 and
    no error is reported. *)
Theorem getCoefficientMatrix_decode (wait : KState -> KState) (k k' : KState) (rs : list Z) :
  sendK_cmd wait BLACKCAL_COEFFICIENTMATRIX k = (k', Ret (NONE, rs)) -> bytes_ok rs ->
  exists b, getCoefficientMatrix wait k = (k', Ret b) /\
    bm_therm b = 0%Q /\ bm_errorcode b = NONE /\ length (bm_range b) = 6%nat /\
    forall r c, (r < 6)%nat -> (c < 3)%nat ->
      let w := black_word rs (3 * (5 - r) + c) in
      let x := nth c (nth r (bm_range b) []) 0%Q in
      (w <> 32768 -> (x == sign_magnitude w)%Q) /\ (w = 32768 -> (x == 8)%Q) /\ (-8 <= x <= 8)%Q.
Proof.
  intros Hs Hb. unfold getCoefficientMatrix, bind. rewrite Hs. cbv beta iota.
  change (NONE =? 0) with true. cbv beta iota delta [negb].
  unfold BlackMatrix_of_matrix.
  destruct (fromMatrix (map (coef_word rs) (seq 0 18) ++ [0%Q])) as [range therm] eqn:E.
  eexists. split; [reflexivity|]. cbn [bm_therm bm_errorcode bm_range].
  split; [reflexivity|]. split; [reflexivity|]. split.
  { apply (f_equal fst) in E. cbn in E. now rewrite <- E. }
  intros r c Hr Hc.
  replace range with (fst (fromMatrix (map (coef_word rs) (seq 0 18) ++ [0%Q]))) by now rewrite E.
  rewrite coefficient_entry by assumption.
  destruct (coef_word_sign_magnitude rs (3 * (5 - r) + c) Hb) as [H1 H2].
  split; [exact H1|]. split; [exact H2|]. apply coef_word_bounds, Hb.
Qed.

Lemma getCoefficientMatrix_decode_witness :
  let k := KClmtr_init (mkPort true [] [Arrive sample_coefficients] []) false false false (-1) in
  sendK_cmd (fun k => k) BLACKCAL_COEFFICIENTMATRIX k =
    (fst (sendK_cmd (fun k => k) BLACKCAL_COEFFICIENTMATRIX k), Ret (NONE, sample_coefficients)) /\
  bytes_ok sample_coefficients /\
  exists b, getCoefficientMatrix (fun k => k) k =
              (fst (sendK_cmd (fun k => k) BLACKCAL_COEFFICIENTMATRIX k), Ret b) /\
    bm_therm b = 0%Q /\ bm_errorcode b = NONE /\ length (bm_range b) = 6%nat /\
    forall r c, (r < 6)%nat -> (c < 3)%nat ->
      let w := black_word sample_coefficients (3 * (5 - r) + c) in
      let x := nth c (nth r (bm_range b) []) 0%Q in
      (w <> 32768 -> (x == sign_magnitude w)%Q) /\ (w = 32768 -> (x == 8)%Q) /\ (-8 <= x <= 8)%Q.
Proof.
  intros k.
  assert (Hs : sendK_cmd (fun k => k) BLACKCAL_COEFFICIENTMATRIX k =
    (fst (sendK_cmd (fun k => k) BLACKCAL_COEFFICIENTMATRIX k), Ret (NONE, sample_coefficients)))
    by (vm_compute; reflexivity).
  assert (Hb : bytes_ok sample_coefficients)
    by (unfold bytes_ok; vm_compute; repeat constructor; discriminate).
  split; [exact Hs|]. split; [exact Hb|].
  exact (getCoefficientMatrix_decode (fun k => k) k _ sample_coefficients Hs Hb).
Defined.

(** C17: [captureBlackLevel] after a good threshold check and a valid
    [B9] matrix: when [B7] is answered without error but not with ["B7"],
    it returns [BlackMatrix(NONE)], a zero matrix with no error, and
    never sends the password; when [B7] and the password are
    acknowledged, it returns the matrix read from [B9]. *)
Theorem captureBlackLevel_store (wait : KState -> KState) (k k1 k2 k3 : KState) (counts : Counts)
    (rs rs3 : list Z) :
  getNextMeasureCount wait k = (k1, Ret counts) -> checkTH1andTH2 counts = true ->
  sendK_cmd wait BLACKCAL_NEW_RAM k1 = (k2, Ret (NONE, rs)) ->
  bm_errorcode (BlackMatrix_of_read rs NONE) = NONE ->
  (sendK_cmd wait BLACKCAL_STORE k2 = (k3, Ret (NONE, rs3)) ->
   rs3 <> bytes_of_string "B7" ->
   captureBlackLevel wait k = (k3, Ret (BlackMatrix_of_error NONE))) /\
  (sendK_cmd wait BLACKCAL_STORE k2 = (k3, Ret (NONE, bytes_of_string "B7")) ->
   forall k4 rs4, sendK wait black_password 3 1 k3 = (k4, Ret (NONE, rs4)) ->
   substr rs4 0 3 = bytes_of_string "<0>" ->
   captureBlackLevel wait k = (k4, Ret (BlackMatrix_of_read rs NONE))).
Proof.
  intros Hc Ht Hn He. unfold captureBlackLevel.
  rewrite (bind_Ret _ _ _ _ _ Hc), Ht. cbv beta iota delta [negb].
  rewrite (bind_Ret _ _ _ _ _ Hn). cbv beta iota. change (NONE =? NONE) with true.
  cbv beta iota delta [negb]. rewrite He. change (NONE =? NONE) with true. cbv beta iota delta [negb].
  split.
  - intros Hs Hne. rewrite (bind_Ret _ _ _ _ _ Hs). cbv beta iota. change (NONE =? NONE) with true.
    cbv beta iota delta [negb orb].
    unfold bytes_eqb. destruct (list_eq_dec Z.eq_dec rs3 _) as [Eq|]; [contradiction|reflexivity].
  - intros Hs k4 rs4 Hp H0. rewrite (bind_Ret _ _ _ _ _ Hs). cbv beta iota. change (NONE =? NONE) with true.
    cbv beta iota delta [negb orb].
    unfold bytes_eqb at 1. destruct (list_eq_dec Z.eq_dec _ _) as [_|Hneq]; [|now contradiction Hneq].
    rewrite (bind_Ret _ _ _ _ _ Hp). cbv beta iota. change (NONE =? NONE) with true.
    cbv beta iota delta [negb]. rewrite H0. reflexivity.
Qed.

Lemma captureBlackLevel_store_witness :
  let w := fun k : KState => k in
  let k := black_session (bytes_of_string "B0") in
  let k1 := fst (getNextMeasureCount w k) in
  let k2 := fst (sendK_cmd w BLACKCAL_NEW_RAM k1) in
  let k3 := fst (sendK_cmd w BLACKCAL_STORE k2) in
  getNextMeasureCount w k = (k1, Ret (Counts_of_string sample_counts)) /\
  checkTH1andTH2 (Counts_of_string sample_counts) = true /\
  sendK_cmd w BLACKCAL_NEW_RAM k1 = (k2, Ret (NONE, sample_black)) /\
  bm_errorcode (BlackMatrix_of_read sample_black NONE) = NONE /\
  sendK_cmd w BLACKCAL_STORE k2 = (k3, Ret (NONE, bytes_of_string "B0")) /\
  captureBlackLevel w k = (k3, Ret (BlackMatrix_of_error NONE)).
Proof.
  intros w k k1 k2 k3.
  assert (H1 : getNextMeasureCount w k = (k1, Ret (Counts_of_string sample_counts))) by (vm_compute; reflexivity).
  assert (H2 : checkTH1andTH2 (Counts_of_string sample_counts) = true) by (vm_compute; reflexivity).
  assert (H3 : sendK_cmd w BLACKCAL_NEW_RAM k1 = (k2, Ret (NONE, sample_black))) by (vm_compute; reflexivity).
  assert (H4 : bm_errorcode (BlackMatrix_of_read sample_black NONE) = NONE) by (vm_compute; reflexivity).
  assert (H5 : sendK_cmd w BLACKCAL_STORE k2 = (k3, Ret (NONE, bytes_of_string "B0"))) by (vm_compute; reflexivity).
  repeat (split; [assumption|]).
  apply (proj1 (captureBlackLevel_store w k k1 k2 k3 _ sample_black (bytes_of_string "B0") H1 H2 H3 H4) H5).
  discriminate.
Defined.

End BlackCal.
