(* ===== verification/SessionApi.v ===== *)
(** * The controller side of the session: starting and stopping the
      modes, the fresh-result getters, and the session as a transition
      system, the configuration setters and [connect] (src/KClmtr.cpp
      lines 214-263, 322-381, 508-625, 1749-1820, 1953-1959,
      2317-2403, 2452-2470)

    On the controller's thread the wait loop of [stopThread2] runs the
    worker ([wait_worker]) until it reports [NOT_RUNNING]; two worker
    steps always suffice once the stop has been requested (the prologue,
    then the loop test that exits through [endThread]), which is the fuel
    given to [run_worker] and the content of [stopThread2_ctrl_spec] (SessionProps).

    [startThread2] creates the thread and waits until it reports [RUN]:
    the model merges the creation with the worker's first statement
    ([threadModeChild = RUN]); thread creation is taken to succeed.

    [setRange] and [setAimingLights] send their commands through
    [sendMessageToKColorimeter], which stops the running mode first; the
    configuration setters (lines 261, 322-381, 558-580, 2017) write the
    members, stopping the colour mode where the code does.

    [connect] (lines 2353-2383) opens the port, identifies the device
    with [getModelSN] and [setSerialNumberValues] (2317-2347), reads the
    file list and selects the current file; it runs in the
    state-and-exception monad of [CalFiles], since [trim] can throw
    inside it and its [catch (...)] returns [false].  [testConnection]
    (2384-2403) does the identification on a port of its own.

    The session [step] relation interleaves a call of the public API (the
    mode functions, the settings, the calibration-file functions of
    [CalFiles] and the black calibration of [BlackCal]) with a step of
    the worker, at the grain of one loop iteration. *)

From Stdlib Require Import String Ascii ZArith QArith List Bool Relations Lia.
From S2P Require Import Prelude ErrorCodes Replies Protocol Averager Measure Spectrum Matrix Calibration FlickerStream FFTRangeCal Session CalFiles BlackCal.
Import ListNotations.
Import KleinsErrorCodes.
Open Scope Z_scope.

Module SessionApi.

Import Replies Protocol Averager Measure Spectrum Calibration FlickerStream FFTRangeCal Session CalFiles BlackCal.

Section Controller.

Context `{Libm}.

(** [while (threadModeChild != NOT_RUNNING) sleep(1)], for at most [fuel]
    worker steps. *)
Fixpoint run_worker (fuel : nat) (k : KState) : KState :=
  match fuel with
  | O => k
  | S f => if ThreadMode_beq (threadModeChild k) NOT_RUNNING then k
           else run_worker f (worker_step k)
  end.

(** The wait of [stopThread2] on the controller's thread. *)
Definition wait_worker (k : KState) : KState := run_worker 2 k.

(** [startThread2(m)]. *)
Definition startThread2 (k : KState) (m : MeasureMode) : KState :=
  let k := stopThread2 wait_worker k in
  let k := set_measureMode k m in
  let k := set_threadModeParent k RUN in
  let k := set_threadModeChild k RUN in
  set_FFTString (set_worker k WPrologue) [].

(** [startMeasuring()]: the averaging arrays are allocated afresh. *)
Definition startMeasuring (k : KState) : KState :=
  let k := stopFlicker wait_worker k in
  let k := stopMeasureCounts wait_worker k in
  let k := set_m_MeasuringN5 k true in
  let n := maxAvg (avg k) in
  let k := set_avg k (mkAvgState (repeat V3zero (Z.to_nat n)) 0 n) in
  startThread2 k MEASURE.

(** [startMeasureCounts()]. *)
Definition startMeasureCounts (k : KState) : KState :=
  let k := stopFlicker wait_worker k in
  let k := stopMeasuring wait_worker k in
  let k := startThread2 k COUNTS in
  set_m_MeasuringM6 k true.

(** The range calibration part of [startFlicker]: [inl] the state to go
    on with, [inr] an early return. *)
Definition load_coef (k : KState) : KState + (KState * Z) :=
  if checkCoef (fs k) then inl k
  else
    let '(k, (error, returnString)) := send_cmd wait_worker k FLICKER_INFO in
    if negb (error =? NONE) then inr (k, error)
    else
      let '(fw, st, error) := printStartupString (fs k) returnString in
      let k := set_fs (set_m_firmware k fw) st in
      if negb (error =? NONE) then inr (k, error) else inl k.

(** [startFlicker(grabConstantly)]. *)
Definition startFlicker (k : KState) (grabConstantly : bool) : KState * Z :=
  let k := set_fs k (resetFlicker (fs k)) in
  if String.prefix "KV-" (m_Model k) then (k, FFT_NOT_SUPPORTED)
  else
    let k := stopFlicker wait_worker k in
    match load_coef k with
    | inr r => r
    | inl k =>
        if negb (checkCoef (fs k)) then (k, FFT_RANGE_CAL)
        else
          let k := set_fs k (fs_set_flickering (fs k) true) in
          if grabConstantly then
            let k := set_fs k (fs_set_flickering2 (fs k) false) in
            (startThread2 k FLICKER, NONE)
          else if isFlickerNew k then
            let k := set_fs k (fs_set_speed (fs k) 384) in
            let '(k, (error, _)) := send_cmd wait_worker k FLICKER_384PERSECOND in
            (k, error)
          else
            let k := set_fs k (fs_set_speed (fs k) 256) in
            let '(k, (error, _)) := send_cmd wait_worker k FLICKER_256PERSECOND in
            (k, error)
  end.

(** [getMeasurement(m)], [getMeasureCounts(c)], [getFlicker(f)]: the
    latest result and whether it is fresh; the flag is cleared. *)
Definition getMeasurement (k : KState) : KState * (Measurement * bool) :=
  (set_m_isMeasurefresh k false, (m_measure k, m_isMeasurefresh k)).

Definition getMeasureCounts (k : KState) : KState * (Counts * bool) :=
  (set_m_isCountsfresh k false, (m_counts k, m_isCountsfresh k)).

Definition getFlicker (k : KState) : KState * (Flicker * bool) :=
  (set_m_isFlickerfresh k false, (m_flicker k, m_isFlickerfresh k)).

(** ** One-shot colour measurement *)

(** The body and test of the [do { ... } while(...)] loop of
    [getNextMeasurement(n)]: [i] readings done, [fuel] left.  The result
    says whether the loop ended by its test ([true]) or by the
    [return Measurement::fromError(error)] inside it ([false]).  The fuel
    [getNextMeasurement] gives is one more than the window, which the
    loop test never lets it use up ([getNextMeasurement_terminates]). *)
Fixpoint next_measure_loop (fuel : nat) (n i : Z) (k : KState) : KState * (bool * Measurement) :=
  match fuel with
  | O => (k, (true, fromError NONE))
  | S f =>
      let '(k, (error, mstring)) :=
        send_cmd wait_worker k (getColorMeasurmentCommand (m_speedMode k)) in
      if negb (error =? NONE) then (k, (false, fromError error))
      else
        let '(a, m) := parseAndPrintXYZ (m_Model k) (m_speedMode k) (m_ZeroNoise k) (m_CalFileID k)
                         (calMatrix (fs k)) (avg k) mstring (n <? 1) in
        let k := set_avg k a in
        let i := i + 1 in
        if negb (negb (has_flag (Measure.errorcode m) AVERAGING_LOW_LIGHT) && (n <? 1)) &&
           negb (maxAvg (avg k) <=? i)
        then next_measure_loop f n i k
        else (k, (true, m))
  end.

(** [getNextMeasurement(n)]: a window of [n] readings ([n < 1]: the
    current window in auto mode) over fresh averaging arrays, which are
    freed and the window restored after the loop, but not on an error
    inside it. *)
Definition getNextMeasurement (k : KState) (n : Z) : KState * Measurement :=
  let '(k, (error, _)) := send_cmd wait_worker k (getColorMeasurmentCommand (m_speedMode k)) in
  if negb (error =? NONE) then (k, fromError error)
  else
    let tempMaxAvg := maxAvg (avg k) in
    let newMax := if n <? 1 then maxAvg (avg k) else n in
    let k := set_avg k (mkAvgState (ring (avg k)) 0 newMax) in
    let k := set_avg k (mkAvgState (repeat V3zero (Z.to_nat newMax)) (avgLast (avg k)) newMax) in
    let '(k, (completed, m)) := next_measure_loop (S (Z.to_nat newMax)) n 0 k in
    if completed then
      let k := set_avg k (mkAvgState (ring (avg k)) 0 tempMaxAvg) in
      (set_avg k (mkAvgState [] (avgLast (avg k)) (maxAvg (avg k))), m)
    else (k, m).

(** ** One-shot flicker capture *)

(** [getNextFlicker()] (lines 1960-2016): the stream is restarted without
    the worker ([startFlicker(false)]), [numPass] frames and two bytes more
    are read in one go, realigned on the last frame start ([align_frames])
    and parsed by [parseAndPrintFFT], which recurses over the frames since
    [m_Flickering2] is set.  Only the path that parses stops the stream
    with [endFlicker].  [getNextFlicker_prepare] is its first two
    statements: [m_Flickering2 = true] and the stop of a running stream. *)
Definition getNextFlicker_prepare (k : KState) : KState :=
  let k := set_fs k (fs_set_flickering2 (fs k) true) in
  if flickering (fs k) then stopFlicker wait_worker k else k.

Definition getNextFlicker (k : KState) : KState * Flicker :=
  let '(k, e) := startFlicker (getNextFlicker_prepare k) false in
  if (e =? NONE) && flickering (fs k) then
    let k := set_port k (snd (readExisting (port k))) in
    let n := fft_numPass (fs k) in
    let '(k, (error, readString)) := readFromKColorimeter wait_worker k (96 * n + 2) (2 * n) [] in
    if negb (error =? NONE) then (k, Flicker_of_error error)
    else
      let correctString := align_frames readString n in
      if (Z.to_nat (96 * n) <=? length correctString)%nat then
        let '(flicker, _, st) := parseAndPrintFFT (Z.to_nat n) (fs k) correctString in
        let k := set_fs k (fs_set_flickering2 st false) in
        (endFlicker wait_worker k, flicker)
      else (k, Flicker_of_error FFT_BAD_STRING)
  else (k, Flicker_of_error FFT_BAD_STRING).

(** ** Device settings *)

(** The commands of the [switch] of [setRange(range)]. *)
Definition range_commands (range : Z) : list command :=
  match range with
  | 0 => [RANGE_FIXCURRENT]
  | 1 => [RANGE_FIXCURRENT; RANGE_FIX1]
  | 2 => [RANGE_FIXCURRENT; RANGE_FIX2]
  | 3 => [RANGE_FIXCURRENT; RANGE_FIX3]
  | 4 => [RANGE_FIXCURRENT; RANGE_FIX4]
  | 5 => [RANGE_FIXCURRENT; RANGE_FIX5]
  | 6 => [RANGE_FIXCURRENT; RANGE_FIX6]
  | _ => [RANGE_AUTO]
  end.

(** [setRange(range)]: each command goes through
    [sendMessageToKColorimeter]. *)
Definition setRange (k : KState) (range : Z) : KState :=
  let k := set_m_range k range in
  fold_left (fun k m => fst (send_cmd wait_worker k m)) (range_commands range) k.

(** [isPortOpen()]: a port found closed while the session believes it
    open (the device was unplugged) closes the session. *)
Definition isPortOpen (k : KState) : KState * bool :=
  let isOpen := port_open (port k) in
  if m_isOpen k && negb isOpen then (closePort wait_worker k, isOpen) else (k, isOpen).

(** [setAimingLights(onOff)]: only the models whose name starts with
    [K-10], [KV-10] or [K-80] have aiming lights. *)
Definition setAimingLights (k : KState) (onOff : bool) : KState :=
  if String.prefix "K-10" (m_Model k) || String.prefix "KV-10" (m_Model k) ||
     String.prefix "K-80" (m_Model k)
  then fst (send_cmd wait_worker k (if onOff then AIMINGLIGHTS_ON else AIMINGLIGHTS_OFF))
  else k.

(** ** Configuration setters *)

(** [m_flickerSettings.x = v] for each field [x] the setters write. *)
Definition fset_samples (s : FlickerSetting) (v : Z) : FlickerSetting :=
  mkFlickerSetting v (speed s) (numberOfPeaks s) (cosine s) (smoothing s) (JETIADiscount_DB s) (JEITADiscount_Percent s) (decibel s) (percent s) (corrections s).
Definition fset_numberOfPeaks (s : FlickerSetting) (v : Z) : FlickerSetting :=
  mkFlickerSetting (samples s) (speed s) v (cosine s) (smoothing s) (JETIADiscount_DB s) (JEITADiscount_Percent s) (decibel s) (percent s) (corrections s).
Definition fset_cosine (s : FlickerSetting) (v : bool) : FlickerSetting :=
  mkFlickerSetting (samples s) (speed s) (numberOfPeaks s) v (smoothing s) (JETIADiscount_DB s) (JEITADiscount_Percent s) (decibel s) (percent s) (corrections s).
Definition fset_smoothing (s : FlickerSetting) (v : bool) : FlickerSetting :=
  mkFlickerSetting (samples s) (speed s) (numberOfPeaks s) (cosine s) v (JETIADiscount_DB s) (JEITADiscount_Percent s) (decibel s) (percent s) (corrections s).
Definition fset_JETIADiscount_DB (s : FlickerSetting) (v : bool) : FlickerSetting :=
  mkFlickerSetting (samples s) (speed s) (numberOfPeaks s) (cosine s) (smoothing s) v (JEITADiscount_Percent s) (decibel s) (percent s) (corrections s).
Definition fset_JEITADiscount_Percent (s : FlickerSetting) (v : bool) : FlickerSetting :=
  mkFlickerSetting (samples s) (speed s) (numberOfPeaks s) (cosine s) (smoothing s) (JETIADiscount_DB s) v (decibel s) (percent s) (corrections s).
Definition fset_decibel (s : FlickerSetting) (v : DecibelMode) : FlickerSetting :=
  mkFlickerSetting (samples s) (speed s) (numberOfPeaks s) (cosine s) (smoothing s) (JETIADiscount_DB s) (JEITADiscount_Percent s) v (percent s) (corrections s).
Definition fset_percent (s : FlickerSetting) (v : PercentMode) : FlickerSetting :=
  mkFlickerSetting (samples s) (speed s) (numberOfPeaks s) (cosine s) (smoothing s) (JETIADiscount_DB s) (JEITADiscount_Percent s) (decibel s) v (corrections s).

(** [m_flickerSettings] replaced. *)
Definition set_flickerSettings (k : KState) (s : FlickerSetting) : KState :=
  let st := fs k in
  set_fs k (mkFState (flickering st) (flickering2 st) (fft_numPass st) s (fft_lastRange st)
                     (ripple st) (coeff1 st) (coeff2 st) (fft_count st) (calMatrix st)).

(** The setters of the analysis parameters: [setFFT_Cosine],
    [setFFT_Smoothing], [setFFT_PercentJEITA_Discount],
    [setFFT_DBJEITA_Discount], [setFFT_PercentMode], [setFFT_DBMode] and
    [setFFT_numberOfPeaks]. *)
Inductive fft_setting :=
| FFT_Cosine (use : bool) | FFT_Smoothing (use : bool)
| FFT_PercentJEITA_Discount (onOff : bool) | FFT_DBJEITA_Discount (onOff : bool)
| FFT_PercentMode (mode : PercentMode) | FFT_DBMode (mode : DecibelMode)
| FFT_numberOfPeaks (numberOfPeaks : Z).

Definition setFFT (k : KState) (x : fft_setting) : KState :=
  let s := flickerSettings (fs k) in
  set_flickerSettings k
    match x with
    | FFT_Cosine use => fset_cosine s use
    | FFT_Smoothing use => fset_smoothing s use
    | FFT_PercentJEITA_Discount onOff => fset_JEITADiscount_Percent s onOff
    | FFT_DBJEITA_Discount onOff => fset_JETIADiscount_DB s onOff
    | FFT_PercentMode mode => fset_percent s mode
    | FFT_DBMode mode => fset_decibel s mode
    | FFT_numberOfPeaks n => fset_numberOfPeaks s n
    end.

(** [setFFT_Samples(samples)]: a power of two in [[64, 2048]]; a running
    flicker measurement is restarted with the new buffer. *)
Definition setFFT_Samples (k : KState) (samples : Z) : KState * Z :=
  if (64 <=? samples) && (samples <=? 2048) && (Z.land samples (Z.lnot (samples - 1)) =? samples)
  then
    if negb (samples =? Spectrum.samples (flickerSettings (fs k))) then
      let k := set_flickerSettings k (fset_samples (flickerSettings (fs k)) samples) in
      if flickering (fs k) then
        let k := set_fs k (resetFlicker (fs k)) in
        startFlicker k (negb (flickering2 (fs k)))
      else (k, NONE)
    else (k, NONE)
  else (k, FFT_BAD_SAMPLES).

(** [setMaxAverageCount(maxAvg)]: a new window of 1 to 128 samples stops
    the colour mode. *)
Definition setMaxAverageCount (k : KState) (newMax : Z) : KState * bool :=
  if negb (maxAvg (avg k) =? newMax) && (newMax <=? 128) && (1 <=? newMax) then
    let k := stopMeasuring wait_worker k in
    (set_avg k (mkAvgState (ring (avg k)) (avgLast (avg k)) newMax), true)
  else (k, false).

(** [setMeasureSpeedMode(value)]. *)
Definition setMeasureSpeedMode (k : KState) (value : SpeedMode) : KState :=
  let k := if m_MeasuringN5 k then stopMeasuring wait_worker k else k in
  set_m_speedMode k value.

(** [setZeroNoise(zeroNoise)] and [setDeviceFlickerSpeed(use)]. *)
Definition setZeroNoise (k : KState) (zeroNoise : bool) : KState := set_m_ZeroNoise k zeroNoise.

Definition setDeviceFlickerSpeed (k : KState) (use : bool) : KState := set_m_DeviceFlickerSpeed k use.

(** ** Connecting *)

(** [s.find(prefix) == 0]. *)
Definition bytes_prefix (prefix s : list Z) : bool := bytes_eqb (firstn (length prefix) s) prefix.

(** [setSerialNumberValues(read, model, SN)]: the values of [model] and
    [SN] when it returns or throws, with its result or the exception of
    [trim]. *)
Definition setSerialNumberValues (read model SN : list Z) : list Z * list Z * exn bool :=
  if Nat.ltb (length read) 9 then ([], [], Ret false)
  else
    match substr_exn read 2 7 with
    | Throw => (model, SN, Throw)
    | Ret m0 =>
        match trim m0 with
        | Throw => (model, SN, Throw)
        | Ret model =>
            match substr_exn read 9 9 with
            | Throw => (model, SN, Throw)
            | Ret s0 =>
                match trim s0 with
                | Throw => (model, SN, Throw)
                | Ret SN =>
                    (model, SN, Ret (bytes_prefix (bytes_of_string "K-") model ||
                                     bytes_prefix (bytes_of_string "KV-") model))
                end
            end
        end
    end.

(** [sendMessageToSerialPort(comPort, m, readString)]. *)
Definition send_serial_cmd (p : Port) (m : command) : Z * list Z * Port :=
  sendMessageToSerialPort p (commandString m) (expected m) (timeout m).

(** [getModelSN(comPort, model, SN)]: the port, and [model], [SN] and
    the result as [setSerialNumberValues] leaves them. *)
Definition getModelSN (p : Port) (model SN : list Z) : Port * (list Z * list Z * exn bool) :=
  let '(error, returnString, p) := send_serial_cmd p DEVICE_INFO in
  if error =? NONE then
    if bytes_eqb (substr returnString 0 5) (bytes_of_string "//////") then
      let '(_, _, p) := sendMessageToSerialPort p "P0" 131 1 in
      let '(error, returnString, p) := send_serial_cmd p DEVICE_INFO in
      if error =? NONE then (p, setSerialNumberValues returnString model SN)
      else (p, (model, SN, Ret false))
    else (p, setSerialNumberValues returnString model SN)
  else (p, (model, SN, Ret false)).

(** [SerialPort::openPort()] on the scripted port: [opened] is whether
    the operating system opened and locked the device file; the port
    starts with nothing unread. *)
Definition openPort (opened : bool) (p : Port) : Port := mkPort opened [] (script p) (tx p).

(** [getModelSN(m_CommPort, m_Model, m_SerialNumber)] on the session. *)
Definition getModelSN_m : M bool :=
  fun k => let '(p, (model, SN, r)) := getModelSN (port k) (bytes_of_string (m_Model k))
                                                  (m_SerialNumber k) in
           (set_m_SerialNumber (set_m_Model (set_port k p) (string_of_bytes model)) SN, r).

(** [connect()]: open the port, identify the device, read the file list,
    select the current file, switch to auto-range and a window of 32
    samples; every exception makes it return [false]. *)
Definition connect (opened : bool) : M bool :=
  catch_all
    (let* _ := modify (fun k => set_m_isOpen (set_port k (openPort opened (port k))) opened) in
     let* k := get in
     if negb (port_open (port k)) then ret false
     else
       let* ok := getModelSN_m in
       if ok then
         let* '(error, returnString) := sendK_cmd wait_worker CALFILE_FILELIST in
         if error =? 0 then
           let* _ := setCalFileList returnString in
           let* k := get in
           let* _ := setCalFileID wait_worker (m_CalFileID k) in
           let* _ := modify (fun k => setRange k (-1)) in
           let* _ := modify (fun k => fst (setMaxAverageCount k 32)) in
           ret true
         else let* _ := modify (closePort wait_worker) in ret false
       else let* _ := modify (closePort wait_worker) in ret false)
    false.

(** ** The session as a transition system *)

(** The calls of the public API that change the session state.  An
    exception thrown by [setCalFileID] leaves the session in the state it
    reached, which is the state after the call. *)
Inductive api :=
| StartMeasuring | StopMeasuring
| StartMeasureCounts | StopMeasureCounts
| StartFlicker (grabConstantly : bool) | StopFlicker
| GetMeasurement | GetMeasureCounts | GetFlicker
| SendCommand (m : command)
| ClosePort
| SetRange (range : Z) | SetAimingLights (onOff : bool)
| SetCalFileID (calFileID : Z) | SetTempCalFile (coeff : CorrectedCoefficient)
| StoreMatrices (id : Z) (name : list Z) (coeff : CorrectedCoefficient)
| DeleteCalFile (calFileID : Z)
| SetFFT (x : fft_setting) | SetFFT_Samples (samples : Z)
| SetMaxAverageCount (maxAvg : Z) | SetMeasureSpeedMode (value : SpeedMode)
| SetZeroNoise (zeroNoise : bool) | SetDeviceFlickerSpeed (use : bool)
| Connect (opened : bool)
| GetNextMeasureCount | CaptureBlackLevel
| GetFlashMatrix | GetRAMMatrix | GetCoefficientMatrix
| GetNextMeasurement (n : Z) | GetNextFlicker | IsPortOpen.

Definition call (a : api) (k : KState) : KState :=
  match a with
  | StartMeasuring => startMeasuring k
  | StopMeasuring => stopMeasuring wait_worker k
  | StartMeasureCounts => startMeasureCounts k
  | StopMeasureCounts => stopMeasureCounts wait_worker k
  | StartFlicker g => fst (startFlicker k g)
  | StopFlicker => stopFlicker wait_worker k
  | GetMeasurement => fst (getMeasurement k)
  | GetMeasureCounts => fst (getMeasureCounts k)
  | GetFlicker => fst (getFlicker k)
  | SendCommand m => fst (send_cmd wait_worker k m)
  | ClosePort => closePort wait_worker k
  | SetRange r => setRange k r
  | SetAimingLights b => setAimingLights k b
  | SetCalFileID i => fst (setCalFileID wait_worker i k)
  | SetTempCalFile c => setTempCalFile c k
  | StoreMatrices i nm c => fst (storeMatrices wait_worker i nm c k)
  | DeleteCalFile i => fst (deleteCalFile wait_worker i k)
  | SetFFT x => setFFT k x
  | SetFFT_Samples n => fst (setFFT_Samples k n)
  | SetMaxAverageCount n => fst (setMaxAverageCount k n)
  | SetMeasureSpeedMode v => setMeasureSpeedMode k v
  | SetZeroNoise b => setZeroNoise k b
  | SetDeviceFlickerSpeed b => setDeviceFlickerSpeed k b
  | Connect o => fst (connect o k)
  | GetNextMeasureCount => fst (getNextMeasureCount wait_worker k)
  | CaptureBlackLevel => fst (captureBlackLevel wait_worker k)
  | GetFlashMatrix => fst (getFlashMatrix wait_worker k)
  | GetRAMMatrix => fst (getRAMMatrix wait_worker k)
  | GetCoefficientMatrix => fst (getCoefficientMatrix wait_worker k)
  | GetNextMeasurement n => fst (getNextMeasurement k n)
  | GetNextFlicker => fst (getNextFlicker k)
  | IsPortOpen => fst (isPortOpen k)
  end.

(** A call of the API, or a step of a running worker. *)
Inductive step : KState -> KState -> Prop :=
| step_call (a : api) (k : KState) : step k (call a k)
| step_worker (k : KState) : worker k <> WNone -> step k (worker_step k).

End Controller.

(** [testConnection(portName, model, SN)] on its own port [p]: the
    result, [model] and [SN] as they are left; the port is closed again. *)
Definition testConnection (opened : bool) (p : Port) (model SN : list Z) : bool * list Z * list Z :=
  let p := openPort opened p in
  if negb (port_open p) then (false, model, SN)
  else
    let '(_, (model, SN, r)) := getModelSN p model SN in
    match r with
    | Ret b => (b, model, SN)
    | Throw => (false, model, SN)
    end.


(** A device whose [DEVICE_INFO] reply has a blank model field. *)
Definition blank_model_reply : list Z :=
  bytes_of_string "A0       123456789AB".

(** ** Properties *)

(** The test [returnString.substr(0, 5) == "//////"] compares at most five
    bytes with six. *)
Lemma clearing_test_false (rs : list Z) :
  bytes_eqb (substr rs 0 5) (bytes_of_string "//////") = false.
Proof.
  unfold bytes_eqb. destruct (list_eq_dec Z.eq_dec _ _) as [E|]; [|reflexivity].
  apply (f_equal (@length Z)) in E. rewrite length_substr in E.
  change (length (bytes_of_string "//////")) with 6%nat in E.
  pose proof (Nat.le_min_l 5 (length rs - 0)). lia.
Qed.

Lemma closePort_closed (w : KState -> KState) (k : KState) :
  m_isOpen (closePort w k) = false /\ port_open (port (closePort w k)) = false.
Proof. split; reflexivity. Qed.

(** [getModelSN] never takes its K-10 clearing branch: the test
    compares a five-byte prefix with the six-byte ["//////"], so the
    identity is always parsed from the first [DEVICE_INFO] reply and the
    clearing command is never sent. *)
Theorem getModelSN_no_clearing (p : Port) (model SN : list Z) :
  getModelSN p model SN =
  let '(error, returnString, p') := send_serial_cmd p DEVICE_INFO in
  (p', if error =? NONE then setSerialNumberValues returnString model SN else (model, SN, Ret false)).
Proof.
  unfold getModelSN. destruct (send_serial_cmd p DEVICE_INFO) as [[error rs] p'].
  destruct (error =? NONE); [|reflexivity]. now rewrite clearing_test_false.
Qed.

Section Properties.

Context `{Libm}.

(** C16: when the device answers [DEVICE_INFO] with a model field of
    blanks, [trim] throws inside [setSerialNumberValues]; [connect]'s
    [catch (...)] turns this into [false] without the [closePort()] of its
    other failure paths, so the session is left with the port open and
    [m_isOpen] set, and the stored model and serial number unchanged. *)
Theorem connect_identity_failure (k : KState) (rs : list Z) (p1 : Port) :
  send_serial_cmd (openPort true (port k)) DEVICE_INFO = (NONE, rs, p1) ->
  port_open p1 = true ->
  forallb is_blank (substr rs 2 7) = true ->
  let '(k', r) := connect true k in
  r = Ret false /\ m_isOpen k' = true /\ port k' = p1 /\ port_open (port k') = true /\
  m_Model k' = string_of_bytes (bytes_of_string (m_Model k)) /\ m_SerialNumber k' = m_SerialNumber k.
Proof.
  intros Hs Hp Hb.
  assert (Hl : (9 <= length rs)%nat).
  { apply sendMessageToSerialPort_none_length in Hs; [|reflexivity]. cbn in Hs. lia. }
  set (k1 := set_m_isOpen (set_port k (openPort true (port k))) true).
  assert (G : getModelSN_m k1 =
    (let '(model, SN, r) := setSerialNumberValues rs (bytes_of_string (m_Model k1)) (m_SerialNumber k1) in
     (set_m_SerialNumber (set_m_Model (set_port k1 p1) (string_of_bytes model)) SN, r))).
  { unfold getModelSN_m, getModelSN. change (port k1) with (openPort true (port k)).
    rewrite Hs, clearing_test_false. reflexivity. }
  unfold connect, catch_all; unfold bind at 1, modify at 1; cbv beta iota; fold k1.
  unfold bind at 1, get at 1; cbv beta iota.
  change (port_open (port k1)) with true; cbv beta iota delta [negb].
  unfold bind at 1; cbv beta iota; rewrite G; unfold setSerialNumberValues.
  replace (Nat.ltb (length rs) 9) with false by (symmetry; apply Nat.ltb_ge, Hl).
  unfold substr_exn at 1. replace (Nat.leb 2 (length rs)) with true by (symmetry; apply Nat.leb_le; lia).
  rewrite trim_spec, Hb. cbv beta iota. repeat split. exact Hp.
Qed.

End Properties.

#[local] Existing Instance stub_libm.

Lemma connect_identity_failure_witness :
  let k := KClmtr_init (mkPort false [] [Arrive (blank_model_reply ++ [13])] []) false false false (-1) in
  send_serial_cmd (openPort true (port k)) DEVICE_INFO =
    (NONE, blank_model_reply ++ [13], mkPort true [] [] [bytes_of_string "P0" ++ [13]]) /\
  let '(k', r) := connect true k in
  r = Ret false /\ m_isOpen k' = true /\ port k' = mkPort true [] [] [bytes_of_string "P0" ++ [13]] /\
  port_open (port k') = true /\
  m_Model k' = string_of_bytes (bytes_of_string (m_Model k)) /\ m_SerialNumber k' = m_SerialNumber k.
Proof.
  intros k. split; [vm_compute; reflexivity|].
  apply (connect_identity_failure k (blank_model_reply ++ [13]) (mkPort true [] [] [bytes_of_string "P0" ++ [13]]));
    [vm_compute; reflexivity | reflexivity | vm_compute; reflexivity].
Defined.

End SessionApi.
