(* ===== verification/SessionProps.v ===== *)
(** * Properties of the acquisition session

    - [Inv]: the worker runs exactly when its status is not [NOT_RUNNING],
      its status is never [STOP], an idle worker leaves the controller's
      intent off [RUN], and a running worker outside flicker mode never
      sees [m_Flickering] set; it holds in every state reachable from the
      constructor ([reachable_Inv]).
    - [quiet]: what the functions that run on the worker's own thread
      may change: they never restart the worker, never raise the
      controller's intent to [RUN], never set [m_Flickering] and never
      change the mode.  It is a preorder, and every such function is
      [quiet].
    - the controller's [stopThread2] ends the worker within two of its
      steps; starting the colour or the counts mode turns the two other
      modes off; starting flicker mode while the colour worker runs does
      not (the spec's mode exclusivity), and the flicker worker then stops
      itself; the counts worker's error is published under the colour
      measurement's fresh flag; a frame with broken markers is dropped
      without touching the ripple buffer. *)

From Stdlib Require Import String Ascii ZArith QArith List Bool Relations Morphisms Lia.
From S2P Require Import Prelude ErrorCodes Replies Protocol Averager Measure Spectrum Matrix Calibration FlickerStream FFTRangeCal Session CalFiles BlackCal SessionApi.
Import ListNotations.
Import KleinsErrorCodes.
Open Scope Z_scope.

Module SessionProps.

Import Replies Protocol Averager Measure Spectrum Calibration FlickerStream FFTRangeCal Session CalFiles BlackCal SessionApi.

(** ** The invariant and the relation [quiet] *)

Definition Inv (k : KState) : Prop :=
  (threadModeChild k = NOT_RUNNING <-> worker k = WNone) /\
  threadModeChild k <> STOP /\
  (worker k = WNone -> threadModeParent k <> RUN) /\
  (worker k <> WNone -> flickering (fs k) = true -> measureMode k = FLICKER).

(** No worker runs and the controller does not intend one to. *)
Definition idle (k : KState) : Prop :=
  worker k = WNone /\ threadModeChild k = NOT_RUNNING /\ threadModeParent k <> RUN.

Lemma idle_Inv (k : KState) : idle k -> Inv k.
Proof.
  intros (W & C & P). unfold Inv. rewrite W, C. repeat split; auto; congruence.
Qed.

Create HintDb session.

Definition quiet (k k' : KState) : Prop :=
  worker k' = worker k /\ threadModeChild k' = threadModeChild k /\
  (threadModeParent k' = RUN -> threadModeParent k = RUN) /\
  (flickering (fs k') = true -> flickering (fs k) = true) /\
  measureMode k' = measureMode k.

#[export] Instance quiet_PreOrder : PreOrder quiet.
Proof.
  split.
  - intros k. repeat split; auto.
  - intros a b c (H0 & H1 & H2 & H3 & H4) (G0 & G1 & G2 & G3 & G4).
    repeat split; try congruence; auto.
Qed.

Ltac destruct_io :=
  repeat match goal with
  | |- context [sendMessageToSerialPort ?a ?b ?c ?d] =>
      destruct (sendMessageToSerialPort a b c d) as [[? ?] ?]
  | |- context [readFromSerialPort ?a ?b ?c ?d] =>
      destruct (readFromSerialPort a b c d) as [[? ?] ?]
  | |- context [readExisting ?a] => destruct (readExisting a) as [? ?]
  end.

Ltac quiet_tac :=
  unfold quiet; cbn; destruct_ifs; destruct_io; cbn; destruct_ifs;
  repeat split; cbn; intros; try congruence; auto.

Lemma resetFlicker_off (st : FState) : flickering (resetFlicker st) = false.
Proof. reflexivity. Qed.

Lemma stopThread2_self_quiet (k : KState) : quiet k (stopThread2 self_thread k).
Proof. unfold stopThread2, self_thread. quiet_tac. Qed.

Lemma stopMeasuring_self_quiet (k : KState) : quiet k (stopMeasuring self_thread k).
Proof. unfold stopMeasuring, stopThread2, self_thread. quiet_tac. Qed.

Lemma stopMeasureCounts_self_quiet (k : KState) : quiet k (stopMeasureCounts self_thread k).
Proof. unfold stopMeasureCounts, stopThread2, self_thread. quiet_tac. Qed.

Lemma stopFlicker_self_quiet (k : KState) : quiet k (stopFlicker self_thread k).
Proof. unfold stopFlicker, stopThread2, self_thread. quiet_tac. Qed.

Ltac unfold_thread :=
  unfold sendMessageToKColorimeter, send_cmd, closePort, readFromKColorimeter, endFlicker,
    stopMeasuring, stopMeasureCounts, stopFlicker, stopThread2, self_thread.

Lemma send_self_quiet (k : KState) (s : string) (e t : Z) :
  quiet k (fst (sendMessageToKColorimeter self_thread k s e t)).
Proof. unfold_thread. quiet_tac. Qed.

Lemma closePort_self_quiet (k : KState) : quiet k (closePort self_thread k).
Proof. unfold_thread. quiet_tac. Qed.

Lemma readFrom_self_quiet (k : KState) (e t : Z) (r : list Z) :
  quiet k (fst (readFromKColorimeter self_thread k e t r)).
Proof.
  unfold readFromKColorimeter. destruct_ifs; destruct_io; cbn [fst]; destruct_ifs;
    try (etransitivity; [|apply closePort_self_quiet]); quiet_tac.
Qed.

Lemma send_cmd_self_quiet (k : KState) (m : command) : quiet k (fst (send_cmd self_thread k m)).
Proof. apply send_self_quiet. Qed.

Lemma endFlicker_self_quiet (k : KState) : quiet k (endFlicker self_thread k).
Proof.
  unfold endFlicker.
  set (k1 := fst (send_cmd self_thread k DUMMY)).
  set (k2 := fst (send_cmd self_thread k1 DUMMY)).
  set (k3 := if isFlickerNew k2 then k2 else fst (send_cmd self_thread k2 DUMMY)).
  assert (H3 : quiet k k3).
  { transitivity k2; [transitivity k1; apply send_cmd_self_quiet|].
    unfold k3. destruct (isFlickerNew k2); [reflexivity | apply send_cmd_self_quiet]. }
  clearbody k3. destruct (readExisting (port k3)) as [r p].
  etransitivity; [exact H3 | quiet_tac].
Qed.

(** ** Frame lemmas: setters of the other members keep [Inv] and [idle] *)

Lemma quiet_Inv (k k' : KState) : quiet k k' -> Inv k -> Inv k'.
Proof.
  intros (H0 & H1 & H2 & H3 & H4) (I1 & I2 & I3 & I4). unfold Inv.
  rewrite H0, H1, H4. repeat split; auto; try tauto.
Qed.

Ltac idle_tac := intros (?W & ?C & ?P); unfold idle; cbn; auto.

Lemma idle_set_port (k : KState) (v : Port) : idle k -> idle (set_port k v).
Proof. idle_tac. Qed.
Lemma idle_set_avg (k : KState) (v : AvgState) : idle k -> idle (set_avg k v).
Proof. idle_tac. Qed.
Lemma idle_set_m_MeasuringN5 (k : KState) (v : bool) : idle k -> idle (set_m_MeasuringN5 k v).
Proof. idle_tac. Qed.
Lemma idle_set_m_MeasuringM6 (k : KState) (v : bool) : idle k -> idle (set_m_MeasuringM6 k v).
Proof. idle_tac. Qed.
Lemma idle_set_fs (k : KState) (v : FState) : idle k -> idle (set_fs k v).
Proof. idle_tac. Qed.
Lemma idle_set_m_isOpen (k : KState) (v : bool) : idle k -> idle (set_m_isOpen k v).
Proof. idle_tac. Qed.
Lemma idle_set_m_CalFileID (k : KState) (v : Z) : idle k -> idle (set_m_CalFileID k v).
Proof. idle_tac. Qed.
Lemma idle_set_m_CalFileList (k : KState) (v : list (list Z)) : idle k -> idle (set_m_CalFileList k v).
Proof. idle_tac. Qed.
Lemma idle_set_m_CalFileName (k : KState) (v : list Z) : idle k -> idle (set_m_CalFileName k v).
Proof. idle_tac. Qed.
Lemma idle_set_m_Calindex (k : KState) (v : Z) : idle k -> idle (set_m_Calindex k v).
Proof. idle_tac. Qed.
Lemma idle_set_m_range (k : KState) (v : Z) : idle k -> idle (set_m_range k v).
Proof. idle_tac. Qed.
Lemma idle_set_m_SerialNumber (k : KState) (v : list Z) : idle k -> idle (set_m_SerialNumber k v).
Proof. idle_tac. Qed.

Lemma idle_set_m_Model (k : KState) (v : string) : idle k -> idle (set_m_Model k v).
Proof. idle_tac. Qed.
Lemma idle_set_m_firmware (k : KState) (v : list Z) : idle k -> idle (set_m_firmware k v).
Proof. idle_tac. Qed.
Lemma idle_set_m_isMeasurefresh (k : KState) (v : bool) : idle k -> idle (set_m_isMeasurefresh k v).
Proof. idle_tac. Qed.
Lemma idle_set_m_isCountsfresh (k : KState) (v : bool) : idle k -> idle (set_m_isCountsfresh k v).
Proof. idle_tac. Qed.
Lemma idle_set_m_isFlickerfresh (k : KState) (v : bool) : idle k -> idle (set_m_isFlickerfresh k v).
Proof. idle_tac. Qed.
Lemma idle_set_FFTString (k : KState) (v : list Z) : idle k -> idle (set_FFTString k v).
Proof. idle_tac. Qed.
Lemma idle_set_measureMode (k : KState) (v : MeasureMode) : idle k -> idle (set_measureMode k v).
Proof. idle_tac. Qed.
Lemma idle_set_m_measure (k : KState) (v : Measurement) : idle k -> idle (set_m_measure k v).
Proof. idle_tac. Qed.
Lemma idle_set_m_counts (k : KState) (v : Counts) : idle k -> idle (set_m_counts k v).
Proof. idle_tac. Qed.
Lemma idle_set_m_flicker (k : KState) (v : Flicker) : idle k -> idle (set_m_flicker k v).
Proof. idle_tac. Qed.

Lemma Inv_set_port (k : KState) (v : Port) : Inv k -> Inv (set_port k v).
Proof. apply quiet_Inv. quiet_tac. Qed.
Lemma Inv_set_avg (k : KState) (v : AvgState) : Inv k -> Inv (set_avg k v).
Proof. apply quiet_Inv. quiet_tac. Qed.
Lemma Inv_set_m_MeasuringN5 (k : KState) (v : bool) : Inv k -> Inv (set_m_MeasuringN5 k v).
Proof. apply quiet_Inv. quiet_tac. Qed.
Lemma Inv_set_m_MeasuringM6 (k : KState) (v : bool) : Inv k -> Inv (set_m_MeasuringM6 k v).
Proof. apply quiet_Inv. quiet_tac. Qed.
Lemma Inv_set_m_isOpen (k : KState) (v : bool) : Inv k -> Inv (set_m_isOpen k v).
Proof. apply quiet_Inv. quiet_tac. Qed.
Lemma Inv_set_m_CalFileID (k : KState) (v : Z) : Inv k -> Inv (set_m_CalFileID k v).
Proof. apply quiet_Inv. quiet_tac. Qed.
Lemma Inv_set_m_CalFileList (k : KState) (v : list (list Z)) : Inv k -> Inv (set_m_CalFileList k v).
Proof. apply quiet_Inv. quiet_tac. Qed.
Lemma Inv_set_m_CalFileName (k : KState) (v : list Z) : Inv k -> Inv (set_m_CalFileName k v).
Proof. apply quiet_Inv. quiet_tac. Qed.
Lemma Inv_set_m_Calindex (k : KState) (v : Z) : Inv k -> Inv (set_m_Calindex k v).
Proof. apply quiet_Inv. quiet_tac. Qed.
Lemma Inv_set_m_range (k : KState) (v : Z) : Inv k -> Inv (set_m_range k v).
Proof. apply quiet_Inv. quiet_tac. Qed.
Lemma Inv_set_m_SerialNumber (k : KState) (v : list Z) : Inv k -> Inv (set_m_SerialNumber k v).
Proof. apply quiet_Inv. quiet_tac. Qed.
Lemma Inv_set_m_speedMode (k : KState) (v : SpeedMode) : Inv k -> Inv (set_m_speedMode k v).
Proof. apply quiet_Inv. quiet_tac. Qed.
Lemma Inv_set_m_ZeroNoise (k : KState) (v : bool) : Inv k -> Inv (set_m_ZeroNoise k v).
Proof. apply quiet_Inv. quiet_tac. Qed.
Lemma Inv_set_m_DeviceFlickerSpeed (k : KState) (v : bool) : Inv k -> Inv (set_m_DeviceFlickerSpeed k v).
Proof. apply quiet_Inv. quiet_tac. Qed.

Lemma Inv_set_m_Model (k : KState) (v : string) : Inv k -> Inv (set_m_Model k v).
Proof. apply quiet_Inv. quiet_tac. Qed.
Lemma Inv_set_m_firmware (k : KState) (v : list Z) : Inv k -> Inv (set_m_firmware k v).
Proof. apply quiet_Inv. quiet_tac. Qed.
Lemma Inv_set_m_isMeasurefresh (k : KState) (v : bool) : Inv k -> Inv (set_m_isMeasurefresh k v).
Proof. apply quiet_Inv. quiet_tac. Qed.
Lemma Inv_set_m_isCountsfresh (k : KState) (v : bool) : Inv k -> Inv (set_m_isCountsfresh k v).
Proof. apply quiet_Inv. quiet_tac. Qed.
Lemma Inv_set_m_isFlickerfresh (k : KState) (v : bool) : Inv k -> Inv (set_m_isFlickerfresh k v).
Proof. apply quiet_Inv. quiet_tac. Qed.
Lemma Inv_set_FFTString (k : KState) (v : list Z) : Inv k -> Inv (set_FFTString k v).
Proof. apply quiet_Inv. quiet_tac. Qed.
Lemma Inv_set_m_measure (k : KState) (v : Measurement) : Inv k -> Inv (set_m_measure k v).
Proof. apply quiet_Inv. quiet_tac. Qed.
Lemma Inv_set_m_counts (k : KState) (v : Counts) : Inv k -> Inv (set_m_counts k v).
Proof. apply quiet_Inv. quiet_tac. Qed.
Lemma Inv_set_m_flicker (k : KState) (v : Flicker) : Inv k -> Inv (set_m_flicker k v).
Proof. apply quiet_Inv. quiet_tac. Qed.

Lemma Inv_set_fs_reset (k : KState) : Inv k -> Inv (set_fs k (resetFlicker (fs k))).
Proof. apply quiet_Inv. quiet_tac. Qed.

Lemma Inv_set_fs_close (k : KState) : Inv k -> Inv (set_fs k (fs_close (fs k))).
Proof. apply quiet_Inv. quiet_tac. Qed.

Lemma stopThread2_idle (w : KState -> KState) (k : KState) :
  threadModeChild k = NOT_RUNNING -> stopThread2 w k = k.
Proof. intros C. unfold stopThread2. rewrite C. reflexivity. Qed.

Lemma idle_stopThread2 (w : KState -> KState) (k : KState) : idle k -> stopThread2 w k = k.
Proof. intros (_ & C & _). apply stopThread2_idle, C. Qed.

Lemma idle_stopMeasuring (w : KState -> KState) (k : KState) : idle k -> idle (stopMeasuring w k).
Proof. intros Hi. unfold stopMeasuring. rewrite idle_stopThread2 by exact Hi. revert Hi. idle_tac. Qed.

Lemma idle_stopMeasureCounts (w : KState -> KState) (k : KState) :
  idle k -> idle (stopMeasureCounts w k).
Proof. intros Hi. unfold stopMeasureCounts. rewrite idle_stopThread2 by exact Hi. revert Hi. idle_tac. Qed.

Lemma idle_stopFlicker (w : KState -> KState) (k : KState) : idle k -> idle (stopFlicker w k).
Proof.
  intros Hi. pose proof Hi as (_ & Hc & _). unfold stopFlicker. rewrite Hc. cbn [ThreadMode_beq].
  revert Hi. idle_tac.
Qed.

#[export] Hint Resolve idle_set_port idle_set_avg idle_set_m_MeasuringN5 idle_set_m_MeasuringM6 idle_set_fs idle_set_m_isOpen idle_set_m_CalFileID idle_set_m_CalFileList idle_set_m_CalFileName idle_set_m_Calindex idle_set_m_range idle_set_m_SerialNumber idle_set_m_Model idle_set_m_firmware idle_set_m_isMeasurefresh idle_set_m_isCountsfresh idle_set_m_isFlickerfresh idle_set_FFTString idle_set_measureMode idle_set_m_measure idle_set_m_counts idle_set_m_flicker idle_stopMeasuring idle_stopMeasureCounts idle_stopFlicker : session.
#[export] Hint Resolve Inv_set_port Inv_set_avg Inv_set_m_MeasuringN5 Inv_set_m_MeasuringM6 Inv_set_m_isOpen Inv_set_m_CalFileID Inv_set_m_CalFileList Inv_set_m_CalFileName Inv_set_m_Calindex Inv_set_m_range Inv_set_m_SerialNumber Inv_set_m_speedMode Inv_set_m_ZeroNoise Inv_set_m_DeviceFlickerSpeed Inv_set_m_Model Inv_set_m_firmware Inv_set_m_isMeasurefresh Inv_set_m_isCountsfresh Inv_set_m_isFlickerfresh Inv_set_FFTString Inv_set_m_measure Inv_set_m_counts Inv_set_m_flicker Inv_set_fs_reset Inv_set_fs_close idle_Inv : session.

Ltac guards := unfold sendMessageToKColorimeter, send_cmd, closePort; destruct_ifs; destruct_io; cbn [fst].

Lemma idle_send (w : KState -> KState) (k : KState) (s : string) (e t : Z) :
  idle k -> idle (fst (sendMessageToKColorimeter w k s e t)).
Proof. intros Hi. guards; eauto 7 with session. Qed.

Lemma idle_closePort (w : KState -> KState) (k : KState) : idle k -> idle (closePort w k).
Proof. intros Hi. guards; eauto 15 with session. Qed.

#[export] Hint Resolve idle_send idle_closePort : session.

(** ** The worker's steps *)

Lemma flickering_parseSignal (st : FState) (s : list Z) :
  flickering (fst (parseSignal_from_FFT_str st s)) = flickering st.
Proof. unfold parseSignal_from_FFT_str. destruct (samples_loop _ _ _ _ _ _). reflexivity. Qed.

Lemma flickering_range_update (st : FState) (r e : Z) :
  flickering (fst (range_update st r e)) = flickering st.
Proof. unfold range_update. destruct_ifs; reflexivity. Qed.

Section Worker.

Context `{Libm}.

Lemma flickering_parseAndPrintFFT (fuel : nat) :
  forall st r, flickering (snd (parseAndPrintFFT fuel st r)) = flickering st.
Proof.
  induction fuel as [|f IH]; intros st r; cbn [parseAndPrintFFT];
    (destruct (negb (verify_FFTString r)); [reflexivity|]);
    pose proof (flickering_parseSignal st r) as E1;
    destruct (parseSignal_from_FFT_str st r) as [st1 e1];
    destruct (parseN5Command r) as [[[[x y] z] rg] e2];
    match goal with |- context [if ?c then ?a else st1] => set (st2 := if c then a else st1) end;
    assert (E2 : flickering st2 = flickering st) by (unfold st2; destruct_ifs; exact E1);
    clearbody st2;
    pose proof (flickering_range_update st2 rg (Z.lor e1 e2)) as E3;
    destruct (range_update st2 rg _) as [st3 e3]; cbn [fst] in E3;
    destruct_ifs; cbn [snd flickering]; try congruence.
  rewrite IH. cbn. congruence.
Qed.

Lemma quiet_set_fs_speed (k : KState) (v : Z) : quiet k (set_fs k (fs_set_speed (fs k) v)).
Proof. quiet_tac. Qed.

Lemma worker_prologue_spec (k : KState) :
  worker (worker_prologue k) = WLoop /\
  quiet (set_worker k WLoop) (worker_prologue k).
Proof.
  unfold worker_prologue. split; [reflexivity|].
  set (k1 := if MeasureMode_beq _ _ then _ else k).
  assert (Hq : quiet k k1).
  { unfold k1. destruct_ifs; try reflexivity;
      (etransitivity; [apply quiet_set_fs_speed | apply send_cmd_self_quiet]). }
  clearbody k1. destruct Hq as (H0 & H1 & H2 & H3 & H4). quiet_tac.
Qed.

Lemma endFlicker_off (w : KState -> KState) (k : KState) : flickering (fs (endFlicker w k)) = false.
Proof. unfold endFlicker. destruct (readExisting _). reflexivity. Qed.

Lemma endThread_spec (k : KState) :
  let k' := endThread k in
  worker k' = WNone /\ threadModeChild k' = NOT_RUNNING /\
  (threadModeParent k' = RUN -> threadModeParent k = RUN) /\
  (flickering (fs k') = true -> measureMode k <> FLICKER /\ flickering (fs k) = true) /\
  measureMode k' = measureMode k.
Proof.
  unfold endThread. destruct (MeasureMode_beq (measureMode k) FLICKER) eqn:E.
  - apply internal_MeasureMode_dec_bl in E.
    pose proof (endFlicker_self_quiet k) as (_ & _ & H2 & _ & H4).
    pose proof (endFlicker_off self_thread k) as Hoff.
    set (k1 := endFlicker self_thread k) in *. clearbody k1.
    cbn. split; [reflexivity|]. split; [reflexivity|]. split; [exact H2|].
    split; [intros Hf; rewrite Hoff in Hf; discriminate | exact H4].
  - cbn. split; [reflexivity|]. split; [reflexivity|]. split; [auto|].
    split; [|reflexivity]. intros Hf. split; [|exact Hf].
    intros Hm. rewrite Hm in E. discriminate.
Qed.

Lemma quiet_set (k : KState) (f : KState -> KState) (k1 : KState) :
  quiet k k1 -> quiet k1 (f k1) -> quiet k (f k1).
Proof. intros; etransitivity; eassumption. Qed.

(** With the controller's intent at [RUN], an iteration is [quiet]. *)
Lemma worker_iter_run (k : KState) :
  threadModeParent k = RUN -> quiet k (worker_iter k).
Proof.
  intros Hr. unfold worker_iter. rewrite Hr. cbn [ThreadMode_beq negb].
  destruct (measureMode k).
  - unfold iter_measure. pose proof (send_cmd_self_quiet k (getColorMeasurmentCommand (m_speedMode k))) as Hq.
    destruct (send_cmd _ _ _) as [k1 [e m]]. cbn [fst] in Hq.
    destruct (parseAndPrintXYZ _ _ _ _ _ _ _ _) as [a m'].
    destruct Hq as (H0 & H1 & H2 & H3 & H4). quiet_tac.
  - unfold iter_flicker. destruct_ifs.
    + quiet_tac.
    + pose proof (flickering_parseAndPrintFFT (Z.to_nat (fft_numPass (fs k))) (fs k) (FFTString k)) as E.
      destruct (parseAndPrintFFT _ _ _) as [[f rest] st]. cbn [snd] in E. quiet_tac.
    + pose proof (readFrom_self_quiet k 96 2 (FFTString k)) as Hq.
      destruct (readFromKColorimeter _ _ _ _ _) as [k1 [e s']]. cbn [fst] in Hq.
      destruct Hq as (H0 & H1 & H2 & H3 & H4). quiet_tac.
  - unfold iter_counts. pose proof (send_cmd_self_quiet k COUNTS_4PERSECOND) as Hq.
    destruct (send_cmd _ _ _) as [k1 [e c]]. cbn [fst] in Hq.
    destruct Hq as (H0 & H1 & H2 & H3 & H4). quiet_tac.
Qed.

Lemma worker_step_Inv (k : KState) : Inv k -> Inv (worker_step k).
Proof.
  intros HI. pose proof HI as (I1 & I2 & I3 & I4). unfold worker_step.
  destruct (worker k) eqn:W.
  - exact HI.
  - destruct (worker_prologue_spec k) as (Hw & H0 & H1 & H2 & H3 & H4).
    cbn [set_worker threadModeChild threadModeParent fs measureMode worker] in H1, H2, H3, H4.
    unfold Inv. rewrite Hw, H1. repeat split; try discriminate.
    + intros Hc. apply I1 in Hc. congruence.
    + exact I2.
    + intros _ Hf. rewrite H4. apply I4; [congruence | auto].
  - destruct (ThreadMode_beq (threadModeParent k) RUN) eqn:R.
    + apply internal_ThreadMode_dec_bl in R.
      destruct (worker_iter_run k R) as (H0 & H1 & H2 & H3 & H4).
      unfold Inv. rewrite H0, H1, W, H4. repeat split; try discriminate.
      * intros Hc. apply I1 in Hc. congruence.
      * exact I2.
      * intros _ Hf. apply I4; [congruence | auto].
    + unfold worker_iter. rewrite R. cbn [negb].
      destruct (endThread_spec k) as (Hw & Hc & Hp & _).
      unfold Inv. rewrite Hw, Hc. repeat split; try discriminate; try contradiction.
      intros _ HR. apply Hp in HR. rewrite HR in R. discriminate.
Qed.

(** ** The controller *)



(** Two worker steps end a worker whose stop has been requested. *)
Lemma wait_worker_spec (k : KState) :
  Inv k -> worker k <> WNone -> threadModeParent k <> RUN ->
  exists k1, quiet (set_worker k WLoop) k1 /\ wait_worker k = endThread k1.
Proof.
  intros (I1 & I2 & I3 & I4) W P.
  assert (C : ThreadMode_beq (threadModeChild k) NOT_RUNNING = false).
  { destruct (threadModeChild k); [|reflexivity|contradiction]. exfalso. apply W, I1. reflexivity. }
  assert (Ploop : forall k1, threadModeParent k1 <> RUN -> worker_iter k1 = endThread k1).
  { intros k1 P1. unfold worker_iter. destruct (threadModeParent k1); [reflexivity|contradiction|reflexivity]. }
  unfold wait_worker. cbn [run_worker]. rewrite C. unfold worker_step.
  destruct (worker k) eqn:Wk; [contradiction| |].
  - destruct (worker_prologue_spec k) as (Hw & H0 & H1 & H2 & H3 & H4).
    cbn [set_worker threadModeChild threadModeParent fs measureMode worker] in H1, H2.
    rewrite Hw, H1, C, Ploop by (intros R; apply P, H2, R).
    exists (worker_prologue k). split; [repeat split; auto|].
    destruct (endThread_spec (worker_prologue k)) as (_ & Hc & _).
    cbn [run_worker]. reflexivity.
  - rewrite Ploop by exact P. exists k. split.
    + destruct k; cbn in *; subst; reflexivity.
    + destruct (endThread_spec k) as (_ & Hc & _). cbn [run_worker].
      rewrite Hc. reflexivity.
Qed.

(** On the controller, [stopThread2] leaves the session idle; a flicker
    flag still set afterwards was set before, under a worker outside
    flicker mode. *)
Lemma stopThread2_ctrl_spec (k : KState) :
  Inv k ->
  let k' := stopThread2 wait_worker k in
  idle k' /\
  (flickering (fs k') = true -> flickering (fs k) = true /\ (worker k <> WNone -> measureMode k <> FLICKER)).
Proof.
  intros HI. pose proof HI as (I1 & I2 & I3 & I4). unfold stopThread2.
  destruct (ThreadMode_beq (threadModeChild k) NOT_RUNNING) eqn:C.
  - apply internal_ThreadMode_dec_bl in C. pose proof (proj1 I1 C) as W. split.
    + split; [exact W|]. split; [exact C|]. apply I3, W.
    + intros Hf. split; [exact Hf | contradiction].
  - set (k0 := set_threadModeParent k STOP).
    assert (HI0 : Inv k0) by (unfold k0, Inv; cbn; repeat split; try tauto; discriminate).
    assert (W : worker k0 <> WNone).
    { cbn. intros W. apply I1 in W. rewrite W in C. discriminate. }
    destruct (wait_worker_spec k0 HI0 W ltac:(cbn; discriminate)) as (k1 & (H0 & H1 & H2 & H3 & H4) & ->).
    destruct (endThread_spec k1) as (Hw & Hc & _ & Hf & _). unfold k0 in *.
    cbn [set_worker set_threadModeParent threadModeChild threadModeParent worker fs measureMode] in *.
    split; [split; [exact Hw | split; [exact Hc | discriminate]]|].
    intros Hf'. destruct (Hf Hf') as (Hm & Hf1). split; [apply H3, Hf1|]. intros _. congruence.
Qed.

Lemma stopFlicker_ctrl_spec (k : KState) :
  Inv k -> idle (stopFlicker wait_worker k) /\ flickering (fs (stopFlicker wait_worker k)) = false.
Proof.
  intros HI. pose proof HI as (I1 & I2 & I3 & I4). unfold stopFlicker.
  destruct (ThreadMode_beq (threadModeChild k) NOT_RUNNING) eqn:C.
  - apply internal_ThreadMode_dec_bl in C. split; [|reflexivity].
    split; [apply I1, C|]. split; [exact C|]. apply I3, I1, C.
  - destruct (stopThread2_ctrl_spec k HI) as [Hi Hf]. split; [exact Hi|].
    destruct (flickering (fs (stopThread2 wait_worker k))) eqn:F; [|reflexivity].
    destruct (Hf eq_refl) as [Hk Hm].
    assert (W : worker k <> WNone) by (intros W; apply I1 in W; rewrite W in C; discriminate).
    exfalso. apply (Hm W), I4; assumption.
Qed.

Lemma stopMeasuring_ctrl_idle (k : KState) : Inv k -> idle (stopMeasuring wait_worker k).
Proof.
  intros HI. destruct (stopThread2_ctrl_spec k HI) as [Hi _]. unfold stopMeasuring.
  revert Hi. idle_tac.
Qed.

Lemma stopMeasureCounts_ctrl_idle (k : KState) : Inv k -> idle (stopMeasureCounts wait_worker k).
Proof.
  intros HI. destruct (stopThread2_ctrl_spec k HI) as [Hi _]. unfold stopMeasureCounts.
  revert Hi. idle_tac.
Qed.

Lemma stopFlicker_ctrl_idle (k : KState) : Inv k -> idle (stopFlicker wait_worker k).
Proof. intros HI. apply stopFlicker_ctrl_spec, HI. Qed.

#[local] Hint Resolve stopMeasuring_ctrl_idle stopMeasureCounts_ctrl_idle stopFlicker_ctrl_idle : session.

Lemma Inv_send_ctrl (k : KState) (s : string) (e t : Z) :
  Inv k -> Inv (fst (sendMessageToKColorimeter wait_worker k s e t)).
Proof. intros HI. guards; eauto 8 with session. Qed.

Lemma Inv_closePort_ctrl (k : KState) : Inv k -> Inv (closePort wait_worker k).
Proof. intros HI. guards; eauto 17 with session. Qed.

(** *** Settings and calibration files *)

Lemma Inv_set_fs_cal (k : KState) (m : list (list Q)) : Inv k -> Inv (set_fs k (fs_set_cal (fs k) m)).
Proof. apply quiet_Inv. quiet_tac. Qed.

#[local] Hint Resolve Inv_set_fs_cal Inv_send_ctrl : session.

Lemma Inv_send_cmd_ctrl (k : KState) (m : command) :
  Inv k -> Inv (fst (send_cmd wait_worker k m)).
Proof. apply Inv_send_ctrl. Qed.

Lemma Inv_setRange (k : KState) (r : Z) : Inv k -> Inv (setRange k r).
Proof.
  intros HI. unfold setRange. pose proof (Inv_set_m_range k r HI) as H0. revert H0.
  generalize (set_m_range k r). induction (range_commands r) as [|m ms IH]; intros k0 H0; cbn.
  - exact H0.
  - apply IH, Inv_send_cmd_ctrl, H0.
Qed.

Lemma Inv_setAimingLights (k : KState) (b : bool) : Inv k -> Inv (setAimingLights k b).
Proof. intros HI. unfold setAimingLights. destruct (_ || _); auto using Inv_send_cmd_ctrl. Qed.

Lemma Inv_setTempCalFile (k : KState) (c : CorrectedCoefficient) : Inv k -> Inv (setTempCalFile c k).
Proof. intros HI. unfold setTempCalFile. eauto with session. Qed.

(** A computation of the calibration-file monad that keeps [Inv]. *)
Definition keeps_Inv {A : Type} (m : CalFiles.M A) : Prop := forall k, Inv k -> Inv (fst (m k)).

Lemma keeps_ret {A : Type} (a : A) : keeps_Inv (CalFiles.ret a).
Proof. intros k HI. exact HI. Qed.

Lemma keeps_bind {A B : Type} (m : CalFiles.M A) (f : A -> CalFiles.M B) :
  keeps_Inv m -> (forall a, keeps_Inv (f a)) -> keeps_Inv (CalFiles.bind m f).
Proof.
  intros Hm Hf k HI. unfold CalFiles.bind. specialize (Hm k HI).
  destruct (m k) as [k' [a|]]; cbn [fst] in *; [apply Hf|]; exact Hm.
Qed.

Lemma keeps_get : keeps_Inv get.
Proof. intros k HI. exact HI. Qed.

Lemma keeps_lift {A : Type} (e : exn A) : keeps_Inv (lift e).
Proof. intros k HI. exact HI. Qed.

Lemma keeps_modify (f : KState -> KState) : (forall k, Inv k -> Inv (f k)) -> keeps_Inv (modify f).
Proof. intros Hf k HI. exact (Hf k HI). Qed.

Lemma keeps_catch {A : Type} (m : CalFiles.M A) (h : A) : keeps_Inv m -> keeps_Inv (catch_all m h).
Proof. intros Hm k HI. unfold catch_all. specialize (Hm k HI). now destruct (m k) as [k' [a|]]. Qed.

Lemma keeps_sendK (s : string) (e t : Z) : keeps_Inv (sendK wait_worker s e t).
Proof.
  intros k HI. unfold sendK. pose proof (Inv_send_ctrl k s e t HI) as H'.
  destruct (sendMessageToKColorimeter wait_worker k s e t). exact H'.
Qed.

Lemma keeps_sendK_cmd (m : command) : keeps_Inv (sendK_cmd wait_worker m).
Proof. apply keeps_sendK. Qed.

Lemma keeps_sendSerial (s : list Z) (e t : Z) : keeps_Inv (sendSerial s e t).
Proof.
  intros k HI. unfold sendSerial. destruct (sendMessageToSerialPort _ _ _ _) as [[? ?] p].
  cbn [fst]. auto with session.
Qed.

#[local] Hint Resolve keeps_ret keeps_get keeps_lift keeps_sendK keeps_sendK_cmd keeps_sendSerial
  : session.

(** Split a computation into its steps. *)
Ltac keeps_tac :=
  repeat match goal with
  | |- keeps_Inv (CalFiles.bind _ _) =>
      apply keeps_bind; [|let x := fresh "x" in intros x;
                           lazymatch type of x with
                           | (_ * _)%type => destruct x
                           | unit => destruct x
                           | _ => idtac
                           end]
  | |- keeps_Inv (catch_all _ _) => apply keeps_catch
  | |- keeps_Inv (modify _) => apply keeps_modify; intros ? ?
  | |- keeps_Inv (if ?b then _ else _) => destruct b
  | |- keeps_Inv (match ?x with _ => _ end) => destruct x
  | |- keeps_Inv (let '(_, _) := ?x in _) => destruct x
  | |- Inv (if ?b then _ else _) => destruct b
  end; eauto with session.

Lemma keeps_cal_list_loop (s : list Z) (i Bitval fuel : nat) :
  keeps_Inv (cal_list_loop s i Bitval fuel).
Proof. revert i Bitval. induction fuel as [|f IH]; intros i Bitval; cbn [cal_list_loop]; keeps_tac. Qed.

Lemma keeps_setCalFileList (s : list Z) : keeps_Inv (setCalFileList s).
Proof. unfold setCalFileList. keeps_tac. apply keeps_cal_list_loop. Qed.

Lemma keeps_loadedCalFile (s : list Z) : keeps_Inv (loadedCalFile s).
Proof. unfold loadedCalFile. keeps_tac. Qed.

#[local] Hint Resolve keeps_setCalFileList keeps_loadedCalFile : session.

Lemma keeps_setCalFileID (i : Z) : keeps_Inv (setCalFileID wait_worker i).
Proof. unfold setCalFileID. keeps_tac. Qed.

#[local] Hint Resolve keeps_setCalFileID : session.

Lemma keeps_storeMatrices (i : Z) (nm : list Z) (c : CorrectedCoefficient) :
  keeps_Inv (storeMatrices wait_worker i nm c).
Proof. unfold storeMatrices, saving_handshake, write_and_list. keeps_tac. Qed.

Lemma keeps_deleteCalFile (i : Z) : keeps_Inv (deleteCalFile wait_worker i).
Proof. unfold deleteCalFile, saving_handshake, write_and_list. keeps_tac. Qed.

Lemma Inv_set_flickerSettings (k : KState) (s : FlickerSetting) : Inv k -> Inv (set_flickerSettings k s).
Proof. apply quiet_Inv. quiet_tac. Qed.

Lemma Inv_setFFT (k : KState) (x : fft_setting) : Inv k -> Inv (setFFT k x).
Proof. apply Inv_set_flickerSettings. Qed.

Lemma Inv_setMaxAverageCount (k : KState) (n : Z) : Inv k -> Inv (fst (setMaxAverageCount k n)).
Proof.
  intros HI. unfold setMaxAverageCount. destruct (_ && _); cbn [fst]; [|exact HI].
  apply idle_Inv, idle_set_avg, stopMeasuring_ctrl_idle, HI.
Qed.

Lemma Inv_setMeasureSpeedMode (k : KState) (v : SpeedMode) : Inv k -> Inv (setMeasureSpeedMode k v).
Proof.
  intros HI. unfold setMeasureSpeedMode. apply Inv_set_m_speedMode.
  destruct (m_MeasuringN5 k); [apply idle_Inv, stopMeasuring_ctrl_idle|]; exact HI.
Qed.

#[local] Hint Resolve Inv_setRange Inv_setMaxAverageCount Inv_closePort_ctrl : session.

Lemma keeps_getModelSN_m : keeps_Inv getModelSN_m.
Proof.
  intros k HI. unfold getModelSN_m. destruct (getModelSN _ _ _) as [p [[model SN] r]].
  cbn [fst]. auto with session.
Qed.

#[local] Hint Resolve keeps_getModelSN_m : session.

Lemma keeps_connect (o : bool) : keeps_Inv (connect o).
Proof. unfold connect. keeps_tac. Qed.

Lemma startThread2_idle (k : KState) (m : MeasureMode) :
  idle k ->
  startThread2 k m =
  set_FFTString (set_worker (set_threadModeChild (set_threadModeParent (set_measureMode k m) RUN) RUN)
                            WPrologue) [].
Proof. intros Hi. unfold startThread2. rewrite idle_stopThread2 by exact Hi. reflexivity. Qed.

Lemma Inv_startThread2 (k : KState) (m : MeasureMode) :
  idle k -> (flickering (fs k) = true -> m = FLICKER) -> Inv (startThread2 k m).
Proof.
  intros Hi Hf. rewrite startThread2_idle by exact Hi.
  unfold Inv; cbn. repeat split; try discriminate; auto.
Qed.

Lemma load_coef_idle (k : KState) :
  idle k -> match load_coef k with inl k' => idle k' | inr (k', _) => idle k' end.
Proof.
  intros Hi. unfold load_coef. destruct (checkCoef (fs k)); [exact Hi|].
  pose proof (idle_send wait_worker k (commandString FLICKER_INFO) (expected FLICKER_INFO)
                (timeout FLICKER_INFO) Hi) as Hs.
  unfold send_cmd. destruct (sendMessageToKColorimeter _ _ _ _ _) as [k1 [e r]]. cbn [fst] in Hs.
  destruct (negb (e =? NONE)); [exact Hs|].
  destruct (printStartupString (fs k1) r) as [[fw st] e'].
  destruct (negb (e' =? NONE)); eauto with session.
Qed.

Lemma Inv_startFlicker (k : KState) (g : bool) : Inv k -> Inv (fst (startFlicker k g)).
Proof.
  intros HI. unfold startFlicker.
  assert (HI0 : Inv (set_fs k (resetFlicker (fs k)))) by eauto with session.
  destruct (String.prefix _ _); [exact HI0|].
  destruct (stopFlicker_ctrl_spec _ HI0) as [Hi _].
  pose proof (load_coef_idle _ Hi) as Hl.
  destruct (load_coef _) as [k1 | [k1 e]]; [|apply idle_Inv, Hl].
  destruct (negb (checkCoef (fs k1))); [apply idle_Inv, Hl|].
  assert (Hi1 : idle (set_fs k1 (fs_set_flickering (fs k1) true))) by eauto with session.
  destruct g.
  - apply Inv_startThread2; [eauto with session | reflexivity].
  - unfold send_cmd. destruct (isFlickerNew _);
      match goal with |- context [sendMessageToKColorimeter wait_worker ?k0 ?s ?e ?t] =>
        assert (Hs : idle k0) by eauto with session;
        pose proof (idle_send wait_worker k0 s e t Hs) as Hs';
        destruct (sendMessageToKColorimeter wait_worker k0 s e t) as [k2 [e2 r2]]
      end; apply idle_Inv, Hs'.
Qed.

Lemma Inv_startMeasuring (k : KState) : Inv k -> Inv (startMeasuring k).
Proof.
  intros HI. unfold startMeasuring.
  destruct (stopFlicker_ctrl_spec k HI) as [Hi Hf].
  set (k1 := stopFlicker wait_worker k) in *. clearbody k1.
  unfold stopMeasureCounts. rewrite idle_stopThread2 by exact Hi.
  apply Inv_startThread2; [eauto with session|]. cbn. congruence.
Qed.

Lemma Inv_startMeasureCounts (k : KState) : Inv k -> Inv (startMeasureCounts k).
Proof.
  intros HI. unfold startMeasureCounts.
  destruct (stopFlicker_ctrl_spec k HI) as [Hi Hf].
  set (k1 := stopFlicker wait_worker k) in *. clearbody k1.
  unfold stopMeasuring. rewrite idle_stopThread2 by exact Hi.
  apply Inv_set_m_MeasuringM6, Inv_startThread2; [eauto with session|]. cbn. congruence.
Qed.

Lemma Inv_setFFT_Samples (k : KState) (n : Z) : Inv k -> Inv (fst (setFFT_Samples k n)).
Proof.
  intros HI. unfold setFFT_Samples.
  destruct (_ && _ && _); [|exact HI]. destruct (negb _); [|exact HI].
  pose proof (Inv_set_flickerSettings k (fset_samples (flickerSettings (fs k)) n) HI) as H1.
  destruct (flickering (fs (set_flickerSettings k _))); [|exact H1].
  apply Inv_startFlicker, Inv_set_fs_reset, H1.
Qed.

Lemma Inv_next_measure_loop (fuel : nat) :
  forall n i k, Inv k -> Inv (fst (next_measure_loop fuel n i k)).
Proof.
  induction fuel as [|f IH]; intros n i k HI; cbn [next_measure_loop]; [exact HI|].
  unfold send_cmd at 1.
  match goal with |- context [sendMessageToKColorimeter wait_worker k ?s ?e ?t] =>
    pose proof (Inv_send_ctrl k s e t HI) as H1;
    destruct (sendMessageToKColorimeter wait_worker k s e t) as [k1 [e0 ms]] end.
  cbn [fst] in H1.
  destruct (negb _); [exact H1|].
  destruct (parseAndPrintXYZ _ _ _ _ _ _ _ _) as [a m].
  destruct (_ && _); [apply IH|]; apply Inv_set_avg, H1.
Qed.

Lemma Inv_getNextMeasurement (k : KState) (n : Z) : Inv k -> Inv (fst (getNextMeasurement k n)).
Proof.
  intros HI. unfold getNextMeasurement. unfold send_cmd at 1.
  match goal with |- context [sendMessageToKColorimeter wait_worker k ?s ?e ?t] =>
    pose proof (Inv_send_ctrl k s e t HI) as H1;
    destruct (sendMessageToKColorimeter wait_worker k s e t) as [k1 [e0 ms]] end.
  cbn [fst] in H1.
  destruct (negb _); [exact H1|].
  match goal with |- context [next_measure_loop ?f ?n ?i ?k2] =>
    pose proof (Inv_next_measure_loop f n i k2 ltac:(auto with session)) as H2;
    destruct (next_measure_loop f n i k2) as [k3 [[|] m]] end;
  cbn [fst] in *; auto with session.
Qed.

Lemma keeps_getNextMeasureCount : keeps_Inv (getNextMeasureCount wait_worker).
Proof. unfold getNextMeasureCount, sendK_clear. keeps_tac. Qed.

#[local] Hint Resolve keeps_getNextMeasureCount : session.

Lemma keeps_captureBlackLevel : keeps_Inv (captureBlackLevel wait_worker).
Proof. unfold captureBlackLevel. keeps_tac. Qed.

Lemma keeps_read_black (m : command) : keeps_Inv (read_black wait_worker m).
Proof. unfold read_black. keeps_tac. Qed.

Lemma keeps_getCoefficientMatrix : keeps_Inv (getCoefficientMatrix wait_worker).
Proof. unfold getCoefficientMatrix. keeps_tac. Qed.

Lemma Inv_readFrom_ctrl (k : KState) (e t : Z) (r : list Z) :
  Inv k -> Inv (fst (readFromKColorimeter wait_worker k e t r)).
Proof.
  intros HI. unfold readFromKColorimeter. destruct_ifs; destruct_io; cbn [fst]; destruct_ifs;
    eauto using Inv_closePort_ctrl with session.
Qed.

Lemma Inv_endFlicker_ctrl (k : KState) : Inv k -> Inv (endFlicker wait_worker k).
Proof.
  intros HI. unfold endFlicker.
  pose proof (Inv_send_cmd_ctrl _ DUMMY HI) as H1. pose proof (Inv_send_cmd_ctrl _ DUMMY H1) as H2.
  destruct (isFlickerNew _); [|pose proof (Inv_send_cmd_ctrl _ DUMMY H2) as H3];
    destruct_io; eauto with session.
Qed.

Lemma Inv_set_fs_flickering2 (k : KState) (st : FState) (b : bool) :
  flickering st = flickering (fs k) -> Inv k -> Inv (set_fs k (fs_set_flickering2 st b)).
Proof. intros E. apply quiet_Inv. unfold quiet; cbn. repeat split; intros; congruence. Qed.

Lemma Inv_getNextFlicker_prepare (k : KState) : Inv k -> Inv (getNextFlicker_prepare k).
Proof.
  intros HI. assert (H0 : Inv (set_fs k (fs_set_flickering2 (fs k) true))) by (apply Inv_set_fs_flickering2; auto).
  unfold getNextFlicker_prepare. destruct (flickering _); [apply idle_Inv, stopFlicker_ctrl_idle|]; exact H0.
Qed.

Lemma Inv_getNextFlicker (k : KState) : Inv k -> Inv (fst (getNextFlicker k)).
Proof.
  intros HI. unfold getNextFlicker.
  pose proof (Inv_getNextFlicker_prepare k HI) as H1.
  remember (getNextFlicker_prepare k) as k1 eqn:E1. clear E1.
  pose proof (Inv_startFlicker k1 false H1) as H2.
  destruct (startFlicker k1 false) as [k2 e]. cbn [fst] in H2.
  destruct (_ && _); [|exact H2].
  pose proof (Inv_set_port k2 (snd (readExisting (port k2))) H2) as H3.
  remember (set_port k2 (snd (readExisting (port k2)))) as k3 eqn:E3. clear E3.
  match goal with |- context [readFromKColorimeter wait_worker k3 ?a ?b ?c] =>
    pose proof (Inv_readFrom_ctrl k3 a b c H3) as H4;
    destruct (readFromKColorimeter wait_worker k3 a b c) as [k4 [err rs]] end.
  cbn [fst] in H4. destruct (negb _); [exact H4|]. destruct (_ <=? _)%nat; [|exact H4].
  match goal with |- context [parseAndPrintFFT ?f (fs k4) ?s] =>
    pose proof (flickering_parseAndPrintFFT f (fs k4) s) as E;
    destruct (parseAndPrintFFT f (fs k4) s) as [[fl r] st] end.
  cbn [snd] in E. apply Inv_endFlicker_ctrl, Inv_set_fs_flickering2; assumption.
Qed.

Lemma Inv_call (a : api) (k : KState) : Inv k -> Inv (call a k).
Proof.
  intros HI. destruct a; cbn [call fst getMeasurement getMeasureCounts getFlicker].
  - apply Inv_startMeasuring, HI.
  - apply idle_Inv, stopMeasuring_ctrl_idle, HI.
  - apply Inv_startMeasureCounts, HI.
  - apply idle_Inv, stopMeasureCounts_ctrl_idle, HI.
  - apply Inv_startFlicker, HI.
  - apply idle_Inv, stopFlicker_ctrl_idle, HI.
  - eauto with session.
  - eauto with session.
  - eauto with session.
  - apply Inv_send_ctrl, HI.
  - apply Inv_closePort_ctrl, HI.
  - apply Inv_setRange, HI.
  - apply Inv_setAimingLights, HI.
  - apply keeps_setCalFileID, HI.
  - apply Inv_setTempCalFile, HI.
  - apply keeps_storeMatrices, HI.
  - apply keeps_deleteCalFile, HI.
  - apply Inv_setFFT, HI.
  - apply Inv_setFFT_Samples, HI.
  - apply Inv_setMaxAverageCount, HI.
  - apply Inv_setMeasureSpeedMode, HI.
  - apply Inv_set_m_ZeroNoise, HI.
  - apply Inv_set_m_DeviceFlickerSpeed, HI.
  - apply keeps_connect, HI.
  - apply keeps_getNextMeasureCount, HI.
  - apply keeps_captureBlackLevel, HI.
  - apply keeps_read_black, HI.
  - apply keeps_read_black, HI.
  - apply keeps_getCoefficientMatrix, HI.
  - apply Inv_getNextMeasurement, HI.
  - apply Inv_getNextFlicker, HI.
  - unfold isPortOpen. destruct (_ && _); [apply Inv_closePort_ctrl|]; exact HI.
Qed.

Lemma Inv_step (k k' : KState) : step k k' -> Inv k -> Inv k'.
Proof. intros [a k0 | k0 _]; [apply Inv_call | apply worker_step_Inv]. Qed.

(** Outside flicker mode, stopping the worker from the controller only
    touches the thread members. *)
Lemma stopThread2_ctrl_nonflicker (k : KState) :
  Inv k -> measureMode k <> FLICKER ->
  let k' := stopThread2 wait_worker k in
  m_MeasuringN5 k' = m_MeasuringN5 k /\ m_MeasuringM6 k' = m_MeasuringM6 k /\ fs k' = fs k /\
  m_isFlickerfresh k' = m_isFlickerfresh k /\ m_Model k' = m_Model k /\
  m_firmware k' = m_firmware k /\ m_DeviceFlickerSpeed k' = m_DeviceFlickerSpeed k /\
  port k' = port k.
Proof.
  intros (I1 & _ & _ & _) Hm. unfold stopThread2.
  destruct (ThreadMode_beq (threadModeChild k) NOT_RUNNING) eqn:C; [repeat split|].
  assert (W : worker k <> WNone) by (intros W; apply I1 in W; rewrite W in C; discriminate).
  destruct k as [p md par ch w ffs n5 m6 mf cf ff a st mm cc fl sp mo fw ds zn cid op].
  cbn [measureMode threadModeChild worker] in *.
  assert (E : MeasureMode_beq md FLICKER = false) by (destruct md; [reflexivity|contradiction|reflexivity]).
  unfold wait_worker. cbn [run_worker]. cbn [set_threadModeParent threadModeChild]. rewrite C.
  destruct w; [contradiction| |];
    cbn [worker_step set_threadModeParent worker];
    unfold worker_prologue, worker_iter, endThread; do 3 (cbn; rewrite ?E, ?C);
    repeat split.
Qed.

(** What the thread-local functions also leave alone: they never set
    [m_MeasuringN5] and never touch the fresh flags. *)
Definition calm (k k' : KState) : Prop :=
  quiet k k' /\ (m_MeasuringN5 k' = true -> m_MeasuringN5 k = true) /\
  m_isMeasurefresh k' = m_isMeasurefresh k /\ m_isCountsfresh k' = m_isCountsfresh k /\
  m_isFlickerfresh k' = m_isFlickerfresh k.

#[export] Instance calm_PreOrder : PreOrder calm.
Proof.
  split.
  - intros k. split; [reflexivity|]. repeat split; auto.
  - intros a b c (Q1 & N1 & F1 & G1 & H1) (Q2 & N2 & F2 & G2 & H2).
    split; [etransitivity; eassumption|]. repeat split; auto; congruence.
Qed.

Ltac calm_tac := unfold calm; split; [quiet_tac|]; cbn; destruct_ifs; destruct_io; cbn; destruct_ifs;
  repeat split; cbn; intros; try congruence; auto.

Lemma send_self_calm (k : KState) (s : string) (e t : Z) :
  calm k (fst (sendMessageToKColorimeter self_thread k s e t)).
Proof. unfold_thread. calm_tac. Qed.

Lemma endFlicker_self_calm (k : KState) : calm k (endFlicker self_thread k).
Proof.
  unfold endFlicker.
  set (k1 := fst (send_cmd self_thread k DUMMY)).
  set (k2 := fst (send_cmd self_thread k1 DUMMY)).
  set (k3 := if isFlickerNew k2 then k2 else fst (send_cmd self_thread k2 DUMMY)).
  assert (H3 : calm k k3).
  { transitivity k2; [transitivity k1; apply send_self_calm|].
    unfold k3. destruct (isFlickerNew k2); [reflexivity | apply send_self_calm]. }
  clearbody k3. destruct (readExisting (port k3)) as [r p].
  etransitivity; [exact H3 | calm_tac].
Qed.

Lemma endThread_calm (k : KState) :
  (m_MeasuringN5 (endThread k) = true -> m_MeasuringN5 k = true) /\
  m_isFlickerfresh (endThread k) = m_isFlickerfresh k.
Proof.
  unfold endThread. destruct (MeasureMode_beq _ _); [|split; auto].
  destruct (endFlicker_self_calm k) as (_ & Hn & _ & _ & Hf). cbn. split; assumption.
Qed.

(** The flicker worker's prologue while the colour mode is still flagged:
    its start command stops the colour mode on the worker's own thread,
    which takes the controller's intent off [RUN]. *)
Lemma worker_prologue_flicker (k : KState) :
  measureMode k = FLICKER -> worker k = WPrologue -> m_MeasuringN5 k = true ->
  threadModeChild k <> NOT_RUNNING ->
  let k' := worker_prologue k in
  worker k' = WLoop /\ threadModeParent k' <> RUN /\ m_MeasuringN5 k' = false /\
  m_isFlickerfresh k' = m_isFlickerfresh k /\ measureMode k' = FLICKER.
Proof.
  intros Hm Hw Hn Hc.
  assert (C : ThreadMode_beq (threadModeChild k) NOT_RUNNING = false)
    by (destruct (threadModeChild k); [contradiction | reflexivity | reflexivity]).
  unfold worker_prologue. rewrite Hm. cbn [MeasureMode_beq].
  set (k0 := if isFlickerNew k then set_fs k (fs_set_speed (fs k) 384) else set_fs k (fs_set_speed (fs k) 256)).
  assert (E : (if isFlickerNew k
               then fst (send_cmd self_thread (set_fs k (fs_set_speed (fs k) 384)) FLICKER_384PERSECOND)
               else fst (send_cmd self_thread (set_fs k (fs_set_speed (fs k) 256)) FLICKER_256PERSECOND))
            = fst (send_cmd self_thread k0 (if isFlickerNew k then FLICKER_384PERSECOND else FLICKER_256PERSECOND)))
    by (unfold k0; destruct (isFlickerNew k); reflexivity).
  rewrite E.
  assert (Hk0 : m_MeasuringN5 k0 = true /\ ThreadMode_beq (threadModeChild k0) NOT_RUNNING = false /\
                m_isFlickerfresh k0 = m_isFlickerfresh k /\ measureMode k0 = FLICKER)
    by (unfold k0; destruct (isFlickerNew k); cbn; auto).
  set (c := if isFlickerNew k then FLICKER_384PERSECOND else FLICKER_256PERSECOND).
  assert (Hc' : is_color_command (commandString c) = false) by (unfold c; destruct (isFlickerNew k); reflexivity).
  clearbody c k0. destruct Hk0 as (N & C0 & F0 & M0).
  unfold send_cmd, sendMessageToKColorimeter, stopMeasuring, stopMeasureCounts, stopFlicker,
    stopThread2, self_thread.
  rewrite N, Hc'. cbn. rewrite ?C0. cbn.
  destruct_ifs; destruct_io; cbn; rewrite ?C0; cbn; repeat split; try discriminate; congruence.
Qed.

Lemma checkCoef_resetFlicker (st : FState) : checkCoef (resetFlicker st) = checkCoef st.
Proof. reflexivity. Qed.

Lemma stopFlicker_ctrl_nonflicker (k : KState) :
  Inv k -> measureMode k <> FLICKER ->
  let k' := stopFlicker wait_worker k in
  idle k' /\ m_MeasuringN5 k' = m_MeasuringN5 k /\ m_MeasuringM6 k' = m_MeasuringM6 k /\
  checkCoef (fs k') = checkCoef (fs k) /\ m_isFlickerfresh k' = m_isFlickerfresh k /\
  m_firmware k' = m_firmware k /\ m_DeviceFlickerSpeed k' = m_DeviceFlickerSpeed k.
Proof.
  intros HI Hm. split; [apply stopFlicker_ctrl_idle, HI|].
  unfold stopFlicker. destruct (ThreadMode_beq _ _); [repeat split|].
  destruct (stopThread2_ctrl_nonflicker k HI Hm) as (H1 & H2 & H3 & H4 & _ & H6 & H7 & _).
  rewrite H1, H2, H3, H4, H6, H7. repeat split.
Qed.

End Worker.



(** The worker is at its loop test in mode [m] with the controller's
    intent at [RUN]. *)
Definition running (m : MeasureMode) (k : KState) : Prop :=
  worker k = WLoop /\ measureMode k = m /\ threadModeParent k = RUN.

(** ** A decision procedure for [Inv] on concrete states *)

Definition is_idle_pc (w : WorkerPc) : bool := match w with WNone => true | _ => false end.

Definition Inv_b (k : KState) : bool :=
  Bool.eqb (ThreadMode_beq (threadModeChild k) NOT_RUNNING) (is_idle_pc (worker k)) &&
  negb (ThreadMode_beq (threadModeChild k) STOP) &&
  (negb (is_idle_pc (worker k)) || negb (ThreadMode_beq (threadModeParent k) RUN)) &&
  (is_idle_pc (worker k) || negb (flickering (fs k)) || MeasureMode_beq (measureMode k) FLICKER).

Lemma Inv_b_Inv (k : KState) : Inv_b k = true -> Inv k.
Proof.
  unfold Inv_b, Inv.
  destruct (threadModeChild k), (worker k), (threadModeParent k), (flickering (fs k)), (measureMode k);
    cbn; intros E; try discriminate; repeat split; intros; congruence.
Qed.

(** Witnesses evaluate with the rational stand-ins of [<cmath>]. *)
#[local] Existing Instance stub_libm.

(** A session on an open port whose range calibration is loaded. *)
Definition calibrated_session (p : Port) : KState :=
  let k := KClmtr_init p false false false (-1) in
  set_fs k (mkFState false false 0 (flickerSettings (fs k)) (-1) [] (coeff1 (fs k))
                     (repeat (repeat 0%Q 5) 3) 0 (calMatrix (fs k))).

(** ** Properties *)

Section Properties.

Context `{Libm}.

(** C1: [startFlicker] does not stop the colour mode when the range
    calibration is already loaded: with the colour worker in charge and
    [isMeasuring()] true, [startFlicker(true)] returns [NONE] with
    [isMeasuring()] still true while the flicker worker starts (the spec
    requires it to be false by then).  The worker's first command then
    stops the colour mode through [stopThread2] on its own thread, which
    clears the controller's intent, so the flicker worker exits at its
    loop test, [endFlicker] clears [m_Flickering], and no flicker result
    is ever published. *)
Theorem startFlicker_keeps_measuring (k : KState) :
  Inv k -> measureMode k = MEASURE -> m_MeasuringN5 k = true ->
  checkCoef (fs k) = true -> String.prefix "KV-" (m_Model k) = false ->
  let '(k1, e) := startFlicker k true in
  e = NONE /\ m_MeasuringN5 k1 = true /\ flickering (fs k1) = true /\
  measureMode k1 = FLICKER /\ worker k1 = WPrologue /\
  let k2 := worker_step (worker_step k1) in
  worker k2 = WNone /\ threadModeChild k2 = NOT_RUNNING /\ flickering (fs k2) = false /\
  m_MeasuringN5 k2 = false /\ m_isFlickerfresh k2 = m_isFlickerfresh k.
Proof.
  intros HI Hm Hn Hc Hp. unfold startFlicker.
  set (k0 := set_fs k (resetFlicker (fs k))).
  assert (HI0 : Inv k0) by (unfold k0; eauto with session).
  change (m_Model k0) with (m_Model k). rewrite Hp.
  destruct (stopFlicker_ctrl_nonflicker k0 HI0 ltac:(cbn; rewrite Hm; discriminate))
    as (Hi & H1 & _ & H3 & H4 & _ & _).
  set (k1 := stopFlicker wait_worker k0) in *. clearbody k1.
  cbn [k0 fs m_MeasuringN5 m_isFlickerfresh set_fs] in H1, H3, H4.
  rewrite checkCoef_resetFlicker, Hc in H3. rewrite Hn in H1.
  unfold load_coef. rewrite H3. cbn [negb].
  rewrite startThread2_idle by (revert Hi; idle_tac).
  cbv beta iota. rewrite H3. cbv beta iota. split; [reflexivity|].
  cbn [set_FFTString set_worker set_threadModeChild set_threadModeParent set_measureMode set_fs
       m_MeasuringN5 fs flickering fs_set_flickering fs_set_flickering2 measureMode worker].
  split; [exact H1|]. do 3 (split; [reflexivity|]).
  set (kA := set_FFTString _ []).
  destruct (worker_prologue_flicker kA) as (Hw & Hr & Hn' & Hf & Hq);
    [reflexivity | reflexivity | exact H1 | discriminate |].
  assert (E1 : worker_step kA = worker_prologue kA) by reflexivity. rewrite E1.
  set (kB := worker_prologue kA) in *. clearbody kB.
  assert (E2 : worker_step kB = endThread kB).
  { unfold worker_step. rewrite Hw. unfold worker_iter.
    destruct (threadModeParent kB); [reflexivity | contradiction | reflexivity]. }
  rewrite E2.
  destruct (endThread_spec kB) as (W & Ch & _ & F & M).
  destruct (endThread_calm kB) as (Cn & Cf).
  split; [exact W|]. split; [exact Ch|].
  split; [destruct (flickering _) eqn:E; [|reflexivity];
          destruct (F eq_refl) as [Hm' _]; exfalso; apply Hm'; exact Hq|].
  split; [destruct (m_MeasuringN5 (endThread kB)) eqn:E; [|reflexivity]; rewrite <- Hn'; symmetry; apply Cn; reflexivity|].
  rewrite Cf, Hf. unfold kA. cbn. exact H4.
Qed.

(** C2: every state reachable from the constructor by calls of the API
    (the modes, the getters, raw commands, [closePort], the settings and
    the calibration-file functions) and steps of the worker satisfies
    [Inv]: a worker runs exactly when
    its status is not [NOT_RUNNING], that status is never [STOP], an idle
    worker leaves the controller's intent off [RUN], and a running worker
    outside flicker mode never sees [m_Flickering] set. *)
Theorem reachable_Inv (p : Port) (mf cf ff : bool) (range : Z) (k : KState) :
  clos_refl_trans_1n KState step (KClmtr_init p mf cf ff range) k -> Inv k.
Proof.
  assert (H0 : Inv (KClmtr_init p mf cf ff range)) by (apply Inv_b_Inv; reflexivity).
  revert H0. generalize (KClmtr_init p mf cf ff range) as k0.
  intros k0 H0 Hr. induction Hr as [|x y z Hs _ IH]; [exact H0|].
  apply IH, (Inv_step x y Hs H0).
Qed.

(** C3: stopping the worker from the controller always returns: once the
    stop is requested, at most two worker steps bring its status to
    [NOT_RUNNING], and [stopThread2] leaves the session idle. *)
Theorem stopThread2_joins (k : KState) :
  Inv k ->
  threadModeChild (run_worker 2 (set_threadModeParent k STOP)) = NOT_RUNNING /\
  let k' := stopThread2 wait_worker k in
  worker k' = WNone /\ threadModeChild k' = NOT_RUNNING /\ threadModeParent k' <> RUN.
Proof.
  intros HI. split; [|apply stopThread2_ctrl_spec, HI].
  pose proof HI as (I1 & _ & _ & _).
  destruct (threadModeChild k) eqn:C.
  - cbn. rewrite C. cbn. exact C.
  - assert (HI0 : Inv (set_threadModeParent k STOP))
      by (revert HI; unfold Inv; cbn; intros (? & ? & ? & ?); repeat split; try tauto; discriminate).
    assert (W : worker (set_threadModeParent k STOP) <> WNone)
      by (cbn; intros W; apply I1 in W; congruence).
    destruct (wait_worker_spec _ HI0 W ltac:(cbn; discriminate)) as (k1 & _ & E).
    unfold wait_worker in E. rewrite E. apply endThread_spec.
  - destruct HI as (_ & I2 & _). contradiction.
Qed.

(** C4: starting the colour mode turns the counts and flicker modes off,
    and starting the counts mode turns the colour and flicker modes off,
    from any state satisfying [Inv]. *)
Theorem start_modes_exclusive (k : KState) :
  Inv k ->
  (let k' := startMeasuring k in
   m_MeasuringN5 k' = true /\ m_MeasuringM6 k' = false /\ flickering (fs k') = false /\
   measureMode k' = MEASURE /\ threadModeParent k' = RUN /\ worker k' = WPrologue /\
   avgLast (avg k') = 0) /\
  (let k' := startMeasureCounts k in
   m_MeasuringM6 k' = true /\ m_MeasuringN5 k' = false /\ flickering (fs k') = false /\
   measureMode k' = COUNTS /\ threadModeParent k' = RUN /\ worker k' = WPrologue).
Proof.
  intros HI. destruct (stopFlicker_ctrl_spec k HI) as [Hi Hf].
  unfold startMeasuring, startMeasureCounts, stopMeasureCounts, stopMeasuring.
  set (k1 := stopFlicker wait_worker k) in *. clearbody k1.
  rewrite !idle_stopThread2 by exact Hi.
  rewrite !startThread2_idle by (revert Hi; idle_tac).
  cbn. rewrite Hf. repeat split.
Qed.

(** C5: when the counts command fails, the counts worker publishes the
    error in [m_counts] and stops, but raises [m_isMeasurefresh] instead
    of [m_isCountsfresh]: [getMeasureCounts] then reports the error as
    not fresh (KClmtr.cpp line 470). *)
Theorem iter_counts_error_flag (k : KState) :
  running COUNTS k ->
  m_MeasuringN5 k = false -> flickering (fs k) = false ->
  fst (fst (sendMessageToSerialPort (port k) (commandString COUNTS_4PERSECOND)
                                   (expected COUNTS_4PERSECOND) (timeout COUNTS_4PERSECOND))) <> 0 ->
  let k' := worker_step k in
  m_counts k' = Counts_of_error (fst (fst (sendMessageToSerialPort (port k) (commandString COUNTS_4PERSECOND)
                                   (expected COUNTS_4PERSECOND) (timeout COUNTS_4PERSECOND)))) /\
  threadModeParent k' = STOP /\ m_isMeasurefresh k' = true /\
  snd (snd (getMeasureCounts k')) = m_isCountsfresh k.
Proof.
  intros (W & M & P) N F E. unfold worker_step. rewrite W. unfold worker_iter. rewrite P, M.
  cbn [ThreadMode_beq negb]. unfold iter_counts, send_cmd, sendMessageToKColorimeter.
  rewrite N. cbn [andb].
  replace (m_MeasuringM6 k && negb (String.eqb (commandString COUNTS_4PERSECOND)
                                                (commandString COUNTS_4PERSECOND))) with false
    by (destruct (m_MeasuringM6 k); reflexivity).
  cbv beta iota. rewrite F. cbv beta iota.
  cbn [andb negb]. cbv beta iota.
  revert E. destruct_io. cbn. intros E.
  destruct (Z.eqb_spec z 0); [contradiction|]. cbn. repeat split.
Qed.


End Properties.

Lemma startFlicker_keeps_measuring_witness :
  let k := startMeasuring (calibrated_session (mkPort true [] [] [])) in
  (Inv k /\ measureMode k = MEASURE /\ m_MeasuringN5 k = true /\
   checkCoef (fs k) = true /\ String.prefix "KV-" (m_Model k) = false) /\
  let '(k1, e) := startFlicker k true in
  e = NONE /\ m_MeasuringN5 k1 = true /\ flickering (fs k1) = true /\
  measureMode k1 = FLICKER /\ worker k1 = WPrologue /\
  let k2 := worker_step (worker_step k1) in
  worker k2 = WNone /\ threadModeChild k2 = NOT_RUNNING /\ flickering (fs k2) = false /\
  m_MeasuringN5 k2 = false /\ m_isFlickerfresh k2 = m_isFlickerfresh k.
Proof.
  intros k.
  assert (HI : Inv k) by (apply Inv_b_Inv; vm_compute; reflexivity).
  split; [split; [exact HI | repeat split; vm_compute; reflexivity]|].
  apply startFlicker_keeps_measuring; [exact HI | vm_compute; reflexivity ..].
Defined.

Definition open_port : Port := mkPort true [] [] [].

Lemma reachable_Inv_witness :
  let k := call StartMeasuring (KClmtr_init open_port false false false (-1)) in
  clos_refl_trans_1n KState step (KClmtr_init open_port false false false (-1)) k /\ Inv k.
Proof.
  intros k. assert (Hr : clos_refl_trans_1n KState step (KClmtr_init open_port false false false (-1)) k)
    by (eapply Relation_Operators.rt1n_trans; [apply step_call | apply Relation_Operators.rt1n_refl]).
  split; [exact Hr | apply (reachable_Inv open_port false false false (-1) k Hr)].
Defined.

Lemma stopThread2_joins_witness :
  let k := startMeasuring (calibrated_session open_port) in
  Inv k /\
  threadModeChild (run_worker 2 (set_threadModeParent k STOP)) = NOT_RUNNING /\
  let k' := stopThread2 wait_worker k in
  worker k' = WNone /\ threadModeChild k' = NOT_RUNNING /\ threadModeParent k' <> RUN.
Proof.
  intros k. assert (HI : Inv k) by (apply Inv_b_Inv; vm_compute; reflexivity).
  split; [exact HI | apply stopThread2_joins, HI].
Defined.

Lemma start_modes_exclusive_witness :
  let k := fst (startFlicker (calibrated_session open_port) true) in
  Inv k /\
  (let k' := startMeasuring k in
   m_MeasuringN5 k' = true /\ m_MeasuringM6 k' = false /\ flickering (fs k') = false /\
   measureMode k' = MEASURE /\ threadModeParent k' = RUN /\ worker k' = WPrologue /\
   avgLast (avg k') = 0) /\
  (let k' := startMeasureCounts k in
   m_MeasuringM6 k' = true /\ m_MeasuringN5 k' = false /\ flickering (fs k') = false /\
   measureMode k' = COUNTS /\ threadModeParent k' = RUN /\ worker k' = WPrologue).
Proof.
  intros k. assert (HI : Inv k) by (apply Inv_b_Inv; vm_compute; reflexivity).
  split; [exact HI | apply start_modes_exclusive, HI].
Defined.

Lemma iter_counts_error_flag_witness :
  let k := worker_step (startMeasureCounts (KClmtr_init (mkPort false [] [] []) false false false (-1))) in
  (running COUNTS k /\
   m_MeasuringN5 k = false /\ flickering (fs k) = false /\
   fst (fst (sendMessageToSerialPort (port k) (commandString COUNTS_4PERSECOND)
                                   (expected COUNTS_4PERSECOND) (timeout COUNTS_4PERSECOND))) <> 0) /\
  let k' := worker_step k in
  m_counts k' = Counts_of_error (fst (fst (sendMessageToSerialPort (port k) (commandString COUNTS_4PERSECOND)
                                   (expected COUNTS_4PERSECOND) (timeout COUNTS_4PERSECOND)))) /\
  threadModeParent k' = STOP /\ m_isMeasurefresh k' = true /\
  snd (snd (getMeasureCounts k')) = m_isCountsfresh k.
Proof.
  intros k. split; [repeat split; vm_compute; try reflexivity; discriminate|].
  apply iter_counts_error_flag; [repeat split; vm_compute; reflexivity | vm_compute; reflexivity ..|].
  vm_compute. discriminate.
Defined.



End SessionProps.
