(* ===== verification/OneShot.v ===== *)
(** * The one-shot colour measurement [getNextMeasurement(n)]
      (src/KClmtr.cpp lines 645-684)

    [getNextMeasurement] sends the colour command once to clear the
    buffer, replaces the averaging arrays by fresh ones of [n] entries
    ([m_MaxAvgNumber = n]), reads until the box-car averager reports
    enough light (auto mode, [n < 1]) or the window is full, then frees
    the arrays and restores the window.  It is modelled in [SessionApi]
    ([next_measure_loop], [getNextMeasurement]) as a call of the session;
    this file holds what the call does.

    While neither the counts mode nor the flicker stream runs, the colour
    command is sent as it is ([send_plain]): only the port and the
    averaging state change.  Under that condition the theorems show that
    the loop ends by its own test within the window, that a failed
    reading inside the loop returns without restoring the window, and
    that a colour worker started by [startMeasuring] keeps running after
    the call with its averaging arrays freed. *)

From Stdlib Require Import String Ascii ZArith QArith List Bool Lia.
From S2P Require Import Prelude ErrorCodes Codec Protocol Averager Measure FlickerStream Session SessionApi.
Import ListNotations.
Import KleinsErrorCodes.
Open Scope Z_scope.

Module OneShot.

Import Codec Protocol Averager Measure FlickerStream Session SessionApi.

(** Neither the counts mode nor the flicker stream is running: a colour
    command stops nothing. *)
Definition plain (k : KState) : Prop :=
  m_MeasuringM6 k = false /\ flickering (fs k) = false.

(** A reply of the colour command with zero XYZ and no error token. *)
Definition color_reply : list Z := repeat 0 15.

(** A session measuring colour, on a port that answers two colour
    commands. *)
Definition colour_session `{Libm} : KState :=
  startMeasuring (KClmtr_init (mkPort true [] [Arrive color_reply; Arrive color_reply] [])
                    false false false (-1)).

(** ** Lemmas *)

Lemma is_color_getColorMeasurmentCommand (sm : SpeedMode) :
  is_color_command (commandString (getColorMeasurmentCommand sm)) = true.
Proof. destruct sm; reflexivity. Qed.

Lemma plain_set_port (k : KState) (p : Port) : plain k -> plain (set_port k p).
Proof. intros H. exact H. Qed.

Lemma plain_set_avg (k : KState) (a : AvgState) : plain k -> plain (set_avg k a).
Proof. intros H. exact H. Qed.

#[local] Hint Resolve plain_set_port plain_set_avg : core.

(** A colour command on a [plain] session goes straight to the port. *)
Lemma send_plain (w : KState -> KState) (k : KState) (s : string) (e t : Z) :
  plain k -> is_color_command s = true ->
  sendMessageToKColorimeter w k s e t =
  let '(error, readString, p) := sendMessageToSerialPort (port k) s e t in
  (set_port k p, (error, readString)).
Proof.
  intros [HM HF] Hc. unfold sendMessageToKColorimeter. rewrite Hc. cbn [negb].
  rewrite andb_false_r. cbv beta iota zeta. rewrite HM. cbn [andb]. rewrite HF. cbn [andb]. reflexivity.
Qed.

(** The averager keeps the window and the size of its arrays. *)
Lemma feed_dims (st : AvgState) (data : V3) (autoAvg : bool) (mult : Q) (error : Z) :
  maxAvg (fst (feed st data autoAvg mult error)) = maxAvg st /\
  length (ring (fst (feed st data autoAvg mult error))) = length (ring st).
Proof.
  unfold feed, boxCarAvg.
  destruct (avg_loop _ _ _ _ _ _ _ _ _ _) as [[[[? ?] ?] ?] ?]. cbn.
  split; [reflexivity | apply length_list_set].
Qed.

Section Loop.

Context `{Libm}.

Lemma send_cmd_color (k : KState) :
  plain k ->
  let c := getColorMeasurmentCommand (m_speedMode k) in
  send_cmd wait_worker k c =
  let '(error, readString, p) := sendMessageToSerialPort (port k) (commandString c) (expected c) (timeout c) in
  (set_port k p, (error, readString)).
Proof. intros Hp c. apply send_plain; [exact Hp | apply is_color_getColorMeasurmentCommand]. Qed.

Lemma parseAndPrintXYZ_dims (md : string) (sm : SpeedMode) (zn : bool) (cid : Z)
    (cal : list (list Q)) (st : AvgState) (s : list Z) (autoAvg : bool) :
  maxAvg (fst (parseAndPrintXYZ md sm zn cid cal st s autoAvg)) = maxAvg st /\
  length (ring (fst (parseAndPrintXYZ md sm zn cid cal st s autoAvg))) = length (ring st).
Proof.
  unfold parseAndPrintXYZ. destruct (parsingRange _) as [[? ?] ?].
  match goal with |- context [feed ?a ?b ?c ?d ?e] =>
    pose proof (feed_dims a b c d e) as Hd; destruct (feed a b c d e) as [st' [[[? ?] ?] ?]] end.
  destruct (noise_check _ _ _) as [? ?]. exact Hd.
Qed.

(** The loop ends by its own test once [i] reaches the window. *)
Lemma next_measure_loop_more_fuel (f : nat) :
  forall n i k, plain k -> (Z.to_nat (maxAvg (avg k) - i) <= S f)%nat ->
  next_measure_loop (S f) n i k = next_measure_loop (S (S f)) n i k.
Proof.
  induction f as [|f IH]; intros n i k Hp Hb;
    cbn [next_measure_loop]; rewrite (send_cmd_color k Hp);
    destruct (sendMessageToSerialPort _ _ _ _) as [[error ms] p];
    destruct (negb (error =? NONE)); try reflexivity;
    match goal with |- context [parseAndPrintXYZ ?a ?b ?c ?d ?e ?f ?g ?h] =>
      pose proof (parseAndPrintXYZ_dims a b c d e f g h) as [Hm _];
      destruct (parseAndPrintXYZ a b c d e f g h) as [a' m] end;
    cbn [fst avg set_avg set_port] in *;
    destruct (negb (negb (has_flag (Measure.errorcode m) AVERAGING_LOW_LIGHT) && (n <? 1)));
    cbn [andb]; try reflexivity;
    destruct (Z.leb_spec (maxAvg a') (i + 1)); cbn [negb]; try reflexivity.
  - exfalso; lia.
  - apply IH; [auto | cbn [avg set_avg]; lia].
Qed.

Lemma next_measure_loop_fuel (f : nat) :
  forall f' n i k, plain k -> (Z.to_nat (maxAvg (avg k) - i) <= S f)%nat -> (f <= f')%nat ->
  next_measure_loop (S f) n i k = next_measure_loop (S f') n i k.
Proof.
  intros f' n i k Hp Hb Hf. induction Hf as [|f' Hf IH]; [reflexivity|].
  rewrite IH. apply next_measure_loop_more_fuel; [exact Hp | lia].
Qed.

(** One turn of the loop. *)
Lemma next_measure_loop_S (f : nat) (n i : Z) (k : KState) :
  next_measure_loop (S f) n i k =
  let '(k, (error, mstring)) :=
    send_cmd wait_worker k (getColorMeasurmentCommand (m_speedMode k)) in
  if negb (error =? NONE) then (k, (false, fromError error))
  else
    let '(a, m) := parseAndPrintXYZ (m_Model k) (m_speedMode k) (m_ZeroNoise k) (m_CalFileID k)
                     (calMatrix (fs k)) (avg k) mstring (n <? 1) in
    let k := set_avg k a in
    if negb (negb (has_flag (Measure.errorcode m) AVERAGING_LOW_LIGHT) && (n <? 1)) &&
       negb (maxAvg (avg k) <=? i + 1)
    then next_measure_loop f n (i + 1) k
    else (k, (true, m)).
Proof. reflexivity. Qed.

(** Each reading writes one command at most; the loop makes at most
    [max 1 (N - i)] of them. *)
Lemma next_measure_loop_tx (f : nat) :
  forall n i k, plain k ->
  (length (tx (port (fst (next_measure_loop (S f) n i k)))) <=
   length (tx (port k)) + Nat.max 1 (Z.to_nat (maxAvg (avg k) - i)))%nat.
Proof.
  induction f as [|f IH]; intros n i k Hp; rewrite next_measure_loop_S, (send_cmd_color k Hp);
    match goal with |- context [sendMessageToSerialPort ?p ?s ?e ?t] =>
      pose proof (sendMessageToSerialPort_tx p s e t) as Ht;
      destruct (sendMessageToSerialPort p s e t) as [[error ms] p'] end;
    cbn [snd] in Ht; destruct (negb (error =? NONE)); [cbn [fst port set_port]; lia| |cbn [fst port set_port]; lia|];
    match goal with |- context [parseAndPrintXYZ ?a ?b ?c ?d ?e ?f ?g ?h] =>
      pose proof (parseAndPrintXYZ_dims a b c d e f g h) as [Hm _];
      destruct (parseAndPrintXYZ a b c d e f g h) as [a' m] end;
    cbn [fst avg set_avg set_port] in *;
    destruct (negb (negb (has_flag (Measure.errorcode m) AVERAGING_LOW_LIGHT) && (n <? 1)) &&
              negb (maxAvg a' <=? i + 1)) eqn:Ec; cbn [fst port set_avg set_port]; try lia.
  all: apply andb_true_iff in Ec as [_ Ec]; apply negb_true_iff, Z.leb_gt in Ec.
  - cbn [next_measure_loop fst port set_avg set_port]. lia.
  - specialize (IH n (i + 1) (set_avg (set_port k p') a') ltac:(auto)).
    cbn [port avg set_avg set_port] in IH. lia.
Qed.

(** The loop changes only the port and the averaging state, and leaves
    it early only on a failed reading. *)
Lemma next_measure_loop_frame (f : nat) :
  forall n i k, plain k ->
  let '(k', (completed, m)) := next_measure_loop f n i k in
  k' = set_avg (set_port k (port k')) (avg k') /\
  (completed = false -> exists e, e <> NONE /\ m = fromError e).
Proof.
  induction f as [|f IH]; intros n i k Hp.
  - split; [destruct k; reflexivity | discriminate].
  - rewrite next_measure_loop_S, (send_cmd_color k Hp).
    destruct (sendMessageToSerialPort _ _ _ _) as [[error ms] p'].
    destruct (Z.eqb_spec error NONE) as [E|E]; cbn [negb].
    2:{ split; [destruct k; reflexivity|]. intros _. exists error. split; [exact E | reflexivity]. }
    destruct (parseAndPrintXYZ _ _ _ _ _ _ _ _) as [a' m].
    destruct (_ && _).
    + specialize (IH n (i + 1) (set_avg (set_port k p') a') ltac:(auto)).
      destruct (next_measure_loop f n (i + 1) _) as [k' [c m']].
      destruct IH as [Ek Hc]. split; [|exact Hc]. rewrite Ek. destruct k; reflexivity.
    + split; [destruct k; reflexivity | discriminate].
Qed.

(** ** Properties *)

(** C35: while neither counts nor flicker runs, the do-while loop of
    [getNextMeasurement] ends by its own test: from [i] readings done,
    any fuel of at least [N - i] readings (N the window) gives the same
    result, so the fuel the call gives is never used up; and the whole
    call writes at most [1 + max 1 N] commands to the port. *)
Theorem getNextMeasurement_terminates (k : KState) (n : Z) :
  m_MeasuringM6 k = false -> flickering (fs k) = false ->
  (forall i f f', (Z.to_nat (maxAvg (avg k) - i) <= S f)%nat -> (f <= f')%nat ->
     next_measure_loop (S f) n i k = next_measure_loop (S f') n i k) /\
  (length (tx (port (fst (getNextMeasurement k n)))) <=
     length (tx (port k)) + 1 + Nat.max 1 (Z.to_nat (if Z.ltb n 1 then maxAvg (avg k) else n)))%nat.
Proof.
  intros HM HF. assert (Hp : plain k) by (split; assumption). split.
  - intros i f f' Hb Hf. exact (next_measure_loop_fuel f f' n i k Hp Hb Hf).
  - unfold getNextMeasurement. rewrite (send_cmd_color k Hp).
    match goal with |- context [sendMessageToSerialPort ?p ?s ?e ?t] =>
      pose proof (sendMessageToSerialPort_tx p s e t) as Ht;
      destruct (sendMessageToSerialPort p s e t) as [[error ms] p'] end.
    cbn [snd] in Ht. destruct (negb (error =? NONE)); [cbn [fst port set_port]; lia|].
    cbn [avg set_port set_avg maxAvg ring avgLast].
    set (newMax := if Z.ltb n 1 then maxAvg (avg k) else n).
    match goal with |- context [next_measure_loop (S ?f) n 0 ?k2] =>
      pose proof (next_measure_loop_tx f n 0 k2 ltac:(auto)) as Hl;
      destruct (next_measure_loop (S f) n 0 k2) as [k3 [[|] m]] end;
    cbn [fst port set_avg avg set_port maxAvg] in *; lia.
Qed.

(** C19: a failed reading inside the loop returns [fromError] at once,
    without restoring the window: [m_MaxAvgNumber] stays [n] and the
    averaging arrays of [n] entries stay allocated. *)
Theorem getNextMeasurement_error_keeps_window (k : KState) (n e : Z) (r0 r1 : list Z) (p0 p1 : Port) :
  m_MeasuringM6 k = false -> flickering (fs k) = false -> 1 <= n ->
  let c := getColorMeasurmentCommand (m_speedMode k) in
  sendMessageToSerialPort (port k) (commandString c) (expected c) (timeout c) = (NONE, r0, p0) ->
  sendMessageToSerialPort p0 (commandString c) (expected c) (timeout c) = (e, r1, p1) -> e <> NONE ->
  getNextMeasurement k n =
  (set_avg (set_port k p1) (mkAvgState (repeat V3zero (Z.to_nat n)) 0 n), fromError e).
Proof.
  intros HM HF Hn c H0 H1 He. assert (Hp : plain k) by (split; assumption).
  unfold getNextMeasurement. rewrite (send_cmd_color k Hp). fold c. rewrite H0.
  change (NONE =? NONE) with true. cbn [negb].
  replace (n <? 1) with false by (symmetry; apply Z.ltb_ge; lia).
  rewrite next_measure_loop_S, send_cmd_color by auto.
  cbn [m_speedMode port set_avg set_port avg ring avgLast maxAvg]. fold c. rewrite H1.
  rewrite (proj2 (Z.eqb_neq e NONE) He). cbn [negb]. destruct k; reflexivity.
Qed.

(** C18: [getNextMeasurement] stops neither the colour worker nor its
    flags, and on completion frees the averaging arrays it shares with
    that worker: the worker keeps running with [m_MeasuringN5] set and an
    empty buffer ([NULL] in the source) for a window of [m_MaxAvgNumber]
    samples. *)
Theorem getNextMeasurement_frees_worker_buffer (k : KState) (n : Z) :
  m_MeasuringM6 k = false -> flickering (fs k) = false ->
  let '(k', m) := getNextMeasurement k n in
  m_MeasuringN5 k' = m_MeasuringN5 k /\ worker k' = worker k /\
  threadModeParent k' = threadModeParent k /\ measureMode k' = measureMode k /\
  ((ring (avg k') = [] /\ maxAvg (avg k') = maxAvg (avg k)) \/ exists e, e <> NONE /\ m = fromError e).
Proof.
  intros HM HF. assert (Hp : plain k) by (split; assumption).
  unfold getNextMeasurement. rewrite (send_cmd_color k Hp).
  destruct (sendMessageToSerialPort _ _ _ _) as [[error ms] p'].
  destruct (Z.eqb_spec error NONE) as [E|E]; cbn [negb].
  2:{ repeat split; right; exists error; split; [exact E | reflexivity]. }
  match goal with |- context [next_measure_loop ?f n 0 ?k2] =>
    pose proof (next_measure_loop_frame f n 0 k2 ltac:(auto)) as Hf;
    destruct (next_measure_loop f n 0 k2) as [k3 [[|] m]] end;
  destruct Hf as [Ek Hc]; rewrite Ek; cbn; repeat split; auto.
Qed.

End Loop.

#[local] Existing Instance stub_libm.

Lemma getNextMeasurement_terminates_witness :
  m_MeasuringM6 colour_session = false /\ flickering (fs colour_session) = false /\
  (forall i f f', (Z.to_nat (maxAvg (avg colour_session) - i) <= S f)%nat -> (f <= f')%nat ->
     next_measure_loop (S f) 1 i colour_session = next_measure_loop (S f') 1 i colour_session) /\
  (length (tx (port (fst (getNextMeasurement colour_session 1)))) <=
     length (tx (port colour_session)) + 1 +
     Nat.max 1 (Z.to_nat (if Z.ltb 1 1 then maxAvg (avg colour_session) else 1)))%nat.
Proof.
  assert (HM : m_MeasuringM6 colour_session = false) by (vm_compute; reflexivity).
  assert (HF : flickering (fs colour_session) = false) by (vm_compute; reflexivity).
  split; [exact HM|]. split; [exact HF|].
  exact (getNextMeasurement_terminates colour_session 1 HM HF).
Defined.

Lemma getNextMeasurement_error_keeps_window_witness :
  let k := KClmtr_init (mkPort true [] [Arrive color_reply] []) false false false (-1) in
  let c := getColorMeasurmentCommand (m_speedMode k) in
  let s0 := sendMessageToSerialPort (port k) (commandString c) (expected c) (timeout c) in
  let s1 := sendMessageToSerialPort (snd s0) (commandString c) (expected c) (timeout c) in
  s0 = (NONE, snd (fst s0), snd s0) /\ s1 = (TIMED_OUT, snd (fst s1), snd s1) /\
  getNextMeasurement k 4 =
  (set_avg (set_port k (snd s1)) (mkAvgState (repeat V3zero 4) 0 4), fromError TIMED_OUT).
Proof.
  intros k c s0 s1.
  assert (H0 : s0 = (NONE, snd (fst s0), snd s0)) by (vm_compute; reflexivity).
  assert (H1 : s1 = (TIMED_OUT, snd (fst s1), snd s1)) by (vm_compute; reflexivity).
  split; [exact H0|]. split; [exact H1|].
  exact (getNextMeasurement_error_keeps_window k 4 TIMED_OUT _ _ _ _
           ltac:(reflexivity) ltac:(reflexivity) ltac:(lia) H0 H1 ltac:(discriminate)).
Defined.

Lemma getNextMeasurement_frees_worker_buffer_witness :
  m_MeasuringN5 colour_session = true /\ worker colour_session = WPrologue /\
  length (ring (avg colour_session)) = 32%nat /\
  m_MeasuringM6 colour_session = false /\ flickering (fs colour_session) = false /\
  let '(k', m) := getNextMeasurement colour_session 1 in
  m_MeasuringN5 k' = m_MeasuringN5 colour_session /\ worker k' = worker colour_session /\
  threadModeParent k' = threadModeParent colour_session /\ measureMode k' = measureMode colour_session /\
  ((ring (avg k') = [] /\ maxAvg (avg k') = maxAvg (avg colour_session)) \/
   exists e, e <> NONE /\ m = fromError e).
Proof.
  assert (HM : m_MeasuringM6 colour_session = false) by (vm_compute; reflexivity).
  assert (HF : flickering (fs colour_session) = false) by (vm_compute; reflexivity).
  split; [vm_compute; reflexivity|]. split; [vm_compute; reflexivity|].
  split; [vm_compute; reflexivity|]. split; [exact HM|]. split; [exact HF|].
  apply (getNextMeasurement_frees_worker_buffer colour_session 1 HM HF).
Defined.

End OneShot.
