(* ===== verification/FlickerCapture.v ===== *)
(** * The one-shot flicker capture [getNextFlicker()]
      (src/KClmtr.cpp lines 1960-2016)

    [getNextFlicker] restarts the flicker stream without the worker
    ([startFlicker(false)] sends [T1] or [T2]), reads [numPass] frames and
    two bytes more in one go, looks backwards for the last frame start,
    rebuilds [numPass] aligned frames from it ([align_frames], in
    FlickerStream) and parses them with [parseAndPrintFFT].  It is modelled
    in [SessionApi] ([getNextFlicker_prepare], [getNextFlicker]) as a call
    of the session; this file holds what the call does.

    On an idle session a command that expects no reply goes straight to
    the port ([send_idle_no_reply]).  With it the theorems show that a
    successful read always holds the bytes the scan and the copy index,
    that the parsing path stops the stream with two or three [DUMMY]
    commands, and that a failed read returns with the stream still
    running: nothing is written after the start command and
    [m_Flickering] stays set. *)

From Stdlib Require Import String Ascii ZArith QArith List Bool Lia.
From S2P Require Import Prelude ErrorCodes Protocol Spectrum FlickerStream FFTRangeCal Session SessionApi SessionProps.
Import ListNotations.
Import KleinsErrorCodes.
Open Scope Z_scope.

Module FlickerCapture.

Import Protocol Spectrum FlickerStream FFTRangeCal Session SessionApi SessionProps.

(** The frame [commandString c] followed by a carriage return. *)
Definition frame_of (c : command) : list Z := bytes_of_string (commandString c) ++ [13].

(** The members a command sent on an idle session leaves as they are. *)
Definition kept (k k' : KState) : Prop :=
  idle k' /\ fs k' = fs k /\ m_DeviceFlickerSpeed k' = m_DeviceFlickerSpeed k /\
  m_firmware k' = m_firmware k.

(** ** Lemmas *)

Lemma kept_refl (k : KState) : idle k -> kept k k.
Proof. intros Hi. split; [exact Hi | repeat split]. Qed.

Lemma kept_set_port (k : KState) (p : Port) : idle k -> kept k (set_port k p).
Proof. intros Hi. split; [auto with session | repeat split]. Qed.

(** A command that expects no reply, sent on an idle session: the mode
    guards stop nothing that touches the port or the flicker state, and
    the command is written when the port is open. *)
Lemma send_idle_no_reply (w : KState -> KState) (k : KState) (s : string) (t : Z) :
  idle k ->
  let '(k', (e, _)) := sendMessageToKColorimeter w k s (-1) t in
  kept k k' /\
  (if port_open (port k)
   then e = NONE /\ port k' = mkPort true [] (script (port k)) (tx (port k) ++ [bytes_of_string s ++ [13]])
   else e = NOT_OPEN /\ port k' = port k).
Proof.
  intros Hi. unfold sendMessageToKColorimeter. rewrite Z.eqb_refl. cbn [negb]. rewrite andb_false_r.
  cbv beta iota zeta.
  set (k1 := if m_MeasuringN5 k && _ then stopMeasuring w k else k).
  assert (H1 : kept k k1 /\ port k1 = port k).
  { unfold k1. destruct (_ && _); [|split; [apply kept_refl, Hi | reflexivity]].
    unfold stopMeasuring. rewrite idle_stopThread2 by exact Hi.
    split; [|reflexivity]. split; [revert Hi; idle_tac | repeat split]. }
  clearbody k1. destruct H1 as [[Hi1 K1] P1].
  set (k2 := if m_MeasuringM6 k1 && _ then stopMeasureCounts w k1 else k1).
  assert (H2 : kept k k2 /\ port k2 = port k).
  { unfold k2. destruct (_ && _); [|split; [exact (conj Hi1 K1) | exact P1]].
    unfold stopMeasureCounts. rewrite idle_stopThread2 by exact Hi1.
    split; [|exact P1]. split; [revert Hi1; idle_tac | exact K1]. }
  clearbody k2. destruct H2 as [[Hi2 K2] P2]. cbn [andb]. rewrite P2.
  destruct (port_open (port k)) eqn:Ho.
  - rewrite sendMessageToSerialPort_fire_and_forget by (auto; lia).
    split; [|split; reflexivity]. split; [auto with session | exact K2].
  - unfold sendMessageToSerialPort. rewrite Ho.
    split; [|split; reflexivity]. split; [auto with session | exact K2].
Qed.

(** A read that reports no lost connection only moves the port on, and
    writes nothing. *)
Lemma readFrom_kept (w : KState -> KState) (k k' : KState) (expected t : Z) (r rs : list Z) (e : Z) :
  readFromKColorimeter w k expected t r = (k', (e, rs)) -> has_flag e LOST_CONNECTION = false ->
  exists p, k' = set_port k p /\ tx p = tx (port k).
Proof.
  unfold readFromKColorimeter. destruct (port_open (port k)) eqn:Ho.
  - destruct (negb (flickering (fs k))).
    + unfold readExisting. rewrite Ho. intros E _. inversion E; subst. eexists; split; reflexivity.
    + pose proof (readFromSerialPort_tx (port k) expected t r) as Ht.
      destruct (readFromSerialPort _ _ _ _) as [[e0 rs0] p0]. cbn [snd] in Ht.
      rewrite Z.lor_0_l. destruct (has_flag e0 LOST_CONNECTION) eqn:Hf.
      * intros E. inversion E; subst. rewrite Hf. discriminate.
      * intros E _. inversion E; subst. eexists; split; [reflexivity | exact Ht].
  - intros E. inversion E; subst. discriminate.
Qed.

Lemma kept_trans (k1 k2 k3 : KState) : kept k1 k2 -> kept k2 k3 -> kept k1 k3.
Proof. intros (_ & F & D & W) (Hi & F' & D' & W'). split; [exact Hi|]. repeat split; congruence. Qed.

Lemma isFlickerNew_kept (k k' : KState) : kept k k' -> isFlickerNew k' = isFlickerNew k.
Proof. intros (_ & _ & D & W). unfold isFlickerNew. now rewrite D, W. Qed.

(** A [DUMMY] command on an idle session with the port open is written
    and nothing else changes but the port. *)
Lemma send_dummy_open (w : KState -> KState) (k : KState) :
  idle k -> port_open (port k) = true ->
  kept k (fst (send_cmd w k DUMMY)) /\ port_open (port (fst (send_cmd w k DUMMY))) = true /\
  tx (port (fst (send_cmd w k DUMMY))) = tx (port k) ++ [frame_of DUMMY].
Proof.
  intros Hi Ho. unfold send_cmd. change (expected DUMMY) with (-1).
  pose proof (send_idle_no_reply w k (commandString DUMMY) (timeout DUMMY) Hi) as S.
  destruct (sendMessageToKColorimeter _ _ _ _ _) as [k1 [e1 r1]]. cbn [fst].
  rewrite Ho in S. destruct S as [K [_ P]]. rewrite P. split; [exact K | split; reflexivity].
Qed.

(** [endFlicker] on an idle session with the port open writes two
    [DUMMY] commands, three on a device without the fast stream, and
    clears [m_Flickering]. *)
Lemma endFlicker_idle (w : KState -> KState) (k : KState) :
  idle k -> port_open (port k) = true ->
  tx (port (endFlicker w k)) = tx (port k) ++ repeat (frame_of DUMMY) (if isFlickerNew k then 2 else 3) /\
  flickering (fs (endFlicker w k)) = false /\ flickering2 (fs (endFlicker w k)) = flickering2 (fs k).
Proof.
  intros Hi Ho. unfold endFlicker.
  destruct (send_dummy_open w k Hi Ho) as (K1 & O1 & T1).
  set (k1 := fst (send_cmd w k DUMMY)) in *. clearbody k1.
  destruct (send_dummy_open w k1 (proj1 K1) O1) as (K2 & O2 & T2).
  set (k2 := fst (send_cmd w k1 DUMMY)) in *. clearbody k2.
  pose proof (kept_trans _ _ _ K1 K2) as K12. rewrite (isFlickerNew_kept _ _ K12).
  assert (H3 : exists k3, kept k k3 /\ port_open (port k3) = true /\
     tx (port k3) = tx (port k) ++ repeat (frame_of DUMMY) (if isFlickerNew k then 2 else 3) /\
     (if isFlickerNew k then k2 else fst (send_cmd w k2 DUMMY)) = k3).
  { destruct (isFlickerNew k).
    - exists k2. split; [exact K12|]. split; [exact O2|]. split; [|reflexivity].
      rewrite T2, T1, <- app_assoc. reflexivity.
    - destruct (send_dummy_open w k2 (proj1 K2) O2) as (K3 & O3 & T3).
      eexists. split; [exact (kept_trans _ _ _ K12 K3)|]. split; [exact O3|]. split; [|reflexivity].
      rewrite T3, T2, T1, <- !app_assoc. reflexivity. }
  destruct H3 as (k3 & (_ & F3 & _) & O3 & T3 & ->).
  unfold readExisting. rewrite O3. cbn. rewrite F3. split; [exact T3 | split; reflexivity].
Qed.

(** An early return of [startFlicker]'s range calibration is an error. *)
Lemma load_coef_inr `{Libm} (k k' : KState) (e : Z) : load_coef k = inr (k', e) -> e <> NONE.
Proof.
  unfold load_coef. destruct (checkCoef (fs k)); [discriminate|].
  destruct (send_cmd _ _ _) as [k1 [e1 r1]].
  destruct (e1 =? NONE) eqn:E1; cbn [negb].
  - destruct (printStartupString _ _) as [[fw st] e2].
    destruct (e2 =? NONE) eqn:E2; cbn [negb]; [discriminate|].
    intros E. inversion E; subst. apply Z.eqb_neq, E2.
  - intros E. inversion E; subst. apply Z.eqb_neq, E1.
Qed.

(** A pair whose code is a nonzero constant is not a success. *)
Ltac not_none E := injection E as _ E; vm_compute in E; discriminate E.

(** [startFlicker(false)] succeeds only by writing [T1] or [T2] on an
    open port, and leaves the session idle. *)
Lemma startFlicker_nograb_none `{Libm} (k k1 : KState) :
  Inv k -> startFlicker k false = (k1, NONE) ->
  idle k1 /\ port_open (port k1) = true /\
  exists c t, (c = FLICKER_384PERSECOND \/ c = FLICKER_256PERSECOND) /\ tx (port k1) = t ++ [frame_of c].
Proof.
  intros HI. unfold startFlicker.
  assert (HI0 : Inv (set_fs k (resetFlicker (fs k)))) by auto with session.
  destruct (String.prefix _ _); [intros E; not_none E|].
  destruct (stopFlicker_ctrl_spec _ HI0) as [Hi _].
  pose proof (load_coef_idle _ Hi) as Hl.
  destruct (load_coef _) as [k2 | [k2 e]] eqn:El;
    [|intros E; injection E as _ E; subst e; exact (False_ind _ (load_coef_inr _ _ _ El eq_refl))].
  destruct (negb (checkCoef (fs k2))); [intros E; not_none E|].
  unfold send_cmd. destruct (isFlickerNew _);
    [change (expected FLICKER_384PERSECOND) with (-1) | change (expected FLICKER_256PERSECOND) with (-1)];
    match goal with |- context [sendMessageToKColorimeter wait_worker ?k3 ?s (-1) ?t] =>
      assert (Hi3 : idle k3) by auto with session;
      pose proof (send_idle_no_reply wait_worker k3 s t Hi3) as S;
      destruct (sendMessageToKColorimeter wait_worker k3 s (-1) t) as [k4 [e4 r4]];
      destruct (port_open (port k3)); destruct S as [(Hi4 & _) [E4 P4]];
      intros E; injection E as <- Ee; [|rewrite Ee in E4; vm_compute in E4; discriminate E4];
      split; [exact Hi4|]; rewrite P4; split; [reflexivity|]
    end; eexists; eexists; split; [now left | reflexivity | now right | reflexivity].
Qed.

(** A read without error polled at least once and holds the [expected]
    bytes. *)
Lemma readFromKColorimeter_none (w : KState -> KState) (k k' : KState) (expected t : Z) (r rs : list Z) :
  readFromKColorimeter w k expected t r = (k', (NONE, rs)) ->
  0 < t /\ expected <= Z.of_nat (length rs).
Proof.
  unfold readFromKColorimeter. destruct (port_open (port k)); [|intros E; not_none E].
  destruct (negb (flickering (fs k))); [destruct (readExisting _); intros E; not_none E|].
  destruct (readFromSerialPort _ _ _ _) as [[e0 rs0] p0] eqn:Er. rewrite Z.lor_0_l.
  destruct (has_flag e0 LOST_CONNECTION) eqn:Hf; intros E; inversion E; subst;
    [discriminate Hf | exact (readFromSerialPort_none _ _ _ _ _ _ Er)].
Qed.

(** A failed start, whatever its error (an unsupported [KV-] model,
    a missing range calibration, a closed port), is reported as
    [FFT_BAD_STRING]. *)
Lemma getNextFlicker_start_failure `{Libm} (k k1 : KState) (e : Z) :
  startFlicker (getNextFlicker_prepare k) false = (k1, e) -> e <> NONE ->
  getNextFlicker k = (k1, Flicker_of_error FFT_BAD_STRING).
Proof.
  intros Hs He. unfold getNextFlicker. rewrite Hs. apply Z.eqb_neq in He. rewrite He. reflexivity.
Qed.

(** ** Properties *)

(** C23: every byte [getNextFlicker]'s realignment reads is inside the
    received string: a successful read of [96 * numPass + 2] bytes with a
    [2 * numPass] second timeout implies [numPass >= 1] and at least that
    many bytes, so [x = readString.length() - 96] does not wrap around,
    each position [x + 93] the scan tests is below the length, and each
    index [i] and [i % 96 + x] of the copy is inside the string left by
    [erase(0, x % 3)]. *)
Theorem getNextFlicker_read_bounds (w : KState -> KState) (k k' : KState) (n : Z) (rs : list Z) :
  readFromKColorimeter w k (96 * n + 2) (2 * n) [] = (k', (NONE, rs)) ->
  1 <= n /\ 96 * n + 2 <= Z.of_nat (length rs) /\
  (forall y, (y <= length rs - 96)%nat -> (y + 93 < length rs)%nat) /\
  let x := scan_frames rs (length rs - 96) in
  forall i, (i < Z.to_nat (96 * n))%nat ->
    (i < length (skipn (x mod 3) rs))%nat /\ (i mod 96 + (x - x mod 3) < length (skipn (x mod 3) rs))%nat.
Proof.
  intros E. destruct (readFromKColorimeter_none _ _ _ _ _ _ _ E) as [Ht Hl].
  split; [lia|]. split; [exact Hl|]. split; [intros y Hy; lia|].
  intros x i Hi. destruct (scan_frames_spec rs (length rs - 96)) as [Hx _]. fold x in Hx.
  rewrite length_skipn. pose proof (Nat.mod_upper_bound x 3 ltac:(lia)).
  pose proof (Nat.mod_upper_bound i 96 ltac:(lia)). pose proof (Nat.Div0.mod_le x 3). lia.
Qed.

Section Capture.

Context `{Libm}.

(** C20: a failed read inside [getNextFlicker] returns [Flicker(error)]
    without the [endFlicker()] of the parsing path: when the stream was
    started ([T1] or [T2] written, [startFlicker(false)] returned [NONE])
    and the read fails without losing the connection, the call returns
    the read's error, nothing is written after the start command, so
    the device keeps streaming, and the flicker state, with
    [m_Flickering] and [m_Flickering2] set, is left as the start left it. *)
Theorem getNextFlicker_read_error_keeps_streaming (k k1 k2 : KState) (e : Z) (rs : list Z) :
  Inv k ->
  startFlicker (getNextFlicker_prepare k) false = (k1, NONE) -> flickering (fs k1) = true ->
  readFromKColorimeter wait_worker (set_port k1 (snd (readExisting (port k1))))
    (96 * fft_numPass (fs k1) + 2) (2 * fft_numPass (fs k1)) [] = (k2, (e, rs)) ->
  e <> NONE -> has_flag e LOST_CONNECTION = false ->
  getNextFlicker k = (k2, Flicker_of_error e) /\ fs k2 = fs k1 /\ flickering (fs k2) = true /\
  exists c t, (c = FLICKER_384PERSECOND \/ c = FLICKER_256PERSECOND) /\ tx (port k2) = t ++ [frame_of c].
Proof.
  intros HI Hs Hf Hr He Hl.
  destruct (startFlicker_nograb_none _ _ (Inv_getNextFlicker_prepare k HI) Hs) as (_ & Ho & c & t & Hc & Ht).
  pose proof Hr as Hr'. apply readFrom_kept in Hr' as (p & E2 & Hp); [|exact Hl].
  split.
  - unfold getNextFlicker. rewrite Hs, Z.eqb_refl, Hf. cbv beta iota zeta. cbn [andb].
    replace (fs (set_port k1 (snd (readExisting (port k1))))) with (fs k1) by reflexivity.
    rewrite Hr. apply Z.eqb_neq in He. rewrite He. reflexivity.
  - subst k2. split; [reflexivity|]. split; [exact Hf|]. exists c, t. split; [exact Hc|].
    rewrite <- Ht. change (tx (port (set_port k1 p)) = tx (port k1)). cbn [port set_port]. rewrite Hp.
    unfold readExisting. rewrite Ho. reflexivity.
Qed.

(** C21: the parsing path of [getNextFlicker] stops the stream: when the
    read succeeds on a port that stays open and the realigned string is
    long enough, the result is the flicker [parseAndPrintFFT] computes on
    it, [m_Flickering] and [m_Flickering2] are cleared, and two [DUMMY]
    commands are written after the read, three on a device without the
    fast stream. *)
Theorem getNextFlicker_parses_and_stops_stream (k k1 k2 : KState) (rs : list Z) :
  Inv k ->
  startFlicker (getNextFlicker_prepare k) false = (k1, NONE) -> flickering (fs k1) = true ->
  readFromKColorimeter wait_worker (set_port k1 (snd (readExisting (port k1))))
    (96 * fft_numPass (fs k1) + 2) (2 * fft_numPass (fs k1)) [] = (k2, (NONE, rs)) ->
  port_open (port k2) = true ->
  (Z.to_nat (96 * fft_numPass (fs k1)) <= length (align_frames rs (fft_numPass (fs k1))))%nat ->
  let '(k', f) := getNextFlicker k in
  f = fst (fst (parseAndPrintFFT (Z.to_nat (fft_numPass (fs k1))) (fs k2)
                  (align_frames rs (fft_numPass (fs k1))))) /\
  flickering (fs k') = false /\ flickering2 (fs k') = false /\
  tx (port k') = tx (port k2) ++ repeat (frame_of DUMMY) (if isFlickerNew k2 then 2 else 3).
Proof.
  intros HI Hs Hf Hr Ho Hlen.
  destruct (startFlicker_nograb_none _ _ (Inv_getNextFlicker_prepare k HI) Hs) as (Hi1 & _).
  pose proof Hr as Hr'. apply readFrom_kept in Hr' as (p & E2 & _); [|reflexivity].
  assert (Hi2 : idle k2) by (rewrite E2; auto with session).
  unfold getNextFlicker. rewrite Hs, Z.eqb_refl, Hf. cbv beta iota zeta. cbn [andb].
  replace (fs (set_port k1 (snd (readExisting (port k1))))) with (fs k1) by reflexivity.
  rewrite Hr, Z.eqb_refl. cbn [negb]. rewrite (proj2 (Nat.leb_le _ _) Hlen).
  destruct (parseAndPrintFFT _ (fs k2) _) as [[f r] st].
  assert (Hi3 : idle (set_fs k2 (fs_set_flickering2 st false))) by auto with session.
  destruct (endFlicker_idle wait_worker _ Hi3 Ho) as (T & F & F2).
  split; [reflexivity|]. split; [exact F|]. split; [rewrite F2; reflexivity|]. exact T.
Qed.

End Capture.

(** ** Witnesses *)

#[local] Existing Instance stub_libm.

(** Four stray bytes, then nine frames with their markers. *)
Definition frame_stream : list Z := [9; 9; 9; 9] ++ concat (repeat marked_frame 9).

(** A calibrated session on an open port whose device sends [sc]. *)
Definition capture_session (sc : list event) : KState := calibrated_session (mkPort true [] sc []).

(** The same session with the stream marked as running. *)
Definition streaming_session : KState :=
  let k := capture_session [Arrive frame_stream] in set_fs k (fs_set_flickering (fs k) true).

Lemma getNextFlicker_read_bounds_witness :
  let r := readFromKColorimeter self_thread streaming_session (96 * 8 + 2) (2 * 8) [] in
  r = (fst r, (NONE, frame_stream)) /\
  1 <= 8 /\ 96 * 8 + 2 <= Z.of_nat (length frame_stream) /\
  (forall y, (y <= length frame_stream - 96)%nat -> (y + 93 < length frame_stream)%nat) /\
  let x := scan_frames frame_stream (length frame_stream - 96) in
  forall i, (i < Z.to_nat (96 * 8))%nat ->
    (i < length (skipn (x mod 3) frame_stream))%nat /\
    (i mod 96 + (x - x mod 3) < length (skipn (x mod 3) frame_stream))%nat.
Proof.
  intros r. assert (E : r = (fst r, (NONE, frame_stream))) by (vm_compute; reflexivity).
  split; [exact E|]. exact (getNextFlicker_read_bounds self_thread streaming_session (fst r) 8 frame_stream E).
Defined.

Lemma getNextFlicker_read_error_keeps_streaming_witness :
  let k := capture_session [] in
  let k1 := fst (startFlicker (getNextFlicker_prepare k) false) in
  let r := readFromKColorimeter wait_worker (set_port k1 (snd (readExisting (port k1))))
             (96 * fft_numPass (fs k1) + 2) (2 * fft_numPass (fs k1)) [] in
  (Inv k /\ startFlicker (getNextFlicker_prepare k) false = (k1, NONE) /\ flickering (fs k1) = true /\
   r = (fst r, (TIMED_OUT, [])) /\ TIMED_OUT <> NONE /\ has_flag TIMED_OUT LOST_CONNECTION = false) /\
  getNextFlicker k = (fst r, Flicker_of_error TIMED_OUT) /\ fs (fst r) = fs k1 /\
  flickering (fs (fst r)) = true /\
  exists c t, (c = FLICKER_384PERSECOND \/ c = FLICKER_256PERSECOND) /\ tx (port (fst r)) = t ++ [frame_of c].
Proof.
  intros k k1 r.
  assert (HI : Inv k) by (apply Inv_b_Inv; vm_compute; reflexivity).
  assert (Hs : startFlicker (getNextFlicker_prepare k) false = (k1, NONE)) by (vm_compute; reflexivity).
  assert (Hf : flickering (fs k1) = true) by (vm_compute; reflexivity).
  assert (Hr : r = (fst r, (TIMED_OUT, []))) by (vm_compute; reflexivity).
  assert (He : TIMED_OUT <> NONE) by discriminate.
  assert (Hl : has_flag TIMED_OUT LOST_CONNECTION = false) by reflexivity.
  split; [exact (conj HI (conj Hs (conj Hf (conj Hr (conj He Hl)))))|].
  exact (getNextFlicker_read_error_keeps_streaming k k1 (fst r) TIMED_OUT [] HI Hs Hf Hr He Hl).
Defined.

Lemma getNextFlicker_parses_and_stops_stream_witness :
  let k := capture_session [Arrive frame_stream] in
  let k1 := fst (startFlicker (getNextFlicker_prepare k) false) in
  let n := fft_numPass (fs k1) in
  let r := readFromKColorimeter wait_worker (set_port k1 (snd (readExisting (port k1))))
             (96 * n + 2) (2 * n) [] in
  (Inv k /\ startFlicker (getNextFlicker_prepare k) false = (k1, NONE) /\ flickering (fs k1) = true /\
   r = (fst r, (NONE, frame_stream)) /\ port_open (port (fst r)) = true /\
   (Z.to_nat (96 * n) <= length (align_frames frame_stream n))%nat) /\
  let '(k', f) := getNextFlicker k in
  f = fst (fst (parseAndPrintFFT (Z.to_nat n) (fs (fst r)) (align_frames frame_stream n))) /\
  flickering (fs k') = false /\ flickering2 (fs k') = false /\
  tx (port k') = tx (port (fst r)) ++ repeat (frame_of DUMMY) (if isFlickerNew (fst r) then 2 else 3).
Proof.
  intros k k1 n r.
  assert (HI : Inv k) by (apply Inv_b_Inv; vm_compute; reflexivity).
  assert (Hs : startFlicker (getNextFlicker_prepare k) false = (k1, NONE)) by (vm_compute; reflexivity).
  assert (Hf : flickering (fs k1) = true) by (vm_compute; reflexivity).
  assert (Hr : r = (fst r, (NONE, frame_stream))) by (vm_compute; reflexivity).
  assert (Ho : port_open (port (fst r)) = true) by (vm_compute; reflexivity).
  assert (Hl : (Z.to_nat (96 * n) <= length (align_frames frame_stream n))%nat)
    by (apply Nat.leb_le; vm_compute; reflexivity).
  split; [exact (conj HI (conj Hs (conj Hf (conj Hr (conj Ho Hl)))))|].
  exact (getNextFlicker_parses_and_stops_stream k k1 (fst r) frame_stream HI Hs Hf Hr Ho Hl).
Defined.

End FlickerCapture.
